(* ===== verification/_CoqProject ===== *)
-Q . S2P
Prelude.v
Accounts.v
Fees.v
Listings.v
Moderation.v
Checkout.v
Price.v
NumberInput.v
ModerationTable.v
ModerationFlow.v
Kyc.v
VerificationPage.v
ListingPage.v
AuthPage.v
Browse.v
Navigation.v
Settings.v
AdminPage.v
UsersPage.v
Onboarding.v
TierOffers.v
Dashboard.v
Layout.v
Appraisal.v
Community.v
CreateListingPage.v
PhotoPanel.v
ListingForm.v
Journey.v
Schema.v
Queries.v
Catalog.v
MarketContext.v
