(* ===== verification/Prelude.v ===== *)
(** * A verification library for the DCS-Platform luxury-watch exchange

    The repository is a React single-page application (src/src/) backed by
    a hosted Postgres database and four server-side edge functions
    (src/supabase/functions/).  The logic lives in event handlers that read
    and write database tables and call the edge functions; the rest is
    presentation.  This library models the handlers, the edge functions and
    the tables they touch as executable Rocq functions over explicit state,
    composes them the way the pages call them, and proves what they do.

    ** Parts of the program and the files that model them

    - [Prelude.v] (this file): the [result] error monad of the edge
      functions' [throw] paths, JavaScript's [Math.round], string
      operations ([toLowerCase], [split], [replace], [includes]), the stable
      insertion sort standing for [Array.prototype.sort] and the database's
      [order()], the page effects [UiEffect] (toast, navigate, redirect),
      the reflexive-transitive closure [star] of a step relation with its
      invariant principle, the step relation [async_step] of a page whose
      effect starts a fetch on every change of its dependencies and never
      cancels one, and whose other state changes render without a fetch
      (shared by Community.v, Browse.v and Moderation.v), and
      the [dcs] hint databases.
    - [Accounts.v]: the [app_role] and [verification_status] enums and the
      [profiles] / [user_roles] rows of types.ts; the role predicates and
      label tables the pages repeat; the user-management handlers of
      AdminUserManagement.tsx ([fetchUsers], [handleRoleChange],
      [handleZeroFeeToggle]).
    - [Fees.v]: the SQL functions [get_commission_rate],
      [get_listing_limit] and [count_active_listings], which src/ only
      calls, modelled from spec sections 4.1, 4.2 and 4.4; and the class
      [CommissionSource], the interface through which the checkout
      function consumes a rate, with [fee_source] implementing it.
    - [Listings.v]: the [listings] and [listing_photos] tables, the form
      schema, [validatePhotos], [uploadPhoto] and [onSubmit] of
      CreateListing.tsx and the photo slots of PhotoUpload.tsx.
    - [CreateListingPage.v]: the rest of CreateListing.tsx (its renders,
      redirect and the toasts after [onSubmit]) and the photo panel of
      PhotoUpload.tsx ([handleDrop], [handleFileSelect], the badges).
    - [Moderation.v]: AdminListings.tsx's page state, [fetchListings],
      [handleApprove], [handleReject], the buttons' status guard and the
      status select with its fetches in flight; the lifecycle the code
      produces as a step relation, refined against the spec's transition
      table.
    - [ModerationTable.v]: what the moderation tab renders (status
      options, badges, rows and their buttons, the reject dialog) and the
      outcome of a failed approve or reject.
    - [ModerationFlow.v]: the moderation tab as a step relation with its
      fetches, approvals and rejections in flight (each keeping the list
      of its render), the modal reject dialog, the Refresh button and
      the frame of the table.
    - [Checkout.v]: the create-checkout edge function: its guards in
      order, the commission and amount arithmetic, the Stripe session
      parameters and the response; it is written in a section over a
      [CommissionSource].
    - [Price.v]: [formatPrice] of four pages ([Intl.NumberFormat] en-US
      for the form's four currencies, with halfExpand rounding and digit
      grouping) and [String(n)] of integers.
    - [NumberInput.v]: ECMAScript's [parseInt] and [parseFloat], the HTML
      number input's valid values and their value, and the listing
      form's number fields: what their [onChange] gives and what they
      show.
    - [Kyc.v]: the three identity-verification edge functions as
      transformers of the [profiles] table and Stripe's session list, and
      their step relation [kyc_step] together with Stripe's own updates.
    - [VerificationPage.v]: Verification.tsx, whose handlers call the KYC
      functions through [supabase.functions.invoke]; the page and the
      server together form the step relation [page_step].
    - [ListingPage.v]: ListingDetail.tsx: the listing fetch with the seller
      card, the photo order, and [handlePurchase] calling create-checkout.
    - [AuthPage.v]: Auth.tsx's validation, submit handler and render; the
      auth context and zod's e-mail check are parameters (not in src/).
    - [Browse.v]: Browse.tsx's query, sort, seller badge and search, the
      page's state with the selects' fetches in flight, and what the
      results area shows (cards, selects, Clear Filters).
    - [Navigation.v]: the routes of App.tsx with react-router's matching,
      the query parsing of [URLSearchParams], and CheckoutSuccess.tsx.
    - [Settings.v]: the admin_settings key/value table and AdminSettings.tsx
      ([fetchSettings], [saveSetting], the six concurrent saves of
      [handleSaveSettings], each of which may fail, the inputs' parsers),
      the types of [PlatformSettings], and the page with the table as the
      step relation [settings_step].
    - [AdminPage.v]: Admin.tsx's guard and tabs, and the users table of
      AdminUserManagement.tsx.
    - [UsersPage.v]: the user-management tab as a step relation with its
      requests in flight: [fetchUsers], [handleRoleChange] and
      [handleZeroFeeToggle] split at their [await]s, each keeping the
      [users] list of the render it started in, with their failures and
      toasts, the Refresh button and the search input.
    - [Onboarding.v]: the three-step wizard of SellerOnboarding.tsx as a
      step relation.
    - [TierOffers.v]: the tier texts of Pricing.tsx, SellerOnboarding.tsx
      and Page2.tsx, with parsers of the rates and limits they announce,
      and the rest of the pricing page and of Page2.tsx.
    - [Dashboard.v]: Dashboard.tsx: the redirect of a signed-out visitor,
      the loading and empty renders, and the view with its links, the
      verification alert and the account status.
    - [Layout.v]: the links of Header.tsx, Footer.tsx and Index.tsx and the
      header's account menu, checked with the dashboard's against the
      routes of Navigation.v.
    - [Appraisal.v]: Appraisal.tsx and the market-data clients of
      src/src/api/: [handleSearch] split at its [await], the three cards,
      and the page with its searches in flight as the step relation
      [appraisal_step].
    - [Journey.v]: the listing, moderation, browse and checkout models
      composed over one [listings] table, and the path of a sale through
      them.
    - [Community.v]: Community.tsx: the posts query with the category from
      the url, the comment counts and author lookups, the post area, the
      category buttons, the links, and the category's fetches in flight.
    - [Queries.v]: every select of the code with its filters and order,
      checked against the generated types and their foreign keys.
    - [PhotoPanel.v]: the rest of PhotoUpload.tsx: the [dragOver] state,
      the slots' events, the preview URLs the renders register, and what
      the panel shows.
    - [ListingForm.v]: CreateListing.tsx as one page: the field edits, the
      photo slots, the Submit button disabled while submitting, and
      [onSubmit] split at its first [await], composing CreateListingPage.v
      and Listings.v.
    - [Schema.v]: the generated types of types.ts for the five tables the
      code writes (their [Row], [Insert] and [Update] types as column
      lists, and the enums), every [.insert] and [.update] payload of the
      code, the JSON encoding of a [listings] row, and the SQL update a
      payload makes on the rows its [.eq] filter selects.
    - [Catalog.v]: the rest of types.ts: the two tables no query uses,
      the database functions' signatures with the one [rpc] call of the
      code, the enums and the runtime [Constants], and the helper types
      [Tables], [TablesInsert], [TablesUpdate] and [Enums]; the file
      checked as one consistent schema.
    - [MarketContext.v]: the market-context section of Page2.tsx, whose
      example range is checked against the [pricing_context] type and
      the price format.

    ** What the theorems show

    Each file ends with its properties and, for each property with a
    hypothesis, a witness lemma applying it to example data.  The groups:
    functional behaviour of each handler on its success and error paths
    (Checkout, Listings, Kyc, the pages, the failed saves, approvals and
    rejections of the admin tabs); invariants of the step relations by
    rule induction (well-formed listings, KYC statuses, the wizard, the
    verification page with the server, the appraisal page with its
    searches in flight, the types of the admin settings, one users fetch
    in flight at a time, Submit disabled exactly while a submission is in
    flight); types (every
    write of the code fits the generated Insert or Update type of its
    table, every read its columns and foreign keys, the helper types
    are those checks, the generated file is one consistent schema);
    termination (the
    answers of the fetches in flight: every sequence of them is finite and
    the page settles with its skeleton off); interleavings written as
    explicit steps (concurrent saves, fetches answered out of
    order on three pages, two role changes in flight on the users tab,
    which lose a local update or insert a second role row, two approvals
    in flight on the moderation tab, after which an approved listing can
    be rejected, a retried
    submission after a failed upload, which lists the watch twice); refinements (the moderation page against the
    spec's lifecycle, the local updates of the admin pages against a
    refetch, the verification page against the table, the browse grid
    against the listings that are approved and pass the selects and the
    search, the buttons' guard against the rendered
    table, the approval against the SQL update it sends); bounds of the commission
    arithmetic and of the printed price against the charged one; round
    trips (settings save then fetch, a year through its input, where 0
    comes back as [undefined]);
    equivalences ([parseFloat] against the HTML value of every number an
    input can hold, the concurrent saves
    in any order, the photo order as the stable sort);
    liveness of the verification flow; and the places where the code and
    the spec disagree, stated as proved theorems about the code (the 3.5%
    charged to Certified Partners, the stale approve, the upload that
    leaves a listing without its photos, the
    approval without approver, the unsigned webhook, the lost sign-in
    redirect, the links that render
    NotFound, listing without verified KYC, ...).

    ** Numbers, strings and bounds

    JavaScript numbers are IEEE doubles; prices and rates are exact
    rationals [Q] here (spec 4.5 asks for exact decimals) and [Math.round]
    is [Qfloor (x + 1/2)], JavaScript's rounding half toward plus infinity;
    binary floating-point error is not modelled.  Cents are [Z].  Strings
    are Rocq strings of bytes (UTF-8); [toLowerCase] is modelled on ASCII
    letters and [encodeURIComponent] on bytes, which is what JavaScript
    does for valid UTF-8 text; the database's [order()] on a text column
    compares bytes (the C collation).  The only fuel is that of the number
    scanners of TierOffers.v ([numbers_in], [percents_in]), given the
    text's length, which bounds their steps: each step consumes at least
    one character.  Prices are exact rationals printed by Price.v.

    ** Not modelled

    Rendering and styling (the markup of the pages beyond their links,
    texts and buttons); the date cells ([toLocaleDateString] depends on
    the browser's locale and time zone) and prices in currencies the form
    does not offer (their [Intl.NumberFormat] text depends on locale
    data); the empty [Views] and [CompositeTypes] of types.ts and its
    [CompositeTypes] helper; the class names of the badges and of the
    progress bar (styling); the DOM helpers of src/js/utils.js, which no page imports;
    the imports that are not in src/ (the auth context, NotFound and
    BrowseSellers); the database's row-level security and functions,
    which are not in src/ (the three SQL functions the code calls are
    modelled from the spec in Fees.v); and the network calls to Stripe and
    Supabase auth, which appear only as the values they return; the
    clients' delays are not timed, only the order of their answers.
*)

From stdpp Require Export base gmap strings list options.
From Stdlib Require Export ZArith QArith_base Qround Lia Lqa Sorting.Sorted.

Local Close Scope Q_scope.

Declare Scope dcs_scope.
Delimit Scope dcs_scope with dcs.

(** ** The error monad of the handlers *)

Inductive result (E A : Type) : Type :=
| Ok (a : A)
| Err (e : E).
Arguments Ok {E A} a.
Arguments Err {E A} e.

#[export] Instance result_ret E : MRet (result E) := fun A a => Ok a.
#[export] Instance result_bind E : MBind (result E) := fun A B f m =>
  match m with Ok a => f a | Err e => Err e end.

(** [if (!cond) throw new Error(e)] *)
Definition check {E} (b : bool) (e : E) : result E unit :=
  if b then Ok tt else Err e.

(** [if (!x) throw new Error(e)] for a value that may be missing. *)
Definition required {E A} (o : option A) (e : E) : result E A :=
  match o with Some a => Ok a | None => Err e end.

(** A text value where JavaScript tests its truthiness ([if (!s)],
    [s || d]): a missing value and the empty string are both falsy. *)
Definition truthy (o : option string) : option string :=
  match o with Some EmptyString | None => None | s => s end.

Notation "'throw' e" := (Err e) (at level 10) : dcs_scope.

Definition is_ok {E A} (r : result E A) : bool :=
  match r with Ok _ => true | Err _ => false end.

(** ** JavaScript [Math.round] on exact rationals *)

Definition js_round (x : Q) : Z := Qfloor (x + (1 # 2))%Q.

(** ** JavaScript string operations *)

Definition ascii_lower (c : Ascii.ascii) : Ascii.ascii :=
  let n := Ascii.nat_of_ascii c in
  if (65 <=? n) && (n <=? 90) then Ascii.ascii_of_nat (n + 32) else c.

(** [s.toLowerCase()] on ASCII text. *)
Fixpoint str_lower (s : string) : string :=
  match s with
  | EmptyString => EmptyString
  | String c s' => String (ascii_lower c) (str_lower s')
  end.

(** [s.split(sep)] for a one-character separator: never empty. *)
Fixpoint str_split (sep : Ascii.ascii) (s : string) : list string :=
  match s with
  | EmptyString => [EmptyString]
  | String c s' =>
      let rest := str_split sep s' in
      if Ascii.ascii_dec c sep then EmptyString :: rest
      else match rest with
           | h :: t => String c h :: t
           | [] => [String c EmptyString]
           end
  end.

(** [s.replace(pat, rep)] with a string pattern: only the first occurrence
    is replaced. *)
Definition js_replace_first (pat rep s : string) : string :=
  match String.index 0 pat s with
  | Some i =>
      String.append (String.substring 0 i s)
        (String.append rep
           (String.substring (i + String.length pat)
              (String.length s - (i + String.length pat)) s))
  | None => s
  end.

(** Whether a string contains the character of code [n]. *)
Fixpoint has_char (n : nat) (s : string) : bool :=
  match s with
  | EmptyString => false
  | String a s' => Nat.eqb (Ascii.nat_of_ascii a) n || has_char n s'
  end.

(** [s.includes(needle)]. *)
Fixpoint str_includes (needle hay : string) : bool :=
  String.prefix needle hay ||
  match hay with EmptyString => false | String _ hay' => str_includes needle hay' end.

(** ** Stable sorting

    [Array.prototype.sort] with a comparator is stable (ECMAScript 2019);
    it is written as insertion sort on a boolean [le]. *)
Fixpoint insert_le {A} (le : A -> A -> bool) (x : A) (l : list A) : list A :=
  match l with
  | [] => [x]
  | y :: l' => if le x y then x :: y :: l' else y :: insert_le le x l'
  end.

Fixpoint isort {A} (le : A -> A -> bool) (l : list A) : list A :=
  match l with [] => [] | x :: l' => insert_le le x (isort le l') end.

(** ** Effects of the pages' handlers

    What a page handler does besides its own state: a [toast(...)], a
    router [navigate(path)], a browser redirect [window.location.href =
    url], and [refreshProfile()] of the auth context. *)
Inductive UiEffect :=
| Toast (title description : string) (destructive : bool)
| Navigate (path : string)
| Redirect (url : string)
| RefreshProfile.

(** ** Reachability under a step relation *)

Inductive star {S : Type} (step : S -> S -> Prop) : S -> S -> Prop :=
| star_refl s : star step s s
| star_step s1 s2 s3 : step s1 s2 -> star step s2 s3 -> star step s1 s3.

(** ** Lemmas on the error monad *)

Lemma bind_Ok {E A B} (a : A) (f : A -> result E B) :
  (Ok a ≫= f) = f a.
Proof. reflexivity. Qed.

Lemma bind_Err {E A B} (e : E) (f : A -> result E B) :
  (Err e ≫= f) = Err e.
Proof. reflexivity. Qed.

Lemma bind_eq_Ok {E A B} (m : result E A) (f : A -> result E B) b :
  (m ≫= f) = Ok b <-> exists a, m = Ok a /\ f a = Ok b.
Proof.
  destruct m as [a|e]; simpl; split.
  - eauto.
  - intros (a' & [= ->] & H). exact H.
  - discriminate.
  - intros (a' & H & _). discriminate.
Qed.

Lemma check_true {E} (e : E) : check true e = Ok tt.
Proof. reflexivity. Qed.

Lemma check_false {E} (e : E) : check false e = Err e.
Proof. reflexivity. Qed.

(** ** Lemmas on [Math.round] *)

Lemma js_round_lower (x : Q) : (x - (1 # 2) < inject_Z (js_round x))%Q.
Proof.
  unfold js_round. pose proof (Qlt_floor (x + (1 # 2))) as H.
  rewrite inject_Z_plus in H. change (inject_Z 1) with 1%Q in H.
  set (f := inject_Z _) in *. lra.
Qed.

Lemma js_round_upper (x : Q) : (inject_Z (js_round x) <= x + (1 # 2))%Q.
Proof. apply Qfloor_le. Qed.

Lemma js_round_mono (x y : Q) : (x <= y)%Q -> (js_round x <= js_round y)%Z.
Proof.
  intros H. apply Qfloor_resp_le. apply Qplus_le_l. exact H.
Qed.

Lemma js_round_Z (z : Z) : js_round (inject_Z z) = z.
Proof.
  unfold js_round, Qfloor, Qplus, inject_Z. cbn -[Z.mul Z.add Z.div].
  rewrite Z.mul_1_r. symmetry. apply Z.div_unique_pos with 1%Z; lia.
Qed.

Lemma js_round_nonneg (x : Q) : (0 <= x)%Q -> (0 <= js_round x)%Z.
Proof.
  intros H. rewrite <- (js_round_Z 0). apply js_round_mono. exact H.
Qed.

(** ** Lemmas on strings *)

Lemma prefix_append (p t : string) : String.prefix p (String.append p t) = true.
Proof.
  induction p as [|c p IH]; simpl; [by destruct t|].
  destruct (Ascii.ascii_dec c c); [exact IH | congruence].
Qed.

Lemma substring_full (t : string) : String.substring 0 (String.length t) t = t.
Proof. induction t as [|c t IH]; simpl; [done | by rewrite IH]. Qed.

Lemma substring_after (p t : string) :
  String.substring (String.length p) (String.length t) (String.append p t) = t.
Proof. induction p as [|c p IH]; simpl; [apply substring_full | exact IH]. Qed.

Lemma length_append (p t : string) :
  String.length (String.append p t) = String.length p + String.length t.
Proof. induction p as [|c p IH]; simpl; [done | by rewrite IH]. Qed.

Lemma substring_empty (s : string) : String.substring 0 0 s = EmptyString.
Proof. by destruct s. Qed.

Lemma index_prefix (p s : string) :
  p <> EmptyString -> String.prefix p s = true -> String.index 0 p s = Some 0.
Proof.
  intros Hp Hpre. destruct s as [|c s'].
  - destruct p; [congruence | discriminate].
  - cbn [String.index]. by rewrite Hpre.
Qed.

(** Removing a non-empty prefix with [replace] gives back the rest. *)
Lemma js_replace_first_prefix (p t : string) :
  p <> EmptyString ->
  js_replace_first p EmptyString (String.append p t) = t.
Proof.
  intros Hp. unfold js_replace_first.
  rewrite index_prefix by auto using prefix_append.
  rewrite length_append, Nat.add_0_l, Nat.add_sub_swap, Nat.sub_diag by lia.
  rewrite Nat.add_0_l, substring_empty. exact (substring_after p t).
Qed.

Lemma string_app_assoc a b c : a +:+ (b +:+ c) = (a +:+ b) +:+ c.
Proof. induction a as [|x a IH]; [done | exact (f_equal (String x) IH)]. Qed.

Lemma has_char_app n a b : has_char n (a +:+ b) = has_char n a || has_char n b.
Proof. induction a as [|c a IH]; simpl; [done | by rewrite IH, orb_assoc]. Qed.

(** [split] on a string without the separator, and across one. *)
Lemma str_split_nosep sep s :
  has_char (Ascii.nat_of_ascii sep) s = false -> str_split sep s = [s].
Proof.
  induction s as [|c s IH]; simpl; [done|]. intros [Hc Hs]%orb_false_iff.
  rewrite IH by done. destruct (Ascii.ascii_dec c sep) as [->|]; [|done].
  by rewrite Nat.eqb_refl in Hc.
Qed.

Lemma str_split_app sep a b :
  has_char (Ascii.nat_of_ascii sep) a = false ->
  str_split sep (a +:+ String sep b) = a :: str_split sep b.
Proof.
  induction a as [|c a IH]; simpl; intros H.
  - by destruct (Ascii.ascii_dec sep sep).
  - apply orb_false_iff in H as [Hc Ha]. rewrite IH by done.
    destruct (Ascii.ascii_dec c sep) as [->|]; [|done]. by rewrite Nat.eqb_refl in Hc.
Qed.

(** ** Maps *)

(** An [alter] keeps a property of every binding when the function does. *)
Lemma map_Forall_alter_pres {K V} `{Countable K} (P : K -> V -> Prop) (f : V -> V) i
    (m : gmap K V) :
  (forall k v, P k v -> P k (f v)) -> map_Forall P m -> map_Forall P (alter f i m).
Proof.
  intros Hf Hm k v Hk. rewrite lookup_alter in Hk.
  destruct (decide (i = k)) as [->|Hne].
  - destruct (m !! k) eqn:E; simplify_eq/=. apply Hf, Hm, E.
  - by apply Hm.
Qed.

(** ** Lemmas on sorting *)

Section Sorting.
Context {A : Type} (le : A -> A -> bool).

Lemma insert_le_perm x l : Permutation (x :: l) (insert_le le x l).
Proof.
  induction l as [|y l IH]; simpl; [done|].
  destruct (le x y); [done|]. by rewrite perm_swap, IH.
Qed.

Lemma isort_perm l : Permutation l (isort le l).
Proof.
  induction l as [|x l IH]; simpl; [done|]. by rewrite <- insert_le_perm, <- IH.
Qed.

Lemma insert_le_sorted (le_total : forall a b, le a b = false -> le b a = true) x l :
  Sorted (fun a b => le a b = true) l -> Sorted (fun a b => le a b = true) (insert_le le x l).
Proof.
  induction 1 as [|y l Hs IH Hhd]; simpl; [by repeat constructor|].
  destruct (le x y) eqn:E; [by repeat constructor|].
  constructor; [exact IH|]. destruct l as [|z l]; simpl; [constructor; auto|].
  inversion Hhd; subst. destruct (le x z); constructor; auto.
Qed.

Lemma isort_sorted (le_total : forall a b, le a b = false -> le b a = true) l :
  Sorted (fun a b => le a b = true) (isort le l).
Proof. induction l; simpl; [constructor | by apply insert_le_sorted]. Qed.

End Sorting.

(** Filtering keeps a list sorted for a transitive order. *)
Lemma sorted_filter {A} (R : A -> A -> Prop) (P : A -> Prop) `{!forall a, Decision (P a)} l :
  (forall a b c, R a b -> R b c -> R a c) -> Sorted R l -> Sorted R (filter P l).
Proof.
  intros Htr Hs. apply StronglySorted_Sorted.
  apply Sorted_StronglySorted in Hs; [|exact Htr].
  induction Hs as [|a l Hs IH Hall]; simpl; [constructor|].
  rewrite filter_cons. case_decide; [|exact IH]. constructor; [exact IH|].
  apply List.Forall_forall. intros b Hb.
  apply list_elem_of_In, list_elem_of_filter in Hb as [_ Hb].
  rewrite List.Forall_forall in Hall. by apply Hall, list_elem_of_In.
Qed.

(** Sortedness through a map. *)
Lemma sorted_fmap {A B} (f : A -> B) (R : B -> B -> Prop) (l : list A) :
  Sorted (fun a b => R (f a) (f b)) l -> Sorted R (f <$> l).
Proof.
  induction 1 as [|a l Hs IH Hhd]; simpl; constructor; [exact IH|].
  destruct Hhd; simpl; constructor; assumption.
Qed.

(** Stability: the elements of one class keep their order, when [le] puts
    an element before every element of its class. *)
Lemma insert_le_filter {A} (le : A -> A -> bool) (P : A -> Prop) `{!forall a, Decision (P a)} x l :
  (forall y, P x -> P y -> le x y = true) ->
  filter P (insert_le le x l) = filter P (x :: l).
Proof.
  intros Hcls. induction l as [|y l IH]; simpl; [done|].
  destruct (le x y) eqn:E; [done|]. rewrite !filter_cons, IH, filter_cons.
  repeat case_decide; try done. exfalso. rewrite Hcls in E by done. discriminate.
Qed.

(** ** Lemmas on reachability *)

Section Reach.
Context {S : Type} (step : S -> S -> Prop).

Lemma star_one s1 s2 : step s1 s2 -> star step s1 s2.
Proof. intros H. eapply star_step; [exact H | constructor]. Qed.

Lemma star_trans s1 s2 s3 : star step s1 s2 -> star step s2 s3 -> star step s1 s3.
Proof. induction 1; eauto using star. Qed.

Lemma star_invariant (P : S -> Prop) :
  (forall s s', P s -> step s s' -> P s') ->
  forall s s', star step s s' -> P s -> P s'.
Proof. intros Hpres s s' Hs. induction Hs; eauto. Qed.
End Reach.

(** ** Effects whose fetches are never cancelled

    The pages start an [async] fetch from a [useEffect] each time the
    effect's dependencies change (Community.tsx line 37, Browse.tsx line 45,
    AdminListings.tsx line 104).  Nothing cancels a fetch still running
    and nothing checks, when an answer arrives, that it is the answer of
    the current dependencies.  [async_step] is that pattern once for all
    pages: [key q] is the effect's dependency list read from the page's
    query [q]; [start q] is what the change of the query and the fetch do
    before its first [await] (typically [setLoading(true)]); [finish a] is what it does with the
    answer [a] of [fetch k].  A configuration holds the query, the page and
    the keys whose fetch is awaited, most recent first. *)
Section AsyncEffect.
Context {Q K P A : Type} (key : Q -> K) (fetch : K -> A)
  (start : Q -> P -> P) (finish : A -> P -> P).

Record AsyncConf := mkAsyncConf {
  ac_query : Q;
  ac_page : P;
  ac_pending : list K
}.

(** The page as it mounts: the effect's first run has started. *)
Definition async_init (q : Q) (p : P) : AsyncConf := mkAsyncConf q p [key q].

Inductive async_step : AsyncConf -> AsyncConf -> Prop :=
| ae_change c q :
    (* the query changes the dependencies; the effect runs again *)
    key q <> key (ac_query c) ->
    async_step c (mkAsyncConf q (start q (ac_page c)) (key q :: ac_pending c))
| ae_local c q :
    (* the query changes without changing the dependencies (a state the
       effect does not read): a render, no fetch *)
    key q = key (ac_query c) ->
    async_step c (mkAsyncConf q (ac_page c) (ac_pending c))
| ae_answer c p1 k p2 :
    (* the answer of one fetch in flight arrives *)
    ac_pending c = p1 ++ k :: p2 ->
    async_step c (mkAsyncConf (ac_query c) (finish (fetch k) (ac_page c)) (p1 ++ p2)).

(** The answers of three runs arriving in the order: the latest, the
    first, the middle one.  The page ends on the query [q2] with nothing in
    flight, and what it holds was last written by the answer for [q1]. *)
Lemma async_late_answer q0 q1 q2 p0 :
  key q1 <> key q0 -> key q2 <> key q1 ->
  star async_step (async_init q0 p0)
    (mkAsyncConf q2 (finish (fetch (key q1)) (finish (fetch (key q0))
       (finish (fetch (key q2)) (start q2 (start q1 p0))))) []).
Proof.
  intros H1 H2.
  eapply star_step; [apply (ae_change (async_init q0 p0) q1 H1)|].
  eapply star_step; [apply (ae_change (mkAsyncConf q1 (start q1 p0) [key q1; key q0]) q2 H2)|].
  eapply star_step; [apply (ae_answer _ [] (key q2) [key q1; key q0]); reflexivity|].
  eapply star_step; [apply (ae_answer _ [key q1] (key q0) []); reflexivity|].
  eapply star_step; [apply (ae_answer _ [] (key q1) []); reflexivity|].
  apply star_refl.
Qed.

(** The answers alone, without changes of the query. *)
Inductive async_answer : AsyncConf -> AsyncConf -> Prop :=
| aa_answer c p1 k p2 : ac_pending c = p1 ++ k :: p2 ->
    async_answer c (mkAsyncConf (ac_query c) (finish (fetch k) (ac_page c)) (p1 ++ p2)).

Lemma async_answer_step c c' : async_answer c c' -> async_step c c'.
Proof. destruct 1. by constructor. Qed.

Lemma async_answer_length c c' :
  async_answer c c' -> length (ac_pending c') < length (ac_pending c).
Proof. destruct 1 as [c p1 k p2 H]. simpl. rewrite H, !length_app. simpl. lia. Qed.

(** Every sequence of answers is finite: each one removes a fetch. *)
Lemma async_answer_wf : well_founded (fun c' c => async_answer c c').
Proof.
  apply (well_founded_lt_compat _ (fun c => length (ac_pending c))).
  intros c' c H. exact (async_answer_length c c' H).
Qed.

(** From any configuration, the answers of the fetches in flight lead to
    a configuration with none pending and the same query. *)
Lemma async_answer_settle c :
  exists c', star async_answer c c' /\ ac_query c' = ac_query c /\ ac_pending c' = [].
Proof.
  destruct c as [q p pend]. revert p. induction pend as [|k pend IH]; intros p.
  - exists (mkAsyncConf q p []). split; [constructor | done].
  - destruct (IH (finish (fetch k) p)) as (c' & Hrun & Hq & Hp).
    exists c'. split; [|done].
    eapply star_step; [apply (aa_answer (mkAsyncConf q p (k :: pend)) [] k pend); reflexivity | exact Hrun].
Qed.

Lemma star_async_answer c c' : star async_answer c c' -> star async_step c c'.
Proof. induction 1; [constructor | eapply star_step; [apply async_answer_step|]; eauto]. Qed.

End AsyncEffect.

(** ** Automation *)

Create HintDb dcs.
Create Rewrite HintDb dcs_rw.

#[export] Hint Constructors star : dcs.
#[export] Hint Resolve star_one star_trans : dcs.
#[export] Hint Rewrite @bind_Ok @bind_Err @check_true @check_false : dcs_rw.
#[export] Hint Rewrite @lookup_insert_eq @lookup_alter_eq : dcs_rw.

(** Settle the [decide] tests of a handler whose outcome the context
    already knows. *)
Ltac decide_guards :=
  repeat first [ rewrite decide_True by done | rewrite decide_False by done ].
