(* ===== verification/Accounts.v ===== *)
(** * Accounts: roles, profiles and the admin user-management handlers

    The [app_role] and [verification_status] enums and the [profiles] and
    [user_roles] rows of src/src/integrations/supabase/types.ts; the role
    predicates that the pages compute from the signed-in user's role
    (CreateListing.tsx, Dashboard.tsx, Header.tsx, Community.tsx,
    SellerOnboarding.tsx, Admin.tsx); the tier labels of tier-badge.tsx,
    Dashboard.tsx and AdminUserManagement.tsx; and the handlers
    [fetchUsers], [handleRoleChange] and [handleZeroFeeToggle] of
    AdminUserManagement.tsx, which change the [user_roles] and [profiles]
    tables and the page's local [users] list. *)

From S2P Require Import Prelude.

Local Open Scope string_scope.

(** ** Enums of the database schema (types.ts lines 468-492) *)

Inductive app_role := admin | observer | individual_seller | super_seller | buyer.

#[export] Instance app_role_eq_dec : EqDecision app_role.
Proof. solve_decision. Defined.

Inductive verification_status := not_started | pending | verified | rejected.

#[export] Instance verification_status_eq_dec : EqDecision verification_status.
Proof. solve_decision. Defined.

(** The [verification_status] values as the database writes them
    (types.ts line 491). *)
Definition verification_status_str (s : verification_status) : string :=
  match s with
  | not_started => "not_started"
  | pending => "pending"
  | verified => "verified"
  | rejected => "rejected"
  end.

(** ** Rows *)

(** A [profiles] row (types.ts lines 303-320), the columns the handlers read
    or write. *)
Record Profile := mkProfile {
  p_user_id : string;
  p_email : string;
  p_full_name : option string;
  p_kyc_status : verification_status;
  p_kyc_verified_at : option string;
  p_subscription_status : option string;
  p_zero_fee_eligible : option bool
}.

(** A [user_roles] row (types.ts lines 425-430). *)
Record RoleRow := mkRoleRow { rr_user_id : string; rr_role : app_role }.

(** ** Role predicates of the pages *)

(** [const canSell = role === 'individual_seller' || role === 'super_seller'
    || role === 'admin'] (CreateListing.tsx line 123; the same expression is
    Dashboard.tsx line 45, Header.tsx line 22 and Community.tsx's [canPost],
    line 35).  The role is [null] while none is recorded. *)
Definition canSell (role : option app_role) : bool :=
  match role with
  | Some individual_seller | Some super_seller | Some admin => true
  | _ => false
  end.

(** [needsVerification] (Dashboard.tsx line 46). *)
Definition needsVerification (role : option app_role) (kyc : verification_status) : bool :=
  canSell role && bool_decide (kyc ≠ verified).

(** The redirect of SellerOnboarding.tsx line 44: a user who already holds a
    seller role is sent to the dashboard. *)
Definition onboarding_redirects (role : option app_role) : bool :=
  match role with
  | Some r => bool_decide (r ≠ observer) && bool_decide (r ≠ buyer)
  | None => false
  end.

(** The guard of Admin.tsx lines 16 and 34. *)
Definition admin_page_allowed (signed_in : bool) (role : option app_role) : bool :=
  signed_in && bool_decide (role = Some admin).

(** ** Tier labels *)

(** [tierConfig[tier].label] (tier-badge.tsx lines 10-31). *)
Definition tierConfig_label (r : app_role) : string :=
  match r with
  | buyer => "Buyer"
  | observer => "Private Holder"
  | individual_seller => "Verified Dealer"
  | super_seller => "Certified Partner"
  | admin => "Admin"
  end.

(** [ROLE_OPTIONS] of AdminUserManagement.tsx lines 36-42, in order. *)
Definition ROLE_OPTIONS : list (app_role * string) :=
  [(buyer, "Buyer"); (observer, "Private Holder");
   (individual_seller, "Verified Dealer"); (super_seller, "Certified Partner");
   (admin, "Admin")].

(** The nested conditional of Dashboard.tsx lines 219-223, whose fallback
    for a missing role is "Private Holder". *)
Definition dashboard_role_label (role : option app_role) : string :=
  match role with
  | Some observer => "Private Holder"
  | Some individual_seller => "Verified Dealer"
  | Some super_seller => "Certified Partner"
  | Some admin => "Admin"
  | Some buyer => "Buyer"
  | None => "Private Holder"
  end.

(** ** Admin user management (AdminUserManagement.tsx) *)

(** A row of the page's [users] state (lines 26-34). *)
Record UserWithRole := mkUserWithRole {
  uw_user_id : string;
  uw_email : string;
  uw_full_name : option string;
  uw_kyc_status : verification_status;
  uw_subscription_status : option string;
  uw_zero_fee_eligible : option bool;
  uw_role : option app_role
}.

(** PostgREST's [.maybeSingle()]: the row when exactly one matches, [null]
    when none does, and an error (whose [data] is [null]) when several do. *)
Definition maybe_single {A} (rows : list A) : option A :=
  match rows with [x] => Some x | _ => None end.

Definition roles_of (uid : string) (rows : list RoleRow) : list RoleRow :=
  filter (fun r => rr_user_id r = uid) rows.

(** [fetchUsers] (lines 50-84): the profiles (already ordered by e-mail by
    the query), each spread into a row with the role of the first role row
    of the same user ([roles.find]). *)
Definition fetchUsers (profiles : list Profile) (roles : list RoleRow) : list UserWithRole :=
  map (fun p =>
         mkUserWithRole (p_user_id p) (p_email p) (p_full_name p) (p_kyc_status p)
           (p_subscription_status p) (p_zero_fee_eligible p)
           (rr_role <$> head (roles_of (p_user_id p) roles)))
      profiles.

Definition set_row_role (uid : string) (new_role : app_role) (r : RoleRow) : RoleRow :=
  if decide (rr_user_id r = uid) then mkRoleRow (rr_user_id r) new_role else r.

Definition set_user_role (uid : string) (new_role : app_role) (u : UserWithRole) : UserWithRole :=
  if decide (uw_user_id u = uid) then
    mkUserWithRole (uw_user_id u) (uw_email u) (uw_full_name u) (uw_kyc_status u)
      (uw_subscription_status u) (uw_zero_fee_eligible u) (Some new_role)
  else u.

(** [handleRoleChange] (lines 90-129): look the user's role row up with
    [maybeSingle]; update every row of the user when one was found, insert a
    row otherwise; then update the local [users] list. *)
Definition handleRoleChange (uid : string) (new_role : app_role)
    (roles : list RoleRow) (users : list UserWithRole) : list RoleRow * list UserWithRole :=
  let roles' :=
    match maybe_single (roles_of uid roles) with
    | Some _ => map (set_row_role uid new_role) roles
    | None => (roles ++ [mkRoleRow uid new_role])%list
    end in
  (roles', map (set_user_role uid new_role) users).

Definition set_profile_zero_fee (enabled : bool) (p : Profile) : Profile :=
  mkProfile (p_user_id p) (p_email p) (p_full_name p) (p_kyc_status p)
    (p_kyc_verified_at p) (p_subscription_status p) (Some enabled).

Definition set_user_zero_fee (uid : string) (enabled : bool) (u : UserWithRole) : UserWithRole :=
  if decide (uw_user_id u = uid) then
    mkUserWithRole (uw_user_id u) (uw_email u) (uw_full_name u) (uw_kyc_status u)
      (uw_subscription_status u) (Some enabled) (uw_role u)
  else u.

(** [handleZeroFeeToggle] (lines 131-151): update the profile's
    [zero_fee_eligible] column and the local list. *)
Definition handleZeroFeeToggle (uid : string) (enabled : bool)
    (profiles : gmap string Profile) (users : list UserWithRole)
    : gmap string Profile * list UserWithRole :=
  (alter (set_profile_zero_fee enabled) uid profiles, map (set_user_zero_fee uid enabled) users).

(** [filteredUsers] (lines 154-157): the e-mail or the name, lower-cased,
    contains the lower-cased search text; a missing name matches nothing
    ([undefined] is falsy). *)
Definition filteredUsers (search : string) (users : list UserWithRole) : list UserWithRole :=
  let q := str_lower search in
  filter (fun u => (str_includes q (str_lower (uw_email u)) ||
                    match uw_full_name u with Some n => str_includes q (str_lower n) | None => false end)
                   = true) users.

(** A row of the users table (lines 225-260). *)
Record UserRowView := mkUserRowView {
  ur_name : string;                 (* user.full_name || 'No name' *)
  ur_email : string;
  ur_badge : option app_role;       (* {user.role && <TierBadge />} *)
  ur_kyc_text : string;             (* user.kyc_status.replace('_', ' ') *)
  ur_zero_fee_checked : bool;       (* user.zero_fee_eligible ?? false *)
  ur_role_value : option app_role;  (* user.role || undefined *)
  ur_disabled : bool                (* updatingUser === user.user_id *)
}.

Definition user_row (updating : option string) (u : UserWithRole) : UserRowView :=
  mkUserRowView
    (match uw_full_name u with Some "" | None => "No name" | Some n => n end)
    (uw_email u) (uw_role u)
    (js_replace_first "_" " " (verification_status_str (uw_kyc_status u)))
    (default false (uw_zero_fee_eligible u)) (uw_role u)
    (bool_decide (updating = Some (uw_user_id u))).

(** The role of a user as the pages read it: [.maybeSingle()] on the
    [user_roles] rows of the user (ListingDetail.tsx lines 117-121). *)
Definition role_of (uid : string) (roles : list RoleRow) : option app_role :=
  rr_role <$> maybe_single (roles_of uid roles).

(** The table invariant: at most one role row per user. *)
Definition roles_unique (roles : list RoleRow) : Prop := NoDup (map rr_user_id roles).

(** ** Example data for the witnesses *)

Definition ex_profiles : list Profile :=
  [mkProfile "u1" "ada@example.com" None verified (Some "2026-10-01") None None;
   mkProfile "u2" "bo@example.com" None not_started None (Some "active") (Some true)].

Definition ex_roles : list RoleRow := [mkRoleRow "u1" observer; mkRoleRow "u2" individual_seller].

(** ** Lemmas on the [user_roles] rows *)

Lemma set_row_role_user uid nr r : rr_user_id (set_row_role uid nr r) = rr_user_id r.
Proof. unfold set_row_role. by case_decide. Qed.

Lemma map_user_set_row_role uid nr roles :
  map rr_user_id (map (set_row_role uid nr) roles) = map rr_user_id roles.
Proof. rewrite map_map. apply map_ext. apply set_row_role_user. Qed.

Lemma roles_of_map_set uid nr u roles :
  roles_of u (map (set_row_role uid nr) roles) = map (set_row_role uid nr) (roles_of u roles).
Proof.
  unfold roles_of. induction roles as [|r roles IH]; [done|].
  simpl. rewrite !filter_cons, set_row_role_user.
  case_decide; simpl; by rewrite IH.
Qed.

Lemma roles_of_app u l1 l2 : roles_of u (l1 ++ l2)%list = (roles_of u l1 ++ roles_of u l2)%list.
Proof. apply filter_app. Qed.

Lemma roles_of_user u roles r : r ∈ roles_of u roles -> rr_user_id r = u.
Proof. unfold roles_of. intros Hr. by apply list_elem_of_filter in Hr as [? _]. Qed.

Lemma roles_of_nil_notin u roles : roles_of u roles = [] -> u ∉ map rr_user_id roles.
Proof.
  unfold roles_of. intros Hnil Hin. apply list_elem_of_fmap in Hin as (r & -> & Hr).
  assert (r ∈ filter (fun r' => rr_user_id r' = rr_user_id r) roles) as Hf
    by (apply list_elem_of_filter; auto).
  rewrite Hnil in Hf. set_solver.
Qed.

(** With one row per user, the rows of a user are none or one. *)
Lemma roles_of_unique u roles :
  roles_unique roles -> roles_of u roles = [] \/ exists r, roles_of u roles = [r].
Proof.
  unfold roles_unique, roles_of. induction roles as [|r roles IH]; intros Hnd; [by left|].
  simpl in Hnd. apply NoDup_cons in Hnd as [Hnotin Hnd].
  rewrite filter_cons. case_decide as Hu.
  - right. exists r. destruct (IH Hnd) as [-> | [r' Hr']]; [done|].
    exfalso. apply Hnotin. subst u.
    assert (r' ∈ filter (fun r0 => rr_user_id r0 = rr_user_id r) roles) as Hf
      by (rewrite Hr'; set_solver).
    apply list_elem_of_filter in Hf as [Heq Hin].
    rewrite <- Heq. by apply list_elem_of_fmap_2.
  - by apply IH.
Qed.

(** The rows of each user after [handleRoleChange]. *)
Lemma roles_of_handleRoleChange uid nr roles users u :
  roles_unique roles ->
  roles_of u (handleRoleChange uid nr roles users).1 =
    if decide (u = uid) then [mkRoleRow uid nr] else roles_of u roles.
Proof.
  intros Hu. simpl.
  destruct (roles_of_unique uid roles Hu) as [Hnil | [r Hr]]; rewrite ?Hnil, ?Hr; simpl.
  - rewrite roles_of_app. unfold roles_of at 2. rewrite filter_cons, filter_nil. simpl.
    destruct (decide (u = uid)) as [->|Hne].
    + rewrite decide_True by done. by rewrite Hnil.
    + rewrite decide_False by congruence. apply app_nil_r.
  - rewrite roles_of_map_set.
    case_decide; subst.
    + rewrite Hr. simpl. unfold set_row_role.
      pose proof (roles_of_user uid roles r) as Hru. rewrite Hr in Hru.
      rewrite decide_True; [|apply Hru; set_solver]. f_equal. f_equal. apply Hru. set_solver.
    + rewrite <- (map_id (roles_of u roles)) at 2. apply map_ext_in.
      intros r' Hr'%list_elem_of_In%roles_of_user. unfold set_row_role.
      by rewrite decide_False by congruence.
Qed.

(** ** Properties *)

(** [handleRoleChange] keeps the [user_roles] table at one row per user:
    it updates the user's row when there is one and inserts one otherwise. *)
Theorem handleRoleChange_unique uid nr roles users :
  roles_unique roles -> roles_unique (handleRoleChange uid nr roles users).1.
Proof.
  unfold roles_unique. intros Hu. simpl.
  destruct (roles_of_unique uid roles Hu) as [Hnil | [r Hr]]; rewrite ?Hnil, ?Hr; simpl.
  - rewrite map_app. simpl. apply NoDup_app. repeat split; [done| |].
    + intros x Hx Hx'. apply list_elem_of_singleton in Hx'. subst x.
      by apply (roles_of_nil_notin uid roles).
    + apply NoDup_singleton.
  - by rewrite map_user_set_row_role.
Qed.

(** After [handleRoleChange uid r], the role the pages read for [uid] is
    [r], and every other user's role is unchanged. *)
Theorem handleRoleChange_role_of uid nr roles users u :
  roles_unique roles ->
  role_of u (handleRoleChange uid nr roles users).1 =
    if decide (u = uid) then Some nr else role_of u roles.
Proof.
  intros Hu. unfold role_of. rewrite roles_of_handleRoleChange by done.
  by case_decide.
Qed.

Lemma fetchUsers_cons p profiles roles :
  fetchUsers (p :: profiles) roles =
    mkUserWithRole (p_user_id p) (p_email p) (p_full_name p) (p_kyc_status p)
      (p_subscription_status p) (p_zero_fee_eligible p)
      (rr_role <$> head (roles_of (p_user_id p) roles)) :: fetchUsers profiles roles.
Proof. reflexivity. Qed.

(** The page's optimistic update of its [users] list after a role change
    is what a fresh [fetchUsers] would show. *)
Theorem handleRoleChange_local_refetch uid nr profiles roles :
  roles_unique roles ->
  (handleRoleChange uid nr roles (fetchUsers profiles roles)).2 =
    fetchUsers profiles (handleRoleChange uid nr roles (fetchUsers profiles roles)).1.
Proof.
  intros Hu. simpl (handleRoleChange _ _ _ _).2.
  induction profiles as [|p profiles IH]; [done|].
  rewrite !fetchUsers_cons. simpl map. rewrite IH. f_equal.
  rewrite roles_of_handleRoleChange by done. unfold set_user_role. simpl.
  by case_decide.
Qed.

(** The three copies of the tier labels (tier-badge.tsx, the role
    selector of AdminUserManagement.tsx and Dashboard.tsx) agree on every
    role. *)
Theorem tier_labels_agree r :
  dashboard_role_label (Some r) = tierConfig_label r /\
  (r, tierConfig_label r) ∈ ROLE_OPTIONS.
Proof. destruct r; split; simpl; try reflexivity; set_solver. Qed.

(** The onboarding redirect of SellerOnboarding.tsx fires exactly for
    the roles that [canSell] accepts; in particular a Private Holder
    ([observer]) is neither redirected nor allowed to sell. *)
Theorem onboarding_redirects_canSell role :
  onboarding_redirects role = canSell role.
Proof. destruct role as [[]|]; reflexivity. Qed.

(** ** Witnesses *)

Lemma ex_roles_unique : roles_unique ex_roles.
Proof. unfold roles_unique. simpl. apply NoDup_cons; split; [set_solver | apply NoDup_singleton]. Qed.

Lemma handleRoleChange_unique_witness :
  roles_unique (handleRoleChange "u1" super_seller ex_roles (fetchUsers ex_profiles ex_roles)).1.
Proof. apply handleRoleChange_unique. exact ex_roles_unique. Defined.

Lemma handleRoleChange_role_of_witness :
  role_of "u1" (handleRoleChange "u1" super_seller ex_roles []).1 = Some super_seller /\
  role_of "u2" (handleRoleChange "u1" super_seller ex_roles []).1 = Some individual_seller.
Proof.
  rewrite !handleRoleChange_role_of by exact ex_roles_unique. split; reflexivity.
Defined.

Lemma handleRoleChange_local_refetch_witness :
  (handleRoleChange "u1" super_seller ex_roles (fetchUsers ex_profiles ex_roles)).2 =
    fetchUsers ex_profiles (handleRoleChange "u1" super_seller ex_roles
                              (fetchUsers ex_profiles ex_roles)).1.
Proof. apply handleRoleChange_local_refetch. exact ex_roles_unique. Defined.
