(* ===== verification/Fees.v ===== *)
(** * Fees: the tier registry, the fee-policy resolver and the quota check

    The database functions [get_commission_rate], [get_listing_limit] and
    [count_active_listings] (listed in src/src/integrations/supabase/types.ts
    lines 450-465) are called by the sources through [supabase.rpc] but their
    SQL is not part of src/.  They are modelled here from the spec: the tier
    registry of section 4.1, the resolver [effectiveRate] of section 4.2 and
    the quota check [canCreateListing] of section 4.4.

    The class [CommissionSource] is the interface through which the checkout
    function (Checkout.v) consumes a commission rate: a partial map from
    seller ids to rates in [0, 1].  [fee_source] implements it with the
    spec's resolver over the [user_roles] and [profiles] tables. *)

From S2P Require Import Prelude Accounts.

Local Open Scope Q_scope.

(** ** Tier registry (spec 4.1) *)

Inductive listing_limit := Bounded (n : nat) | Unbounded.

#[export] Instance listing_limit_eq_dec : EqDecision listing_limit.
Proof. solve_decision. Defined.

(** Private Holder ([observer]) 3, Verified Dealer ([individual_seller]) 25,
    Certified Partner ([super_seller]) and admin unbounded; a buyer owns no
    listing. *)
Definition limitFor (r : app_role) : listing_limit :=
  match r with
  | observer => Bounded 3
  | individual_seller => Bounded 25
  | super_seller | admin => Unbounded
  | buyer => Bounded 0
  end.

(** The base commission rate; a buyer has none (a precondition violation in
    the spec's words). *)
Definition baseRateFor (r : app_role) : option Q :=
  match r with
  | observer => Some (35 # 1000)
  | individual_seller => Some (25 # 1000)
  | super_seller | admin => Some 0
  | buyer => None
  end.

(** ** Fee-policy resolver (spec 4.2) *)

(** The platform-wide zero-fee period; timestamps are integers. *)
Record PlatformFeePolicy := mkPolicy {
  zero_fee_active : bool;
  zero_fee_end_date : option Z
}.

Definition zero_fee_window_open (policy : PlatformFeePolicy) (now : Z) : bool :=
  zero_fee_active policy &&
  match zero_fee_end_date policy with
  | None => true
  | Some end_date => (now <? end_date)%Z
  end.

(** The four rules in their precedence order. *)
Definition effectiveRate (tier : app_role) (zero_fee_eligible : bool)
    (policy : PlatformFeePolicy) (now : Z) : option Q :=
  match tier with
  | super_seller | admin => Some 0
  | _ =>
      if zero_fee_window_open policy now then Some 0
      else if zero_fee_eligible then Some 0
      else baseRateFor tier
  end.

(** ** Quota (spec 4.4), failing closed *)

Definition canCreateListing (tier : option app_role) (active_count : option nat) : bool :=
  match tier, active_count with
  | Some r, Some c =>
      match limitFor r with
      | Bounded n => Nat.ltb c n
      | Unbounded => true
      end
  | _, _ => false
  end.

(** ** The interface consumed by the checkout function *)

Class CommissionSource := {
  get_commission_rate : string -> option Q;
  get_commission_rate_bounds :
    forall u r, get_commission_rate u = Some r -> 0 <= r /\ r <= 1
}.

(** The tier and waiver flag of a seller, read from the [user_roles] and
    [profiles] tables. *)
Definition seller_tier (roles : list RoleRow) (profiles : gmap string Profile) (u : string)
    : option (app_role * bool) :=
  r ← role_of u roles;
  Some (r, default false (profiles !! u ≫= p_zero_fee_eligible)).

Definition fee_rate (roles : list RoleRow) (profiles : gmap string Profile)
    (policy : PlatformFeePolicy) (now : Z) (u : string) : option Q :=
  '(r, zfe) ← seller_tier roles profiles u;
  effectiveRate r zfe policy now.

(** The spec's resolver implements the interface: its rates lie in
    [0, 1]. *)
Definition fee_source (roles : list RoleRow) (profiles : gmap string Profile)
    (policy : PlatformFeePolicy) (now : Z) : CommissionSource.
Proof.
  refine {| get_commission_rate := fee_rate roles profiles policy now |}.
  intros u q. unfold fee_rate.
  destruct (seller_tier roles profiles u) as [[r zfe]|]; simpl; [|discriminate].
  unfold effectiveRate.
  destruct r; try destruct (zero_fee_window_open policy now); try destruct zfe; simpl;
    intros [= <-]; split; vm_compute; discriminate.
Defined.
