(* ===== verification/Listings.v ===== *)
(** * Listings: the listing rows and the create-listing page

    The [listings] and [listing_photos] tables (types.ts lines 110-224), the
    listing form's zod schema, the photo checks and the submit handler of
    src/src/pages/CreateListing.tsx, and the photo slots of
    src/src/components/listing/PhotoUpload.tsx.  The database is the record
    [ListingDb]: the two tables and the [listing-photos] storage bucket.
    Network failures of the insert and of each upload are inputs of the
    handler ([UploadOutcome]), so that its partial effects can be stated.
    The text search [search_matches] is shared by the browse page and the
    admin moderation table. *)

From S2P Require Import Prelude Accounts Fees.

Local Open Scope string_scope.
Local Open Scope list_scope.
Local Open Scope nat_scope.

(** ** Data *)

Inductive watch_condition := unworn | excellent | very_good | good | fair.

#[export] Instance watch_condition_eq_dec : EqDecision watch_condition.
Proof. solve_decision. Defined.

Inductive listing_status := draft | pending_review | approved | rejected | sold | archived.

#[export] Instance listing_status_eq_dec : EqDecision listing_status.
Proof. solve_decision. Defined.

(** A [listings] row (types.ts lines 146-168); prices and rates are exact
    rationals (Prelude.v). *)
Record Listing := mkListing {
  l_id : string;
  l_seller_id : string;
  l_brand_id : string;
  l_model : string;
  l_reference_number : string;
  l_serial_number : option string;
  l_year_produced : option Z;
  l_year_produced_end : option Z;
  l_condition : watch_condition;
  l_has_box : bool;
  l_has_papers : bool;
  l_asking_price : Q;
  l_currency : string;
  l_description : option string;
  l_status : listing_status;
  l_approved_at : option string;
  l_approved_by : option string;
  l_rejection_reason : option string
}.

(** [PhotoType] (PhotoUpload.tsx line 5). *)
Inductive PhotoType := dial | caseback | side | clasp | box | papers.

#[export] Instance PhotoType_eq_dec : EqDecision PhotoType.
Proof. solve_decision. Defined.

Definition photo_type_name (t : PhotoType) : string :=
  match t with
  | dial => "dial" | caseback => "caseback" | side => "side"
  | clasp => "clasp" | box => "box" | papers => "papers"
  end.

(** A browser [File]: its name, its MIME [type], its [size] in bytes and
    its contents. *)
Record File := mkFile { f_name : string; f_type : string; f_size : N; f_data : string }.

(** A [listing_photos] row (types.ts lines 111-118). *)
Record PhotoRow := mkPhotoRow {
  ph_listing_id : string;
  ph_storage_path : string;
  ph_photo_type : string;
  ph_display_order : nat
}.

(** The tables and the bucket the page writes. *)
Record ListingDb := mkListingDb {
  db_listings : gmap string Listing;
  db_photos : list PhotoRow;
  db_storage : gmap string File
}.

(** ** The form schema (CreateListing.tsx lines 53-66) *)

Record ListingFormData := mkForm {
  fd_brand_id : string;
  fd_model : string;
  fd_reference_number : string;
  fd_serial_number : option string;
  fd_year_produced : option Z;
  fd_year_produced_end : option Z;
  fd_condition : watch_condition;
  fd_has_box : bool;
  fd_has_papers : bool;
  fd_asking_price : Q;
  fd_currency : string;
  fd_description : option string
}.

Definition len_between (lo hi : nat) (s : string) : bool :=
  (lo <=? String.length s) && (String.length s <=? hi).

Definition opt_check {A} (p : A -> bool) (o : option A) : bool :=
  match o with Some a => p a | None => true end.

Definition year_ok (current_year : Z) (y : Z) : bool := (1900 <=? y)%Z && (y <=? current_year)%Z.

(** [listingSchema]: the zod checks, [current_year] standing for
    [new Date().getFullYear()]; lengths are counted in characters. *)
Definition listingSchema_ok (current_year : Z) (d : ListingFormData) : bool :=
  (1 <=? String.length (fd_brand_id d)) &&
  len_between 1 100 (fd_model d) &&
  len_between 1 50 (fd_reference_number d) &&
  opt_check (fun s => String.length s <=? 50) (fd_serial_number d) &&
  opt_check (year_ok current_year) (fd_year_produced d) &&
  opt_check (year_ok current_year) (fd_year_produced_end d) &&
  Qle_bool 100 (fd_asking_price d) &&
  (1 <=? String.length (fd_currency d)) &&
  opt_check (fun s => String.length s <=? 2000) (fd_description d).

(** ** Photos *)

(** [PHOTO_SLOTS] (PhotoUpload.tsx lines 14-21): type and [required] flag. *)
Definition PHOTO_SLOTS : list (PhotoType * bool) :=
  [(dial, true); (caseback, true); (side, true); (clasp, true); (box, false); (papers, false)].

(** [visibleSlots] (PhotoUpload.tsx lines 55-59). *)
Definition slot_visible (hasBox hasPapers : bool) (t : PhotoType) : bool :=
  match t with box => hasBox | papers => hasPapers | _ => true end.

Definition visibleSlots (hasBox hasPapers : bool) : list (PhotoType * bool) :=
  filter (fun s => slot_visible hasBox hasPapers s.1 = true) PHOTO_SLOTS.

(** The count shown as "N required photos" (PhotoUpload.tsx line 66). *)
Definition required_count_label (hasBox hasPapers : bool) : nat :=
  length (filter (fun s => s.2 = true) (visibleSlots hasBox hasPapers)).

(** [requiredPhotos] of [validatePhotos] (CreateListing.tsx lines 164-166). *)
Definition requiredPhotos (hasBox hasPapers : bool) : list PhotoType :=
  [dial; caseback; side; clasp] ++ (if hasBox then [box] else []) ++
  (if hasPapers then [papers] else []).

Definition Photos := PhotoType -> option File.

(** [validatePhotos] (lines 163-179): the first required photo that is
    missing, reported in a toast. *)
Definition validatePhotos (hasBox hasPapers : bool) (photos : Photos) : result PhotoType unit :=
  match find (fun t => bool_decide (photos t = None)) (requiredPhotos hasBox hasPapers) with
  | Some t => Err t
  | None => Ok tt
  end.

(** [photoTypes] of [onSubmit] (lines 237-239): the photos to upload. *)
Definition photoTypes (hasBox hasPapers : bool) (photos : Photos) : list PhotoType :=
  [dial; caseback; side; clasp] ++
  (if hasBox && bool_decide (photos box ≠ None) then [box] else []) ++
  (if hasPapers && bool_decide (photos papers ≠ None) then [papers] else []).

(** [file.name.split('.').pop()]: the text after the last dot, or the whole
    name when it has none. *)
Definition file_ext (name : string) : string := default "" (last (str_split (Ascii.ascii_of_nat 46) name)).

(** [`${listingId}/${type}.${fileExt}`] (lines 182-183). *)
Definition storage_path (listing_id : string) (t : PhotoType) (file : File) : string :=
  listing_id +:+ "/" +:+ photo_type_name t +:+ "." +:+ file_ext (f_name file).

(** ** The submit handler *)

(** The outcome of a network call: the upload of a photo type can fail. *)
Definition UploadOutcome := PhotoType -> bool.

Inductive SubmitError :=
| NoSellerForm                 (* !canSell: the page shows no form *)
| NotSignedIn                  (* if (!user) return *)
| SchemaInvalid                (* zod rejects the form *)
| MissingPhoto (t : PhotoType) (* validatePhotos fails *)
| InsertFailed                 (* listingError *)
| UploadFailed (t : PhotoType). (* uploadError or dbError *)

(** [uploadPhoto] (lines 181-204): upsert the file into the bucket, then
    insert its [listing_photos] row.  One outcome covers both requests:
    when the upload succeeds and the row insert fails, the code leaves the
    file in the bucket, which is not represented here; the photo rows, what
    the theorems are about, are the same in both failures. *)
Definition uploadPhoto (ok : UploadOutcome) (listing_id : string) (t : PhotoType) (file : File)
    (order : nat) (db : ListingDb) : result SubmitError ListingDb :=
  if ok t then
    let path := storage_path listing_id t file in
    Ok (mkListingDb (db_listings db)
          (db_photos db ++ [mkPhotoRow listing_id path (photo_type_name t) order])%list
          (<[path := file]> (db_storage db)))
  else Err (UploadFailed t).

(** The [for] loop of lines 241-247, with the index [i] from [start]; a
    failed upload stops it, and what was written before stays written. *)
Fixpoint upload_all (ok : UploadOutcome) (listing_id : string) (photos : Photos)
    (types : list PhotoType) (i : nat) (db : ListingDb) : ListingDb * option SubmitError :=
  match types with
  | [] => (db, None)
  | t :: rest =>
      match photos t with
      | Some file =>
          match uploadPhoto ok listing_id t file (S i) db with
          | Ok db' => upload_all ok listing_id photos rest (S i) db'
          | Err e => (db, Some e)
          end
      | None => upload_all ok listing_id photos rest (S i) db
      end
  end.

(** The row inserted by lines 213-230; [x || null] maps the empty string
    and the year 0 to [null]. *)
Definition new_listing (id seller : string) (d : ListingFormData) : Listing :=
  mkListing id seller (fd_brand_id d) (fd_model d) (fd_reference_number d)
    (match fd_serial_number d with Some "" | None => None | s => s end)
    (match fd_year_produced d with Some 0%Z | None => None | y => y end)
    (match fd_year_produced_end d with Some 0%Z | None => None | y => y end)
    (fd_condition d) (fd_has_box d) (fd_has_papers d) (fd_asking_price d) (fd_currency d)
    (match fd_description d with Some "" | None => None | s => s end)
    pending_review None None None.

(** The page: the seller guard of lines 123 and 138-157, the zod schema run
    by [form.handleSubmit], then [onSubmit] (lines 206-265).  The new row's
    id is [fresh_id]; the insert fails when it is taken or when
    [insert_ok] is false.  The result is the database after the handler and
    the error it reported, if any. *)
Definition submitListing (role : option app_role) (user : option string)
    (current_year : Z) (d : ListingFormData) (photos : Photos)
    (fresh_id : string) (insert_ok : bool) (ok : UploadOutcome) (db : ListingDb)
    : ListingDb * option SubmitError :=
  if negb (canSell role) then (db, Some NoSellerForm) else
  if negb (listingSchema_ok current_year d) then (db, Some SchemaInvalid) else
  match user with
  | None => (db, Some NotSignedIn)
  | Some uid =>
      match validatePhotos (fd_has_box d) (fd_has_papers d) photos with
      | Err t => (db, Some (MissingPhoto t))
      | Ok _ =>
          if negb insert_ok || bool_decide (is_Some (db_listings db !! fresh_id))
          then (db, Some InsertFailed)
          else
            let db1 := mkListingDb (<[fresh_id := new_listing fresh_id uid d]> (db_listings db))
                         (db_photos db) (db_storage db) in
            upload_all ok fresh_id photos
              (photoTypes (fd_has_box d) (fd_has_papers d) photos) 0 db1
      end
  end.

(** ** Active listings and the quota (spec 4.4) *)

Definition is_active (s : listing_status) : bool :=
  match s with draft | pending_review | approved => true | _ => false end.

(** [count_active_listings(_user_id)]. *)
Definition count_active_listings (seller : string) (listings : gmap string Listing) : nat :=
  size (filter (fun kv => l_seller_id kv.2 = seller /\ is_active (l_status kv.2) = true) listings).

(** The photos of a listing in the table. *)
Definition photos_of (listing_id : string) (rows : list PhotoRow) : list string :=
  map ph_photo_type (filter (fun r => ph_listing_id r = listing_id) rows).

(** ** Searching listings

    The text search of the browse page (Browse.tsx lines 127-135) and of
    the admin moderation table (AdminListings.tsx lines 170-174): the
    lower-cased query is a substring of the model, the reference or the
    brand's name ([brand?.name...includes] is [undefined] without a
    brand).  [toLowerCase] is taken on ASCII letters. *)
Definition search_matches (search : string) (brand : option string) (l : Listing) : bool :=
  let q := str_lower search in
  str_includes q (str_lower (l_model l)) ||
  str_includes q (str_lower (l_reference_number l)) ||
  match brand with Some b => str_includes q (str_lower b) | None => false end.

(** ** Example data for the witnesses *)

Definition ex_form : ListingFormData :=
  mkForm "b1" "Submariner Date" "126610LN" None (Some 2023%Z) None excellent true false
    14800 "USD" (Some "Full set, serviced 2025.").

Definition ex_file (t : PhotoType) : File :=
  mkFile (photo_type_name t +:+ ".jpg") "image/jpeg" 10 "jpeg-bytes".

(** Every slot filled but the papers. *)
Definition ex_photos : Photos := fun t => match t with papers => None | _ => Some (ex_file t) end.

Definition ex_empty_db : ListingDb := mkListingDb ∅ [] ∅.

(** A Verified Dealer already at its limit of 25 active listings. *)
Definition ex_active (n : nat) : string * Listing :=
  let id := String (Ascii.ascii_of_nat (65 + n)) EmptyString in
  (id, new_listing id "dealer" ex_form).

Definition ex_full_db : ListingDb :=
  mkListingDb (list_to_map (map ex_active (seq 0 25))) [] ∅.

(** ** Lemmas *)

Lemma photo_type_name_inj t1 t2 : photo_type_name t1 = photo_type_name t2 -> t1 = t2.
Proof. destruct t1, t2; simpl; congruence. Qed.

Lemma validatePhotos_Ok hb hp photos :
  validatePhotos hb hp photos = Ok tt <->
  forall t, t ∈ requiredPhotos hb hp -> photos t <> None.
Proof.
  unfold validatePhotos.
  destruct (find _ _) as [t|] eqn:Hf; split; try done.
  - intros Hall. apply find_some in Hf as [Hin Ht%bool_decide_eq_true_1].
    exfalso. apply (Hall t); [by apply list_elem_of_In | exact Ht].
  - intros _ t Ht Hnone.
    pose proof (find_none _ _ Hf t (proj1 (list_elem_of_In _ _) Ht)) as H.
    simpl in H. rewrite bool_decide_eq_true_2 in H; done.
Qed.

Lemma photoTypes_required hb hp photos :
  (forall t, t ∈ requiredPhotos hb hp -> photos t <> None) ->
  photoTypes hb hp photos = requiredPhotos hb hp.
Proof.
  intros Hall. unfold photoTypes, requiredPhotos.
  destruct hb, hp; simpl;
    repeat rewrite bool_decide_eq_true_2 by (apply Hall; set_solver); reflexivity.
Qed.

Lemma photos_of_app id l1 l2 : photos_of id (l1 ++ l2) = photos_of id l1 ++ photos_of id l2.
Proof. unfold photos_of. by rewrite filter_app, map_app. Qed.

Lemma photos_of_row id path t o :
  photos_of id [mkPhotoRow id path (photo_type_name t) o] = [photo_type_name t].
Proof. unfold photos_of. rewrite filter_cons_True; done. Qed.

(** The upload loop never touches the [listings] table. *)
Lemma upload_all_listings ok id photos types i db :
  db_listings (upload_all ok id photos types i db).1 = db_listings db.
Proof.
  revert i db. induction types as [|t types IH]; intros i db; simpl; [done|].
  destruct (photos t); [|apply IH].
  unfold uploadPhoto. destruct (ok t); simpl; [rewrite IH|]; done.
Qed.

(** When every upload succeeds and every file is present, the loop records
    one row per type, in order. *)
Lemma upload_all_success ok id photos types i db :
  (forall t, t ∈ types -> ok t = true /\ photos t <> None) ->
  (upload_all ok id photos types i db).2 = None /\
  photos_of id (db_photos (upload_all ok id photos types i db).1) =
    photos_of id (db_photos db) ++ map photo_type_name types.
Proof.
  revert i db. induction types as [|t types IH]; intros i db Hall; simpl.
  - by rewrite app_nil_r.
  - destruct (Hall t) as [Hok Hph]; [set_solver|].
    destruct (photos t) as [file|]; [|congruence].
    unfold uploadPhoto. rewrite Hok.
    match goal with |- context [upload_all _ _ _ _ _ ?db'] =>
      destruct (IH (S i) db') as [Herr Hph'] end.
    { intros t' Ht'. apply Hall. set_solver. }
    split; [exact Herr|]. rewrite Hph'. simpl.
    rewrite photos_of_app, photos_of_row, <- app_assoc. reflexivity.
Qed.

(** When every upload succeeds, the loop reports no error. *)
Lemma upload_all_no_error ok id photos types i db :
  (forall t, t ∈ types -> ok t = true) -> (upload_all ok id photos types i db).2 = None.
Proof.
  revert i db. induction types as [|t types IH]; intros i db Hall; simpl; [done|].
  destruct (photos t); [|apply IH; set_solver].
  unfold uploadPhoto. rewrite (Hall t) by set_solver. simpl. apply IH. set_solver.
Qed.

(** The loop reports an error when a present file fails to upload. *)
Lemma upload_all_reports ok id photos types i db t :
  t ∈ types -> ok t = false -> photos t <> None ->
  exists t', (upload_all ok id photos types i db).2 = Some (UploadFailed t').
Proof.
  revert i db. induction types as [|t0 types IH]; intros i db Hin Hfail Hph; [set_solver|].
  simpl. apply elem_of_cons in Hin as [<-|Hin].
  - destruct (photos t) as [file|]; [|congruence].
    unfold uploadPhoto. rewrite Hfail. eauto.
  - destruct (photos t0) as [file|]; [|by apply IH].
    unfold uploadPhoto. destruct (ok t0) eqn:Hok0; [by apply IH | eauto].
Qed.

(** When the uploads of [pre] succeed and that of [t] fails, the loop
    stops at [t]: the rows of [pre] stay written, in order, and [t] is
    reported. *)
Lemma upload_all_stops ok id photos pre t post i db :
  (forall t', t' ∈ pre -> ok t' = true /\ photos t' <> None) -> ok t = false -> photos t <> None ->
  (upload_all ok id photos (pre ++ t :: post) i db).2 = Some (UploadFailed t) /\
  photos_of id (db_photos (upload_all ok id photos (pre ++ t :: post) i db).1) =
    photos_of id (db_photos db) ++ map photo_type_name pre.
Proof.
  intros Hpre Hfail Hph. revert i db. induction pre as [|t0 pre IH]; intros i db; simpl.
  - destruct (photos t) as [file|]; [|congruence].
    unfold uploadPhoto. rewrite Hfail. simpl. by rewrite app_nil_r.
  - destruct (Hpre t0) as [Hok Hph0]; [set_solver|].
    destruct (photos t0) as [file|]; [|congruence].
    unfold uploadPhoto. rewrite Hok.
    match goal with |- context [upload_all _ _ _ _ _ ?db'] =>
      destruct (IH (fun t' Ht' => Hpre t' ltac:(set_solver)) (S i) db') as [Herr Hph'] end.
    split; [exact Herr|]. rewrite Hph'. simpl.
    rewrite photos_of_app, photos_of_row, <- app_assoc. reflexivity.
Qed.

(** What a submission that passes every guard inserts. *)
Lemma submitListing_inserts role uid cy d photos fid ok db :
  canSell role = true -> listingSchema_ok cy d = true ->
  validatePhotos (fd_has_box d) (fd_has_papers d) photos = Ok tt ->
  db_listings db !! fid = None ->
  let res := submitListing role (Some uid) cy d photos fid true ok db in
  db_listings res.1 = <[fid := new_listing fid uid d]> (db_listings db) /\
  res = upload_all ok fid photos (requiredPhotos (fd_has_box d) (fd_has_papers d)) 0
          (mkListingDb (<[fid := new_listing fid uid d]> (db_listings db))
             (db_photos db) (db_storage db)).
Proof.
  intros Hsell Hschema Hval Hfresh. unfold submitListing.
  rewrite Hsell, Hschema, Hval.
  rewrite (bool_decide_eq_false_2 (is_Some _)) by (rewrite Hfresh; by intros [? ?]).
  cbn -[photoTypes upload_all].
  rewrite photoTypes_required by (by apply validatePhotos_Ok).
  split; [by rewrite upload_all_listings | reflexivity].
Qed.

(** Inserting a fresh active listing of [seller] adds one to its count. *)
Lemma count_active_insert_fresh seller fid l listings :
  listings !! fid = None -> l_seller_id l = seller -> is_active (l_status l) = true ->
  count_active_listings seller (<[fid := l]> listings) = S (count_active_listings seller listings).
Proof.
  intros Hfresh Hs Ha. unfold count_active_listings.
  rewrite map_filter_insert_True by (simpl; auto).
  apply map_size_insert_None. apply map_lookup_filter_None_2. by left.
Qed.

(** ** Properties *)

(** C13: a submission that passes the seller guard, the schema and the photo
    check, with a fresh id and every upload succeeding, inserts the listing
    as [pending_review] and records exactly the required photos, in the
    order [dial], [caseback], [side], [clasp], then [box] and [papers] when
    the watch comes with them; no error is reported. *)
Theorem submitListing_success role uid cy d photos fid ok db :
  canSell role = true -> listingSchema_ok cy d = true ->
  validatePhotos (fd_has_box d) (fd_has_papers d) photos = Ok tt ->
  db_listings db !! fid = None -> photos_of fid (db_photos db) = [] ->
  (forall t, ok t = true) ->
  let res := submitListing role (Some uid) cy d photos fid true ok db in
  res.2 = None /\
  db_listings res.1 !! fid = Some (new_listing fid uid d) /\
  l_status (new_listing fid uid d) = pending_review /\
  photos_of fid (db_photos res.1) = map photo_type_name (requiredPhotos (fd_has_box d) (fd_has_papers d)).
Proof.
  intros Hsell Hschema Hval Hfresh Hnone Hok res.
  destruct (submitListing_inserts role uid cy d photos fid ok db Hsell Hschema Hval Hfresh)
    as [Hl Hres].
  fold res in Hl, Hres. rewrite Hres.
  pose proof (proj1 (validatePhotos_Ok _ _ _) Hval) as Hall.
  destruct (upload_all_success ok fid photos (requiredPhotos (fd_has_box d) (fd_has_papers d)) 0
    (mkListingDb (<[fid := new_listing fid uid d]> (db_listings db)) (db_photos db) (db_storage db)))
    as [Herr Hph]; [intros t Ht; split; [apply Hok | apply (Hall t Ht)]|].
  rewrite Herr, Hph, <- Hres, Hl. simpl. rewrite Hnone, lookup_insert_eq. auto.
Qed.

(** C19: the listing row and its photos are not written atomically: when
    the upload of a required photo fails, the handler reports that photo,
    the listing stays in the table as [pending_review], and the rows of the
    photos uploaded before it stay written, in order, while the failed
    photo and those after it have none.  The spec (4.3) makes the required
    photo set a guard of [pending_review]. *)
Theorem submitListing_partial_upload role uid cy d photos fid ok db pre t post :
  canSell role = true -> listingSchema_ok cy d = true ->
  validatePhotos (fd_has_box d) (fd_has_papers d) photos = Ok tt ->
  db_listings db !! fid = None -> photos_of fid (db_photos db) = [] ->
  requiredPhotos (fd_has_box d) (fd_has_papers d) = pre ++ t :: post ->
  Forall (fun t' => ok t' = true) pre -> ok t = false ->
  let res := submitListing role (Some uid) cy d photos fid true ok db in
  res.2 = Some (UploadFailed t) /\
  db_listings res.1 !! fid = Some (new_listing fid uid d) /\
  l_status (new_listing fid uid d) = pending_review /\
  photos_of fid (db_photos res.1) = map photo_type_name pre.
Proof.
  intros Hsell Hschema Hval Hfresh Hnone Hsplit Hpre Hfail res.
  destruct (submitListing_inserts role uid cy d photos fid ok db Hsell Hschema Hval Hfresh)
    as [Hl Hres].
  fold res in Hl, Hres. rewrite Hl, lookup_insert_eq. rewrite Hres, Hsplit.
  pose proof (proj1 (validatePhotos_Ok _ _ _) Hval) as Hall. rewrite Hsplit in Hall.
  rewrite Forall_forall in Hpre.
  destruct (upload_all_stops ok fid photos pre t post 0
    (mkListingDb (<[fid := new_listing fid uid d]> (db_listings db)) (db_photos db) (db_storage db)))
    as [Herr Hph]; [intros t' Ht'; split; [auto | apply Hall; set_solver] | done | apply Hall; set_solver |].
  rewrite Herr, Hph. simpl. rewrite Hnone. auto.
Qed.

(** C20: the create-listing page never consults the tier's listing limit: a
    seller already at the limit of its tier can submit one more listing, and
    its count of active listings goes past the limit (spec 4.4 asks that the
    creation be denied). *)
Theorem submitListing_ignores_quota r uid cy d photos fid ok db n :
  canSell (Some r) = true -> limitFor r = Bounded n ->
  count_active_listings uid (db_listings db) = n ->
  listingSchema_ok cy d = true ->
  validatePhotos (fd_has_box d) (fd_has_papers d) photos = Ok tt ->
  db_listings db !! fid = None ->
  canCreateListing (Some r) (Some n) = false /\
  count_active_listings uid
    (db_listings (submitListing (Some r) (Some uid) cy d photos fid true ok db).1) = S n.
Proof.
  intros Hsell Hlim Hcount Hschema Hval Hfresh. split.
  - unfold canCreateListing. rewrite Hlim. apply Nat.ltb_irrefl.
  - destruct (submitListing_inserts (Some r) uid cy d photos fid ok db Hsell Hschema Hval Hfresh)
      as [Hl _].
    rewrite Hl, count_active_insert_fresh; auto.
Qed.

(** A Private Holder ([observer] role) gets no listing form, whatever it
    submits, although the dashboard (Dashboard.tsx lines 93-101) and the
    onboarding page (SellerOnboarding.tsx lines 75-81) tell it that it can
    list up to three watches. *)
Theorem private_holder_cannot_list user cy d photos fid ins ok db :
  submitListing (Some observer) user cy d photos fid ins ok db = (db, Some NoSellerForm).
Proof. reflexivity. Qed.

(** The photo grid always announces four required photos, while the
    submit check requires five or six when the watch comes with its box or
    papers. *)
Theorem required_count_label_mismatch hb hp :
  required_count_label hb hp = 4 /\
  length (requiredPhotos hb hp) = 4 + (if hb then 1 else 0) + (if hp then 1 else 0).
Proof. destruct hb, hp; split; reflexivity. Qed.

(** ** Witnesses *)

Lemma submitListing_success_witness :
  let res := submitListing (Some individual_seller) (Some "seller") 2026 ex_form ex_photos "L1"
               true (fun _ => true) ex_empty_db in
  res.2 = None /\
  photos_of "L1" (db_photos res.1) = ["dial"; "caseback"; "side"; "clasp"; "box"].
Proof.
  destruct (submitListing_success (Some individual_seller) "seller" 2026 ex_form ex_photos "L1"
              (fun _ => true) ex_empty_db) as (H1 & _ & _ & H4);
    try reflexivity.
  split; [exact H1 | exact H4].
Defined.

Lemma submitListing_partial_upload_witness :
  let res := submitListing (Some individual_seller) (Some "seller") 2026 ex_form ex_photos "L1"
               true (fun t => bool_decide (t ≠ side)) ex_empty_db in
  res.2 = Some (UploadFailed side) /\
  photos_of "L1" (db_photos res.1) = ["dial"; "caseback"].
Proof.
  destruct (submitListing_partial_upload (Some individual_seller) "seller" 2026 ex_form ex_photos "L1"
              (fun t => bool_decide (t ≠ side)) ex_empty_db [dial; caseback] side [clasp; box])
    as (H1 & _ & _ & H4); [reflexivity .. | repeat constructor | reflexivity |].
  split; [exact H1 | exact H4].
Defined.

Lemma submitListing_ignores_quota_witness :
  count_active_listings "dealer" (db_listings ex_full_db) = 25 /\
  count_active_listings "dealer"
    (db_listings (submitListing (Some individual_seller) (Some "dealer") 2026 ex_form ex_photos
                    "new" true (fun _ => true) ex_full_db).1) = 26.
Proof.
  assert (Hc : count_active_listings "dealer" (db_listings ex_full_db) = 25)
    by (vm_compute; reflexivity).
  split; [exact Hc|].
  apply (submitListing_ignores_quota individual_seller "dealer" 2026 ex_form ex_photos "new"
           (fun _ => true) ex_full_db 25);
    first [exact Hc | reflexivity | vm_compute; reflexivity].
Defined.
