(* ===== verification/Moderation.v ===== *)
(** * Moderation: the admin listing handlers and the listing lifecycle

    The handlers of src/src/components/admin/AdminListings.tsx —
    [fetchListings], [handleApprove], [openRejectDialog], [handleReject] —
    over the [listings] table and the page's local state, and the buttons'
    guard (lines 299-316: approve and reject are shown only for rows whose
    status on the page is [pending_review]).  Both updates are plain
    [update ... eq('id', id)] statements: the database applies them
    whatever the row's current status.  [moderation_step] is the tab with
    the status select changing while fetches are in flight.

    The lifecycle is the step relation [code_step] on the [listings] table,
    generated by the three writes of the code (the insert of
    CreateListing.tsx and the two updates here); the spec's transition table
    (spec 4.3) is the abstract machine [spec_transition] on statuses.  The
    theorems show the invariant of every reachable table, that the page's
    guarded actions are spec transitions while the page is fresh, and that a
    stale page lets an admin approve a rejected listing. *)

From S2P Require Import Prelude Accounts Fees Listings.

Local Open Scope string_scope.
Local Open Scope list_scope.

(** ** Row updates *)

Definition with_status (s : listing_status) (l : Listing) : Listing :=
  mkListing (l_id l) (l_seller_id l) (l_brand_id l) (l_model l) (l_reference_number l)
    (l_serial_number l) (l_year_produced l) (l_year_produced_end l) (l_condition l)
    (l_has_box l) (l_has_papers l) (l_asking_price l) (l_currency l) (l_description l)
    s (l_approved_at l) (l_approved_by l) (l_rejection_reason l).

(** [update({ status: 'approved', approved_at: now })] (lines 111-117):
    [approved_by] and [rejection_reason] are left as they are. *)
Definition approve_row (now : string) (l : Listing) : Listing :=
  mkListing (l_id l) (l_seller_id l) (l_brand_id l) (l_model l) (l_reference_number l)
    (l_serial_number l) (l_year_produced l) (l_year_produced_end l) (l_condition l)
    (l_has_box l) (l_has_papers l) (l_asking_price l) (l_currency l) (l_description l)
    approved (Some now) (l_approved_by l) (l_rejection_reason l).

(** [update({ status: 'rejected', rejection_reason: reason || null })]
    (lines 145-151): [approved_at] is left as it is. *)
Definition reject_row (reason : option string) (l : Listing) : Listing :=
  mkListing (l_id l) (l_seller_id l) (l_brand_id l) (l_model l) (l_reference_number l)
    (l_serial_number l) (l_year_produced l) (l_year_produced_end l) (l_condition l)
    (l_has_box l) (l_has_papers l) (l_asking_price l) (l_currency l) (l_description l)
    rejected (l_approved_at l) (l_approved_by l) reason.

(** ** The page *)

Record ModerationPage := mkPage {
  mp_listings : list Listing;
  mp_searchQuery : string;
  mp_statusFilter : option listing_status;  (* None is 'all' *)
  mp_rejectDialogOpen : bool;
  mp_rejectingListingId : option string;
  mp_rejectionReason : string;
  mp_updatingListing : option string
}.

(** The state as the tab mounts (lines 56-67): the pending queue. *)
Definition pending_queue : ModerationPage := mkPage [] "" (Some pending_review) false None "" None.

Definition status_matches (filt : option listing_status) (l : Listing) : bool :=
  match filt with None => true | Some s => bool_decide (l_status l = s) end.

(** [fetchListings] (lines 69-102): the rows matching the status filter
    (the query's [created_at] ordering is not modelled). *)
Definition fetchListings (db : gmap string Listing) (page : ModerationPage) : ModerationPage :=
  mkPage (filter (fun l => status_matches (mp_statusFilter page) l = true) (map snd (map_to_list db)))
    (mp_searchQuery page) (mp_statusFilter page) (mp_rejectDialogOpen page) (mp_rejectingListingId page)
    (mp_rejectionReason page) (mp_updatingListing page).

Definition set_local_status (id : string) (s : listing_status) (rows : list Listing) : list Listing :=
  map (fun l => if decide (l_id l = id) then with_status s l else l) rows.

(** [handleApprove(listingId)] (lines 108-132). *)
Definition handleApprove (id now : string) (db : gmap string Listing) (page : ModerationPage)
    : gmap string Listing * ModerationPage :=
  (alter (approve_row now) id db,
   mkPage (set_local_status id approved (mp_listings page)) (mp_searchQuery page) (mp_statusFilter page)
     (mp_rejectDialogOpen page) (mp_rejectingListingId page) (mp_rejectionReason page) None).

(** [openRejectDialog(listingId)] (lines 134-138). *)
Definition openRejectDialog (id : string) (page : ModerationPage) : ModerationPage :=
  mkPage (mp_listings page) (mp_searchQuery page) (mp_statusFilter page) true (Some id) ""
    (mp_updatingListing page).

(** Typing the reason into the dialog's text area. *)
Definition setRejectionReason (text : string) (page : ModerationPage) : ModerationPage :=
  mkPage (mp_listings page) (mp_searchQuery page) (mp_statusFilter page) (mp_rejectDialogOpen page)
    (mp_rejectingListingId page) text (mp_updatingListing page).

(** [handleReject()] (lines 140-168). *)
Definition handleReject (db : gmap string Listing) (page : ModerationPage)
    : gmap string Listing * ModerationPage :=
  match mp_rejectingListingId page with
  | None => (db, page)
  | Some id =>
      let reason := if decide (mp_rejectionReason page = "") then None
                    else Some (mp_rejectionReason page) in
      (alter (reject_row reason) id db,
       mkPage (set_local_status id rejected (mp_listings page)) (mp_searchQuery page)
         (mp_statusFilter page) false None (mp_rejectionReason page) None)
  end.

(** The search box's [onChange] (line 219). *)
Definition setSearchQuery (q : string) (page : ModerationPage) : ModerationPage :=
  mkPage (mp_listings page) q (mp_statusFilter page) (mp_rejectDialogOpen page)
    (mp_rejectingListingId page) (mp_rejectionReason page) (mp_updatingListing page).

(** [filteredListings] (lines 170-174): the rows whose model, reference or
    brand name contains the search text.  The brand's name is the one the
    fetch joined ([brand:brands(name)]), read here from [brands]. *)
Definition admin_filteredListings (brands : gmap string string) (page : ModerationPage)
    : list Listing :=
  filter (fun l => search_matches (mp_searchQuery page) (brands !! l_brand_id l) l = true)
    (mp_listings page).

(** The approve and reject buttons of a row of the table
    ([filteredListings.map], line 267) are shown when the page's copy of
    the row is [pending_review] (line 299) and enabled when no update of
    it is running (lines 305, 315). *)
Definition actions_enabled (brands : gmap string string) (page : ModerationPage) (id : string) : bool :=
  existsb (fun l => bool_decide (l_id l = id /\ l_status l = pending_review))
    (admin_filteredListings brands page) &&
  bool_decide (mp_updatingListing page ≠ Some id).

(** ** Fetches in flight

    The effect of lines 104-106 runs [fetchListings] each time the status
    select changes (line 225), and nothing cancels a fetch still running:
    the pattern [async_step] of Prelude.v with the status filter as the
    query.  The loading flag only chooses the skeleton and is left out. *)

(** The status select's [onValueChange] (line 225). *)
Definition setStatusFilter (s : option listing_status) (page : ModerationPage) : ModerationPage :=
  mkPage (mp_listings page) (mp_searchQuery page) s (mp_rejectDialogOpen page)
    (mp_rejectingListingId page) (mp_rejectionReason page) (mp_updatingListing page).

(** The rows the query of lines 72-90 answers for a filter. *)
Definition listings_query (db : gmap string Listing) (s : option listing_status) : list Listing :=
  filter (fun l => status_matches s l = true) (map snd (map_to_list db)).

(** [setListings(data || [])] (line 95). *)
Definition setListings (rows : list Listing) (page : ModerationPage) : ModerationPage :=
  mkPage rows (mp_searchQuery page) (mp_statusFilter page) (mp_rejectDialogOpen page)
    (mp_rejectingListingId page) (mp_rejectionReason page) (mp_updatingListing page).

Definition moderation_step (db : gmap string Listing) :=
  async_step (fun s => s) (listings_query db) setStatusFilter setListings.

Definition moderation_init : AsyncConf := async_init (fun s => s) (Some pending_review) pending_queue.

(** ** The lifecycle *)

(** The writes of the code to the [listings] table. *)
Inductive code_step : gmap string Listing -> gmap string Listing -> Prop :=
| cs_create db fid uid cy d :
    db !! fid = None -> listingSchema_ok cy d = true ->
    code_step db (<[fid := new_listing fid uid d]> db)
| cs_approve db id now : code_step db (alter (approve_row now) id db)
| cs_reject db id reason : code_step db (alter (reject_row reason) id db).

(** The spec's transition table (spec 4.3). *)
Inductive spec_transition : listing_status -> listing_status -> Prop :=
| st_submit : spec_transition draft pending_review
| st_approve : spec_transition pending_review approved
| st_reject : spec_transition pending_review rejected
| st_resubmit : spec_transition rejected draft
| st_sell : spec_transition approved sold
| st_archive s : s = approved \/ s = draft \/ s = pending_review -> spec_transition s archived.

(** The well-formedness of a row of a reachable table. *)
Definition listing_wf (k : string) (l : Listing) : Prop :=
  l_id l = k /\
  (100 <= l_asking_price l)%Q /\
  l_status l ∈ [pending_review; approved; rejected] /\
  (l_status l = approved -> l_approved_at l <> None).

(** ** Example data for the witnesses *)

(** The table after one listing was created. *)
Definition ex_table : gmap string Listing := <["L1" := new_listing "L1" "seller" ex_form]> ∅.

(** The page as it opens: the [pending_review] filter, no dialog. *)
(** The same table once the listing is approved. *)
Definition ex_approved_table : gmap string Listing :=
  <["L1" := approve_row "2026-11-09" (new_listing "L1" "seller" ex_form)]> ∅.

Definition ex_page : ModerationPage := mkPage [] "" (Some pending_review) false None "" None.

(** ** Lemmas *)

Lemma schema_price cy d : listingSchema_ok cy d = true -> (100 <= fd_asking_price d)%Q.
Proof.
  unfold listingSchema_ok. intros H. repeat apply andb_prop in H as [H ?].
  by apply Qle_bool_iff.
Qed.

Lemma new_listing_wf fid uid cy d :
  listingSchema_ok cy d = true -> listing_wf fid (new_listing fid uid d).
Proof.
  intros H. repeat split; simpl; [apply (schema_price cy d H) | set_solver | discriminate].
Qed.

Lemma code_step_wf db db' :
  map_Forall listing_wf db -> code_step db db' -> map_Forall listing_wf db'.
Proof.
  intros Hwf Hstep. destruct Hstep as [db fid uid cy d _ Hs | db id now | db id reason].
  - apply map_Forall_insert_2; [by apply new_listing_wf with cy | exact Hwf].
  - apply map_Forall_alter_pres; [|exact Hwf].
    intros k l (Hid & Hp & _ & _). repeat split; simpl; [exact Hid | exact Hp | set_solver | discriminate].
  - apply map_Forall_alter_pres; [|exact Hwf].
    intros k l (Hid & Hp & _ & _). repeat split; simpl; [exact Hid | exact Hp | set_solver | discriminate].
Qed.

(** The invariant over the whole table. *)
Lemma reachable_map_wf db : star code_step ∅ db -> map_Forall listing_wf db.
Proof.
  intros Hreach. apply (star_invariant code_step (map_Forall listing_wf) code_step_wf ∅ db Hreach).
  apply map_Forall_empty.
Qed.

Lemma fetchListings_elem db page id l :
  db !! id = Some l -> status_matches (mp_statusFilter page) l = true ->
  l ∈ mp_listings (fetchListings db page).
Proof.
  intros Hl Hm. simpl. apply list_elem_of_filter. split; [exact Hm|].
  apply list_elem_of_fmap. exists (id, l). split; [done|]. by apply elem_of_map_to_list.
Qed.

Lemma fetchListings_rows db page l :
  l ∈ mp_listings (fetchListings db page) -> exists k, db !! k = Some l.
Proof.
  simpl. intros Hl. apply list_elem_of_filter in Hl as [_ Hl].
  apply list_elem_of_fmap in Hl as ([k l'] & -> & Hkl). apply elem_of_map_to_list in Hkl. eauto.
Qed.

Lemma actions_enabled_row brands page id :
  actions_enabled brands page id = true ->
  exists l, l ∈ mp_listings page /\ l_id l = id /\ l_status l = pending_review.
Proof.
  unfold actions_enabled. intros [Hex _]%andb_prop.
  apply existsb_exists in Hex as (l & Hin%list_elem_of_In & Hl%bool_decide_eq_true_1).
  apply list_elem_of_filter in Hin as [_ Hin]. eauto.
Qed.

(** An empty search shows every row. *)
Lemma search_matches_empty b l : search_matches "" b l = true.
Proof. unfold search_matches. simpl. by destruct (str_lower (l_model l)). Qed.

(** ** Properties *)

(** C6: every row of a [listings] table reached from the empty table by the
    code's writes is well formed: its id is its key, its price is at least
    100, its status is [pending_review], [approved] or [rejected] (no code
    path produces [draft], [sold] or [archived]), and an approved row has
    its approval time. *)
Theorem reachable_listings_wf db k l :
  star code_step ∅ db -> db !! k = Some l -> listing_wf k l.
Proof. intros Hreach. revert k l. apply map_Forall_lookup, reachable_map_wf, Hreach. Qed.

(** C7: on a freshly fetched moderation page over a reachable table, the
    actions the page offers for a row are transitions of the spec's table:
    approving takes the listing from [pending_review] to [approved],
    rejecting it from [pending_review] to [rejected]. *)
Theorem fresh_page_refines_spec db brands p0 (id : string) l (now text : string) :
  star code_step ∅ db ->
  db !! id = Some l ->
  actions_enabled brands (fetchListings db p0) id = true ->
  (forall l', (handleApprove id now db (fetchListings db p0)).1 !! id = Some l' ->
     spec_transition (l_status l) (l_status l')) /\
  (forall l', (handleReject db (setRejectionReason text
                 (openRejectDialog id (fetchListings db p0)))).1 !! id = Some l' ->
     spec_transition (l_status l) (l_status l')).
Proof.
  intros Hreach Hl Hen.
  destruct (actions_enabled_row _ _ _ Hen) as (r & Hr & Hid & Hst).
  destruct (fetchListings_rows db p0 r Hr) as [k Hk].
  destruct (reachable_map_wf db Hreach k r Hk) as [Hkid _].
  assert (l = r) as -> by congruence.
  split; intros l' Hl'; simpl in Hl';
    rewrite lookup_alter, Hl, decide_True in Hl' by done; simplify_eq/=;
    rewrite Hst; constructor.
Qed.

(** C8: the status guard lives only in the page, so a stale page breaks
    the spec's table: when admin A rejects a pending listing while admin
    B's page still shows it as pending, B's approve button stays enabled and
    turns the rejected listing into an approved one that still carries A's
    rejection reason; [rejected -> approved] is not a spec transition. *)
Theorem stale_page_approves_rejected db brands pA pB (id : string) l (now text : string) :
  db !! id = Some l -> l_id l = id -> l_status l = pending_review ->
  status_matches (mp_statusFilter pB) l = true ->
  search_matches (mp_searchQuery pB) (brands !! l_brand_id l) l = true ->
  mp_updatingListing pB <> Some id ->
  text <> "" ->
  let pageB := fetchListings db pB in
  let db1 := (handleReject db (setRejectionReason text
                 (openRejectDialog id (fetchListings db pA)))).1 in
  actions_enabled brands pageB id = true /\
  (handleApprove id now db1 pageB).1 !! id =
    Some (approve_row now (reject_row (Some text) l)) /\
  l_rejection_reason (approve_row now (reject_row (Some text) l)) = Some text /\
  ~ spec_transition rejected approved.
Proof.
  intros Hl Hid Hst Hm Hs Hupd Htext pageB db1.
  split; [|split; [|split]].
  - unfold actions_enabled. apply andb_true_intro. split.
    + apply existsb_exists. exists l. split.
      * apply list_elem_of_In, list_elem_of_filter. split; [exact Hs|].
        by apply fetchListings_elem with id.
      * by apply bool_decide_eq_true_2.
    + by apply bool_decide_eq_true_2.
  - unfold db1. simpl. rewrite decide_False by done.
    by rewrite !lookup_alter_eq, Hl.
  - reflexivity.
  - inversion 1.
Qed.

(** Switching the status select away from the pending queue and back
    can leave the pending queue listing rows of another status: when the
    fetch for the other status answers last, its rows replace the pending
    ones with no fetch in flight, while the select shows [pending_review].
    The buttons' status guard keeps them inert: no approve or reject
    action is offered for such a row. *)
Theorem moderation_filter_race db brands id l s :
  db !! id = Some l -> l_status l = s -> s <> pending_review ->
  exists c, star (moderation_step db) moderation_init c /\
    mp_statusFilter (ac_page c) = Some pending_review /\ ac_pending c = [] /\
    l ∈ admin_filteredListings brands (ac_page c) /\ actions_enabled brands (ac_page c) (l_id l) = false.
Proof.
  intros Hl Hs Hne. eexists. split.
  - apply (async_late_answer _ _ _ _ (Some pending_review) (Some s) (Some pending_review) pending_queue);
      congruence.
  - simpl. split; [done|]. split; [done|]. split.
    + apply list_elem_of_filter. split; [apply search_matches_empty|].
      apply list_elem_of_filter. split; [subst; by apply bool_decide_eq_true_2|].
      apply list_elem_of_fmap. exists (id, l). split; [done|]. by apply elem_of_map_to_list.
    + apply andb_false_intro1, Bool.not_true_iff_false. intros (x & Hx & Hb)%existsb_exists.
      apply bool_decide_eq_true_1 in Hb as [_ Hb].
      apply list_elem_of_In, list_elem_of_filter in Hx as [_ Hx].
      apply list_elem_of_filter in Hx as [Hx _]. apply bool_decide_eq_true_1 in Hx. congruence.
Qed.

(** ** Witnesses *)

Lemma ex_table_reachable : star code_step ∅ ex_table.
Proof. apply star_one. apply cs_create with 2026%Z; reflexivity. Qed.

Lemma reachable_listings_wf_witness : listing_wf "L1" (new_listing "L1" "seller" ex_form).
Proof.
  apply (reachable_listings_wf ex_table "L1" (new_listing "L1" "seller" ex_form)).
  - exact ex_table_reachable.
  - reflexivity.
Defined.

Lemma fresh_page_refines_spec_witness :
  spec_transition pending_review
    (l_status (approve_row "2026-11-09" (new_listing "L1" "seller" ex_form))).
Proof.
  apply (proj1 (fresh_page_refines_spec ex_table ∅ ex_page "L1" (new_listing "L1" "seller" ex_form)
                  "2026-11-09" "blurry caseback" ex_table_reachable eq_refl
                  ltac:(vm_compute; reflexivity))).
  vm_compute. reflexivity.
Defined.

Lemma stale_page_approves_rejected_witness :
  l_status (approve_row "2026-11-09" (reject_row (Some "serial mismatch")
              (new_listing "L1" "seller" ex_form))) = approved /\
  ~ spec_transition rejected approved.
Proof.
  destruct (stale_page_approves_rejected ex_table ∅ ex_page ex_page "L1"
              (new_listing "L1" "seller" ex_form) "2026-11-09" "serial mismatch")
    as (_ & _ & _ & Hnot); try reflexivity; try discriminate.
  split; [reflexivity | exact Hnot].
Defined.

Lemma moderation_filter_race_witness :
  exists c, star (moderation_step ex_approved_table) moderation_init c /\
    mp_statusFilter (ac_page c) = Some pending_review /\
    approve_row "2026-11-09" (new_listing "L1" "seller" ex_form) ∈ admin_filteredListings ∅ (ac_page c).
Proof.
  destruct (moderation_filter_race ex_approved_table ∅ "L1"
              (approve_row "2026-11-09" (new_listing "L1" "seller" ex_form)) approved)
    as (c & Hst & Hf & _ & Hin & _); [reflexivity | reflexivity | discriminate |].
  exists c. split; [exact Hst | split; [exact Hf | exact Hin]].
Defined.
