(* ===== verification/Checkout.v ===== *)
(** * Checkout: the create-checkout edge function

    src/supabase/functions/create-checkout/index.ts as a function from the
    request, the environment (the Stripe key, the answers of the auth
    service and of Stripe) and the database to the HTTP response and the
    parameters of the Stripe Checkout session it creates.  The commission
    rate comes from the [CommissionSource] interface (Fees.v), which stands
    for [supabase.rpc("get_commission_rate")]; the theorems about amounts
    are proved against that interface.

    The guards are modelled in the code's order, each [throw new Error(m)]
    as [Err m], which the [catch] turns into a 500 response with body
    [{ error: m }].  The function writes nothing to the database.  The
    guards test JavaScript truthiness, so an empty key or header counts as
    missing ([truthy]).  The body is taken as parsed ([req.json()] failing
    on a body that is not JSON is not modelled), and listing ids are taken
    to be well-formed: the database's type error on an id that is not a
    uuid ("Failed to fetch listing: ...") is not modelled. *)

From S2P Require Import Prelude Accounts Fees Listings.

Local Open Scope string_scope.
Local Open Scope list_scope.

(** ** Inputs and outputs *)

Record Request := mkRequest {
  req_method : string;
  req_authorization : option string;   (* the Authorization header *)
  req_origin : option string;          (* the origin header *)
  req_listing_id : option string       (* body.listingId *)
}.

(** The user returned by [supabase.auth.getUser]. *)
Record AuthUser := mkAuthUser { au_id : string; au_email : option string }.

(** What the environment and the external services answer. *)
Record CheckoutEnv := mkEnv {
  env_stripe_key : option string;
  (* auth.getUser(token): an error message, or the user (maybe null) *)
  env_get_user : string -> result string (option AuthUser);
  (* stripe.customers.list({ email, limit: 1 }): the customers' ids *)
  env_customers : string -> list string
}.

(** The tables the function reads. *)
Record CheckoutDb := mkCheckoutDb {
  cdb_listings : gmap string Listing;
  cdb_brands : gmap string string      (* brands.id -> brands.name *)
}.

(** The arguments of [stripe.checkout.sessions.create] (lines 108-137). *)
Record SessionParams := mkSession {
  sp_customer : option string;
  sp_customer_email : option string;
  sp_currency : string;
  sp_product_name : string;
  sp_description : string;
  sp_product_listing_id : string;
  sp_product_seller_id : string;
  sp_unit_amount : Z;
  sp_quantity : nat;
  sp_success_url : string;
  sp_cancel_url : string;
  sp_meta_listing_id : string;
  sp_meta_buyer_id : string;
  sp_meta_seller_id : string;
  sp_meta_commission_amount : Q
}.

Inductive ResponseBody :=
| RNull
| RSession (url session_id : string)
| RError (msg : string).

Record Response := mkResponse { resp_status : Z; resp_body : ResponseBody }.

(** ** Pieces of the handler *)

(** [authHeader.replace("Bearer ", "")] (line 37). *)
Definition bearer_token (auth : string) : string := js_replace_first "Bearer " "" auth.

(** [if (!user?.email) throw ...] (line 41): the user and a non-empty
    e-mail. *)
Definition user_with_email (u : option AuthUser) : option (AuthUser * string) :=
  match u with
  | Some au =>
      match au_email au with
      | Some e => if decide (e = "") then None else Some (au, e)
      | None => None
      end
  | None => None
  end.

(** [if (!listingId) throw ...] (line 45). *)
Definition listing_id_given (o : option string) : option string :=
  match o with Some id => if decide (id = "") then None else Some id | None => None end.

(** The query of lines 49-63: the row with this id, if its status is
    [approved]. *)
Definition approved_listing (db : CheckoutDb) (id : string) : option Listing :=
  match cdb_listings db !! id with
  | Some l => if decide (l_status l = approved) then Some l else None
  | None => None
  end.

(** Lines 70-78: ["Watch"] unless the listing has a brand whose row is
    found. *)
Definition brand_name (db : CheckoutDb) (l : Listing) : string :=
  if decide (l_brand_id l = "") then "Watch"
  else default "Watch" (cdb_brands db !! l_brand_id l).

(** [commissionData || 0.035] (line 90): [null] and [0] both fall back to
    3.5%. *)
Definition checkout_rate (data : option Q) : Q :=
  match data with
  | Some r => if Qeq_bool r 0 then 35 # 1000 else r
  | None => 35 # 1000
  end.

(** [Math.round(price * rate * 100) / 100] (line 91). *)
Definition commission_amount (price rate : Q) : Q :=
  (js_round (price * rate * 100) # 100)%Q.

(** [Math.round(listing.asking_price * 100)] (line 123), in cents. *)
Definition unit_amount (price : Q) : Z := js_round (price * 100)%Q.

Definition default_origin : string := "https://luxe-keeper-platform.lovable.app".

(** ** The handler *)

Section Handler.
Context `{CommissionSource}.

(** Lines 20-137: the guards in order, then the session parameters. *)
Definition checkout_session (env : CheckoutEnv) (db : CheckoutDb) (req : Request)
    : result string SessionParams :=
  _ ← required (truthy (env_stripe_key env)) "STRIPE_SECRET_KEY is not set";
  auth ← required (truthy (req_authorization req)) "No authorization header provided";
  u ← match env_get_user env (bearer_token auth) with
      | Ok u => Ok u
      | Err m => Err ("Authentication error: " +:+ m)
      end;
  '(user, email) ← required (user_with_email u) "User not authenticated or email not available";
  listingId ← required (listing_id_given (req_listing_id req)) "Listing ID is required";
  listing ← required (approved_listing db listingId)
              "Listing not found or not available for purchase";
  let brandName := brand_name db listing in
  check (negb (bool_decide (l_seller_id listing = au_id user)))
    "You cannot purchase your own listing";;
  let rate := checkout_rate (get_commission_rate (l_seller_id listing)) in
  let commission := commission_amount (l_asking_price listing) rate in
  let customerId := head (env_customers env email) in
  let origin := default default_origin (truthy (req_origin req)) in
  mret (mkSession customerId
          (match customerId with Some _ => None | None => Some email end)
          (str_lower (l_currency listing))
          (brandName +:+ " " +:+ l_model listing)
          ("Ref. " +:+ l_reference_number listing)
          (l_id listing) (l_seller_id listing)
          (unit_amount (l_asking_price listing)) 1
          (origin +:+ "/checkout/success?session_id={CHECKOUT_SESSION_ID}&listing_id=" +:+ l_id listing)
          (origin +:+ "/listing/" +:+ l_id listing +:+ "?checkout=cancelled")
          (l_id listing) (au_id user) (l_seller_id listing) commission).

(** The whole function (lines 15-153): the CORS preflight, then the
    session or the error; [create_session] stands for Stripe's answer
    (the session's url and id). *)
Definition create_checkout (create_session : SessionParams -> string * string)
    (env : CheckoutEnv) (db : CheckoutDb) (req : Request) : Response :=
  if decide (req_method req = "OPTIONS") then mkResponse 200 RNull
  else match checkout_session env db req with
       | Ok sp => let '(url, sid) := create_session sp in mkResponse 200 (RSession url sid)
       | Err m => mkResponse 500 (RError m)
       end.
End Handler.

(** ** Example data for the witnesses *)

Definition ex_listing : Listing :=
  mkListing "L1" "seller" "b1" "Submariner Date" "126610LN" None (Some 2023%Z) None excellent
    true true 14800 "USD" None approved (Some "2026-01-05") None None.

Definition ex_pending : Listing :=
  mkListing "L2" "seller" "b1" "Daytona" "126500LN" None None None unworn
    true true 29500 "USD" None pending_review None None None.

Definition ex_db : CheckoutDb :=
  mkCheckoutDb (<["L2" := ex_pending]> {["L1" := ex_listing]}) {["b1" := "Rolex"]}.

Definition ex_buyer : AuthUser := mkAuthUser "buyer" (Some "buyer@example.com").
Definition ex_seller : AuthUser := mkAuthUser "seller" (Some "seller@example.com").

Definition ex_env : CheckoutEnv :=
  mkEnv (Some "sk_test")
    (fun tok => if decide (tok = "tok-buyer") then Ok (Some ex_buyer)
                else if decide (tok = "tok-seller") then Ok (Some ex_seller)
                else Err "invalid JWT")
    (fun _ => []).

Definition ex_req (tok listing : string) : Request :=
  mkRequest "POST" (Some ("Bearer " +:+ tok)) None (Some listing).

Definition ex_mk (sp : SessionParams) : string * string :=
  ("https://checkout.stripe.com/c/pay/cs_test", "cs_test").

(** A Certified Partner seller under the spec's fee policy. *)
Definition ex_source : CommissionSource :=
  fee_source [mkRoleRow "seller" super_seller] ∅ (mkPolicy false None) 0.

(** ** Lemmas *)

(** The guards of lines 23-66 pass, with this user and this listing. *)
Definition guards_pass (env : CheckoutEnv) (db : CheckoutDb) (req : Request)
    (user : AuthUser) (email : string) (l : Listing) : Prop :=
  is_Some (truthy (env_stripe_key env)) /\
  (exists auth u, truthy (req_authorization req) = Some auth /\
     env_get_user env (bearer_token auth) = Ok u /\ user_with_email u = Some (user, email)) /\
  (exists id, listing_id_given (req_listing_id req) = Some id /\ approved_listing db id = Some l).

Lemma guards_pass_unfold `{CommissionSource} env db req user email l :
  guards_pass env db req user email l ->
  checkout_session env db req =
    (check (negb (bool_decide (l_seller_id l = au_id user))) "You cannot purchase your own listing";;
     let rate := checkout_rate (get_commission_rate (l_seller_id l)) in
     let customerId := head (env_customers env email) in
     let origin := default default_origin (truthy (req_origin req)) in
     mret (mkSession customerId
            (match customerId with Some _ => None | None => Some email end)
            (str_lower (l_currency l)) (brand_name db l +:+ " " +:+ l_model l)
            ("Ref. " +:+ l_reference_number l) (l_id l) (l_seller_id l)
            (unit_amount (l_asking_price l)) 1
            (origin +:+ "/checkout/success?session_id={CHECKOUT_SESSION_ID}&listing_id=" +:+ l_id l)
            (origin +:+ "/listing/" +:+ l_id l +:+ "?checkout=cancelled")
            (l_id l) (au_id user) (l_seller_id l) (commission_amount (l_asking_price l) rate))).
Proof.
  intros ([k Hk] & (auth & u & Ha & Hu & Hue) & (id & Hid & Hl)).
  unfold checkout_session. rewrite Hk, Ha. simpl. rewrite Hu. simpl.
  rewrite Hue. simpl. rewrite Hid. simpl. rewrite Hl. reflexivity.
Qed.

Lemma checkout_rate_bounds `{CommissionSource} u :
  (0 <= checkout_rate (get_commission_rate u) <= 1)%Q.
Proof.
  unfold checkout_rate. destruct (get_commission_rate u) as [r|] eqn:E.
  - destruct (Qeq_bool r 0); [split; vm_compute; discriminate|].
    by apply (get_commission_rate_bounds u).
  - split; vm_compute; discriminate.
Qed.

(** [commission_amount] is the rounding of [price * rate] to cents. *)
Lemma commission_amount_cents (price rate : Q) :
  (100 * commission_amount price rate == inject_Z (js_round (price * rate * 100)))%Q.
Proof. unfold commission_amount, Qeq, inject_Z. simpl. lia. Qed.

Lemma commission_amount_bounds (price rate : Q) :
  (price * rate - (1 # 200) < commission_amount price rate <= price * rate + (1 # 200))%Q.
Proof.
  pose proof (js_round_lower (price * rate * 100)) as Hlo.
  pose proof (js_round_upper (price * rate * 100)) as Hhi.
  pose proof (commission_amount_cents price rate) as Hc.
  split; lra.
Qed.

Lemma unit_amount_covers_commission (price rate : Q) :
  (0 <= price)%Q -> (0 <= rate <= 1)%Q ->
  (0 <= js_round (price * rate * 100) <= unit_amount price)%Z.
Proof.
  intros Hp [Hr0 Hr1]. unfold unit_amount. split.
  - apply js_round_nonneg. apply Qmult_le_0_compat; [apply Qmult_le_0_compat|]; lra.
  - apply js_round_mono. nra.
Qed.

(** The session a passing request gets, in the shape the properties use. *)
Lemma checkout_session_ok `{CommissionSource} mk env db req user email l :
  req_method req <> "OPTIONS" ->
  guards_pass env db req user email l -> l_seller_id l <> au_id user ->
  exists sp, checkout_session env db req = Ok sp /\
    resp_status (create_checkout mk env db req) = 200%Z /\
    sp_meta_listing_id sp = l_id l /\ sp_meta_buyer_id sp = au_id user.
Proof.
  intros Hm Hg Hne. unfold create_checkout. rewrite decide_False by done.
  rewrite (guards_pass_unfold env db req user email l Hg).
  rewrite bool_decide_eq_false_2 by done. simpl.
  eexists. split; [reflexivity|]. destruct (mk _). repeat split.
Qed.

(** The function's answer from the session computation. *)
Lemma create_checkout_Ok `{CommissionSource} mk env db req sp :
  req_method req <> "OPTIONS" -> checkout_session env db req = Ok sp ->
  create_checkout mk env db req = mkResponse 200 (RSession (mk sp).1 (mk sp).2).
Proof.
  intros Hm E. unfold create_checkout. rewrite decide_False by done. rewrite E.
  by destruct (mk sp).
Qed.

Lemma create_checkout_Err `{CommissionSource} mk env db req m :
  req_method req <> "OPTIONS" -> checkout_session env db req = Err m ->
  create_checkout mk env db req = mkResponse 500 (RError m).
Proof. intros Hm E. unfold create_checkout. rewrite decide_False by done. by rewrite E. Qed.

(** ** Properties *)

Section Properties.
Context `{CS : CommissionSource}.

(** C2: when every guard passes and the buyer is not the seller, the
    function answers 200 with the Stripe session, and the session charges
    the listing's price in cents, [Math.round(price * 100)], records the
    commission [Math.round(price * rate * 100) / 100] for the seller's
    rate (3.5% when the rate is missing or zero), and names the listing,
    the buyer and the seller. *)
Theorem create_checkout_success mk env db req user email l :
  req_method req <> "OPTIONS" ->
  guards_pass env db req user email l ->
  l_seller_id l <> au_id user ->
  exists sp, checkout_session env db req = Ok sp /\
    create_checkout mk env db req = mkResponse 200 (RSession (mk sp).1 (mk sp).2) /\
    sp_unit_amount sp = js_round (l_asking_price l * 100)%Q /\
    sp_meta_commission_amount sp =
      (js_round (l_asking_price l * checkout_rate (get_commission_rate (l_seller_id l)) * 100)
         # 100)%Q /\
    sp_quantity sp = 1%nat /\ sp_currency sp = str_lower (l_currency l) /\
    sp_meta_listing_id sp = l_id l /\ sp_meta_buyer_id sp = au_id user /\
    sp_meta_seller_id sp = l_seller_id l.
Proof.
  intros Hm Hg Hne. rewrite (guards_pass_unfold env db req user email l Hg).
  rewrite bool_decide_eq_false_2 by done. simpl.
  eexists. split; [reflexivity|]. unfold create_checkout.
  rewrite decide_False by done. rewrite (guards_pass_unfold env db req user email l Hg).
  rewrite bool_decide_eq_false_2 by done. simpl.
  destruct (mk _) as [url sid]. repeat split.
Qed.

(** C4: a buyer who is the listing's seller gets the distinct error "You
    cannot purchase your own listing", with status 500, and no session is
    created. *)
Theorem create_checkout_self_purchase mk env db req user email l :
  req_method req <> "OPTIONS" ->
  guards_pass env db req user email l ->
  l_seller_id l = au_id user ->
  checkout_session env db req = Err "You cannot purchase your own listing" /\
  create_checkout mk env db req = mkResponse 500 (RError "You cannot purchase your own listing").
Proof.
  intros Hm Hg Heq.
  assert (checkout_session env db req = Err "You cannot purchase your own listing") as Hs.
  { rewrite (guards_pass_unfold env db req user email l Hg).
    by rewrite bool_decide_eq_true_2. }
  split; [exact Hs|]. unfold create_checkout. by rewrite decide_False, Hs.
Qed.

(** C5: a listing whose status is not [approved] cannot be bought: the
    function answers 500 "Listing not found or not available for purchase"
    whoever asks. *)
Theorem create_checkout_not_approved mk env db req auth u user email id l :
  req_method req <> "OPTIONS" ->
  is_Some (truthy (env_stripe_key env)) -> truthy (req_authorization req) = Some auth ->
  env_get_user env (bearer_token auth) = Ok u -> user_with_email u = Some (user, email) ->
  listing_id_given (req_listing_id req) = Some id ->
  cdb_listings db !! id = Some l -> l_status l <> approved ->
  create_checkout mk env db req =
    mkResponse 500 (RError "Listing not found or not available for purchase").
Proof.
  intros Hm [k Hk] Ha Hu Hue Hid Hl Hst.
  unfold create_checkout. rewrite decide_False by done.
  unfold checkout_session. rewrite Hk, Ha. simpl. rewrite Hu. simpl. rewrite Hue. simpl.
  rewrite Hid. simpl. unfold approved_listing. rewrite Hl, decide_False by done. reflexivity.
Qed.

(** C3: the commission of a session is within half a cent of
    [price * rate], is never negative, and never exceeds the amount
    charged, for any listing price that is not negative. *)
Theorem checkout_commission_bounds env db req user email l sp :
  guards_pass env db req user email l ->
  checkout_session env db req = Ok sp ->
  (0 <= l_asking_price l)%Q ->
  let rate := checkout_rate (get_commission_rate (l_seller_id l)) in
  (l_asking_price l * rate - (1 # 200) < sp_meta_commission_amount sp
     <= l_asking_price l * rate + (1 # 200))%Q /\
  (0 <= 100 * sp_meta_commission_amount sp <= inject_Z (sp_unit_amount sp))%Q.
Proof.
  intros Hg Hs Hp rate. rewrite (guards_pass_unfold env db req user email l Hg) in Hs.
  destruct (bool_decide _); simpl in Hs; [discriminate|]. injection Hs as <-. simpl.
  split; [apply commission_amount_bounds|].
  rewrite commission_amount_cents.
  destruct (unit_amount_covers_commission (l_asking_price l) rate Hp
              (checkout_rate_bounds (l_seller_id l))) as [H0 H1].
  split; [change 0%Q with (inject_Z 0); rewrite <- Zle_Qle; exact H0|].
  rewrite <- Zle_Qle. exact H1.
Qed.
End Properties.

(** C1: [commissionData || 0.035] treats a rate of 0 as missing: a Certified
    Partner ([super_seller]), whose rate under the spec's resolver is 0 in
    every fee policy, is recorded a 3.5% commission on every sale, at least
    3.50 on any listing the form accepts (price 100 or more). *)
Theorem checkout_certified_partner_charged roles profiles policy now env db req user email l sp :
  role_of (l_seller_id l) roles = Some super_seller ->
  guards_pass env db req user email l ->
  @checkout_session (fee_source roles profiles policy now) env db req = Ok sp ->
  fee_rate roles profiles policy now (l_seller_id l) = Some 0%Q /\
  sp_meta_commission_amount sp = commission_amount (l_asking_price l) (35 # 1000) /\
  ((100 <= l_asking_price l)%Q -> ((7 # 2) - (1 # 200) < sp_meta_commission_amount sp)%Q).
Proof.
  intros Hrole Hg Hs.
  assert (fee_rate roles profiles policy now (l_seller_id l) = Some 0%Q) as Hrate
    by (unfold fee_rate, seller_tier; by rewrite Hrole).
  rewrite (@guards_pass_unfold (fee_source roles profiles policy now) env db req user email l Hg) in Hs.
  destruct (bool_decide _); simpl in Hs; [discriminate|]. injection Hs as <-. simpl.
  rewrite Hrate. split; [done|]. split; [reflexivity|].
  intros Hp. change (checkout_rate (Some 0%Q)) with (35 # 1000)%Q.
  pose proof (commission_amount_bounds (l_asking_price l) (35 # 1000)) as [Hlo _].
  lra.
Qed.

(** The spec's settlement scenarios at the code's arithmetic: a Verified
    Dealer's 10,000 sale at 2.5% gives a commission of 250.00 and proceeds
    of 9,750.00; a 14,800 sale at 3.5% gives 518.00, not the 370.00 that
    spec section 8 states (370.00 is 2.5%). *)
Theorem settlement_examples :
  (commission_amount 10000 (25 # 1000) == 250)%Q /\
  (10000 - commission_amount 10000 (25 # 1000) == 9750)%Q /\
  (commission_amount 14800 (35 # 1000) == 518)%Q /\
  ~ (commission_amount 14800 (35 # 1000) == 370)%Q /\
  (commission_amount 14800 (25 # 1000) == 370)%Q /\
  unit_amount 14800 = 1480000%Z.
Proof. vm_compute. repeat split; discriminate. Qed.

(** The token given to the auth service is the header with its
    "Bearer " prefix removed. *)
Theorem bearer_token_roundtrip t : bearer_token ("Bearer " +:+ t) = t.
Proof. apply js_replace_first_prefix. discriminate. Qed.

(** ** Witnesses *)

Lemma guards_pass_ex tok user email :
  ex_env.(env_get_user) tok = Ok (Some user) -> au_email user = Some email -> email <> "" ->
  guards_pass ex_env ex_db (ex_req tok "L1") user email ex_listing.
Proof.
  intros Hu He Hne. split; [eexists; reflexivity|]. split.
  - exists ("Bearer " +:+ tok), (Some user). split; [reflexivity|]. split.
    + unfold bearer_token. rewrite js_replace_first_prefix by discriminate. exact Hu.
    + simpl. rewrite He. by rewrite decide_False.
  - exists "L1". split; reflexivity.
Qed.

Lemma checkout_certified_partner_charged_witness :
  fee_rate [mkRoleRow "seller" super_seller] ∅ (mkPolicy false None) 0 "seller" = Some 0%Q /\
  (exists sp, @checkout_session ex_source ex_env ex_db (ex_req "tok-buyer" "L1") = Ok sp /\
     sp_meta_commission_amount sp = commission_amount 14800 (35 # 1000)).
Proof.
  assert (Hs : exists sp, @checkout_session ex_source ex_env ex_db (ex_req "tok-buyer" "L1") = Ok sp)
    by (eexists; vm_compute; reflexivity).
  destruct Hs as [sp Hs].
  destruct (checkout_certified_partner_charged [mkRoleRow "seller" super_seller] ∅
              (mkPolicy false None) 0 ex_env ex_db (ex_req "tok-buyer" "L1") ex_buyer
              "buyer@example.com" ex_listing sp) as [H1 [H2 _]].
  - reflexivity.
  - by apply guards_pass_ex.
  - exact Hs.
  - split; [exact H1 | exists sp; split; [exact Hs | exact H2]].
Defined.

Lemma create_checkout_success_witness :
  exists sp, @checkout_session ex_source ex_env ex_db (ex_req "tok-buyer" "L1") = Ok sp /\
    sp_unit_amount sp = 1480000%Z /\ sp_meta_buyer_id sp = "buyer".
Proof.
  destruct (@create_checkout_success ex_source ex_mk ex_env ex_db (ex_req "tok-buyer" "L1")
              ex_buyer "buyer@example.com" ex_listing)
    as (sp & Hs & _ & Hu & _ & _ & _ & _ & Hb & _).
  - discriminate.
  - by apply guards_pass_ex.
  - discriminate.
  - exists sp. split; [exact Hs|]. split; [rewrite Hu; reflexivity | exact Hb].
Defined.

Lemma checkout_commission_bounds_witness :
  exists sp, @checkout_session ex_source ex_env ex_db (ex_req "tok-buyer" "L1") = Ok sp /\
    (0 <= 100 * sp_meta_commission_amount sp <= inject_Z (sp_unit_amount sp))%Q.
Proof.
  assert (Hs : exists sp, @checkout_session ex_source ex_env ex_db (ex_req "tok-buyer" "L1") = Ok sp)
    by (eexists; vm_compute; reflexivity).
  destruct Hs as [sp Hs]. exists sp. split; [exact Hs|].
  apply (@checkout_commission_bounds ex_source ex_env ex_db (ex_req "tok-buyer" "L1") ex_buyer
           "buyer@example.com" ex_listing sp).
  - by apply guards_pass_ex.
  - exact Hs.
  - vm_compute. discriminate.
Defined.

Lemma create_checkout_self_purchase_witness :
  create_checkout (H := ex_source) ex_mk ex_env ex_db (ex_req "tok-seller" "L1") =
    mkResponse 500 (RError "You cannot purchase your own listing").
Proof.
  apply (@create_checkout_self_purchase ex_source ex_mk ex_env ex_db (ex_req "tok-seller" "L1")
           ex_seller "seller@example.com" ex_listing).
  - discriminate.
  - by apply guards_pass_ex.
  - reflexivity.
Defined.

Lemma create_checkout_not_approved_witness :
  create_checkout (H := ex_source) ex_mk ex_env ex_db (ex_req "tok-buyer" "L2") =
    mkResponse 500 (RError "Listing not found or not available for purchase").
Proof.
  apply (@create_checkout_not_approved ex_source ex_mk ex_env ex_db (ex_req "tok-buyer" "L2")
           ("Bearer " +:+ "tok-buyer") (Some ex_buyer) ex_buyer "buyer@example.com" "L2" ex_pending).
  - discriminate.
  - eexists; reflexivity.
  - reflexivity.
  - unfold bearer_token. rewrite js_replace_first_prefix by discriminate. reflexivity.
  - reflexivity.
  - reflexivity.
  - reflexivity.
  - discriminate.
Defined.
