(* ===== verification/Price.v ===== *)
(** * Price: numbers and prices as the pages print them

    The pages print a listing's price with [formatPrice], an
    [Intl.NumberFormat('en-US', { style: 'currency', currency, ... })].
    Browse.tsx (lines 137-144), ListingDetail.tsx (lines 176-183) and
    CheckoutSuccess.tsx (lines 56-63) ask for whole units
    ([maximumFractionDigits: 0]); AdminListings.tsx (lines 186-192) only
    sets [minimumFractionDigits: 0] and so keeps up to the currency's two
    minor digits.  The listing form offers four currencies (CreateListing.tsx
    lines 46-51, [CURRENCIES]); for them the en-US data gives the prefixes
    "$", "€", "£" and "CHF" followed by a no-break space, and two minor
    digits.  Other currency codes depend on the locale data and give
    [None].  Rounding is [halfExpand] (ties away from zero), the default
    of [Intl.NumberFormat]; the integer part is grouped by threes with
    commas.  Numbers are exact rationals: the binary rounding of a
    JavaScript number is not modelled (Prelude.v).

    [String(n)] of an integer (the template literals of ListingDetail.tsx)
    is [Z_to_dec]. *)

From S2P Require Import Prelude Listings Checkout.

Local Open Scope string_scope.
Local Open Scope list_scope.

(** ** Decimal digits *)

Fixpoint uint_to_string (d : Decimal.uint) : string :=
  match d with
  | Decimal.Nil => EmptyString
  | Decimal.D0 d => String (Ascii.ascii_of_nat 48) (uint_to_string d)
  | Decimal.D1 d => String (Ascii.ascii_of_nat 49) (uint_to_string d)
  | Decimal.D2 d => String (Ascii.ascii_of_nat 50) (uint_to_string d)
  | Decimal.D3 d => String (Ascii.ascii_of_nat 51) (uint_to_string d)
  | Decimal.D4 d => String (Ascii.ascii_of_nat 52) (uint_to_string d)
  | Decimal.D5 d => String (Ascii.ascii_of_nat 53) (uint_to_string d)
  | Decimal.D6 d => String (Ascii.ascii_of_nat 54) (uint_to_string d)
  | Decimal.D7 d => String (Ascii.ascii_of_nat 55) (uint_to_string d)
  | Decimal.D8 d => String (Ascii.ascii_of_nat 56) (uint_to_string d)
  | Decimal.D9 d => String (Ascii.ascii_of_nat 57) (uint_to_string d)
  end.

(** [String(n)] of an integer. *)
Definition Z_to_dec (z : Z) : string :=
  match Z.to_int z with
  | Decimal.Pos d => uint_to_string d
  | Decimal.Neg d => String (Ascii.ascii_of_nat 45) (uint_to_string d)
  end.

(** ** [Intl.NumberFormat] for the form's currencies *)

(** [CURRENCIES] (CreateListing.tsx lines 46-51): value and label. *)
Definition CURRENCIES : list (string * string) :=
  [("USD", "USD ($)"); ("EUR", "EUR (€)"); ("GBP", "GBP (£)"); ("CHF", "CHF")].

Definition nbsp : string := String (Ascii.ascii_of_nat 194) (String (Ascii.ascii_of_nat 160) EmptyString).

(** The en-US prefix of a currency. *)
Definition currency_prefix (c : string) : option string :=
  if decide (c = "USD") then Some "$"
  else if decide (c = "EUR") then Some "€"
  else if decide (c = "GBP") then Some "£"
  else if decide (c = "CHF") then Some ("CHF" +:+ nbsp)
  else None.

(** Digits grouped by threes from the right, on the reversed digits. *)
Fixpoint group3 (ds : list Ascii.ascii) : list Ascii.ascii :=
  match ds with
  | a :: b :: c :: (_ :: _) as rest => a :: b :: c :: Ascii.ascii_of_nat 44 :: group3 rest
  | _ => ds
  end.

Definition group_thousands (s : string) : string :=
  String.string_of_list_ascii (rev (group3 (rev (String.list_ascii_of_string s)))).

(** [halfExpand] rounding of [x] to a multiple of [1/scale]: the number
    of [1/scale] units. *)
Definition round_half_expand (scale : Z) (x : Q) : Z :=
  if Qle_bool 0 x then js_round (x * inject_Z scale)%Q
  else (- js_round (- x * inject_Z scale))%Z.

(** [formatPrice] with [maximumFractionDigits: 0] (Browse, ListingDetail,
    CheckoutSuccess). *)
Definition formatPrice0 (price : Q) (currency : string) : option string :=
  (fun pre =>
     let n := round_half_expand 1 price in
     (if Qle_bool 0 price then "" else "-") +:+ pre +:+ group_thousands (Z_to_dec (Z.abs n)))
    <$> currency_prefix currency.

(** The minor digits of a number of cents, with [minimumFractionDigits: 0]:
    trailing zeros are dropped. *)
Definition cents_text (c : Z) : string :=
  if decide (c = 0)%Z then ""
  else if decide (Z.modulo c 10 = 0)%Z then "." +:+ Z_to_dec (c / 10)
  else "." +:+ (if decide (c < 10)%Z then "0" else "") +:+ Z_to_dec c.

(** [formatPrice] of AdminListings.tsx: up to two minor digits. *)
Definition formatPrice2 (price : Q) (currency : string) : option string :=
  (fun pre =>
     let n := Z.abs (round_half_expand 100 price) in
     (if Qle_bool 0 price then "" else "-") +:+ pre +:+
       group_thousands (Z_to_dec (n / 100)) +:+ cents_text (Z.modulo n 100))
    <$> currency_prefix currency.

(** ** Lemmas *)

Lemma Z_le_of_Q_lt (z k : Z) : (inject_Z z < inject_Z k + 1)%Q -> (z <= k)%Z.
Proof.
  intros H. assert (z < k + 1)%Z; [|lia].
  rewrite Zlt_Qlt, inject_Z_plus. exact H.
Qed.

(** The whole units and the cents of one price, both rounded half up,
    are at most half a unit apart. *)
Lemma round_units_cents_close (price : Q) :
  (Z.abs (100 * js_round (price * inject_Z 1) - js_round (price * 100)) <= 50)%Z.
Proof.
  change (inject_Z 1) with 1%Q.
  pose proof (js_round_upper (price * 1)) as H1. pose proof (js_round_lower (price * 1)) as H2.
  pose proof (js_round_upper (price * 100)) as H3. pose proof (js_round_lower (price * 100)) as H4.
  set (n := js_round (price * 1)) in *. set (u := js_round (price * 100)) in *.
  apply Z.abs_le. split.
  - enough (u - 100 * n <= 50)%Z by lia. apply Z_le_of_Q_lt.
    unfold Z.sub. rewrite inject_Z_plus, inject_Z_opp, inject_Z_mult. change (inject_Z 100) with 100%Q.
    change (inject_Z 50) with 50%Q. lra.
  - apply Z_le_of_Q_lt.
    unfold Z.sub. rewrite inject_Z_plus, inject_Z_opp, inject_Z_mult. change (inject_Z 100) with 100%Q.
    change (inject_Z 50) with 50%Q. lra.
Qed.

(** ** Properties *)

(** C14: the price a buyer sees is the price charged, to half a unit.  On
    the browse grid, the listing page and its purchase button, a
    non-negative price in one of the form's currencies is printed as its
    prefix and a whole number of units [n], grouped by threes; the
    session create-checkout opens charges [unit_amount] cents of the same
    price, and [100 * n] differs from it by at most 50 cents. *)
Theorem shown_price_charge_bound price c s :
  (0 <= price)%Q -> formatPrice0 price c = Some s ->
  exists pre n, currency_prefix c = Some pre /\ s = pre +:+ group_thousands (Z_to_dec n) /\
    (0 <= n)%Z /\ (Z.abs (100 * n - unit_amount price) <= 50)%Z.
Proof.
  intros Hp Hs. unfold formatPrice0 in Hs.
  destruct (currency_prefix c) as [pre|] eqn:Hc; [|discriminate].
  injection Hs as <-. unfold round_half_expand.
  assert (Qle_bool 0 price = true) as Hb by (by apply Qle_bool_iff). rewrite Hb.
  exists pre, (js_round (price * inject_Z 1)).
  pose proof (js_round_nonneg (price * inject_Z 1)) as Hn.
  split; [done|]. split; [rewrite Z.abs_eq; [done | apply Hn; change (inject_Z 1) with 1%Q; lra]|].
  split; [apply Hn; change (inject_Z 1) with 1%Q; lra | apply round_units_cents_close].
Qed.

(** ** Witnesses *)

Lemma shown_price_charge_bound_witness :
  formatPrice0 (125005 # 10) "USD" = Some "$12,501" /\ unit_amount (125005 # 10) = 1250050%Z.
Proof.
  split; [reflexivity|].
  destruct (shown_price_charge_bound (125005 # 10) "USD" "$12,501") as (pre & n & _ & _ & _ & _);
    [unfold Qle; simpl; lia | reflexivity |].
  reflexivity.
Defined.
