(* ===== verification/NumberInput.v ===== *)
(** * NumberInput: JavaScript's number parsing and the form's number inputs

    The listing form (src/src/pages/CreateListing.tsx) has three
    [<Input type="number">]s: the two years (lines 369-413) hand
    [e.target.value ? parseInt(e.target.value) : undefined] to the form,
    the asking price (lines 493-511) [parseFloat] instead, and each shows
    [field.value || ''].  This file holds:
    - [js_parseInt] and [js_parseFloat], after ECMAScript's [parseInt]
      (radix left undefined) and [parseFloat]: leading white space, a
      sign, the longest prefix of the number's syntax, [NaN] when there
      is none; [parseFloat] also reads [Infinity];
    - [valid_float_text], the HTML "valid floating-point number", and
      [html_float_value], its value: a number input's [value] is the
      empty string or such a text (the browser's value sanitization);
    - [InputNum], what the form holds for a number field ([undefined],
      [NaN], an infinity or a number), the inputs' [onChange] and what
      they show.

    Numbers are exact ([Z], [Q]): the rounding of a double and the
    overflow of a very long digit string to [Infinity] are not modelled.
    White space is the ASCII white space of ECMAScript's [WhiteSpace] and
    [LineTerminator]; the other Unicode spaces are not modelled. *)

From S2P Require Import Prelude Price.
From Stdlib Require DecimalPos.

Local Open Scope string_scope.
Local Open Scope list_scope.

(** ** Scanning *)

Definition digit_of (c : Ascii.ascii) : option nat :=
  let n := Ascii.nat_of_ascii c in
  if (48 <=? n)%nat && (n <=? 57)%nat then Some (n - 48)%nat else None.

Definition hex_digit_of (c : Ascii.ascii) : option nat :=
  let n := Ascii.nat_of_ascii c in
  if (48 <=? n)%nat && (n <=? 57)%nat then Some (n - 48)%nat
  else if (97 <=? n)%nat && (n <=? 102)%nat then Some (n - 87)%nat
  else if (65 <=? n)%nat && (n <=? 70)%nat then Some (n - 55)%nat
  else None.

(** The longest prefix of digits, and the rest. *)
Fixpoint take_digits (dig : Ascii.ascii -> option nat) (s : string) : list nat * string :=
  match s with
  | String c r =>
      match dig c with
      | Some d => let '(ds, r') := take_digits dig r in (d :: ds, r')
      | None => ([], s)
      end
  | EmptyString => ([], EmptyString)
  end.

(** The digits read most significant first. *)
Definition digits_value (base : Z) (ds : list nat) : Z :=
  fold_left (fun acc d => base * acc + Z.of_nat d)%Z ds 0%Z.

(** Tab, line feed, vertical tab, form feed, carriage return, space. *)
Definition is_js_space (c : Ascii.ascii) : bool :=
  let n := Ascii.nat_of_ascii c in ((9 <=? n)%nat && (n <=? 13)%nat) || (n =? 32)%nat.

Fixpoint trim_start (s : string) : string :=
  match s with
  | String c r => if is_js_space c then trim_start r else s
  | EmptyString => EmptyString
  end.

Definition char_is (n : nat) (c : Ascii.ascii) : bool := (Ascii.nat_of_ascii c =? n)%nat.

(** An optional [-] (true) or [+]. *)
Definition take_sign (s : string) : bool * string :=
  match s with
  | String c r => if char_is 45 c then (true, r) else if char_is 43 c then (false, r) else (false, s)
  | EmptyString => (false, s)
  end.

Definition signed (neg : bool) (z : Z) : Z := if neg then (- z)%Z else z.

(** ** [parseInt] and [parseFloat] *)

(** A JavaScript number as the parsers return it. *)
Inductive JSNum := JNaN | JInf (neg : bool) | JFin (q : Q).

(** [parseInt] after the sign: [0x] or [0X] selects base 16, otherwise
    base 10; the longest prefix of digits, [None] ([NaN]) when empty. *)
Definition parse_int_body (neg : bool) (s1 : string) : option Z :=
  let '(base, dig, s2) :=
    match s1 with
    | String c (String x r) =>
        if char_is 48 c && (char_is 120 x || char_is 88 x) then (16%Z, hex_digit_of, r)
        else (10%Z, digit_of, s1)
    | _ => (10%Z, digit_of, s1)
    end in
  match take_digits dig s2 with
  | ([], _) => None
  | (ds, _) => Some (signed neg (digits_value base ds))
  end.

(** [parseInt(s)]: [None] is [NaN]. *)
Definition js_parseInt (s : string) : option Z :=
  let '(neg, s1) := take_sign (trim_start s) in parse_int_body neg s1.

(** [ip.fp] times ten to the [e]. *)
Definition decimal_value (ip fp : list nat) (e : Z) : Q :=
  (inject_Z (digits_value 10 (ip ++ fp)) / inject_Z (10 ^ Z.of_nat (length fp)) * Qpower 10 e)%Q.

(** The exponent part [e] or [E], a sign and digits; 0 when absent. *)
Definition take_exponent (s : string) : Z :=
  match s with
  | String c r =>
      if char_is 101 c || char_is 69 c then
        let '(neg, r1) := take_sign r in
        match take_digits digit_of r1 with
        | ([], _) => 0%Z
        | (ds, _) => signed neg (digits_value 10 ds)
        end
      else 0%Z
  | EmptyString => 0%Z
  end.

Definition take_fraction (s : string) : list nat * string :=
  match s with
  | String c r => if char_is 46 c then take_digits digit_of r else ([], s)
  | EmptyString => ([], s)
  end.

Definition Qsigned (neg : bool) (q : Q) : Q := if neg then (- q)%Q else q.

(** [parseFloat(s)]. *)
Definition js_parseFloat (s : string) : JSNum :=
  let '(neg, s1) := take_sign (trim_start s) in
  if String.prefix "Infinity" s1 then JInf neg else
  let '(ip, r1) := take_digits digit_of s1 in
  let '(fp, r2) := take_fraction r1 in
  match ip, fp with
  | [], [] => JNaN
  | _, _ => JFin (Qsigned neg (decimal_value ip fp (take_exponent r2)))
  end.

(** ** The HTML number input *)

(** The optional exponent of a valid floating-point number, to the end. *)
Definition exponent_ok (s : string) : bool :=
  match s with
  | EmptyString => true
  | String c r =>
      (char_is 101 c || char_is 69 c) &&
      (let r1 := match r with
                 | String c' r' => if char_is 45 c' || char_is 43 c' then r' else r
                 | EmptyString => r
                 end in
       match take_digits digit_of r1 with
       | ([], _) => false
       | (_, rest) => String.eqb rest ""
       end)
  end.

Definition strip_minus (s : string) : bool * string :=
  match s with
  | String c r => if char_is 45 c then (true, r) else (false, s)
  | EmptyString => (false, s)
  end.

(** A valid floating-point number without its sign: digits, a [.] and
    digits, or both, and an optional exponent. *)
Definition valid_unsigned (s : string) : bool :=
  let '(ip, r1) := take_digits digit_of s in
  match r1 with
  | String c r =>
      if char_is 46 c then
        let '(fp, r2) := take_digits digit_of r in
        negb (bool_decide (fp = [])) && exponent_ok r2
      else negb (bool_decide (ip = [])) && exponent_ok r1
  | EmptyString => negb (bool_decide (ip = []))
  end.

(** A valid floating-point number: an optional [-], then the above. *)
Definition valid_float_text (s : string) : bool := valid_unsigned (strip_minus s).2.

(** The value of a valid floating-point number (the HTML rules for parsing
    floating-point number values). *)
Definition html_float_value (s : string) : Q :=
  let '(neg, s1) := strip_minus s in
  let '(ip, r1) := take_digits digit_of s1 in
  let '(fp, r2) := take_fraction r1 in
  Qsigned neg (decimal_value ip fp (take_exponent r2)).

(** The [value] of an [<input type="number">]: empty or a valid number. *)
Definition number_input_value_ok (s : string) : bool := String.eqb s "" || valid_float_text s.

(** ** The form's number fields *)

(** What react-hook-form holds for a number field. *)
Inductive InputNum (A : Type) := Undef | NaN | Inf (neg : bool) | Num (a : A).
Arguments Undef {A}. Arguments NaN {A}. Arguments Inf {A} _. Arguments Num {A} _.

(** The years' [onChange] (lines 380 and 403). *)
Definition year_input_change (text : string) : InputNum Z :=
  if String.eqb text "" then Undef
  else match js_parseInt text with Some y => Num y | None => NaN end.

(** The price's [onChange] (line 504). *)
Definition price_input_change (text : string) : InputNum Q :=
  if String.eqb text "" then Undef
  else match js_parseFloat text with JFin q => Num q | JInf neg => Inf neg | JNaN => NaN end.

(** [value={field.value || ''}] of a year: [undefined], [NaN] and [0] are
    falsy and show as the empty input. *)
Definition year_display (v : InputNum Z) : string :=
  match v with
  | Num y => if Z.eqb y 0 then "" else Z_to_dec y
  | Inf neg => if neg then "-Infinity" else "Infinity"
  | _ => ""
  end.

(** [z.number().optional()] and [z.number()] (lines 58-59 and 63):
    [undefined] passes only the optional one; [NaN] is refused; so are the
    infinities (zod 4, and never produced by the inputs, see
    [price_input_finite]). *)
Definition zod_optional_number {A} (v : InputNum A) : option (option A) :=
  match v with Undef => Some None | Num a => Some (Some a) | _ => None end.

Definition zod_number {A} (v : InputNum A) : option A :=
  match v with Num a => Some a | _ => None end.

(** ** Lemmas *)

(** The first character of an unsigned valid number is a digit or [.]. *)
Lemma valid_unsigned_head s :
  valid_unsigned s = true -> exists c r, s = String c r /\ (is_Some (digit_of c) \/ char_is 46 c = true).
Proof.
  destruct s as [|c r]; [done|]. intros Hv. exists c, r. split; [done|].
  destruct (digit_of c) eqn:Hd; [by left; eauto|right].
  unfold valid_unsigned in Hv. simpl in Hv. rewrite Hd in Hv.
  destruct (char_is 46 c); [done|]. by rewrite bool_decide_eq_true_2 in Hv.
Qed.

(** Such a character is no space, no sign and no [I]. *)
Lemma number_head_facts c :
  is_Some (digit_of c) \/ char_is 46 c = true ->
  is_js_space c = false /\ char_is 45 c = false /\ char_is 43 c = false /\ c <> Ascii.ascii_of_nat 73.
Proof.
  intros H. assert (Hn : (48 <= Ascii.nat_of_ascii c <= 57 \/ Ascii.nat_of_ascii c = 46)%nat).
  { unfold digit_of, char_is in H. destruct H as [[d Hd]|H]; [left | right; by apply Nat.eqb_eq].
    destruct (48 <=? _)%nat eqn:E1, (_ <=? 57)%nat eqn:E2; simpl in Hd; try discriminate.
    apply Nat.leb_le in E1, E2. lia. }
  unfold is_js_space, char_is. split_and!.
  - apply Bool.not_true_iff_false. rewrite orb_true_iff, andb_true_iff, !Nat.leb_le, Nat.eqb_eq. lia.
  - apply Nat.eqb_neq. lia.
  - apply Nat.eqb_neq. lia.
  - intros ->. vm_compute in Hn. lia.
Qed.

Lemma prefix_Infinity_head c r : c <> Ascii.ascii_of_nat 73 -> String.prefix "Infinity" (String c r) = false.
Proof.
  intros Hc. cbn -[Ascii.ascii_dec]. destruct (Ascii.ascii_dec _ c) as [E|E]; [|done].
  exfalso. apply Hc. rewrite <- E. reflexivity.
Qed.

(** A valid number's sign is read alike by [parseFloat] and the HTML rules. *)
Lemma valid_sign s neg s1 :
  strip_minus s = (neg, s1) -> valid_unsigned s1 = true ->
  take_sign (trim_start s) = (neg, s1) /\ String.prefix "Infinity" s1 = false.
Proof.
  intros Hm Hv. destruct (valid_unsigned_head _ Hv) as (c & r & -> & Hc).
  destruct (number_head_facts _ Hc) as (Hsp & H45 & H43 & HI).
  split; [|by apply prefix_Infinity_head].
  destruct s as [|c0 s0]; simpl in Hm; [discriminate|].
  destruct (char_is 45 c0) eqn:E0; inversion Hm; subst.
  - assert (is_js_space c0 = false) as Hs0.
    { unfold char_is in E0. apply Nat.eqb_eq in E0. unfold is_js_space. rewrite E0. reflexivity. }
    simpl. rewrite Hs0. simpl. by rewrite E0.
  - simpl. rewrite Hsp. simpl. by rewrite H45, H43.
Qed.

(** A valid unsigned number has digits before or after its point. *)
Lemma valid_unsigned_digits s ip r1 fp r2 :
  valid_unsigned s = true -> take_digits digit_of s = (ip, r1) -> take_fraction r1 = (fp, r2) ->
  ip <> [] \/ fp <> [].
Proof.
  unfold valid_unsigned. intros Hv Ht Hf. rewrite Ht in Hv.
  destruct r1 as [|c r]; simpl in Hf.
  - injection Hf as <- <-. left. intros ->. done.
  - destruct (char_is 46 c).
    + rewrite Hf in Hv. right. intros ->. done.
    + injection Hf as <- <-. left. intros ->. done.
Qed.


Lemma char_is_eq n c : char_is n c = true -> c = Ascii.ascii_of_nat n.
Proof.
  unfold char_is. intros H%Nat.eqb_eq. rewrite <- H. symmetry. apply Ascii.ascii_nat_embedding.
Qed.

(** A valid number never starts with the [0x] that switches [parseInt]
    to hexadecimal. *)
Lemma valid_unsigned_no_hex c x r :
  valid_unsigned (String c (String x r)) = true -> char_is 48 c = true ->
  char_is 120 x = false /\ char_is 88 x = false.
Proof.
  intros Hv ->%char_is_eq.
  split; apply Bool.not_true_iff_false; intros ->%char_is_eq; vm_compute in Hv; discriminate.
Qed.

(** The digits of [Z_to_dec] (Price.v) read back as the number. *)
Lemma uint_to_string_digits d :
  exists ds, take_digits digit_of (uint_to_string d) = (ds, "") /\
    (forall acc, Zpos (Pos.of_uint_acc d acc) = fold_left (fun a k => 10 * a + Z.of_nat k)%Z ds (Zpos acc)) /\
    Z.of_N (Pos.of_uint d) = digits_value 10 ds.
Proof.
  induction d as [|d IH|d IH|d IH|d IH|d IH|d IH|d IH|d IH|d IH|d IH];
    [exists []; split_and!; reflexivity|..];
    destruct IH as (ds & Ht & Hacc & H0);
    eexists; (split_and!; [simpl; rewrite Ht; reflexivity | intros acc; simpl; rewrite Hacc; f_equal; lia |
                          unfold digits_value in *; simpl; rewrite ?Hacc; try exact H0; reflexivity]).
Qed.

Lemma digit_of_range c d : digit_of c = Some d -> (48 <= Ascii.nat_of_ascii c <= 57)%nat.
Proof.
  unfold digit_of. destruct (48 <=? _)%nat eqn:E1, (_ <=? 57)%nat eqn:E2; simpl; try discriminate.
  intros _. apply Nat.leb_le in E1, E2. lia.
Qed.

Lemma take_digits_head dig c r ds : take_digits dig (String c r) = (ds, "") -> is_Some (dig c).
Proof. simpl. destruct (dig c); [eauto|discriminate]. Qed.

(** [parseInt] after the sign reads a string of decimal digits as its
    value. *)
Lemma parse_int_body_digits neg s ds :
  take_digits digit_of s = (ds, "") -> ds <> [] ->
  parse_int_body neg s = Some (signed neg (digits_value 10 ds)).
Proof.
  intros Ht Hds. destruct s as [|c [|x r]]; [simpl in Ht; by injection Ht as <- | |].
  - unfold parse_int_body. rewrite Ht. by destruct ds.
  - assert (is_Some (digit_of x)) as [dx Hx].
    { destruct (digit_of x) eqn:Ex; [eauto|]. simpl in Ht. rewrite Ex in Ht.
      destruct (digit_of c); discriminate. }
    apply digit_of_range in Hx. unfold parse_int_body.
    assert (char_is 120 x = false /\ char_is 88 x = false) as [-> ->]
      by (unfold char_is; split; apply Nat.eqb_neq; lia).
    rewrite andb_false_r, Ht. by destruct ds.
Qed.

(** [parseInt] of a string of decimal digits, with or without a [-]. *)
Lemma js_parseInt_digits s ds :
  take_digits digit_of s = (ds, "") -> ds <> [] ->
  js_parseInt s = Some (digits_value 10 ds) /\
  js_parseInt (String (Ascii.ascii_of_nat 45) s) = Some (- digits_value 10 ds)%Z.
Proof.
  intros Ht Hds. destruct s as [|c r]; [simpl in Ht; by injection Ht as <- |].
  destruct (number_head_facts c (or_introl (take_digits_head _ _ _ _ Ht))) as (Hsp & H45 & H43 & _).
  unfold js_parseInt. split.
  - simpl. rewrite Hsp. simpl. rewrite H45, H43. exact (parse_int_body_digits false _ _ Ht Hds).
  - exact (parse_int_body_digits true _ _ Ht Hds).
Qed.

(** [String(y)] of a positive [y] is its digits, which read back as [y]. *)
Lemma pos_to_dec_digits p :
  exists ds, take_digits digit_of (uint_to_string (Pos.to_uint p)) = (ds, "") /\ ds <> [] /\
    digits_value 10 ds = Zpos p.
Proof.
  destruct (uint_to_string_digits (Pos.to_uint p)) as (ds & Ht & _ & H0).
  rewrite DecimalPos.Unsigned.of_to in H0. exists ds. split_and!; [done | | done].
  intros ->. discriminate H0.
Qed.

(** [parseInt] reads back what [String] prints. *)
Lemma js_parseInt_Z_to_dec y : js_parseInt (Z_to_dec y) = Some y.
Proof.
  destruct y as [|p|p]; [reflexivity| |];
    destruct (pos_to_dec_digits p) as (ds & Ht & Hne & Hv);
    destruct (js_parseInt_digits _ _ Ht Hne) as [H1 H2]; unfold Z_to_dec; simpl.
  - by rewrite H1, Hv.
  - by rewrite H2, Hv.
Qed.

(** A string of decimal digits is an unsigned valid number. *)
Lemma digits_valid s ds :
  take_digits digit_of s = (ds, "") -> ds <> [] ->
  strip_minus s = (false, s) /\ valid_unsigned s = true.
Proof.
  intros Ht Hne. split; [|unfold valid_unsigned; rewrite Ht; by destruct ds].
  destruct s as [|c r]; [simpl in Ht; by injection Ht as <-|].
  destruct (number_head_facts c (or_introl (take_digits_head _ _ _ _ Ht))) as (_ & H45 & _).
  cbn [strip_minus]. by rewrite H45.
Qed.

(** What [String] prints of a non-zero integer is a valid number, and not
    empty. *)
Lemma Z_to_dec_valid y : y <> 0%Z -> valid_float_text (Z_to_dec y) = true /\ Z_to_dec y <> "".
Proof.
  intros Hy. destruct y as [|p|p]; [done| |];
    destruct (pos_to_dec_digits p) as (ds & Ht & Hne & _);
    destruct (digits_valid _ _ Ht Hne) as [Hm Hv]; unfold Z_to_dec, valid_float_text; simpl.
  - rewrite Hm. split; [done|]. intros E. rewrite E in Ht. simpl in Ht. by injection Ht as <-.
  - unfold char_is. simpl. done.
Qed.

(** [parseFloat] of a valid number is its HTML value. *)
Lemma parseFloat_html_value s : valid_float_text s = true -> js_parseFloat s = JFin (html_float_value s).
Proof.
  unfold valid_float_text, js_parseFloat, html_float_value.
  destruct (strip_minus s) as [neg s1] eqn:Hm. simpl. intros Hv.
  destruct (valid_sign s neg s1 Hm Hv) as [-> ->].
  destruct (take_digits digit_of s1) as [ip r1] eqn:Ht. destruct (take_fraction r1) as [fp r2] eqn:Hf.
  destruct (valid_unsigned_digits _ _ _ _ _ Hv Ht Hf); destruct ip, fp; done.
Qed.

(** ** Properties *)

(** C38: the price field holds exactly the number its input holds.  A
    number input's value is empty or a valid floating-point number; for
    such a value the price's [onChange] gives [undefined] for the empty
    input and otherwise the input's number: [parseFloat] agrees with the
    HTML value on every valid text, so the field is never [NaN] or
    infinite. *)
Theorem price_input_matches_value s :
  number_input_value_ok s = true ->
  price_input_change s = if String.eqb s "" then Undef else Num (html_float_value s).
Proof.
  unfold number_input_value_ok, price_input_change. intros Hs.
  destruct (String.eqb_spec s "") as [_|Hne]; [done|].
  simpl in Hs. by rewrite parseFloat_html_value.
Qed.

(** A year typed with a fraction or an exponent is cut at it.  For a
    valid number the years' [onChange] keeps only the digits before the
    point or the exponent, with the sign: [2e3] (2000 in the input) gives
    2, [2023.9] gives 2023, and a number without such digits, [.5], gives
    [NaN]. *)
Theorem year_input_integer_part s :
  valid_float_text s = true ->
  year_input_change s =
    let '(neg, s1) := strip_minus s in
    match take_digits digit_of s1 with
    | ([], _) => NaN
    | (ip, _) => Num (signed neg (digits_value 10 ip))
    end.
Proof.
  unfold valid_float_text, year_input_change, js_parseInt.
  destruct (strip_minus s) as [neg s1] eqn:Hm. simpl. intros Hv.
  destruct (String.eqb_spec s "") as [->|_]; [by injection Hm as <- <-|].
  destruct (valid_sign s neg s1 Hm Hv) as [-> _].
  assert (parse_int_body neg s1 =
          match take_digits digit_of s1 with ([], _) => None | (ip, _) => Some (signed neg (digits_value 10 ip)) end)
    as ->.
  { unfold parse_int_body. destruct s1 as [|c [|x r]]; [done..|].
    destruct (char_is 48 c) eqn:Hc; [|done].
    by destruct (valid_unsigned_no_hex c x r Hv Hc) as [-> ->]. }
  by destruct (take_digits digit_of s1) as [[|d ds] r1].
Qed.

(** C39: a year round-trips through its input, except 0.  Whatever year
    the field holds, [field.value || ''] shows a value the number input
    accepts, and the [onChange] of that text gives the same year back; a
    year of 0 is shown as the empty input, whose [onChange] gives
    [undefined]. *)
Theorem year_display_roundtrip y :
  number_input_value_ok (year_display (Num y)) = true /\
  year_input_change (year_display (Num y)) = (if Z.eqb y 0 then Undef else Num y).
Proof.
  destruct (Z.eqb_spec y 0) as [->|Hy]; [done|].
  destruct (Z_to_dec_valid y Hy) as [Hv Hne].
  unfold year_display, number_input_value_ok, year_input_change.
  apply Z.eqb_neq in Hy. rewrite Hy, Hv, orb_true_r.
  apply String.eqb_neq in Hne. by rewrite Hne, js_parseInt_Z_to_dec.
Qed.

(** ** Witnesses *)

Lemma price_input_matches_value_witness :
  price_input_change "1.48e4" = Num (html_float_value "1.48e4") /\ (html_float_value "1.48e4" == 14800)%Q.
Proof. split; [exact (price_input_matches_value "1.48e4" eq_refl) | reflexivity]. Defined.

Lemma year_input_integer_part_witness :
  year_input_change "2e3" = Num 2%Z /\ (html_float_value "2e3" == 2000)%Q /\ year_input_change ".5" = NaN.
Proof.
  split_and!; [exact (year_input_integer_part "2e3" eq_refl) | reflexivity |
               exact (year_input_integer_part ".5" eq_refl)].
Defined.

Lemma year_display_roundtrip_witness :
  year_input_change (year_display (Num 2023%Z)) = Num 2023%Z /\
  year_input_change (year_display (Num 0%Z)) = Undef.
Proof. split; [exact (proj2 (year_display_roundtrip 2023)) | exact (proj2 (year_display_roundtrip 0))]. Defined.
