(* ===== verification/ModerationTable.v ===== *)
(** * ModerationTable: what the admin's moderation tab shows, and its error paths

    src/src/components/admin/AdminListings.tsx around the handlers of
    Moderation.v: the status select's options (lines 39-47), the badge of a
    status (lines 175-183) and its label ([status.replace('_', ' ')], line
    283), the rows of the table with their approve and reject buttons
    (lines 253-327), the reject dialog's buttons (lines 332-361), and the
    outcome of [handleApprove] and [handleReject] when the update answers
    an error (lines 125-131 and 161-167).

    [loading] is the page's own [useState]; it only chooses the table's
    first row, so it is an argument of [moderation_table] rather than a
    field of [ModerationPage].  The price cell is [formatPrice2] of
    Price.v; the date cell ([toLocaleDateString]) depends on the browser's
    locale and time zone and is left out. *)

From S2P Require Import Prelude Accounts Listings Moderation Price.

Local Open Scope string_scope.
Local Open Scope list_scope.

(** ** The table *)

(** The [listing_status] enum's values (types.ts). *)
Definition listing_status_str (s : listing_status) : string :=
  match s with
  | draft => "draft" | pending_review => "pending_review" | approved => "approved"
  | rejected => "rejected" | sold => "sold" | archived => "archived"
  end.

(** [STATUS_OPTIONS] (lines 39-47); [None] is ['all']. *)
Definition STATUS_OPTIONS : list (option listing_status * string) :=
  [(None, "All Statuses"); (Some pending_review, "Pending Review"); (Some approved, "Approved");
   (Some rejected, "Rejected"); (Some draft, "Draft"); (Some sold, "Sold");
   (Some archived, "Archived")].

Inductive BadgeVariant := badge_default | badge_secondary | badge_destructive | badge_outline.

(** [getStatusBadgeVariant] (lines 175-183). *)
Definition getStatusBadgeVariant (s : listing_status) : BadgeVariant :=
  match s with
  | approved => badge_default
  | pending_review => badge_secondary
  | rejected => badge_destructive
  | sold => badge_outline
  | _ => badge_outline
  end.

(** The badge's text (line 283): the first underscore becomes a space. *)
Definition status_label (s : listing_status) : string :=
  js_replace_first "_" " " (listing_status_str s).

(** A row of the table (lines 267-323). *)
Record RowView := mkRowView {
  rv_brand : option string;          (* listing.brand?.name *)
  rv_model : string;
  rv_reference : string;
  rv_price : option string;         (* formatPrice, two minor digits at most *)
  rv_status_label : string;
  rv_variant : BadgeVariant;
  rv_actions : bool;                 (* approve and reject shown, line 298 *)
  rv_actions_disabled : bool         (* updatingListing === listing.id, lines 304 and 314 *)
}.

Definition row_view (brands : gmap string string) (page : ModerationPage) (l : Listing) : RowView :=
  mkRowView (brands !! l_brand_id l) (l_model l) (l_reference_number l)
    (formatPrice2 (l_asking_price l) (l_currency l)) (status_label (l_status l)) (getStatusBadgeVariant (l_status l))
    (bool_decide (l_status l = pending_review))
    (bool_decide (mp_updatingListing page = Some (l_id l))).

Inductive TableBody := TLoading | TEmpty | TRows (rows : list RowView).

(** The table's body (lines 253-327): "Loading listings...", "No listings
    found", or a row per listing the search keeps. *)
Definition moderation_table (loading : bool) (brands : gmap string string) (page : ModerationPage)
    : TableBody :=
  if loading then TLoading else
  match admin_filteredListings brands page with
  | [] => TEmpty
  | ls => TRows (row_view brands page <$> ls)
  end.

(** ** The reject dialog *)

(** The Cancel button and the dialog's [onOpenChange] (lines 349 and 332):
    only [rejectDialogOpen] changes. *)
Definition closeRejectDialog (page : ModerationPage) : ModerationPage :=
  mkPage (mp_listings page) (mp_searchQuery page) (mp_statusFilter page) false
    (mp_rejectingListingId page) (mp_rejectionReason page) (mp_updatingListing page).

(** "Reject Listing" is disabled while any update runs (line 355). *)
Definition reject_button_disabled (page : ModerationPage) : bool :=
  bool_decide (mp_updatingListing page ≠ None).

(** ** The handlers with the outcome of their update *)

(** [handleApprove]: on success the row is approved and "Listing approved"
    is shown; on an error only [updatingListing] is reset ([finally]) and
    "Failed to approve listing" is shown. *)
Definition handleApprove_outcome (ok : bool) (id now : string) (db : gmap string Listing)
    (page : ModerationPage) : (gmap string Listing * ModerationPage) * list UiEffect :=
  if ok then (handleApprove id now db page, [Toast "Listing approved" "" false])
  else ((db, mkPage (mp_listings page) (mp_searchQuery page) (mp_statusFilter page)
               (mp_rejectDialogOpen page) (mp_rejectingListingId page) (mp_rejectionReason page) None),
        [Toast "Failed to approve listing" "" true]).

(** [handleReject]: nothing without a listing to reject (line 141); on
    success the row is rejected, the dialog closed and "Listing rejected"
    shown; on an error the dialog stays open, "Failed to reject listing" is
    shown, and [finally] resets both [updatingListing] and
    [rejectingListingId] (lines 164-167). *)
Definition handleReject_outcome (ok : bool) (db : gmap string Listing) (page : ModerationPage)
    : (gmap string Listing * ModerationPage) * list UiEffect :=
  match mp_rejectingListingId page with
  | None => ((db, page), [])
  | Some _ =>
      if ok then (handleReject db page, [Toast "Listing rejected" "" false])
      else ((db, mkPage (mp_listings page) (mp_searchQuery page) (mp_statusFilter page)
                   (mp_rejectDialogOpen page) None (mp_rejectionReason page) None),
            [Toast "Failed to reject listing" "" true])
  end.

(** ** Properties *)

(** The guard [actions_enabled] of Moderation.v is what the table shows:
    an enabled approve and reject pair for [id] exactly when a row for
    [id] kept by the search is rendered with its buttons shown and not
    disabled. *)
Theorem table_actions_enabled brands page id :
  actions_enabled brands page id = true <->
  exists l, l ∈ admin_filteredListings brands page /\ l_id l = id /\
    rv_actions (row_view brands page l) = true /\ rv_actions_disabled (row_view brands page l) = false.
Proof.
  unfold actions_enabled, row_view. simpl. rewrite andb_true_iff, existsb_exists.
  setoid_rewrite bool_decide_eq_true. setoid_rewrite bool_decide_eq_false.
  setoid_rewrite <- list_elem_of_In. split.
  - intros [(l & Hl & Hid & Hs) Hu]. exists l. subst id. auto.
  - intros (l & Hl & Hid & Hs & Hu). subst id. split; [exists l; auto | exact Hu].
Qed.

(** C23: a rejection that fails cannot be retried from the dialog.  When
    the update of [handleReject] answers an error, the admin sees "Failed
    to reject listing" with the dialog still open and its "Reject Listing"
    button enabled, but [finally] has cleared [rejectingListingId]: every
    further click returns at the guard of line 141, writing nothing and
    showing nothing, until the dialog is closed and opened again. *)
Theorem reject_retry_ignored db page id ok :
  mp_rejectingListingId page = Some id -> mp_rejectDialogOpen page = true ->
  let r := handleReject_outcome false db page in
  r.2 = [Toast "Failed to reject listing" "" true] /\ r.1.1 = db /\
  mp_rejectDialogOpen r.1.2 = true /\ reject_button_disabled r.1.2 = false /\
  handleReject_outcome ok r.1.1 r.1.2 = (r.1, []).
Proof.
  intros Hid Hopen r. unfold r, handleReject_outcome. rewrite Hid. simpl.
  split; [done|]. split; [done|]. split; [exact Hopen|]. split; [|done].
  reflexivity.
Qed.

(** ** Witnesses *)

Lemma reject_retry_ignored_witness :
  handleReject_outcome true ex_table
    (handleReject_outcome false ex_table (openRejectDialog "L1" ex_page)).1.2 =
  ((handleReject_outcome false ex_table (openRejectDialog "L1" ex_page)).1, []).
Proof.
  exact (proj2 (proj2 (proj2 (proj2
    (reject_retry_ignored ex_table (openRejectDialog "L1" ex_page) "L1" true eq_refl eq_refl))))).
Defined.
