(* ===== verification/ModerationFlow.v ===== *)
(** * ModerationFlow: the moderation tab with its requests in flight

    src/src/components/admin/AdminListings.tsx as a page whose handlers
    overlap: the fetch of the mount, of the status select and of the
    Refresh button (lines 69-106 and 200-207), [handleApprove] (lines
    108-132) and [handleReject] (lines 140-168), each split at its
    [await], with its failure and its toast, and the frame around the
    table (lines 193-252 and 330-364).  Moderation.v has the handlers
    as functions of the table and the page; ModerationTable.v what the
    table shows.

    As on the users tab (UsersPage.v), [setListings(listings.map(...))]
    writes the list of the render in which the admin clicked, and
    [updatingListing] names one listing: a handler in flight keeps its
    snapshot, and the first to finish re-enables the buttons of the
    others. *)

From S2P Require Import Prelude Accounts Fees Listings Moderation Price ModerationTable.

Local Open Scope string_scope.
Local Open Scope list_scope.

(** ** Configurations *)

Inductive ModTask :=
| MFetch (filt : option listing_status)                      (* lines 72-93 *)
| MApprove (id now : string) (snapshot : list Listing)       (* lines 111-117 *)
| MReject (id : string) (reason : string) (snapshot : list Listing).   (* lines 145-151 *)

Record ModConf := mkModConf {
  mc_db : gmap string Listing;
  mc_brands : gmap string string;
  mc_page : ModerationPage;
  mc_loading : bool;
  mc_pending : list ModTask;
  mc_toasts : list UiEffect
}.

Definition with_mod (c : ModConf) (db : gmap string Listing) (page : ModerationPage) (loading : bool)
    (pending : list ModTask) (toasts : list UiEffect) : ModConf :=
  mkModConf db (mc_brands c) page loading pending toasts.

(** The page's fields that the handlers set. *)
Definition page_with (page : ModerationPage) (listings : list Listing) (dialog : bool)
    (rejecting updating : option string) : ModerationPage :=
  mkPage listings (mp_searchQuery page) (mp_statusFilter page) dialog rejecting (mp_rejectionReason page)
    updating.

(** [useState(true)], the pending queue, and the mount effect's fetch. *)
Definition mod_init (db : gmap string Listing) (brands : gmap string string) : ModConf :=
  mkModConf db brands pending_queue true [MFetch (Some pending_review)] [].

(** ** The handlers up to their first [await] *)

(** [setLoading(true)] and the query sent, with the filter of this render. *)
Definition mod_start_fetch (c : ModConf) : ModConf :=
  with_mod c (mc_db c) (mc_page c) true (mc_pending c ++ [MFetch (mp_statusFilter (mc_page c))]) (mc_toasts c).

(** [setUpdatingListing(listingId)] and the update sent. *)
Definition approve_click (id now : string) (c : ModConf) : ModConf :=
  let p := mc_page c in
  with_mod c (mc_db c) (page_with p (mp_listings p) (mp_rejectDialogOpen p) (mp_rejectingListingId p) (Some id))
    (mc_loading c) (mc_pending c ++ [MApprove id now (mp_listings p)]) (mc_toasts c).

Definition reject_click (id : string) (c : ModConf) : ModConf :=
  let p := mc_page c in
  with_mod c (mc_db c) (page_with p (mp_listings p) (mp_rejectDialogOpen p) (mp_rejectingListingId p) (Some id))
    (mc_loading c) (mc_pending c ++ [MReject id (mp_rejectionReason p) (mp_listings p)]) (mc_toasts c).

(** ** The handlers after their [await] *)

Definition mod_resume (t : ModTask) (ok : bool) (c : ModConf) : ModConf :=
  let p := mc_page c in
  match t with
  | MFetch f =>
      if ok then with_mod c (mc_db c) (setListings (listings_query (mc_db c) f) p) false (mc_pending c) (mc_toasts c)
      else with_mod c (mc_db c) p false (mc_pending c) (mc_toasts c ++ [Toast "Failed to load listings" "" true])
  | MApprove id now snap =>
      if ok then
        with_mod c (alter (approve_row now) id (mc_db c))
          (page_with p (set_local_status id approved snap) (mp_rejectDialogOpen p) (mp_rejectingListingId p) None)
          (mc_loading c) (mc_pending c) (mc_toasts c ++ [Toast "Listing approved" "" false])
      else with_mod c (mc_db c) (page_with p (mp_listings p) (mp_rejectDialogOpen p) (mp_rejectingListingId p) None)
             (mc_loading c) (mc_pending c) (mc_toasts c ++ [Toast "Failed to approve listing" "" true])
  | MReject id reason snap =>
      (* [finally] clears both [updatingListing] and [rejectingListingId] *)
      if ok then
        with_mod c (alter (reject_row (if decide (reason = "") then None else Some reason)) id (mc_db c))
          (page_with p (set_local_status id rejected snap) false None None)
          (mc_loading c) (mc_pending c) (mc_toasts c ++ [Toast "Listing rejected" "" false])
      else with_mod c (mc_db c) (page_with p (mp_listings p) (mp_rejectDialogOpen p) None None)
             (mc_loading c) (mc_pending c) (mc_toasts c ++ [Toast "Failed to reject listing" "" true])
  end.

Definition mod_drop (pre post : list ModTask) (c : ModConf) : ModConf :=
  with_mod c (mc_db c) (mc_page c) (mc_loading c) (pre ++ post) (mc_toasts c).

(** ** The step relation

    The reject dialog is modal: while it is open only its own controls
    can be used. *)

Inductive mod_step : ModConf -> ModConf -> Prop :=
| ms_refresh c :                      (* Refresh, [disabled={loading}] (lines 200-207) *)
    mp_rejectDialogOpen (mc_page c) = false -> mc_loading c = false -> mod_step c (mod_start_fetch c)
| ms_status c s :                     (* the status select; the effect on [statusFilter] *)
    mp_rejectDialogOpen (mc_page c) = false -> s <> mp_statusFilter (mc_page c) ->
    mod_step c (mod_start_fetch (with_mod c (mc_db c) (setStatusFilter s (mc_page c)) (mc_loading c)
                                   (mc_pending c) (mc_toasts c)))
| ms_search c q :
    mp_rejectDialogOpen (mc_page c) = false ->
    mod_step c (with_mod c (mc_db c) (setSearchQuery q (mc_page c)) (mc_loading c) (mc_pending c) (mc_toasts c))
| ms_approve c id now :              (* Approve, shown and enabled on the row *)
    mp_rejectDialogOpen (mc_page c) = false -> mc_loading c = false -> actions_enabled (mc_brands c) (mc_page c) id = true ->
    mod_step c (approve_click id now c)
| ms_open_reject c id :
    mp_rejectDialogOpen (mc_page c) = false -> mc_loading c = false -> actions_enabled (mc_brands c) (mc_page c) id = true ->
    mod_step c (with_mod c (mc_db c) (openRejectDialog id (mc_page c)) (mc_loading c) (mc_pending c) (mc_toasts c))
| ms_reason c text :
    mp_rejectDialogOpen (mc_page c) = true ->
    mod_step c (with_mod c (mc_db c) (setRejectionReason text (mc_page c)) (mc_loading c) (mc_pending c) (mc_toasts c))
| ms_close c :                        (* Cancel, or the dialog's [onOpenChange] *)
    mp_rejectDialogOpen (mc_page c) = true ->
    mod_step c (with_mod c (mc_db c) (closeRejectDialog (mc_page c)) (mc_loading c) (mc_pending c) (mc_toasts c))
| ms_reject c id :                    (* Reject Listing in the open dialog *)
    mp_rejectDialogOpen (mc_page c) = true -> reject_button_disabled (mc_page c) = false ->
    mp_rejectingListingId (mc_page c) = Some id -> mod_step c (reject_click id c)
| ms_answer c pre t post ok :
    mc_pending c = pre ++ t :: post -> mod_step c (mod_resume t ok (mod_drop pre post c)).

(** ** The frame of the tab (lines 193-252 and 330-364) *)

Record ModHeader := mkModHeader {
  mh_title : string;
  mh_refresh_disabled : bool;
  mh_refresh_spinning : bool;
  mh_search_placeholder : string;
  mh_search_value : string;
  mh_status_value : option listing_status;
  mh_status_options : list (option listing_status * string);
  mh_columns : list string
}.

Definition mod_header (c : ModConf) : ModHeader :=
  mkModHeader "Listing Moderation" (mc_loading c) (mc_loading c) "Search by model, reference, or brand..."
    (mp_searchQuery (mc_page c)) (mp_statusFilter (mc_page c)) STATUS_OPTIONS
    ["Watch"; "Reference"; "Price"; "Status"; "Created"; "Actions"].

Record RejectDialogView := mkRejectDialogView {
  rd_open : bool;
  rd_title : string;
  rd_description : string;
  rd_placeholder : string;
  rd_reason : string;
  rd_reject_disabled : bool
}.

Definition reject_dialog_view (page : ModerationPage) : RejectDialogView :=
  mkRejectDialogView (mp_rejectDialogOpen page) "Reject Listing"
    "Provide a reason for rejecting this listing. This will be visible to the seller."
    "Enter rejection reason..." (mp_rejectionReason page) (reject_button_disabled page).

(** ** Lemmas *)


Lemma page_with_page_with p L d r u L' d' r' u' :
  page_with (page_with p L d r u) L' d' r' u' = page_with p L' d' r' u'.
Proof. done. Qed.

Lemma set_local_status_other id s rows l : l ∈ rows -> l_id l <> id -> l ∈ set_local_status id s rows.
Proof.
  intros Hl Hne. unfold set_local_status. apply list_elem_of_fmap. exists l.
  split; [by rewrite decide_False|done].
Qed.

(** A row whose buttons are enabled keeps them in a list that still
    holds it, whatever the other rows. *)
Lemma actions_enabled_keep brands page a L dlg rej upd :
  actions_enabled brands page a = true ->
  (forall l, l ∈ mp_listings page -> l_id l = a -> l ∈ L) ->
  actions_enabled brands (page_with page L dlg rej upd) a = bool_decide (upd <> Some a).
Proof.
  unfold actions_enabled, admin_filteredListings. intros [Hex _]%andb_prop HL.
  apply existsb_exists in Hex as (l & Hl & Hla). apply list_elem_of_In in Hl.
  apply bool_decide_eq_true in Hla as [Hid Hst].
  apply list_elem_of_filter in Hl as [Hs Hl]. simpl.
  replace (existsb _ _) with true; [done|]. symmetry. apply existsb_exists. exists l. split.
  - apply list_elem_of_In, list_elem_of_filter. split; [done|]. by apply HL.
  - by apply bool_decide_eq_true.
Qed.

Lemma actions_enabled_set_other brands page a b s dlg rej upd :
  a <> b -> actions_enabled brands page a = true ->
  actions_enabled brands (page_with page (set_local_status b s (mp_listings page)) dlg rej upd) a =
    bool_decide (upd <> Some a).
Proof.
  intros Hne Ha. apply actions_enabled_keep; [done|].
  intros l Hl <-. by apply set_local_status_other.
Qed.

(** ** Properties *)


(** Without overlap the tab does what Moderation.v's [handleApprove]
    does: from a state with nothing in flight, an approval that succeeds
    leaves the table and the page as [handleApprove] computes them. *)
Theorem approve_sequential c id now :
  mp_rejectDialogOpen (mc_page c) = false -> mc_loading c = false ->
  actions_enabled (mc_brands c) (mc_page c) id = true -> mc_pending c = [] ->
  exists c', star mod_step c c' /\ (mc_db c', mc_page c') = handleApprove id now (mc_db c) (mc_page c) /\
    mc_pending c' = [] /\ mc_toasts c' = mc_toasts c ++ [Toast "Listing approved" "" false].
Proof.
  intros Hd Hl Ha Hp. eexists. split.
  { eapply star_step; [by apply (ms_approve _ id now)|].
    eapply star_step; [eapply (ms_answer _ [] _ [] true); simpl; rewrite Hp; reflexivity|].
    apply star_refl. }
  simpl. done.
Qed.

(** ** Witnesses *)

Definition ex_two_table : gmap string Listing :=
  <["L1" := new_listing "L1" "seller" ex_form]> (<["L2" := new_listing "L2" "seller" ex_form]> ∅).

Definition ex_mod_conf : ModConf :=
  mkModConf ex_two_table ∅ (fetchListings ex_two_table pending_queue) false [] [].


Lemma approve_sequential_witness :
  exists c', star mod_step ex_mod_conf c' /\
    (mc_db c', mc_page c') = handleApprove "L1" "t1" ex_two_table (fetchListings ex_two_table pending_queue) /\
    mc_pending c' = [] /\ mc_toasts c' = [Toast "Listing approved" "" false].
Proof.
  exact (approve_sequential ex_mod_conf "L1" "t1" eq_refl eq_refl ltac:(vm_compute; reflexivity) eq_refl).
Defined.
