(* ===== verification/Kyc.v ===== *)
(** * Kyc: the identity-verification edge functions

    The three functions of src/supabase/functions/ that move a profile's
    [kyc_status]: create-verification-session (the user starts a Stripe
    Identity session), stripe-identity-webhook (Stripe reports the outcome)
    and check-verification-status (the page polls after the redirect back).
    The state [KycState] is the [profiles] table and Stripe's list of
    verification sessions, most recent first.  The functions' guards reuse
    the authentication pieces of Checkout.v (the same code is repeated in
    each function).  [kyc_step] is the step relation of all three handlers
    on any input, from which the status machine's reachable states are
    characterised.

    The database writes are taken to succeed (the webhook's
    "Failed to update profile" path is not modelled), the webhook's body is
    taken as parsed (a body that is not JSON makes [JSON.parse] throw), and
    the clock readings of one call are one value [kenv_now]
    (check-verification-status reads [new Date()] twice, lines 91 and 97,
    a few microseconds apart). *)

From S2P Require Import Prelude Accounts Checkout.

Local Open Scope string_scope.
Local Open Scope list_scope.

(** ** State *)

Inductive session_status := vs_requires_input | vs_processing | vs_verified | vs_canceled.

#[export] Instance session_status_eq_dec : EqDecision session_status.
Proof. solve_decision. Defined.

(** A Stripe Identity verification session: id, status, [metadata.user_id]. *)
Record VSession := mkVSession {
  vs_id : string;
  vs_status : session_status;
  vs_user_id : option string
}.

Record KycState := mkKycState {
  ks_profiles : gmap string Profile;
  ks_sessions : list VSession        (* most recent first *)
}.

(** The environment of a call: the Stripe key, the auth service, the id
    and url Stripe gives a new session, and the time. *)
Record KycEnv := mkKycEnv {
  kenv_stripe_key : option string;
  kenv_get_user : string -> result string (option AuthUser);
  kenv_new_session : string * string;  (* id, url *)
  kenv_now : string
}.

Inductive KycBody :=
| KNull
| KSession (url session_id : string)
| KStatus (status : verification_status) (verified_at : option string)
| KReceived (error : option string)
| KError (msg : string) (status : option verification_status).

Record KycResponse := mkKycResponse { kr_status : Z; kr_body : KycBody }.

Definition set_kyc (s : verification_status) (at_ : option string) (p : Profile) : Profile :=
  mkProfile (p_user_id p) (p_email p) (p_full_name p) s
    (match at_ with Some t => Some t | None => p_kyc_verified_at p end)
    (p_subscription_status p) (p_zero_fee_eligible p).

(** [update({ kyc_status: s, ... }).eq("user_id", uid)]. *)
Definition update_kyc (uid : string) (s : verification_status) (at_ : option string)
    (st : KycState) : KycState :=
  mkKycState (alter (set_kyc s at_) uid (ks_profiles st)) (ks_sessions st).

(** The common prefix of the functions: the key, the header, the user. *)
Definition authenticate (env : KycEnv) (req : Request) (no_user_msg : string)
    : result string AuthUser :=
  _ ← required (truthy (kenv_stripe_key env)) "STRIPE_SECRET_KEY is not set";
  auth ← required (truthy (req_authorization req)) "No authorization header provided";
  u ← match kenv_get_user env (bearer_token auth) with
      | Ok u => Ok u
      | Err m => Err ("Authentication error: " +:+ m)
      end;
  '(user, _) ← required (user_with_email u) no_user_msg;
  mret user.

Definition error_response (m : string) : KycResponse := mkKycResponse 500 (KError m None).

(** ** create-verification-session (index.ts lines 15-111) *)

Definition create_verification_session (env : KycEnv) (req : Request) (st : KycState)
    : KycResponse * KycState :=
  if decide (req_method req = "OPTIONS") then (mkKycResponse 200 KNull, st) else
  match authenticate env req "User not authenticated or email not available" with
  | Err m => (error_response m, st)
  | Ok user =>
      let uid := au_id user in
      if decide ((p_kyc_status <$> ks_profiles st !! uid) = Some verified)
      then (mkKycResponse 400 (KError "Already verified" (Some verified)), st)
      else
        let '(sid, url) := kenv_new_session env in
        let st1 := mkKycState (ks_profiles st)
                     (mkVSession sid vs_requires_input (Some uid) :: ks_sessions st) in
        (mkKycResponse 200 (KSession url sid), update_kyc uid pending None st1)
  end.

(** ** stripe-identity-webhook (index.ts lines 15-113) *)

(** The event, parsed from the body without checking its signature. *)
Record Event := mkEvent { ev_type : string; ev_session : VSession }.

Definition stripe_identity_webhook (env : KycEnv) (method : string) (ev : Event) (st : KycState)
    : KycResponse * KycState :=
  if decide (method = "OPTIONS") then (mkKycResponse 200 KNull, st) else
  match truthy (kenv_stripe_key env) with
  | None => (error_response "STRIPE_SECRET_KEY is not set", st)
  | Some _ =>
      let uid := truthy (vs_user_id (ev_session ev)) in
      if decide (ev_type ev = "identity.verification_session.verified") then
        match uid with
        | None => (mkKycResponse 200 (KReceived (Some "No user_id")), st)
        | Some u => (mkKycResponse 200 (KReceived None),
                     update_kyc u verified (Some (kenv_now env)) st)
        end
      else if decide (ev_type ev = "identity.verification_session.requires_input") then
        (mkKycResponse 200 (KReceived None),
         match uid with Some u => update_kyc u pending None st | None => st end)
      else if decide (ev_type ev = "identity.verification_session.canceled") then
        (mkKycResponse 200 (KReceived None),
         match uid with Some u => update_kyc u not_started None st | None => st end)
      else (mkKycResponse 200 (KReceived None), st)
  end.

(** ** check-verification-status (index.ts lines 15-136) *)

Definition check_verification_status (env : KycEnv) (req : Request) (st : KycState)
    : KycResponse * KycState :=
  if decide (req_method req = "OPTIONS") then (mkKycResponse 200 KNull, st) else
  match authenticate env req "User not authenticated" with
  | Err m => (error_response m, st)
  | Ok user =>
      let uid := au_id user in
      match ks_profiles st !! uid with
      | None => (error_response "Profile not found", st)
      | Some p =>
          match p_kyc_status p with
          | verified => (mkKycResponse 200 (KStatus verified (p_kyc_verified_at p)), st)
          | pending =>
              (* sessions.list({ limit: 1 }), then find the user's session *)
              match find (fun s => bool_decide (vs_user_id s = Some uid)) (take 1 (ks_sessions st)) with
              | Some s =>
                  if decide (vs_status s = vs_verified) then
                    (mkKycResponse 200 (KStatus verified (Some (kenv_now env))),
                     update_kyc uid verified (Some (kenv_now env)) st)
                  else if decide (vs_status s = vs_canceled) then
                    (mkKycResponse 200 (KStatus not_started None),
                     update_kyc uid not_started None st)
                  else (mkKycResponse 200 (KStatus pending None), st)
              | None => (mkKycResponse 200 (KStatus pending None), st)
              end
          | s => (mkKycResponse 200 (KStatus s None), st)
          end
      end
  end.

(** ** The status machine *)

(** Stripe moves its own sessions between statuses. *)
Definition stripe_updates (sid : string) (s : session_status) (st : KycState) : KycState :=
  mkKycState (ks_profiles st)
    (map (fun v => if decide (vs_id v = sid) then mkVSession (vs_id v) s (vs_user_id v) else v)
       (ks_sessions st)).

Inductive kyc_step : KycState -> KycState -> Prop :=
| ks_create env req st : kyc_step st (create_verification_session env req st).2
| ks_webhook env m ev st : kyc_step st (stripe_identity_webhook env m ev st).2
| ks_check env req st : kyc_step st (check_verification_status env req st).2
| ks_stripe sid s st : kyc_step st (stripe_updates sid s st).

(** A verified profile carries its verification time. *)
Definition verified_has_time (st : KycState) : Prop :=
  map_Forall (fun _ p => p_kyc_status p = verified -> p_kyc_verified_at p <> None) (ks_profiles st).

Definition no_rejected (st : KycState) : Prop :=
  map_Forall (fun _ p => p_kyc_status p <> rejected) (ks_profiles st).

(** ** Example data for the witnesses *)

Definition ex_profile (s : verification_status) : Profile :=
  mkProfile "u1" "u1@example.com" (Some "Ada Holder") s None None None.

Definition ex_kyc_state (s : verification_status) (sessions : list VSession) : KycState :=
  mkKycState {["u1" := ex_profile s]} sessions.

Definition ex_u1 : AuthUser := mkAuthUser "u1" (Some "u1@example.com").

Definition ex_kenv : KycEnv :=
  mkKycEnv (Some "sk_test")
    (fun tok => if decide (tok = "tok-u1") then Ok (Some ex_u1) else Err "invalid JWT")
    ("vs_1", "https://verify.stripe.com/start/vs_1") "2026-11-09T10:00:00Z".

Definition ex_kreq : Request := mkRequest "POST" (Some "Bearer tok-u1") None None.

(** ** Lemmas *)

(** The updates the handlers apply to a profile. *)
Definition allowed_update (s : verification_status) (at_ : option string) : Prop :=
  s <> rejected /\ (s = verified -> at_ <> None).

Definition profiles_updated (st st' : KycState) : Prop :=
  ks_profiles st' = ks_profiles st \/
  exists u s at_, allowed_update s at_ /\ ks_profiles st' = alter (set_kyc s at_) u (ks_profiles st).

Ltac solve_updated :=
  unfold profiles_updated, update_kyc; simpl;
  first [ left; reflexivity
        | right; do 3 eexists; split; [|reflexivity]; split; [discriminate | congruence] ].

Lemma create_updated env req st : profiles_updated st (create_verification_session env req st).2.
Proof.
  unfold create_verification_session.
  destruct (kenv_new_session env) as [sid url]. repeat case_match; simpl; solve_updated.
Qed.

Lemma webhook_updated env m ev st : profiles_updated st (stripe_identity_webhook env m ev st).2.
Proof. unfold stripe_identity_webhook. repeat case_match; simpl; solve_updated. Qed.

Lemma check_updated env req st : profiles_updated st (check_verification_status env req st).2.
Proof. unfold check_verification_status. repeat case_match; simpl; solve_updated. Qed.

Lemma kyc_step_updated st st' : kyc_step st st' -> profiles_updated st st'.
Proof.
  destruct 1; [apply create_updated | apply webhook_updated | apply check_updated | by left].
Qed.

(** A property of profiles that every allowed update keeps holds in every
    state reachable from a state where it holds. *)
Lemma kyc_reachable_pres (Q : Profile -> Prop) st st' :
  (forall p s at_, Q p -> allowed_update s at_ -> Q (set_kyc s at_ p)) ->
  star kyc_step st st' ->
  map_Forall (fun _ => Q) (ks_profiles st) -> map_Forall (fun _ => Q) (ks_profiles st').
Proof.
  intros HQ. apply (star_invariant kyc_step (fun st => map_Forall (fun _ => Q) (ks_profiles st))).
  intros s1 s2 H1 Hstep. destruct (kyc_step_updated s1 s2 Hstep) as [-> | (u & s & a & Ha & ->)];
    [exact H1|]. apply map_Forall_alter_pres; [|exact H1]. intros _ p Hp. by apply HQ.
Qed.

Lemma lookup_update_kyc u s at_ st :
  ks_profiles (update_kyc u s at_ st) !! u = set_kyc s at_ <$> ks_profiles st !! u.
Proof. apply lookup_alter_eq. Qed.

(** What starting a session does to a profile that is not verified. *)
Lemma create_session_effect env req st user p :
  req_method req <> "OPTIONS" ->
  authenticate env req "User not authenticated or email not available" = Ok user ->
  ks_profiles st !! au_id user = Some p -> p_kyc_status p <> verified ->
  let res := create_verification_session env req st in
  res.1 = mkKycResponse 200 (KSession (kenv_new_session env).2 (kenv_new_session env).1) /\
  ks_sessions res.2 =
    mkVSession (kenv_new_session env).1 vs_requires_input (Some (au_id user)) :: ks_sessions st /\
  p_kyc_status <$> ks_profiles res.2 !! au_id user = Some pending.
Proof.
  intros Hm Ha Hp Hs res. unfold res, create_verification_session.
  rewrite decide_False by done. rewrite Ha, Hp. simpl.
  rewrite decide_False by (intros [= ?]; done).
  destruct (kenv_new_session env) as [sid url]. simpl.
  rewrite lookup_alter_eq, Hp. auto.
Qed.

(** The status check on a pending profile whose user owns the most recent
    session, verified by Stripe. *)
Lemma check_verifies_head env req st user p s rest :
  req_method req <> "OPTIONS" ->
  authenticate env req "User not authenticated" = Ok user ->
  ks_profiles st !! au_id user = Some p -> p_kyc_status p = pending ->
  ks_sessions st = s :: rest -> vs_user_id s = Some (au_id user) -> vs_status s = vs_verified ->
  check_verification_status env req st =
    (mkKycResponse 200 (KStatus verified (Some (kenv_now env))),
     update_kyc (au_id user) verified (Some (kenv_now env)) st).
Proof.
  intros Hm Ha Hp Hs Hss Hu Hv. unfold check_verification_status.
  rewrite decide_False by done. rewrite Ha, Hp, Hs, Hss. simpl.
  rewrite bool_decide_eq_true_2 by done. simpl. by rewrite decide_True.
Qed.

(** Whatever status the check answers with is the profile's status after
    the call. *)
Lemma check_answer_is_profile env req st user s at_ :
  req_method req <> "OPTIONS" ->
  authenticate env req "User not authenticated" = Ok user ->
  kr_body (check_verification_status env req st).1 = KStatus s at_ ->
  p_kyc_status <$> ks_profiles (check_verification_status env req st).2 !! au_id user = Some s.
Proof.
  intros Hm Ha. unfold check_verification_status, error_response.
  rewrite decide_False by done. rewrite Ha.
  destruct (ks_profiles st !! au_id user) as [p|] eqn:Hp; simpl; [|discriminate].
  destruct (p_kyc_status p) eqn:Hs; simpl;
    repeat case_match; simpl; intros [= <- _]; rewrite ?lookup_alter_eq, Hp; simpl; congruence.
Qed.

(** For an authenticated user with a profile, the check answers 200 with a
    status. *)
Lemma check_answers_status env req st user p :
  req_method req <> "OPTIONS" ->
  authenticate env req "User not authenticated" = Ok user ->
  ks_profiles st !! au_id user = Some p ->
  exists s at_, (check_verification_status env req st).1 = mkKycResponse 200 (KStatus s at_).
Proof.
  intros Hm Ha Hp. unfold check_verification_status.
  rewrite decide_False by done. rewrite Ha, Hp. repeat case_match; simpl; eauto.
Qed.

(** A status the check answers with is the status of some profile of the
    table it leaves. *)
Lemma check_status_in_table env req st s at_ :
  kr_body (check_verification_status env req st).1 = KStatus s at_ ->
  exists u, p_kyc_status <$> ks_profiles (check_verification_status env req st).2 !! u = Some s.
Proof.
  destruct (decide (req_method req = "OPTIONS")) as [Hm|Hm].
  { unfold check_verification_status. rewrite decide_True by done. discriminate. }
  destruct (authenticate env req "User not authenticated") as [user|m] eqn:Ha.
  - intros Hb. exists (au_id user). eapply check_answer_is_profile; eauto.
  - unfold check_verification_status. rewrite decide_False by done. rewrite Ha. discriminate.
Qed.

(** The check's errors carry no status. *)
Lemma check_no_error_status env req st m s :
  kr_body (check_verification_status env req st).1 <> KError m (Some s).
Proof. unfold check_verification_status, error_response. repeat case_match; simpl; congruence. Qed.

(** A 2xx answer of the session start is a session or an empty preflight
    answer. *)
Lemma create_2xx_body env req st :
  (200 <= kr_status (create_verification_session env req st).1 < 300)%Z ->
  kr_body (create_verification_session env req st).1 = KNull \/
  exists url sid, kr_body (create_verification_session env req st).1 = KSession url sid.
Proof.
  unfold create_verification_session, error_response.
  destruct (kenv_new_session env) as [sid url]. repeat case_match; simpl; intros; try lia; eauto.
Qed.

Lemma no_rejected_step st st' : kyc_step st st' -> no_rejected st -> no_rejected st'.
Proof.
  intros Hs H0. apply (kyc_reachable_pres _ st st'); [|by apply star_one|exact H0].
  intros p s at_ _ [Hs' _]. exact Hs'.
Qed.

(** ** Properties *)

(** C25: in every state the three functions can reach, a profile whose
    [kyc_status] is [verified] carries its [kyc_verified_at] time: both
    paths that verify (the webhook and the status check) write it. *)
Theorem kyc_verified_has_time st st' :
  verified_has_time st -> star kyc_step st st' -> verified_has_time st'.
Proof.
  intros H0 Hreach. apply (kyc_reachable_pres _ st st'); [|exact Hreach|exact H0].
  intros p s at_ Hp [_ Hv]. unfold set_kyc. simpl. intros ->.
  destruct at_ as [t|]; [discriminate | exfalso; by apply (Hv eq_refl)].
Qed.

(** C28: no function ever writes the status [rejected]: from a table with
    no rejected profile, none is ever reached, although the schema, the
    spec and the verification page (Verification.tsx lines 149 and 158)
    have that status. *)
Theorem kyc_rejected_unreachable st st' :
  no_rejected st -> star kyc_step st st' -> no_rejected st'.
Proof.
  intros H0 Hreach. apply (kyc_reachable_pres _ st st'); [|exact Hreach|exact H0].
  intros p s at_ _ [Hs _]. exact Hs.
Qed.

(** C26: the webhook trusts the body without verifying Stripe's signature:
    a posted "canceled" event naming a user resets even a verified profile
    to [not_started], and a posted "verified" event verifies any profile,
    whatever its Stripe sessions say. *)
Theorem webhook_unauthenticated env method st uid p sid k :
  method <> "OPTIONS" -> truthy (kenv_stripe_key env) = Some k ->
  uid <> "" -> ks_profiles st !! uid = Some p ->
  (p_kyc_status <$> ks_profiles (stripe_identity_webhook env method
     (mkEvent "identity.verification_session.canceled" (mkVSession sid vs_verified (Some uid))) st).2
     !! uid = Some not_started) /\
  (p_kyc_status <$> ks_profiles (stripe_identity_webhook env method
     (mkEvent "identity.verification_session.verified" (mkVSession sid vs_canceled (Some uid))) st).2
     !! uid = Some verified).
Proof.
  intros Hm Hk Hne Hp. unfold stripe_identity_webhook.
  destruct (decide (method = "OPTIONS")) as [|_]; [done|]. rewrite Hk.
  destruct uid as [|c u]; [done|]. simpl.
  split; rewrite lookup_alter_eq, Hp; reflexivity.
Qed.

(** C27: the status check lists only the most recent verification session
    of the whole Stripe account ([limit: 1]) before looking for the user's:
    when another user started a session after ours, our verified session is
    not seen, the check answers [pending] and the profile stays [pending]. *)
Theorem check_status_misses_own_session env req st user p s_other s_mine rest :
  req_method req <> "OPTIONS" ->
  authenticate env req "User not authenticated" = Ok user ->
  ks_profiles st !! au_id user = Some p -> p_kyc_status p = pending ->
  ks_sessions st = s_other :: s_mine :: rest ->
  vs_user_id s_other <> Some (au_id user) ->
  vs_user_id s_mine = Some (au_id user) -> vs_status s_mine = vs_verified ->
  check_verification_status env req st = (mkKycResponse 200 (KStatus pending None), st).
Proof.
  intros Hm Ha Hp Hs Hss Ho _ _. unfold check_verification_status.
  rewrite decide_False by done. rewrite Ha, Hp, Hs, Hss. simpl.
  by rewrite bool_decide_eq_false_2.
Qed.

(** Starting a verification on a profile that is not verified records a
    Stripe session for the user, marks the profile [pending] and answers
    with the session's url; on a verified profile it answers 400 "Already
    verified" and changes nothing. *)
Theorem create_session_spec env req st user p :
  req_method req <> "OPTIONS" ->
  authenticate env req "User not authenticated or email not available" = Ok user ->
  ks_profiles st !! au_id user = Some p ->
  let res := create_verification_session env req st in
  (p_kyc_status p = verified ->
     res = (mkKycResponse 400 (KError "Already verified" (Some verified)), st)) /\
  (p_kyc_status p <> verified ->
     res.1 = mkKycResponse 200 (KSession (kenv_new_session env).2 (kenv_new_session env).1) /\
     ks_sessions res.2 =
       mkVSession (kenv_new_session env).1 vs_requires_input (Some (au_id user)) :: ks_sessions st /\
     p_kyc_status <$> ks_profiles res.2 !! au_id user = Some pending).
Proof.
  intros Hm Ha Hp res. split; intros Hs.
  - unfold res, create_verification_session.
    rewrite decide_False by done. rewrite Ha, Hp. simpl.
    by rewrite decide_True by (by rewrite Hs).
  - exact (create_session_effect env req st user p Hm Ha Hp Hs).
Qed.

(** The intended flow reaches [verified]: from any profile that is not
    verified, starting a session, Stripe verifying it, and the page's status
    check leave the profile [verified] with its verification time. *)
Theorem kyc_flow_reaches_verified env req st user p :
  req_method req <> "OPTIONS" ->
  authenticate env req "User not authenticated or email not available" = Ok user ->
  authenticate env req "User not authenticated" = Ok user ->
  ks_profiles st !! au_id user = Some p -> p_kyc_status p <> verified ->
  exists st', star kyc_step st st' /\
    option_map (fun q => (p_kyc_status q, p_kyc_verified_at q)) (ks_profiles st' !! au_id user)
      = Some (verified, Some (kenv_now env)).
Proof.
  intros Hm Ha1 Ha2 Hp Hnv.
  set (st1 := (create_verification_session env req st).2).
  set (st2 := stripe_updates (kenv_new_session env).1 vs_verified st1).
  exists (check_verification_status env req st2).2. split.
  - eapply star_step; [apply ks_create|]. eapply star_step; [apply ks_stripe|].
    apply star_one, ks_check.
  - destruct (create_session_effect env req st user p Hm Ha1 Hp Hnv) as (_ & Hsess & Hst1).
    fold st1 in Hsess, Hst1.
    destruct (ks_profiles st1 !! au_id user) as [p1|] eqn:Hp1; [|discriminate].
    simpl in Hst1. injection Hst1 as Hst1.
    unfold check_verification_status. rewrite decide_False by done. rewrite Ha2.
    unfold st2, stripe_updates. simpl. rewrite Hp1, Hst1, Hsess. simpl.
    rewrite decide_True by done. simpl. rewrite bool_decide_eq_true_2 by done. simpl.
    rewrite lookup_alter_eq. simpl. rewrite Hp1. reflexivity.
Qed.

(** ** Witnesses *)

Lemma ex_start_step s : kyc_step (ex_kyc_state s []) (create_verification_session ex_kenv ex_kreq (ex_kyc_state s [])).2.
Proof. apply ks_create. Qed.

Lemma kyc_verified_has_time_witness :
  verified_has_time (create_verification_session ex_kenv ex_kreq (ex_kyc_state not_started [])).2.
Proof.
  apply (kyc_verified_has_time (ex_kyc_state not_started [])).
  - intros k p Hk. simpl in Hk. apply lookup_singleton_Some in Hk as [_ <-]. discriminate.
  - apply star_one, ex_start_step.
Defined.

Lemma kyc_rejected_unreachable_witness :
  no_rejected (create_verification_session ex_kenv ex_kreq (ex_kyc_state pending [])).2.
Proof.
  apply (kyc_rejected_unreachable (ex_kyc_state pending [])).
  - intros k p Hk. simpl in Hk. apply lookup_singleton_Some in Hk as [_ <-]. discriminate.
  - apply star_one, ex_start_step.
Defined.

Lemma webhook_unauthenticated_witness :
  p_kyc_status <$> ks_profiles (stripe_identity_webhook ex_kenv "POST"
     (mkEvent "identity.verification_session.canceled" (mkVSession "vs_forged" vs_verified (Some "u1")))
     (ex_kyc_state verified [])).2 !! "u1" = Some not_started.
Proof.
  apply (webhook_unauthenticated ex_kenv "POST" (ex_kyc_state verified []) "u1"
           (ex_profile verified) "vs_forged" "sk_test"); reflexivity || discriminate.
Defined.

Lemma check_status_misses_own_session_witness :
  check_verification_status ex_kenv ex_kreq
    (ex_kyc_state pending [mkVSession "vs_2" vs_requires_input (Some "u2");
                           mkVSession "vs_1" vs_verified (Some "u1")]) =
  (mkKycResponse 200 (KStatus pending None),
   ex_kyc_state pending [mkVSession "vs_2" vs_requires_input (Some "u2");
                         mkVSession "vs_1" vs_verified (Some "u1")]).
Proof.
  apply (check_status_misses_own_session ex_kenv ex_kreq _ ex_u1 (ex_profile pending)
           (mkVSession "vs_2" vs_requires_input (Some "u2")) (mkVSession "vs_1" vs_verified (Some "u1"))
           []); reflexivity || discriminate.
Defined.

Lemma create_session_spec_witness :
  p_kyc_status <$> ks_profiles (create_verification_session ex_kenv ex_kreq
                                  (ex_kyc_state not_started [])).2 !! "u1" = Some pending.
Proof.
  assert (Hm : req_method ex_kreq <> "OPTIONS") by discriminate.
  assert (Ha : authenticate ex_kenv ex_kreq "User not authenticated or email not available" = Ok ex_u1)
    by reflexivity.
  assert (Hp : ks_profiles (ex_kyc_state not_started []) !! au_id ex_u1 = Some (ex_profile not_started))
    by reflexivity.
  destruct (create_session_spec ex_kenv ex_kreq (ex_kyc_state not_started []) ex_u1
              (ex_profile not_started) Hm Ha Hp) as [_ H].
  apply H. discriminate.
Defined.

Lemma kyc_flow_reaches_verified_witness :
  exists st', star kyc_step (ex_kyc_state not_started []) st' /\
    option_map (fun q => (p_kyc_status q, p_kyc_verified_at q)) (ks_profiles st' !! "u1")
      = Some (verified, Some "2026-11-09T10:00:00Z").
Proof.
  apply (kyc_flow_reaches_verified ex_kenv ex_kreq (ex_kyc_state not_started []) ex_u1
           (ex_profile not_started)); reflexivity || discriminate.
Defined.
