(* ===== verification/VerificationPage.v ===== *)
(** * VerificationPage: the identity-verification page

    src/src/pages/Verification.tsx: the page a seller uses to verify its
    identity.  Its state is [isLoading], [isChecking], [status] and
    [verifiedAt] (lines 24-27); its handlers [checkVerificationStatus]
    (lines 53-79) and [startVerification] (lines 81-108) call the edge
    functions of Kyc.v through [supabase.functions.invoke], and its effects
    (lines 40-51) copy the profile's status and run the check when Stripe
    sends the user back with [?completed=true].  The status card and the
    buttons it shows for each status are lines 145-279.

    [supabase.functions.invoke] is supabase-js, not code of this
    repository: it answers [data] for a 2xx response and an [error]
    (FunctionsHttpError) for any other status.  A handler runs to its end
    before the next user action, so the flags [isLoading] and [isChecking]
    are [false] between actions and are not part of the state here. *)

From S2P Require Import Prelude Accounts Checkout Kyc.

Local Open Scope string_scope.
Local Open Scope list_scope.

(** ** State and effects *)

Record VPage := mkVPage {
  vp_status : verification_status;
  vp_verifiedAt : option string
}.

(** [useState('not_started')], [useState(null)]. *)
Definition initial_vpage : VPage := mkVPage not_started None.

(** [supabase.functions.invoke]: the body of a 2xx answer, an error
    otherwise. *)
Definition invoke (r : KycResponse) : result string KycBody :=
  if bool_decide (200 <= kr_status r < 300)%Z then Ok (kr_body r)
  else Err "Edge Function returned a non-2xx status code".

(** [data.status], [data.verified_at] and [data.url] of a body; reading a
    field of a [null] body throws, [None] is an absent field. *)
Definition body_status (b : KycBody) : result string (option verification_status) :=
  match b with
  | KNull => Err "Cannot read properties of null"
  | KStatus s _ => Ok (Some s)
  | KError _ s => Ok s
  | _ => Ok None
  end.

Definition body_verified_at (b : KycBody) : option string :=
  match b with KStatus _ t => t | _ => None end.

Definition body_url (b : KycBody) : result string (option string) :=
  match b with
  | KNull => Err "Cannot read properties of null"
  | KSession url _ => Ok (if decide (url = "") then None else Some url)
  | _ => Ok None
  end.

(** The effect of lines 34-38: a signed-out visitor is sent to sign in. *)
Definition verification_effect (loading : bool) (user : option string) : list UiEffect :=
  if negb loading && bool_decide (user = None) then [Navigate "/auth"] else [].

(** ** Handlers *)

(** [checkVerificationStatus] (lines 53-79): errors are only logged. *)
Definition checkVerificationStatus (env : KycEnv) (req : Request) (st : KycState) (pg : VPage)
    : VPage * KycState * list UiEffect :=
  let '(r, st') := check_verification_status env req st in
  let outcome :=
    b ← invoke r;
    s ← body_status b;
    mret (b, s) in
  match outcome with
  | Ok (b, Some s) =>
      let pg' := mkVPage s (match body_verified_at b with
                            | Some t => if decide (t = "") then vp_verifiedAt pg else Some t
                            | None => vp_verifiedAt pg
                            end) in
      if decide (s = verified) then
        (pg', st', [RefreshProfile;
                    Toast "Identity Verified" "Your identity has been successfully verified." false])
      else (pg', st', [])
  | _ => (pg, st', [])
  end.

Definition start_error : UiEffect :=
  Toast "Error" "Failed to start verification. Please try again." true.

(** [startVerification] (lines 81-108). *)
Definition startVerification (env : KycEnv) (req : Request) (st : KycState) (pg : VPage)
    : VPage * KycState * list UiEffect :=
  let '(r, st') := create_verification_session env req st in
  match invoke r with
  | Err _ => (pg, st', [start_error])
  | Ok b =>
      match body_url b with
      | Err _ => (pg, st', [start_error])
      | Ok (Some url) => (pg, st', [Redirect url])
      | Ok None =>
          match body_status b with
          | Err _ => (pg, st', [start_error])
          | Ok (Some verified) =>
              (mkVPage verified (vp_verifiedAt pg), st',
               [Toast "Already Verified" "Your identity is already verified." false])
          | Ok _ => (pg, st', [])
          end
      end
  end.

(** The effects of lines 40-51: the profile's status is copied into the
    page, then the check runs when the url carries [completed=true]. *)
Definition on_mount (env : KycEnv) (req : Request) (st : KycState) (profile : Profile)
    (completed : bool) (pg : VPage) : VPage * KycState * list UiEffect :=
  let pg1 := mkVPage (p_kyc_status profile) (vp_verifiedAt pg) in
  if completed then checkVerificationStatus env req st pg1 else (pg1, st, []).

(** ** What the page shows (lines 145-279) *)

Inductive VAction := StartVerification | CheckStatus | ContinueVerification | TryAgain
                   | ReturnToDashboard.

#[export] Instance VAction_eq_dec : EqDecision VAction.
Proof. solve_decision. Defined.

(** The buttons of each status (lines 191-273). *)
Definition actions (s : verification_status) : list VAction :=
  match s with
  | not_started => [StartVerification]
  | pending => [CheckStatus; ContinueVerification]
  | rejected => [TryAgain]
  | verified => [ReturnToDashboard]
  end.

(** The card's title (lines 166-171). *)
Definition status_title (s : verification_status) : string :=
  match s with
  | verified => "Verified"
  | pending => "Verification In Progress"
  | rejected => "Verification Failed"
  | not_started => "Not Started"
  end.

(** The card's second line (lines 173-181); the verification date is
    printed by [toLocaleDateString], kept here as the stored timestamp. *)
Inductive StatusLine := SLText (text : string) | SLVerifiedOn (at_ : string).

Definition status_subtitle (s : verification_status) (verifiedAt : option string) : StatusLine :=
  match s with
  | verified =>
      match truthy verifiedAt with
      | Some at_ => SLVerifiedOn at_
      | None => SLText "Your identity has been verified"
      end
  | pending => SLText "Your documents are being reviewed"
  | rejected => SLText "Please try again with valid documents"
  | not_started => SLText "Complete verification to start selling"
  end.

(** "What You'll Need" is shown unless verified (line 279). *)
Definition shows_requirements (s : verification_status) : bool :=
  bool_decide (s <> verified).

Inductive VRender :=
| VSpinner
| VNothing
| VStatusCard (title : string) (line : StatusLine) (checking : bool) (buttons : list VAction)
    (requirements : bool).

(** The render (lines 110-339): the spinner while the auth context
    loads, nothing without a user and a profile, otherwise the status
    card with its buttons and, unless verified, "What You'll Need". *)
Definition verification_render (loading : bool) (user_and_profile : bool) (checking : bool)
    (pg : VPage) : VRender :=
  if loading then VSpinner
  else if negb user_and_profile then VNothing
  else VStatusCard (status_title (vp_status pg)) (status_subtitle (vp_status pg) (vp_verifiedAt pg))
         checking (actions (vp_status pg)) (shows_requirements (vp_status pg)).

(** A click on a button, as the handlers run it. *)
Definition run_action (env : KycEnv) (req : Request) (st : KycState) (pg : VPage) (a : VAction)
    : VPage * KycState * list UiEffect :=
  match a with
  | StartVerification | ContinueVerification | TryAgain => startVerification env req st pg
  | CheckStatus => checkVerificationStatus env req st pg
  | ReturnToDashboard => (pg, st, [Navigate "/dashboard"])
  end.

(** ** The page together with the server

    A step is a click on a button the page shows, a (re)load of the page
    with a profile of the table and with or without [completed=true], or a
    step of the functions and Stripe that the page does not see. *)
Inductive page_step : VPage * KycState -> VPage * KycState -> Prop :=
| ps_action env req st pg a :
    a ∈ actions (vp_status pg) -> page_step (pg, st) (run_action env req st pg a).1
| ps_mount env req st pg u p c :
    ks_profiles st !! u = Some p -> page_step (pg, st) (on_mount env req st p c pg).1
| ps_server pg st st' : kyc_step st st' -> page_step (pg, st) (pg, st').

Definition page_ok (x : VPage * KycState) : Prop :=
  no_rejected x.2 /\ vp_status x.1 <> rejected.

(** ** Example data for the witnesses *)

Definition ex_session (s : session_status) : VSession := mkVSession "vs_1" s (Some "u1").

(** ** Lemmas *)

(** [startVerification] never changes the page's state: it redirects,
    reports an error, or does nothing. *)
Lemma start_effects env req st pg :
  let r := startVerification env req st pg in
  r.1 = (pg, (create_verification_session env req st).2) /\
  (r.2 = [start_error] \/ r.2 = [] \/ exists url, r.2 = [Redirect url]).
Proof.
  pose proof (create_2xx_body env req st) as Hb. unfold startVerification, invoke.
  destruct (create_verification_session env req st) as [[c b] st'] eqn:E. simpl in *.
  case_bool_decide as Hc; simpl; [|auto].
  destruct (Hb Hc) as [-> | (url & sid & ->)]; simpl; [auto|].
  case_decide; simpl; eauto.
Qed.

(** After the check the page shows its old status or the status answered. *)
Lemma check_page_status env req st pg :
  let r := checkVerificationStatus env req st pg in
  r.1.2 = (check_verification_status env req st).2 /\
  (vp_status r.1.1 = vp_status pg \/
   exists at_, kr_body (check_verification_status env req st).1 = KStatus (vp_status r.1.1) at_).
Proof.
  pose proof (check_no_error_status env req st) as Hne. unfold checkVerificationStatus, invoke.
  destruct (check_verification_status env req st) as [[c b] st'] eqn:E. simpl in *.
  case_bool_decide; simpl; [|auto].
  destruct b as [| | s t | e | m [s|]]; simpl; auto.
  - case_decide; simpl; eauto.
  - exfalso. by apply (Hne m s).
Qed.

Lemma no_rejected_lookup st u s :
  no_rejected st -> p_kyc_status <$> ks_profiles st !! u = Some s -> s <> rejected.
Proof.
  intros Hno Hs. destruct (ks_profiles st !! u) as [p|] eqn:Hp; [|discriminate].
  injection Hs as <-. exact (Hno u p Hp).
Qed.

Lemma check_page_ok env req st pg :
  page_ok (pg, st) -> page_ok (checkVerificationStatus env req st pg).1.
Proof.
  intros [Hno Hpg]. pose proof (check_page_status env req st pg) as H. cbv zeta in H.
  destruct (checkVerificationStatus env req st pg) as [[pg' st'] e]. simpl in *.
  destruct H as [-> Hs].
  assert (Hno' : no_rejected (check_verification_status env req st).2)
    by (apply (no_rejected_step st); [apply ks_check | exact Hno]).
  split; [exact Hno'|]. simpl. destruct Hs as [-> | [at_ Hb]]; [exact Hpg|].
  destruct (check_status_in_table env req st _ _ Hb) as [u Hu].
  exact (no_rejected_lookup _ u _ Hno' Hu).
Qed.

Lemma page_step_ok x y : page_ok x -> page_step x y -> page_ok y.
Proof.
  intros Hx Hs. destruct Hs as [env req st pg a _|env req st pg u p c Hp|pg st st' Hk].
  - destruct a; simpl;
      try (pose proof (start_effects env req st pg) as [-> _]; destruct Hx as [Hno Hpg];
           split; [apply (no_rejected_step st); [apply ks_create | exact Hno] | exact Hpg]);
      [by apply check_page_ok | exact Hx].
  - destruct Hx as [Hno _].
    assert (Hpg : page_ok (mkVPage (p_kyc_status p) (vp_verifiedAt pg), st))
      by (split; [exact Hno | exact (Hno u p Hp)]).
    unfold on_mount. destruct c; [by apply check_page_ok | exact Hpg].
  - destruct Hx as [Hno Hpg]. split; [exact (no_rejected_step st st' Hk Hno) | exact Hpg].
Qed.

(** A session answer redirects the browser to its url. *)
Lemma start_redirect env req st pg url sid st' :
  create_verification_session env req st = (mkKycResponse 200 (KSession url sid), st') ->
  url <> "" -> startVerification env req st pg = (pg, st', [Redirect url]).
Proof.
  intros E Hu. unfold startVerification. rewrite E. unfold invoke. simpl.
  try (rewrite bool_decide_eq_true_2 by lia); simpl. by rewrite decide_False.
Qed.

(** A [verified] answer with its time shows it, refreshes the profile and
    toasts. *)
Lemma check_verified_page env req st pg t st' :
  check_verification_status env req st = (mkKycResponse 200 (KStatus verified (Some t)), st') ->
  t <> "" ->
  checkVerificationStatus env req st pg =
    (mkVPage verified (Some t), st',
     [RefreshProfile; Toast "Identity Verified" "Your identity has been successfully verified." false]).
Proof.
  intros E Ht. unfold checkVerificationStatus. rewrite E. unfold invoke. simpl.
  try (rewrite bool_decide_eq_true_2 by lia); simpl. by rewrite decide_False.
Qed.

(** ** Properties *)

(** C29: the page's "Already Verified" branch is dead: the function answers
    a verified user with status 400, which [supabase.functions.invoke]
    turns into an error, so a verified user whose page still shows
    "Continue Verification" (its profile was verified by the webhook after
    the page loaded) gets "Failed to start verification" and nothing
    changes. *)
Theorem start_verified_user_error env req st user p pg :
  req_method req <> "OPTIONS" ->
  authenticate env req "User not authenticated or email not available" = Ok user ->
  ks_profiles st !! au_id user = Some p -> p_kyc_status p = verified ->
  startVerification env req st pg = (pg, st, [start_error]).
Proof.
  intros Hm Ha Hp Hs. unfold startVerification, create_verification_session.
  rewrite decide_False by done. rewrite Ha, Hp. simpl. rewrite Hs. reflexivity.
Qed.

(** Whatever the user, the table and the request, starting a
    verification never shows the toast "Already Verified". *)
Theorem start_never_already_verified env req st pg :
  Toast "Already Verified" "Your identity is already verified." false
    ∉ (startVerification env req st pg).2.
Proof.
  pose proof (start_effects env req st pg) as H. cbv zeta in H.
  destruct H as [_ [E | [E | [url E]]]]; rewrite E;
    [rewrite list_elem_of_singleton; unfold start_error; congruence
    | apply not_elem_of_nil
    | rewrite list_elem_of_singleton; congruence].
Qed.

(** After a status check by a signed-in user with a profile, the page
    shows the status the profile has in the table the check leaves. *)
Theorem check_page_matches_profile env req st user p pg :
  req_method req <> "OPTIONS" ->
  authenticate env req "User not authenticated" = Ok user ->
  ks_profiles st !! au_id user = Some p ->
  let r := checkVerificationStatus env req st pg in
  Some (vp_status r.1.1) = p_kyc_status <$> ks_profiles r.1.2 !! au_id user.
Proof.
  intros Hm Ha Hp r. destruct (check_answers_status env req st user p Hm Ha Hp) as (s & at_ & E).
  pose proof (check_answer_is_profile env req st user s at_ Hm Ha) as Hprof.
  unfold r, checkVerificationStatus, invoke.
  destruct (check_verification_status env req st) as [r0 st'] eqn:E2. simpl in *. subst r0.
  simpl. case_decide; simpl; rewrite Hprof by reflexivity; reflexivity.
Qed.

(** C30: the intended flow on the page: a user whose profile is
    [not_started] sees "Start Verification"; clicking it redirects to the
    Stripe session; once Stripe has verified the session, the page Stripe
    returns to (with [completed=true]) shows [verified] with its time and
    the toast "Identity Verified", and the profile is [verified]. *)
Theorem verification_page_flow env req st user p :
  req_method req <> "OPTIONS" ->
  authenticate env req "User not authenticated or email not available" = Ok user ->
  authenticate env req "User not authenticated" = Ok user ->
  ks_profiles st !! au_id user = Some p -> p_kyc_status p = not_started ->
  (kenv_new_session env).2 <> "" -> kenv_now env <> "" ->
  let pg0 := (on_mount env req st p false initial_vpage).1.1 in
  StartVerification ∈ actions (vp_status pg0) /\
  exists st1,
    run_action env req st pg0 StartVerification = (pg0, st1, [Redirect (kenv_new_session env).2]) /\
    exists p1,
      ks_profiles (stripe_updates (kenv_new_session env).1 vs_verified st1) !! au_id user = Some p1 /\
      exists st3,
        on_mount env req (stripe_updates (kenv_new_session env).1 vs_verified st1) p1 true
          initial_vpage =
        (mkVPage verified (Some (kenv_now env)), st3,
         [RefreshProfile; Toast "Identity Verified" "Your identity has been successfully verified." false]) /\
        p_kyc_status <$> ks_profiles st3 !! au_id user = Some verified.
Proof.
  intros Hm Ha1 Ha2 Hp Hs Hurl Hnow pg0.
  pose proof (create_session_effect env req st user p Hm Ha1 Hp ltac:(by rewrite Hs)) as H.
  cbv zeta in H. destruct H as (E1 & Es & Ep).
  destruct (create_verification_session env req st) as [r st1] eqn:E. simpl in E1, Es, Ep. subst r.
  unfold pg0, on_mount. simpl. rewrite Hs. split; [constructor|].
  exists st1. split; [by eapply start_redirect|].
  destruct (ks_profiles st1 !! au_id user) as [p1|] eqn:Hp1; [|discriminate].
  injection Ep as Hp1s. exists p1. split; [done|].
  set (st2 := stripe_updates (kenv_new_session env).1 vs_verified st1).
  assert (Hc : check_verification_status env req st2 =
    (mkKycResponse 200 (KStatus verified (Some (kenv_now env))),
     update_kyc (au_id user) verified (Some (kenv_now env)) st2)).
  { eapply (check_verifies_head _ _ _ _ p1); eauto;
      [unfold st2, stripe_updates; simpl; rewrite Es; simpl; by rewrite decide_True
      | reflexivity | reflexivity]. }
  eexists. split; [by apply check_verified_page|].
  rewrite lookup_update_kyc. simpl. by rewrite Hp1.
Qed.

(** The page's "Verification Failed" card and its "Try Again" button
    are never shown: starting from a table without rejected profiles, no
    sequence of clicks, reloads and server or Stripe events brings the page
    to the [rejected] status, since no function writes it. *)
Theorem page_reachable_never_rejected st pg st' :
  no_rejected st -> star page_step (initial_vpage, st) (pg, st') ->
  (TryAgain ∉ actions (vp_status pg)) /\ status_title (vp_status pg) <> "Verification Failed".
Proof.
  intros H0 Hr.
  assert (Hok : page_ok (pg, st')).
  { apply (star_invariant page_step page_ok page_step_ok _ _ Hr). split; [exact H0 | discriminate]. }
  destruct Hok as [_ Hs]. simpl in Hs.
  destruct (vp_status pg); [| | | done]; split; try discriminate; set_solver.
Qed.

(** ** Witnesses *)


Lemma start_verified_user_error_witness :
  startVerification ex_kenv ex_kreq (ex_kyc_state verified []) initial_vpage =
    (initial_vpage, ex_kyc_state verified [], [start_error]).
Proof.
  apply (start_verified_user_error _ _ _ ex_u1 (ex_profile verified));
    [discriminate | reflexivity | reflexivity | reflexivity].
Defined.

Lemma check_page_matches_profile_witness :
  let r := checkVerificationStatus ex_kenv ex_kreq (ex_kyc_state pending [ex_session vs_verified])
             initial_vpage in
  Some (vp_status r.1.1) = p_kyc_status <$> ks_profiles r.1.2 !! "u1".
Proof.
  apply (check_page_matches_profile _ _ _ ex_u1 (ex_profile pending));
    [discriminate | reflexivity | reflexivity].
Defined.

Lemma verification_page_flow_witness :
  StartVerification ∈ actions (vp_status (on_mount ex_kenv ex_kreq (ex_kyc_state not_started [])
                                             (ex_profile not_started) false initial_vpage).1.1).
Proof.
  apply (verification_page_flow ex_kenv ex_kreq (ex_kyc_state not_started []) ex_u1
           (ex_profile not_started)); (discriminate || reflexivity).
Defined.

Lemma page_reachable_never_rejected_witness :
  TryAgain ∉ actions (vp_status
    (run_action ex_kenv ex_kreq (ex_kyc_state not_started []) initial_vpage StartVerification).1.1).
Proof.
  apply (page_reachable_never_rejected (ex_kyc_state not_started []) _
           (run_action ex_kenv ex_kreq (ex_kyc_state not_started []) initial_vpage StartVerification).1.2).
  - apply map_Forall_singleton. discriminate.
  - rewrite <- surjective_pairing. apply star_one, ps_action. constructor.
Defined.
