(* ===== verification/ListingPage.v ===== *)
(** * ListingPage: the listing detail page and its purchase button

    src/src/pages/ListingDetail.tsx.  [fetchListing] (lines 74-131) reads
    the approved listing of the url's id with its photos, then the seller's
    profile and role with [maybeSingle()] and fills the seller card with
    defaults ([|| null], [|| 'not_started'], [|| 'observer']).  The photos
    are shown sorted by [display_order] (lines 232-234).  [handlePurchase]
    (lines 133-174) sends a signed-out user to the sign-in page, refuses the
    seller's own listing, and otherwise invokes the create-checkout function
    of Checkout.v and redirects the browser to the session's url.  The
    purchase button (lines 391-407) is disabled while purchasing and on the
    seller's own listing.  [detail_render] is what the page shows: the
    spinner, "Listing Not Found", or the specifications and the seller
    card (lines 201-390), the price printed by [formatPrice0] of Price.v;
    the gallery's selected image is not modelled.

    The tables are the [listings] and [brands] tables the checkout function
    reads, with [listing_photos], [profiles] and [user_roles].
    [encodeURIComponent] is JavaScript's, written out on the UTF-8 bytes of
    the string. *)

From Stdlib Require Import Sorting.Sorted Sorting.Permutation.
From S2P Require Import Prelude Accounts Fees Listings Checkout Price.

Local Open Scope string_scope.
Local Open Scope list_scope.

(** ** Data *)

Record DetailDb := mkDetailDb {
  dd_listings : gmap string Listing;
  dd_brands : gmap string string;
  dd_photos : list PhotoRow;
  dd_profiles : gmap string Profile;   (* by [user_id] *)
  dd_roles : list RoleRow
}.

(** The tables the checkout function reads. *)
Definition dd_checkout_db (d : DetailDb) : CheckoutDb := mkCheckoutDb (dd_listings d) (dd_brands d).

(** [SellerInfo] (lines 38-42). *)
Record SellerInfo := mkSellerInfo {
  si_full_name : option string;
  si_kyc_status : verification_status;
  si_role : app_role
}.

(** The page's state (lines 51-55) without the selected image. *)
Record DetailPage := mkDetailPage {
  dp_loading : bool;
  dp_listing : option Listing;
  dp_photos : list PhotoRow;
  dp_seller : option SellerInfo;
  dp_purchasing : bool
}.

Definition initial_detail : DetailPage := mkDetailPage true None [] None false.

(** ** Loading the listing *)

(** [setSeller] of lines 124-128 from the two [maybeSingle()] answers. *)
Definition seller_info (d : DetailDb) (seller_id : string) : SellerInfo :=
  let prof := dd_profiles d !! seller_id in
  mkSellerInfo
    (match prof ≫= p_full_name with Some "" => None | x => x end)
    (default not_started (p_kyc_status <$> prof))
    (default observer (role_of seller_id (dd_roles d))).

(** [fetchListing] (lines 74-131); without an id nothing happens (line
    75). *)
Definition fetchListing (id : option string) (d : DetailDb) (pg : DetailPage) : DetailPage :=
  match id with
  | None => pg
  | Some id =>
      match approved_listing (dd_checkout_db d) id with
      | None => mkDetailPage false (dp_listing pg) (dp_photos pg) (dp_seller pg) (dp_purchasing pg)
      | Some l =>
          mkDetailPage false (Some l)
            (filter (fun r => ph_listing_id r = l_id l) (dd_photos d))
            (Some (seller_info d (l_seller_id l))) (dp_purchasing pg)
      end
  end.

(** [sort((a, b) => a.display_order - b.display_order)] (lines 232-234). *)
Definition photo_le (a b : PhotoRow) : bool := Nat.leb (ph_display_order a) (ph_display_order b).

Definition sortedPhotos (rs : list PhotoRow) : list PhotoRow := isort photo_le rs.

(** ** encodeURIComponent *)

Definition uri_unreserved (c : Ascii.ascii) : bool :=
  let n := Ascii.nat_of_ascii c in
  (Nat.leb 48 n && Nat.leb n 57) || (Nat.leb 65 n && Nat.leb n 90) ||
  (Nat.leb 97 n && Nat.leb n 122) ||
  (* - _ . ! ~ * ' ( ) *)
  bool_decide (n ∈ [45; 95; 46; 33; 126; 42; 39; 40; 41]%nat).

Definition hex_digit (n : nat) : Ascii.ascii :=
  Ascii.ascii_of_nat (if Nat.ltb n 10 then 48 + n else 55 + n)%nat.

(** ["%" (code 37) and the two upper-case hex digits of the byte. *)
Definition percent_encode (c : Ascii.ascii) : string :=
  String (Ascii.ascii_of_nat 37) (String (hex_digit (Ascii.nat_of_ascii c / 16)%nat)
                     (String (hex_digit (Ascii.nat_of_ascii c mod 16)%nat) EmptyString)).

Fixpoint encodeURIComponent (s : string) : string :=
  match s with
  | EmptyString => EmptyString
  | String c s' =>
      (if uri_unreserved c then String c EmptyString else percent_encode c) +:+
      encodeURIComponent s'
  end.

(** ** Purchasing *)

(** [supabase.functions.invoke('create-checkout')]: the body of a 2xx
    answer, the library's error otherwise. *)
Definition invoke_checkout (r : Response) : result string ResponseBody :=
  if bool_decide (200 <= resp_status r < 300)%Z then Ok (resp_body r)
  else Err "Edge Function returned a non-2xx status code".

(** [data?.url] (line 161): an empty or absent url is an error. *)
Definition checkout_url (b : ResponseBody) : result string string :=
  match b with
  | RSession url _ => if decide (url = "") then Err "No checkout URL returned" else Ok url
  | _ => Err "No checkout URL returned"
  end.

(** The request [invoke] sends: a POST with the session's access token,
    the page's origin and [{ listingId: id }]. *)
Definition checkout_request (token : string) (origin : option string) (id : string) : Request :=
  mkRequest "POST" (Some ("Bearer " +:+ token)) origin (Some id).

Definition sign_in_path (id : string) : string :=
  "/auth?redirect=" +:+ encodeURIComponent ("/listing/" +:+ id).

Definition set_purchasing (b : bool) (pg : DetailPage) : DetailPage :=
  mkDetailPage (dp_loading pg) (dp_listing pg) (dp_photos pg) (dp_seller pg) b.

Section Purchase.
Context `{CommissionSource}.

(** [handlePurchase] (lines 133-174); [mk] is Stripe's answer to the
    session the function creates. *)
Definition handlePurchase (mk : SessionParams -> string * string) (env : CheckoutEnv)
    (d : DetailDb) (token : string) (origin : option string)
    (user : option AuthUser) (id : string) (pg : DetailPage) : DetailPage * list UiEffect :=
  match user with
  | None =>
      (pg, [Toast "Sign in required" "Please sign in to purchase this watch." true;
            Navigate (sign_in_path id)])
  | Some u =>
      if decide ((l_seller_id <$> dp_listing pg) = Some (au_id u)) then
        (pg, [Toast "Cannot purchase" "You cannot purchase your own listing." true])
      else
        let resp := create_checkout mk env (dd_checkout_db d) (checkout_request token origin id) in
        match invoke_checkout resp ≫= checkout_url with
        | Ok url => (set_purchasing true pg, [Redirect url])
        | Err m => (set_purchasing false pg, [Toast "Checkout failed" m true])
        end
  end.
End Purchase.

(** The button's label (lines 397-406). *)
Inductive PurchaseLabel := Processing | ThisIsYourListing | PurchaseFor (price : Q) (currency : string).

(** The purchase button: [disabled] and its label (lines 391-407). *)
Definition purchase_button (user : option AuthUser) (pg : DetailPage) (l : Listing)
    : bool * PurchaseLabel :=
  let own := bool_decide (Some (l_seller_id l) = au_id <$> user) in
  (dp_purchasing pg || own,
   if dp_purchasing pg then Processing
   else if own then ThisIsYourListing else PurchaseFor (l_asking_price l) (l_currency l)).

(** The label's text: the template literal of line 405. *)
Definition purchase_label_text (lb : PurchaseLabel) : option string :=
  match lb with
  | Processing => Some "Processing..."
  | ThisIsYourListing => Some "This is your listing"
  | PurchaseFor p c => (fun s => "Purchase for " +:+ s) <$> formatPrice0 p c
  end.

(** The toast of lines 63-72 when Stripe sends the buyer back. *)
Definition cancelled_toast (checkout_param : option string) : list UiEffect :=
  if decide (checkout_param = Some "cancelled") then
    [Toast "Checkout Cancelled" "Your purchase was not completed." false]
  else [].

(** ** What the page shows (lines 176-414) *)

(** [getConditionLabel] (lines 185-194). *)
Definition getConditionLabel (c : watch_condition) : string :=
  match c with
  | unworn => "Unworn" | excellent => "Excellent" | very_good => "Very Good"
  | good => "Good" | fair => "Fair"
  end.

(** The year cell (lines 329-333): [0] and [null] are falsy. *)
Definition year_text (y yend : option Z) : string :=
  match y with
  | Some y =>
      if decide (y = 0%Z) then "Not specified"
      else match yend with
           | Some e => if decide (e = 0%Z) then Z_to_dec y else Z_to_dec y +:+ "-" +:+ Z_to_dec e
           | None => Z_to_dec y
           end
  | None => "Not specified"
  end.

(** The box and papers cells (lines 342 and 351). *)
Definition included_text (b : bool) : string := if b then "Included" else "Not included".

(** The seller card (lines 369-386). *)
Record SellerCard := mkSellerCard {
  sc_name : string;                 (* seller?.full_name || 'Verified Seller' *)
  sc_badge : option app_role;       (* {seller && <TierBadge tier={seller.role} />} *)
  sc_identity_verified : bool       (* {seller?.kyc_status === 'verified' && ...} *)
}.

Definition seller_card (s : option SellerInfo) : SellerCard :=
  mkSellerCard
    (match s ≫= si_full_name with Some "" | None => "Verified Seller" | Some n => n end)
    (si_role <$> s)
    (match s with Some si => bool_decide (si_kyc_status si = verified) | None => false end).

(** The specifications of a listing as the page shows them. *)
Record ListingView := mkListingView {
  lv_brand : option string;
  lv_model : string;
  lv_reference : string;
  lv_price : option string;         (* formatPrice(listing.asking_price, listing.currency) *)
  lv_condition : string;
  lv_year : string;
  lv_box : string;
  lv_papers : string;
  lv_description : option string;
  lv_seller : SellerCard
}.

Inductive DetailRender := DLoading | DNotFound | DListing (v : ListingView).

(** The render: the spinner (lines 201-211), "Listing Not Found" with its
    button to [/browse] (lines 213-230), or the listing. *)
Definition detail_render (d : DetailDb) (pg : DetailPage) : DetailRender :=
  if dp_loading pg then DLoading else
  match dp_listing pg with
  | None => DNotFound
  | Some l =>
      DListing (mkListingView (dd_brands d !! l_brand_id l) (l_model l) (l_reference_number l)
                  (formatPrice0 (l_asking_price l) (l_currency l))
                  (getConditionLabel (l_condition l))
                  (year_text (l_year_produced l) (l_year_produced_end l))
                  (included_text (l_has_box l)) (included_text (l_has_papers l))
                  (match l_description l with Some "" => None | x => x end)
                  (seller_card (dp_seller pg)))
  end.

(** ** Example data for the witnesses *)

Definition ex_detail_db : DetailDb :=
  mkDetailDb (cdb_listings ex_db) (cdb_brands ex_db)
    [mkPhotoRow "L1" "L1/dial.jpg" "dial" 1; mkPhotoRow "L1" "L1/caseback.jpg" "caseback" 2]
    ∅ [mkRoleRow "seller" super_seller].

Definition ex_detail_page : DetailPage := fetchListing (Some "L1") ex_detail_db initial_detail.

(** ** Lemmas *)

Lemma approved_listing_Some d id l :
  approved_listing (dd_checkout_db d) id = Some l <->
  dd_listings d !! id = Some l /\ l_status l = approved.
Proof.
  unfold approved_listing. simpl. destruct (dd_listings d !! id) as [l'|]; simpl.
  - case_decide; split;
      [intros [= <-]; auto | intros [[= <-] _]; auto | discriminate | intros [[= <-] ?]; contradiction].
  - split; [discriminate | intros []; discriminate].
Qed.

(** ** Properties *)

(** The gallery's order is the stable sort by [display_order]: it is a
    permutation of the listing's photos, sorted by [display_order], and
    the photos of equal order keep their order in the table. *)
Theorem sortedPhotos_stable_sort rs :
  Permutation rs (sortedPhotos rs) /\ Sorted (fun a b => photo_le a b = true) (sortedPhotos rs) /\
  forall k, filter (fun x => ph_display_order x = k) (sortedPhotos rs) =
            filter (fun x => ph_display_order x = k) rs.
Proof.
  split; [apply isort_perm|split].
  - apply isort_sorted. unfold photo_le. intros a b. rewrite Nat.leb_gt, Nat.leb_le. lia.
  - intros k. unfold sortedPhotos. induction rs as [|r rs IH]; simpl; [done|].
    rewrite insert_le_filter, !filter_cons, IH; [done|].
    intros y Hx Hy. unfold photo_le. apply Nat.leb_le. lia.
Qed.

(** The page shows a listing only when the table holds it under the
    url's id with status [approved]; any other id shows "Listing Not
    Found" (no listing once loading is over). *)
Theorem fetch_shows_only_approved d id l :
  dp_listing (fetchListing (Some id) d initial_detail) = Some l <->
  dd_listings d !! id = Some l /\ l_status l = approved.
Proof.
  rewrite <- approved_listing_Some. unfold fetchListing.
  destruct (approved_listing (dd_checkout_db d) id); simpl; [done|].
  split; discriminate.
Qed.

(** A signed-out buyer who clicks "Purchase" is told to sign in and
    sent to the sign-in page with the listing's path, percent-encoded, as
    its [redirect] parameter; nothing is bought. *)
Theorem purchase_signed_out `{CommissionSource} mk env d token origin id pg :
  handlePurchase mk env d token origin None id pg =
    (pg, [Toast "Sign in required" "Please sign in to purchase this watch." true;
          Navigate ("/auth?redirect=%2Flisting%2F" +:+ encodeURIComponent id)]).
Proof. reflexivity. Qed.

Section PurchaseProperties.
Context `{CS : CommissionSource}.

(** A signed-in buyer who is not the listing's seller and for whom the
    checkout function builds a session is redirected to the session's
    url, and the page stays in its purchasing state. *)
Theorem purchase_redirects mk env d token origin u id pg sp :
  (l_seller_id <$> dp_listing pg) <> Some (au_id u) ->
  checkout_session env (dd_checkout_db d) (checkout_request token origin id) = Ok sp ->
  (mk sp).1 <> "" ->
  handlePurchase mk env d token origin (Some u) id pg = (set_purchasing true pg, [Redirect (mk sp).1]).
Proof.
  intros Hown Hs Hurl. unfold handlePurchase. rewrite decide_False by done.
  rewrite (create_checkout_Ok mk env _ _ sp) by (done || discriminate).
  unfold invoke_checkout. simpl. by rewrite decide_False.
Qed.

(** Every refusal of the checkout function reaches the buyer as the
    library's "Edge Function returned a non-2xx status code": the
    function's reason ("Listing not found or not available for purchase",
    "You cannot purchase your own listing", ...) is never shown, and the
    button is enabled again. *)
Theorem purchase_error_generic mk env d token origin u id pg m :
  (l_seller_id <$> dp_listing pg) <> Some (au_id u) ->
  checkout_session env (dd_checkout_db d) (checkout_request token origin id) = Err m ->
  handlePurchase mk env d token origin (Some u) id pg =
    (set_purchasing false pg,
     [Toast "Checkout failed" "Edge Function returned a non-2xx status code" true]).
Proof.
  intros Hown Hs. unfold handlePurchase. rewrite decide_False by done.
  by rewrite (create_checkout_Err mk env _ _ m) by (done || discriminate).
Qed.

(** On the seller's own loaded listing the button is disabled and
    reads "This is your listing", and a click (should the button be
    enabled) only toasts "Cannot purchase": the function is not called. *)
Theorem purchase_own_listing_blocked mk env d token origin u id pg l :
  dp_listing pg = Some l -> l_seller_id l = au_id u -> dp_purchasing pg = false ->
  purchase_button (Some u) pg l = (true, ThisIsYourListing) /\
  handlePurchase mk env d token origin (Some u) id pg =
    (pg, [Toast "Cannot purchase" "You cannot purchase your own listing." true]).
Proof.
  intros Hl Hs Hp. unfold purchase_button, handlePurchase. rewrite Hl, Hp. simpl.
  rewrite Hs, bool_decide_eq_true_2 by done. simpl. by rewrite decide_True.
Qed.

End PurchaseProperties.

(** A seller without a name is presented as "Verified Seller" whatever
    its identity verification: the card of an approved listing whose
    seller has no profile name and no verified KYC says "Verified Seller"
    and does not show "Identity Verified".  The home page promises "Every
    seller verified" (Index.tsx line 22). *)
Theorem unverified_seller_labelled_verified d id l :
  dd_listings d !! id = Some l -> l_status l = approved ->
  (forall p, dd_profiles d !! l_seller_id l = Some p ->
     p_kyc_status p <> verified /\ (p_full_name p = None \/ p_full_name p = Some "")) ->
  exists v, detail_render d (fetchListing (Some id) d initial_detail) = DListing v /\
    sc_name (lv_seller v) = "Verified Seller" /\ sc_identity_verified (lv_seller v) = false.
Proof.
  intros Hl Hst Hp. unfold fetchListing.
  rewrite (proj2 (approved_listing_Some d id l)) by auto. simpl. eexists. split; [reflexivity|].
  unfold seller_info. simpl.
  destruct (dd_profiles d !! l_seller_id l) as [p|] eqn:Hpr; simpl; [|auto].
  destruct (Hp p eq_refl) as [Hk [Hn|Hn]]; rewrite Hn; simpl;
    split; [done | by apply bool_decide_eq_false_2 | done | by apply bool_decide_eq_false_2].
Qed.

(** ** Witnesses *)

Lemma purchase_redirects_witness :
  exists sp, @handlePurchase ex_source ex_mk ex_env ex_detail_db "tok-buyer" None (Some ex_buyer)
               "L1" ex_detail_page = (set_purchasing true ex_detail_page, [Redirect (ex_mk sp).1]).
Proof.
  eexists. apply purchase_redirects; [discriminate | reflexivity | discriminate].
Defined.

Lemma purchase_error_generic_witness :
  @handlePurchase ex_source ex_mk ex_env ex_detail_db "tok-buyer" None (Some ex_buyer)
    "L2" initial_detail =
  (set_purchasing false initial_detail,
   [Toast "Checkout failed" "Edge Function returned a non-2xx status code" true]).
Proof.
  apply (purchase_error_generic _ _ _ _ _ _ _ _
           "Listing not found or not available for purchase"); [discriminate | reflexivity].
Defined.

Lemma purchase_own_listing_blocked_witness :
  purchase_button (Some ex_seller) ex_detail_page ex_listing = (true, ThisIsYourListing).
Proof.
  apply (@purchase_own_listing_blocked ex_source ex_mk ex_env ex_detail_db "tok-seller" None
           ex_seller "L1"); reflexivity.
Defined.

Lemma fetch_shows_only_approved_witness :
  dp_listing (fetchListing (Some "L1") ex_detail_db initial_detail) = Some ex_listing.
Proof. apply (proj2 (fetch_shows_only_approved ex_detail_db "L1" ex_listing)). split; reflexivity. Defined.

Lemma unverified_seller_labelled_verified_witness :
  exists v, detail_render ex_detail_db (fetchListing (Some "L1") ex_detail_db initial_detail) = DListing v /\
    sc_name (lv_seller v) = "Verified Seller".
Proof.
  destruct (unverified_seller_labelled_verified ex_detail_db "L1" ex_listing eq_refl eq_refl)
    as (v & Hv & Hn & _); [intros p Hp; discriminate Hp|].
  exists v. split; [exact Hv | exact Hn].
Defined.
