(* ===== verification/AuthPage.v ===== *)
(** * AuthPage: the sign-in and sign-up page

    src/src/pages/Auth.tsx.  The form's state is [isSignUp] (initially
    [?mode=signup]), [email], [password] and [confirmPassword] (lines
    17-23); [validateForm] (lines 35-55) runs the zod [authSchema] (lines
    11-14) and the confirmation check; [handleSubmit] (lines 57-103) calls
    the auth context's [signUp] or [signIn] and toasts or navigates; the
    effect of lines 29-33 sends a signed-in user to the dashboard; the link
    of lines 198-201 switches between the two modes.

    The auth context ([src/src/contexts/AuthContext], not part of src/) and
    zod's e-mail check are not code of this repository: the section
    [Validation] takes the e-mail check as a variable, and [handleSubmit]
    takes [signUp] and [signIn] as functions answering an error message or
    success.  Strings are byte strings (Prelude.v), so [min(8)] is counted
    on bytes: the same as zod's UTF-16 count for ASCII passwords, more for
    others. *)

From S2P Require Import Prelude Fees Checkout ListingPage.

Local Open Scope string_scope.
Local Open Scope list_scope.
Local Open Scope nat_scope.

Record AuthForm := mkAuthForm {
  af_isSignUp : bool;
  af_email : string;
  af_password : string;
  af_confirm : string
}.

(** [useState(searchParams.get('mode') === 'signup')] and empty fields. *)
Definition initial_auth_form (mode : option string) : AuthForm :=
  mkAuthForm (bool_decide (mode = Some "signup")) "" "" "".

(** The toggle of lines 198-201 (the errors are cleared too). *)
Definition toggle_mode (f : AuthForm) : AuthForm :=
  mkAuthForm (negb (af_isSignUp f)) (af_email f) (af_password f) (af_confirm f).

Record FormErrors := mkFormErrors {
  fe_email : option string;
  fe_password : option string;
  fe_confirm : option string
}.

Definition no_errors : FormErrors := mkFormErrors None None None.

Section Validation.
Variable is_email : string -> bool.

(** [validateForm] (lines 35-55): zod's messages per field, then the
    confirmation check in sign-up mode. *)
Definition validateForm (f : AuthForm) : FormErrors :=
  mkFormErrors
    (if is_email (af_email f) then None else Some "Please enter a valid email address")
    (if Nat.leb 8 (String.length (af_password f)) then None
     else Some "Password must be at least 8 characters")
    (if af_isSignUp f && negb (String.eqb (af_password f) (af_confirm f))
     then Some "Passwords do not match" else None).

(** [Object.keys(newErrors).length === 0]. *)
Definition form_valid (e : FormErrors) : bool :=
  match e with mkFormErrors None None None => true | _ => false end.

(** [handleSubmit] (lines 57-103); the auth calls answer [Some message] on
    error. *)
Definition handleSubmit (signUp signIn : string -> string -> option string) (f : AuthForm)
    : FormErrors * list UiEffect :=
  let errs := validateForm f in
  if negb (form_valid errs) then (errs, []) else
  if af_isSignUp f then
    match signUp (af_email f) (af_password f) with
    | Some msg =>
        if str_includes "already registered" msg then
          (errs, [Toast "Account exists"
                    "An account with this email already exists. Please sign in instead." true])
        else (errs, [Toast "Error creating account" msg true])
    | None =>
        (errs, [Toast "Welcome to Prestige Exchange"
                  "Your account has been created. You can now browse the exchange." false;
                Navigate "/dashboard"])
    end
  else
    match signIn (af_email f) (af_password f) with
    | Some _ => (errs, [Toast "Sign in failed" "Invalid email or password. Please try again." true])
    | None => (errs, [Navigate "/dashboard"])
    end.

End Validation.

(** The effect of lines 29-33. *)
Definition signed_in_redirect (user : option AuthUser) : list UiEffect :=
  match user with Some _ => [Navigate "/dashboard"] | None => [] end.

(** ** What the page shows (lines 104-245) *)

(** The form's half of the page, given the errors of the last
    [validateForm] and [isLoading]. *)
Record AuthView := mkAuthView {
  av_title : string;
  av_subtitle : string;
  av_confirm_shown : bool;           (* the Confirm Password field, line 164 *)
  av_messages : list string;         (* the error paragraphs under the fields *)
  av_inputs_disabled : bool;
  av_submit_label : string;
  av_toggle_label : string;
  av_back_link : string              (* "Back to Exchange" *)
}.

Definition opt_list (o : option string) : list string :=
  match o with Some m => [m] | None => [] end.

Definition auth_view (f : AuthForm) (errs : FormErrors) (loading : bool) : AuthView :=
  let up := af_isSignUp f in
  mkAuthView
    (if up then "Join the Exchange" else "Welcome Back")
    (if up then "Create your account to access verified luxury timepieces."
     else "Sign in to your account to continue.")
    up
    (opt_list (fe_email errs) ++ opt_list (fe_password errs) ++
     (if up then opt_list (fe_confirm errs) else []))
    loading
    (if loading then (if up then "Creating Account..." else "Signing In...")
     else (if up then "Create Account" else "Sign In"))
    (if up then "Already have an account? Sign in" else "Don't have an account? Create one")
    "/".

(** ** Example data for the witnesses *)

Definition ex_is_email (s : string) : bool := str_includes "@" s.

(** ** Lemmas *)

Lemma handleSubmit_navigates is_email signUp signIn f p :
  Navigate p ∈ (handleSubmit is_email signUp signIn f).2 -> p = "/dashboard".
Proof.
  unfold handleSubmit. repeat case_match; simpl; rewrite ?elem_of_cons, ?elem_of_nil;
    intros; naive_solver.
Qed.

Lemma signed_in_redirect_navigates user p :
  Navigate p ∈ signed_in_redirect user -> p = "/dashboard".
Proof. destruct user; simpl; rewrite ?elem_of_cons, ?elem_of_nil; naive_solver. Qed.

Lemma validateForm_valid is_email f :
  form_valid (validateForm is_email f) = true <->
  is_email (af_email f) = true /\ 8 <= String.length (af_password f) /\
  (af_isSignUp f = true -> af_password f = af_confirm f).
Proof.
  unfold validateForm, form_valid.
  destruct (is_email (af_email f)), (Nat.leb 8 (String.length (af_password f))) eqn:Hl,
    (af_isSignUp f), (String.eqb (af_password f) (af_confirm f)) eqn:He; simpl;
    rewrite ?Nat.leb_le, ?Nat.leb_gt, ?String.eqb_eq, ?String.eqb_neq in *;
    intuition (try lia; try discriminate).
Qed.

(** ** Properties *)

(** C31: the sign-in page ignores the [redirect] parameter the listing page
    sends a signed-out buyer with: whatever is typed and whatever the auth
    service answers, every navigation of the sign-in page goes to
    [/dashboard], so the buyer never comes back to the listing. *)
Theorem sign_in_drops_redirect `{CommissionSource} mk env d token origin id pg
    is_email signUp signIn f user :
  Navigate (sign_in_path id) ∈ (handlePurchase mk env d token origin None id pg).2 /\
  (forall p, Navigate p ∈ (handleSubmit is_email signUp signIn f).2 ++ signed_in_redirect user ->
             p = "/dashboard").
Proof.
  split; [simpl; rewrite elem_of_cons, elem_of_cons; auto|].
  intros p. rewrite elem_of_app.
  intros [Hp | Hp]; [exact (handleSubmit_navigates _ _ _ _ _ Hp) | exact (signed_in_redirect_navigates _ _ Hp)].
Qed.

(** The auth service is called only for a well-formed form: a valid
    e-mail, a password of at least 8 characters and, when signing up, a
    matching confirmation; otherwise the page only shows the field errors. *)
Theorem submit_requires_valid_form is_email signUp signIn f :
  (handleSubmit is_email signUp signIn f).2 <> [] ->
  is_email (af_email f) = true /\ 8 <= String.length (af_password f) /\
  (af_isSignUp f = true -> af_password f = af_confirm f).
Proof.
  intros Hne. apply validateForm_valid. unfold handleSubmit in Hne.
  destruct (form_valid (validateForm is_email f)); [done|]. simpl in Hne. done.
Qed.

(** A submit that [validateForm] stops always says why: every message it
    sets is displayed under its field, the confirmation's included, since
    it is only set in sign-up mode, where its field is shown. *)
Theorem validation_errors_displayed is_email f m :
  m ∈ opt_list (fe_email (validateForm is_email f)) ++ opt_list (fe_password (validateForm is_email f)) ++
      opt_list (fe_confirm (validateForm is_email f)) ->
  m ∈ av_messages (auth_view f (validateForm is_email f) false).
Proof.
  unfold auth_view, validateForm. simpl.
  destruct (af_isSignUp f); simpl; [done|].
  rewrite !elem_of_app. intros [?|[?|Hc]]; auto.
Qed.

(** ** Witnesses *)


Lemma submit_requires_valid_form_witness :
  8 <= String.length "correct horse".
Proof.
  apply (submit_requires_valid_form ex_is_email (fun _ _ => None) (fun _ _ => None)
           (mkAuthForm false "ada@example.com" "correct horse" "")).
  discriminate.
Defined.

Lemma sign_in_drops_redirect_witness :
  Navigate (sign_in_path "L1") ∈
    (@handlePurchase ex_source ex_mk ex_env ex_detail_db "tok-buyer" None None "L1" initial_detail).2.
Proof.
  apply (proj1 (@sign_in_drops_redirect ex_source ex_mk ex_env ex_detail_db "tok-buyer" None "L1"
                  initial_detail ex_is_email (fun _ _ => None) (fun _ _ => None)
                  (mkAuthForm false "" "" "") None)).
Defined.
