(* ===== verification/Browse.v ===== *)
(** * Browse: the marketplace's listing grid

    src/src/pages/Browse.tsx.  [fetchListings] (lines 60-125) asks the
    [listings] table for the approved rows, narrowed by the brand and
    condition selects and ordered by the sort select; each row is joined
    with its brand's name and completed with the seller's role read by
    [maybeSingle()], defaulting to ['individual_seller'].  The text search
    (lines 127-135) filters the fetched rows on the client.  The grid
    (lines 236-290) links each card to [/listing/:id].  [browse_step] is
    the page with the selects changing while fetches are in flight.

    The database's [order()] is written as the stable sort of Prelude.v
    over the table's rows; rows the order does not separate may come in
    any order from the database, and the theorems do not depend on the
    order of such rows.  [created_at], which the [Listing] record does
    not carry, is a column of its own. *)

From S2P Require Import Prelude Accounts Listings Checkout Price ListingPage.

Local Open Scope string_scope.
Local Open Scope list_scope.

(** The values of the sort select (lines 204-206). *)
Inductive SortBy := newest | price_low | price_high.

(** The page's filters (lines 40-43); [None] is ['all']. *)
Record BrowseFilters := mkBrowseFilters {
  bf_search : string;
  bf_brand : option string;
  bf_condition : option watch_condition;
  bf_sort : SortBy
}.

Definition initial_filters : BrowseFilters := mkBrowseFilters "" None None newest.

Record BrowseDb := mkBrowseDb {
  bd_listings : gmap string Listing;
  bd_created_at : gmap string Z;
  bd_brands : gmap string string;
  bd_roles : list RoleRow
}.

(** A card of the grid: the row, its brand's name and the seller's badge. *)
Record BrowseRow := mkBrowseRow {
  br_listing : Listing;
  br_brand : option string;
  br_seller_role : app_role
}.

(** The [.eq(...)] filters of lines 78-86. *)
Definition query_matches (f : BrowseFilters) (l : Listing) : Prop :=
  l_status l = approved /\
  match bf_brand f with Some b => l_brand_id l = b | None => True end /\
  match bf_condition f with Some c => l_condition l = c | None => True end.

#[export] Instance query_matches_dec f l : Decision (query_matches f l).
Proof. unfold query_matches. destruct (bf_brand f), (bf_condition f); apply _. Defined.

Definition created_at (db : BrowseDb) (l : Listing) : Z := default 0%Z (bd_created_at db !! l_id l).

(** The [.order(...)] of lines 88-94 as a comparator. *)
Definition browse_le (db : BrowseDb) (s : SortBy) (a b : Listing) : bool :=
  match s with
  | newest => Z.leb (created_at db b) (created_at db a)
  | price_low => Qle_bool (l_asking_price a) (l_asking_price b)
  | price_high => Qle_bool (l_asking_price b) (l_asking_price a)
  end.

(** [{ ...listing, seller_role: roleData?.role || 'individual_seller' }]
    (lines 99-121). *)
Definition enrich (db : BrowseDb) (l : Listing) : BrowseRow :=
  mkBrowseRow l (bd_brands db !! l_brand_id l)
    (default individual_seller (role_of (l_seller_id l) (bd_roles db))).

(** [fetchListings] of Browse.tsx. *)
Definition fetchBrowseListings (db : BrowseDb) (f : BrowseFilters) : list BrowseRow :=
  enrich db <$>
    isort (browse_le db (bf_sort f)) (filter (query_matches f) (snd <$> map_to_list (bd_listings db))).

(** [filteredListings] (lines 127-135). *)
Definition filteredListings (search : string) (rows : list BrowseRow) : list BrowseRow :=
  filter (fun r => search = "" \/ search_matches search (br_brand r) (br_listing r) = true) rows.

(** The grid the page shows. *)
Definition displayed (db : BrowseDb) (f : BrowseFilters) : list BrowseRow :=
  filteredListings (bf_search f) (fetchBrowseListings db f).

(** The card's link (line 240). *)
Definition card_link (r : BrowseRow) : string := "/listing/" +:+ l_id (br_listing r).

(** ** The page's state and its fetches in flight

    The effect of lines 45-48 runs [fetchListings] each time a select
    changes; nothing cancels a fetch still running, so the page is the
    pattern [async_step] of Prelude.v over the filters.  [fetchBrands]
    only fills the brand select and is left out. *)

(** [listings] and [loading] (lines 37-39). *)
Record BrowsePage := mkBrowsePage {
  bp_listings : list BrowseRow;
  bp_loading : bool
}.

Definition initial_browse : BrowsePage := mkBrowsePage [] true.

(** The effect's dependencies [[selectedBrand, selectedCondition, sortBy]]
    (line 48); the search box is not one of them. *)
Definition browse_key (f : BrowseFilters) : option string * option watch_condition * SortBy :=
  (bf_brand f, bf_condition f, bf_sort f).

(** The filters a fetch reads: its key, the search aside. *)
Definition key_filters (k : option string * option watch_condition * SortBy) : BrowseFilters :=
  mkBrowseFilters "" k.1.1 k.1.2 k.2.

(** [setLoading(true)] (line 61). *)
Definition browse_start (f : BrowseFilters) (p : BrowsePage) : BrowsePage :=
  mkBrowsePage (bp_listings p) true.

(** [setListings(listingsWithSellers)] and [setLoading(false)] (lines 122-124). *)
Definition browse_finish (rows : list BrowseRow) (p : BrowsePage) : BrowsePage :=
  mkBrowsePage rows false.

Definition browse_step (db : BrowseDb) :=
  async_step browse_key (fun k => fetchBrowseListings db (key_filters k)) browse_start browse_finish.

(** The answers alone: the code after [await query] (lines 96-124). *)
Definition browse_answer (db : BrowseDb) :=
  @async_answer BrowseFilters _ _ _ (fun k => fetchBrowseListings db (key_filters k)) browse_finish.

Definition browse_init : AsyncConf := async_init browse_key initial_filters initial_browse.

(** The grid shown: the text search over the rows the page holds. *)
Definition browse_grid (c : @AsyncConf BrowseFilters (option string * option watch_condition * SortBy) BrowsePage)
    : list BrowseRow :=
  filteredListings (bf_search (ac_query c)) (bp_listings (ac_page c)).

(** ** What the page shows (lines 145-298) *)

(** The labels of [conditionConfig] (condition-badge.tsx lines 11-32). *)
Definition condition_badge_label (c : watch_condition) : string :=
  match c with
  | unworn => "Unworn" | excellent => "Excellent" | very_good => "Very Good"
  | good => "Good" | fair => "Fair"
  end.

(** The brand select (lines 170-181): "All Brands" and the brands
    [fetchBrands] answers, the active ones by [display_order]. *)
Definition brand_options (brands : list (string * string)) : list (option string * string) :=
  (None, "All Brands") :: ((fun b => (Some b.1, b.2)) <$> brands).

(** The condition select (lines 184-195). *)
Definition CONDITION_OPTIONS : list (option watch_condition * string) :=
  [(None, "All Conditions"); (Some unworn, "Unworn"); (Some excellent, "Excellent");
   (Some very_good, "Very Good"); (Some good, "Good"); (Some fair, "Fair")].

(** The sort select (lines 197-207). *)
Definition SORT_OPTIONS : list (SortBy * string) :=
  [(newest, "Newest First"); (price_low, "Price: Low to High"); (price_high, "Price: High to Low")].

(** "Ref. ..." and [{listing.year_produced && ` • ${listing.year_produced}`}]
    (lines 262-265): a year of [0] is falsy and React prints the [0]. *)
Definition ref_line (l : Listing) : string :=
  "Ref. " +:+ l_reference_number l +:+
  match l_year_produced l with
  | Some y => if decide (y = 0%Z) then "0" else " • " +:+ Z_to_dec y
  | None => ""
  end.

(** A card of the grid (lines 238-289). *)
Record BrowseCard := mkBrowseCard {
  bc_link : string;
  bc_brand : option string;          (* listing.brands?.name, twice *)
  bc_condition : string;             (* ConditionBadge *)
  bc_model : string;
  bc_ref_line : string;
  bc_box : bool;
  bc_papers : bool;
  bc_price : option string;          (* formatPrice, whole units *)
  bc_tier : string                   (* TierBadge *)
}.

Definition browse_card (r : BrowseRow) : BrowseCard :=
  let l := br_listing r in
  mkBrowseCard (card_link r) (br_brand r) (condition_badge_label (l_condition l)) (l_model l)
    (ref_line l) (l_has_box l) (l_has_papers l) (formatPrice0 (l_asking_price l) (l_currency l))
    (tierConfig_label (br_seller_role r)).

Inductive BrowseView := BSkeleton | BNoResults | BCards (cards : list BrowseCard).

(** The results area (lines 212-293): six skeleton cards, "No listings
    found matching your criteria." with its Clear Filters button, or the
    cards of the rows the search keeps. *)
Definition browse_view (c : @AsyncConf BrowseFilters (option string * option watch_condition * SortBy) BrowsePage)
    : BrowseView :=
  if bp_loading (ac_page c) then BSkeleton else
  match browse_grid c with
  | [] => BNoResults
  | rows => BCards (browse_card <$> rows)
  end.

(** The Clear Filters button (lines 227-233): the search, the brand and
    the condition are reset; the sort is kept. *)
Definition clearFilters (f : BrowseFilters) : BrowseFilters :=
  mkBrowseFilters "" None None (bf_sort f).

(** The header and the search box (lines 148-166).  Typing in the box
    changes the search text only, which the effect does not depend on:
    a render without a fetch ([ae_local]). *)
Record BrowseHeader := mkBrowseHeader {
  bh_title : string;
  bh_subtitle : string;
  bh_search_placeholder : string;
  bh_search_value : string
}.

Definition browse_header (f : BrowseFilters) : BrowseHeader :=
  mkBrowseHeader "Browse Exchange" "Verified listings from authenticated sellers."
    "Search by brand, model, or reference..." (bf_search f).

Definition setSearch (s : string) (f : BrowseFilters) : BrowseFilters :=
  mkBrowseFilters s (bf_brand f) (bf_condition f) (bf_sort f).

(** ** Example data for the witnesses *)

Definition ex_browse_db : BrowseDb :=
  mkBrowseDb (cdb_listings ex_db) {["L1" := 2%Z; "L2" := 5%Z]} (cdb_brands ex_db) [].

(** ** Lemmas *)

Lemma browse_le_total db s a b : browse_le db s a b = false -> browse_le db s b a = true.
Proof.
  destruct s; simpl; rewrite ?Z.leb_gt, ?Z.leb_le; [lia| |];
    rewrite <- !Bool.not_true_iff_false, !Qle_bool_iff; intros H;
    apply Qlt_le_weak, Qnot_le_lt, H.
Qed.

Lemma browse_le_trans db s a b c :
  browse_le db s a b = true -> browse_le db s b c = true -> browse_le db s a c = true.
Proof.
  destruct s; simpl; rewrite ?Z.leb_le, ?Qle_bool_iff; [lia| |];
    intros H1 H2; eapply Qle_trans; eassumption.
Qed.

(** An approved row matching the selects is on the grid of an empty search. *)
Lemma browse_shows_row db f id l :
  bd_listings db !! id = Some l -> query_matches f l -> bf_search f = "" ->
  enrich db l ∈ displayed db f.
Proof.
  intros Hl Hq Hs. unfold displayed, filteredListings, fetchBrowseListings.
  apply list_elem_of_filter. split; [by left|]. apply list_elem_of_fmap. exists l. split; [done|].
  rewrite <- isort_perm. apply list_elem_of_filter. split; [done|].
  apply list_elem_of_fmap. exists (id, l). split; [done|]. by apply elem_of_map_to_list.
Qed.

(** With no fetch in flight, the skeleton is off. *)
Lemma browse_idle_not_loading db c :
  star (browse_step db) browse_init c -> ac_pending c = [] -> bp_loading (ac_page c) = false.
Proof.
  intros Hrun. refine (star_invariant _ (fun c => ac_pending c = [] -> bp_loading (ac_page c) = false)
                         _ _ _ Hrun _); [|discriminate].
  intros c1 c2 Hi Hstep. destruct Hstep as [c1 q _ | c1 q _ | c1 p1 k p2 _]; [discriminate | exact Hi | done].
Qed.

(** ** Properties *)

(** The grid is the table's rows that pass the query and the text search. *)
Lemma displayed_iff db f l :
  (exists r, r ∈ displayed db f /\ br_listing r = l) <->
  (exists id, bd_listings db !! id = Some l) /\ query_matches f l /\
  (bf_search f = "" \/ search_matches (bf_search f) (bd_brands db !! l_brand_id l) l = true).
Proof.
  unfold displayed, filteredListings, fetchBrowseListings. split.
  - intros (r & Hr & <-). apply list_elem_of_filter in Hr as [Hs Hr].
    apply list_elem_of_fmap in Hr as (l' & -> & Hl'). simpl in *.
    rewrite <- isort_perm in Hl'. apply list_elem_of_filter in Hl' as [Hq Hl'].
    apply list_elem_of_fmap in Hl' as ([id l''] & -> & Hin). apply elem_of_map_to_list in Hin.
    simpl. eauto.
  - intros ((id & Hid) & Hq & Hs). exists (enrich db l). split; [|done].
    apply list_elem_of_filter. split; [exact Hs|]. apply list_elem_of_fmap.
    exists l. split; [done|]. rewrite <- isort_perm. apply list_elem_of_filter.
    split; [done|]. apply list_elem_of_fmap. exists (id, l). split; [done|].
    by apply elem_of_map_to_list.
Qed.

(** C33: the grid shows exactly the listings of the table that are
    [approved], of the brand and the condition the selects name (any when
    'all'), and, when the search box is not empty, whose model, reference
    or brand name contains the lower-cased search text. *)
Theorem browse_shows_exactly db f l :
  (exists r, r ∈ displayed db f /\ br_listing r = l) <->
  (exists id, bd_listings db !! id = Some l) /\
  l_status l = approved /\
  (forall b, bf_brand f = Some b -> l_brand_id l = b) /\
  (forall c, bf_condition f = Some c -> l_condition l = c) /\
  (bf_search f = "" \/
   str_includes (str_lower (bf_search f)) (str_lower (l_model l)) = true \/
   str_includes (str_lower (bf_search f)) (str_lower (l_reference_number l)) = true \/
   exists b, bd_brands db !! l_brand_id l = Some b /\ str_includes (str_lower (bf_search f)) (str_lower b) = true).
Proof.
  rewrite displayed_iff. unfold query_matches, search_matches.
  destruct (bf_brand f) as [b|], (bf_condition f) as [c|], (bd_brands db !! l_brand_id l) as [bn|];
    rewrite ?orb_true_iff; naive_solver.
Qed.

(** The grid is in the order the sort select asks for: newest first,
    price ascending or price descending, also after the text search. *)
Theorem browse_sorted db f :
  Sorted (fun a b => browse_le db (bf_sort f) (br_listing a) (br_listing b) = true) (displayed db f).
Proof.
  unfold displayed, filteredListings, fetchBrowseListings.
  apply sorted_filter; [intros a b c; apply browse_le_trans|].
  apply sorted_fmap. apply isort_sorted, browse_le_total.
Qed.

(** The two pages disagree on a seller without exactly one role row: the
    grid's badge says Verified Dealer ([individual_seller]) while the
    listing page's says Private Holder ([observer]) for the same seller. *)
Theorem seller_badge_diverges db d l :
  role_of (l_seller_id l) (bd_roles db) = None -> dd_roles d = bd_roles db ->
  tierConfig_label (br_seller_role (enrich db l)) = "Verified Dealer" /\
  tierConfig_label (si_role (seller_info d (l_seller_id l))) = "Private Holder".
Proof. intros Hr Hd. unfold enrich, seller_info. rewrite Hd, Hr. done. Qed.

(** Typing in the search box starts no fetch: it is a step of the page
    that keeps the rows held and the fetches in flight, and the grid is
    at once the held rows the new text keeps. *)
Theorem search_is_local db c s :
  browse_step db c (mkAsyncConf (setSearch s (ac_query c)) (ac_page c) (ac_pending c)) /\
  browse_grid (mkAsyncConf (setSearch s (ac_query c)) (ac_page c) (ac_pending c)) =
    filteredListings s (bp_listings (ac_page c)).
Proof. split; [by apply ae_local | done]. Qed.

(** Changing the brand select twice quickly can leave the grid showing
    the first brand's watches: when the fetch for the first brand answers
    after the fetch for the second, its rows replace the second's, with
    the skeleton gone and no fetch pending, while the select shows the
    second brand. *)
Theorem browse_brand_race db b1 b2 id l :
  bd_listings db !! id = Some l -> l_status l = approved -> l_brand_id l = b1 -> b1 <> b2 ->
  exists c, star (browse_step db) browse_init c /\
    bf_brand (ac_query c) = Some b2 /\ bp_loading (ac_page c) = false /\ ac_pending c = [] /\
    enrich db l ∈ browse_grid c.
Proof.
  intros Hl Hst Hb Hne.
  eexists. split.
  - apply (async_late_answer _ _ _ _ initial_filters (mkBrowseFilters "" (Some b1) None newest)
             (mkBrowseFilters "" (Some b2) None newest) initial_browse); unfold browse_key; simpl;
      congruence.
  - simpl. split; [done|]. split; [done|]. split; [done|].
    apply (browse_shows_row _ (mkBrowseFilters "" (Some b1) None newest) id); [done | | done].
    split; [done | split; [done | exact I]].
Qed.

(** C34: the page always settles.  Every sequence of arriving answers is
    finite, and from any state the page can reach, the answers of the
    fetches in flight lead, without any further click, to a state with
    the same selects, no fetch pending and the skeleton gone. *)
Theorem browse_settles db c :
  star (browse_step db) browse_init c ->
  Acc (fun c2 c1 => browse_answer db c1 c2) c /\
  exists c', star (browse_step db) c c' /\ ac_query c' = ac_query c /\ ac_pending c' = [] /\
    bp_loading (ac_page c') = false.
Proof.
  intros Hrun. split; [apply async_answer_wf|].
  destruct (async_answer_settle (fun k => fetchBrowseListings db (key_filters k)) browse_finish c)
    as (c' & Hans & Hq & Hp).
  pose proof (star_async_answer browse_key _ browse_start _ _ _ Hans) as Hstep.
  exists c'. split; [exact Hstep|]. split; [exact Hq|]. split; [exact Hp|].
  apply (browse_idle_not_loading db); [eapply star_trans; eassumption | exact Hp].
Qed.

(** Clear Filters brings back every approved listing of the table: once
    its fetch has answered, each one is on the grid, in any sort. *)
Theorem clear_filters_shows_all db f id l :
  bd_listings db !! id = Some l -> l_status l = approved ->
  browse_card (enrich db l) ∈ browse_card <$> displayed db (clearFilters f).
Proof.
  intros Hl Hs. apply list_elem_of_fmap_2.
  apply (browse_shows_row _ _ id); [done | | done]. split; [done | split; exact I].
Qed.

(** ** Witnesses *)


Lemma seller_badge_diverges_witness :
  tierConfig_label (br_seller_role (enrich ex_browse_db ex_listing)) = "Verified Dealer".
Proof.
  apply (seller_badge_diverges ex_browse_db (mkDetailDb (cdb_listings ex_db) (cdb_brands ex_db) [] ∅ [])
           ex_listing); reflexivity.
Defined.

Lemma browse_shows_exactly_witness :
  exists r, r ∈ displayed ex_browse_db initial_filters /\ br_listing r = ex_listing.
Proof.
  apply (proj2 (browse_shows_exactly ex_browse_db initial_filters ex_listing)).
  split_and!; [exists "L1"; reflexivity | reflexivity | by intros ? [=] | by intros ? [=] | by left].
Defined.

Lemma browse_brand_race_witness :
  exists c, star (browse_step ex_browse_db) browse_init c /\ bf_brand (ac_query c) = Some "B2" /\
    enrich ex_browse_db ex_listing ∈ browse_grid c.
Proof.
  destruct (browse_brand_race ex_browse_db (l_brand_id ex_listing) "B2" "L1" ex_listing)
    as (c & Hs & Hb & _ & _ & Hin); [reflexivity | reflexivity | reflexivity | discriminate |].
  exists c. split; [exact Hs | split; [exact Hb | exact Hin]].
Defined.

Lemma browse_settles_witness :
  exists c', star (browse_step ex_browse_db) browse_init c' /\ ac_pending c' = [] /\
    bp_loading (ac_page c') = false.
Proof.
  destruct (proj2 (browse_settles ex_browse_db browse_init (star_refl _ _))) as (c' & Hs & _ & Hp & Hl).
  exists c'. auto.
Defined.
