(* ===== verification/Navigation.v ===== *)
(** * Navigation: the router and the checkout success page

    src/src/App.tsx declares the routes (lines 34-50) of react-router; a
    path is matched segment by segment, [:id] matching any segment and
    ["*"] (NotFound) everything else.  src/src/pages/CheckoutSuccess.tsx is
    the page Stripe returns a buyer to: it reads [session_id] and
    [listing_id] from the query (lines 23-24), fetches that listing with
    [maybeSingle()] (lines 26-54) and shows "Purchase Successful" with the
    order details (lines 79-160).

    The query string is split on ['&'] and ['='] as [URLSearchParams]
    does for values without percent-escapes or ['+'].  The Stripe
    redirect is the url the checkout function gives Stripe, whose
    [{CHECKOUT_SESSION_ID}] Stripe fills in; the theorems use the url as
    the function writes it, which differs from Stripe's only in that value.

    The pages NotFound and BrowseSellers that App.tsx imports are not in
    src/; their routes are modelled, their pages are not. *)

From S2P Require Import Prelude Accounts Fees Listings Checkout Kyc VerificationPage ListingPage AuthPage Browse.

Local Open Scope string_scope.
Local Open Scope list_scope.

(** ** Urls *)

(** The part before the first [c], and the part after it if any. *)
Fixpoint split_first (c : Ascii.ascii) (s : string) : string * option string :=
  match s with
  | EmptyString => (EmptyString, None)
  | String a s' =>
      if Ascii.ascii_dec a c then (EmptyString, Some s')
      else let '(x, y) := split_first c s' in (String a x, y)
  end.

Definition qmark : Ascii.ascii := Ascii.ascii_of_nat 63.
Definition amp : Ascii.ascii := Ascii.ascii_of_nat 38.
Definition eq_sign : Ascii.ascii := Ascii.ascii_of_nat 61.
Definition slash : Ascii.ascii := Ascii.ascii_of_nat 47.

(** [location.pathname] and [location.search] of a router target. *)
Definition path_of (target : string) : string := (split_first qmark target).1.
Definition query_of (target : string) : option string := (split_first qmark target).2.

(** [new URLSearchParams(search).get(name)]: the first pair's value. *)
Definition query_get (name : string) (q : option string) : option string :=
  match q with
  | None => None
  | Some q =>
      let pairs := (fun kv => let '(k, v) := split_first eq_sign kv in (k, default "" v))
                     <$> str_split amp q in
      snd <$> head (filter (fun kv => kv.1 = name) pairs)
  end.

(** A same-origin absolute url as the router sees it. *)
Definition url_target (origin url : string) : option string :=
  if String.prefix origin url
  then Some (String.substring (String.length origin) (String.length url - String.length origin) url)
  else None.

(** ** Routes (App.tsx lines 34-50) *)

Inductive Page :=
| PIndex | PPage2 | PAppraisalTool | PBrowseSellers | PAuth | PBrowse | PDashboard
| PCommunity | PCreateListing | PPricing | PSellerOnboarding | PAdmin | PVerification
| PListingDetail | PCheckoutSuccess | PNotFound.

#[export] Instance Page_eq_dec : EqDecision Page.
Proof. solve_decision. Defined.

Inductive Seg := Lit (s : string) | Param.

Definition ROUTES : list (list Seg * Page) :=
  [([], PIndex); ([Lit "page-2"], PPage2); ([Lit "appraisal-tool"], PAppraisalTool);
   ([Lit "browse-sellers"], PBrowseSellers); ([Lit "auth"], PAuth); ([Lit "browse"], PBrowse);
   ([Lit "dashboard"], PDashboard); ([Lit "community"], PCommunity);
   ([Lit "sell"; Lit "new"], PCreateListing); ([Lit "pricing"], PPricing);
   ([Lit "onboarding"; Lit "seller"], PSellerOnboarding); ([Lit "admin"], PAdmin);
   ([Lit "verification"], PVerification); ([Lit "listing"; Param], PListingDetail);
   ([Lit "checkout"; Lit "success"], PCheckoutSuccess)].

(** The path's segments, empty ones dropped. *)
Definition segments (path : string) : list string :=
  filter (fun s => s <> "") (str_split slash path).

(** A pattern against segments: the [:params] it binds. *)
Fixpoint match_segs (pat : list Seg) (segs : list string) : option (list string) :=
  match pat, segs with
  | [], [] => Some []
  | Lit s :: pat', x :: segs' => if decide (s = x) then match_segs pat' segs' else None
  | Param :: pat', x :: segs' => (fun ps => x :: ps) <$> match_segs pat' segs'
  | _, _ => None
  end.

(** The page a path renders and its params; ["*"] renders NotFound. *)
Definition route_of (path : string) : Page * list string :=
  let fix go (rs : list (list Seg * Page)) :=
    match rs with
    | [] => (PNotFound, [])
    | (pat, pg) :: rs' =>
        match match_segs pat (segments path) with Some ps => (pg, ps) | None => go rs' end
    end in
  go ROUTES.

(** ** The checkout success page *)

Record SuccessView := mkSuccessView {
  sv_title : string;
  sv_listing : option Listing;
  sv_transaction : option string
}.

(** The page after its fetch: the listing of [listing_id], whatever its
    status, and the first 20 characters of [session_id]. *)
Definition checkout_success (listings : gmap string Listing) (query : option string)
    : SuccessView :=
  let listingId := query_get "listing_id" query in
  let sessionId := query_get "session_id" query in
  mkSuccessView "Purchase Successful"
    (match listingId with
     | Some id => if decide (id = "") then None else listings !! id
     | None => None
     end)
    ((fun s => String.substring 0 20 s) <$>
       match sessionId with Some s => if decide (s = "") then None else Some s | None => None end).

(** An id that the router and the query parser keep whole. *)
Definition url_plain (s : string) : bool :=
  bool_decide (s <> "") &&
  forallb (fun n => negb (has_char n s)) [47; 63; 38; 61; 35]%nat.

(** ** Lemmas *)

Lemma split_first_app c a b :
  has_char (Ascii.nat_of_ascii c) a = false ->
  split_first c (a +:+ b) = let '(x, y) := split_first c b in (a +:+ x, y).
Proof.
  induction a as [|d a IH]; simpl; intros H; [change ("" +:+ b) with b; destruct (split_first c b); reflexivity|].
  apply orb_false_iff in H as [Hd Ha]. rewrite IH by done.
  destruct (Ascii.ascii_dec d c) as [->|]; [by rewrite Nat.eqb_refl in Hd|].
  by destruct (split_first c b).
Qed.

Lemma url_target_app origin rest : url_target origin (origin +:+ rest) = Some rest.
Proof.
  unfold url_target. rewrite prefix_append, length_append.
  replace (String.length origin + String.length rest - String.length origin)%nat
    with (String.length rest) by lia.
  by rewrite substring_after.
Qed.

Lemma string_app_nil_r s : s +:+ "" = s.
Proof. induction s as [|c s IH]; [done | exact (f_equal (String c) IH)]. Qed.

Lemma url_plain_spec s :
  url_plain s = true ->
  s <> "" /\ has_char 47 s = false /\ has_char 63 s = false /\ has_char 38 s = false /\
  has_char 61 s = false.
Proof.
  unfold url_plain. simpl. rewrite !andb_true_iff, !negb_true_iff, bool_decide_eq_true.
  intros (? & ? & ? & ? & ? & ? & _). auto.
Qed.

Lemma split_first_at c a b :
  has_char (Ascii.nat_of_ascii c) a = false -> split_first c (a +:+ String c b) = (a, Some b).
Proof.
  intros H. rewrite split_first_app by done. simpl.
  destruct (Ascii.ascii_dec c c); [|done]. simpl. by rewrite string_app_nil_r.
Qed.

Lemma split_first_none c a :
  has_char (Ascii.nat_of_ascii c) a = false -> split_first c a = (a, None).
Proof.
  intros H. rewrite <- (string_app_nil_r a) at 1. rewrite split_first_app by done.
  simpl. by rewrite string_app_nil_r.
Qed.

(** One [key=value] pair, then the rest of the query. *)
Lemma query_get_cons name k v rest :
  has_char 61 k = false -> has_char 38 k = false -> has_char 38 v = false ->
  query_get name (Some (k +:+ String eq_sign v +:+ String amp rest)) =
    if decide (k = name) then Some v else query_get name (Some rest).
Proof.
  intros Hk Hk' Hv. unfold query_get.
  change (String eq_sign v +:+ String amp rest) with (String eq_sign (v +:+ String amp rest)).
  replace (k +:+ String eq_sign (v +:+ String amp rest))
    with ((k +:+ String eq_sign v) +:+ String amp rest)
    by (rewrite <- string_app_assoc; reflexivity).
  assert (Hs : has_char 38 (k +:+ String eq_sign v) = false)
    by (rewrite has_char_app, Hk'; exact Hv).
  rewrite (str_split_app amp (k +:+ String eq_sign v) rest Hs).
  simpl. rewrite (split_first_at eq_sign k v Hk). rewrite filter_cons. simpl.
  case_decide; [done|]. reflexivity.
Qed.

Lemma query_get_last name k v :
  has_char 61 k = false -> has_char 38 k = false -> has_char 38 v = false ->
  query_get name (Some (k +:+ String eq_sign v)) = if decide (k = name) then Some v else None.
Proof.
  intros Hk Hk' Hv. unfold query_get.
  assert (Hs : has_char 38 (k +:+ String eq_sign v) = false)
    by (rewrite has_char_app, Hk'; exact Hv).
  rewrite (str_split_nosep amp (k +:+ String eq_sign v) Hs).
  simpl. rewrite (split_first_at eq_sign k v Hk). rewrite filter_cons. simpl.
  by case_decide.
Qed.

(** Where the modelled handlers navigate. *)
Lemma run_action_navigates env req st pg a p :
  Navigate p ∈ (run_action env req st pg a).2 -> p = "/dashboard".
Proof.
  destruct a; simpl;
    try (pose proof (start_effects env req st pg) as H; cbv zeta in H;
         destruct H as [_ [-> | [-> | [url ->]]]]; rewrite ?elem_of_cons, ?elem_of_nil; naive_solver).
  - unfold checkVerificationStatus. repeat case_match; simpl;
      rewrite ?elem_of_cons, ?elem_of_nil; naive_solver.
  - rewrite elem_of_cons, elem_of_nil. naive_solver.
Qed.

Lemma handlePurchase_navigates `{CommissionSource} mk env d token origin user id pg p :
  Navigate p ∈ (handlePurchase mk env d token origin user id pg).2 -> p = sign_in_path id.
Proof.
  unfold handlePurchase. repeat case_match; simpl; rewrite ?elem_of_cons, ?elem_of_nil; naive_solver.
Qed.

(** The listing page's path. *)
Lemma route_listing id :
  url_plain id = true -> route_of ("/listing/" +:+ id) = (PListingDetail, [id]).
Proof.
  intros (Hne & H47 & _)%url_plain_spec. unfold route_of, segments. simpl.
  change ("" +:+ id) with id. rewrite (str_split_nosep slash id H47).
  rewrite filter_cons_True, filter_nil by done. reflexivity.
Qed.

(** ** Properties *)

(** The urls the checkout function gives Stripe lead back into the
    application: the success url renders the checkout success page with
    the listing's id, and the cancel url renders the listing's page, which
    then toasts "Checkout Cancelled". *)
Theorem stripe_urls_route `{CommissionSource} env db req user email l :
  guards_pass env db req user email l -> l_seller_id l <> au_id user -> url_plain (l_id l) = true ->
  let origin := default default_origin (truthy (req_origin req)) in
  exists sp, checkout_session env db req = Ok sp /\
    (exists t, url_target origin (sp_success_url sp) = Some t /\
       route_of (path_of t) = (PCheckoutSuccess, []) /\
       query_get "listing_id" (query_of t) = Some (l_id l)) /\
    (exists t, url_target origin (sp_cancel_url sp) = Some t /\
       route_of (path_of t) = (PListingDetail, [l_id l]) /\
       cancelled_toast (query_get "checkout" (query_of t)) =
         [Toast "Checkout Cancelled" "Your purchase was not completed." false]).
Proof.
  intros Hg Hne Hplain origin.
  pose proof (url_plain_spec _ Hplain) as (Hid & H47 & H63 & H38 & H61).
  rewrite (guards_pass_unfold env db req user email l Hg), bool_decide_eq_false_2 by done.
  eexists. split; [reflexivity|]. simpl. split.
  - eexists. split; [apply url_target_app|]. split; [reflexivity|].
    change (query_of _) with
      (Some ("session_id" +:+ String eq_sign "{CHECKOUT_SESSION_ID}" +:+
             String amp ("listing_id" +:+ String eq_sign (l_id l)))).
    rewrite query_get_cons, query_get_last by (done || reflexivity). reflexivity.
  - eexists. split; [apply url_target_app|].
    assert (Hq : has_char 63 ("/listing/" +:+ l_id l) = false)
      by (rewrite has_char_app; exact H63).
    unfold path_of, query_of.
    change ("/listing/" +:+ l_id l +:+ "?checkout=cancelled")
      with ("/listing/" +:+ l_id l +:+ String qmark "checkout=cancelled").
    rewrite string_app_assoc, (split_first_at qmark _ _ Hq). simpl.
    split; [by apply route_listing | reflexivity].
Qed.

(** No navigation of the modelled pages leads to the NotFound page:
    the verification page's dashboard button, the listing page's sign-in
    redirect and the sign-in page's redirects all render a declared
    route. *)
Theorem navigations_resolve `{CommissionSource} kenv req st pg a mk env d token origin user id dpg
    is_email signUp signIn f p :
  Navigate p ∈ (run_action kenv req st pg a).2 ++ (handlePurchase mk env d token origin user id dpg).2 ++
               (handleSubmit is_email signUp signIn f).2 ++ signed_in_redirect user ->
  (route_of (path_of p)).1 <> PNotFound.
Proof.
  rewrite !elem_of_app. intros [Hp | [Hp | [Hp | Hp]]].
  - by rewrite (run_action_navigates _ _ _ _ _ _ Hp).
  - by rewrite (handlePurchase_navigates _ _ _ _ _ _ _ _ _ Hp).
  - by rewrite (handleSubmit_navigates _ _ _ _ _ Hp).
  - by rewrite (signed_in_redirect_navigates _ _ Hp).
Qed.

(** C32: the success page confirms a purchase for any url naming a listing:
    without a Stripe session, and whatever the listing's status, it shows
    "Purchase Successful" with the listing; it reads nothing that says the
    payment happened and writes nothing. *)
Theorem success_page_trusts_url listings id l :
  url_plain id = true -> listings !! id = Some l ->
  checkout_success listings (query_of ("/checkout/success?listing_id=" +:+ id)) =
    mkSuccessView "Purchase Successful" (Some l) None.
Proof.
  intros Hplain Hl. pose proof (url_plain_spec _ Hplain) as (Hid & H47 & H63 & H38 & H61).
  unfold checkout_success.
  change (query_of _) with (Some ("listing_id" +:+ String eq_sign id)).
  rewrite !query_get_last by (done || reflexivity). simpl. rewrite decide_False by done. by rewrite Hl.
Qed.

(** ** Witnesses *)

Lemma stripe_urls_route_witness :
  exists sp, @checkout_session ex_source ex_env ex_db (ex_req "tok-buyer" "L1") = Ok sp.
Proof.
  destruct (@stripe_urls_route ex_source ex_env ex_db (ex_req "tok-buyer" "L1") ex_buyer
              "buyer@example.com" ex_listing) as (sp & Hsp & _); [|discriminate|reflexivity|].
  - by apply guards_pass_ex.
  - by exists sp.
Defined.

Lemma success_page_trusts_url_witness :
  checkout_success (cdb_listings ex_db) (query_of ("/checkout/success?listing_id=" +:+ "L2")) =
    mkSuccessView "Purchase Successful" (Some ex_pending) None.
Proof. apply success_page_trusts_url; reflexivity. Defined.

Lemma navigations_resolve_witness : (route_of (path_of "/dashboard")).1 <> PNotFound.
Proof.
  apply (@navigations_resolve ex_source ex_kenv ex_kreq (ex_kyc_state verified []) initial_vpage
           ReturnToDashboard ex_mk ex_env ex_detail_db "tok-buyer" None None "L1" initial_detail
           ex_is_email (fun _ _ => None) (fun _ _ => None) (mkAuthForm false "" "" "")).
  simpl. constructor.
Defined.
