(* ===== verification/Settings.v ===== *)
(** * Settings: the admin platform-settings page

    src/src/components/admin/AdminSettings.tsx.  The [admin_settings] table
    (types.ts lines 17-40) is a key/value store of JSON values, modelled as
    a map from keys to [Json]; the page keeps the settings as a JavaScript
    object, modelled the same way, because [fetchSettings] copies each
    stored value into it without checking its type.  The handlers are
    [fetchSettings] (lines 34-67), [saveSetting] (lines 73-102),
    [handleSaveSettings] (lines 104-122, six saves run together by
    [Promise.all]) and the inputs' [onChange] parsers (lines 153-255).

    [save_outcome] is [handleSaveSettings] with a failure possible for
    each save; [settings_step] is the page and the table under all the
    handlers.  The types [PlatformSettings] declares (lines 11-18) are
    [SETTING_TYPES], checked by [settings_typed]; the theorems show that
    the handlers keep them, that the fetch does not check them, and what a
    failed save leaves in the table. *)

From S2P Require Import Prelude.

Local Open Scope string_scope.
Local Open Scope list_scope.

(** ** Data *)

Inductive Json := JNull | JBool (b : bool) | JNum (q : Q) | JStr (s : string).

Abbreviation Settings := (gmap string Json).

(** The keys of [PlatformSettings] (lines 11-18), as [fetchSettings] asks
    for them with [.in('key', [...])]. *)
Definition KEYS : list string :=
  ["zero_fee_period_active"; "zero_fee_end_date"; "private_holder_limit";
   "verified_dealer_limit"; "private_holder_commission"; "verified_dealer_commission"].

(** [DEFAULT_SETTINGS] (lines 20-27). *)
Definition DEFAULT_SETTINGS : Settings :=
  list_to_map [("zero_fee_period_active", JBool true); ("zero_fee_end_date", JNull);
               ("private_holder_limit", JNum 3); ("verified_dealer_limit", JNum 25);
               ("private_holder_commission", JNum (35 # 10));
               ("verified_dealer_commission", JNum (25 # 10))].

(** The types [PlatformSettings] declares for its keys (lines 11-18):
    [boolean], [string | null] and [number]; a stored [Json] value has
    no such guarantee. *)
Inductive JsonType := TBool | TStrOrNull | TNum.

Definition json_has_type (t : JsonType) (v : Json) : bool :=
  match t, v with
  | TBool, JBool _ | TStrOrNull, (JStr _ | JNull) | TNum, JNum _ => true
  | _, _ => false
  end.

Definition SETTING_TYPES : list (string * JsonType) :=
  [("zero_fee_period_active", TBool); ("zero_fee_end_date", TStrOrNull);
   ("private_holder_limit", TNum); ("verified_dealer_limit", TNum);
   ("private_holder_commission", TNum); ("verified_dealer_commission", TNum)].

(** The page's object has the interface's type: each key holds a value of
    its declared type. *)
Definition settings_typed (s : Settings) : bool :=
  forallb (fun kt => match s !! kt.1 with Some v => json_has_type kt.2 v | None => false end)
    SETTING_TYPES.

(** The table's rows for the six keys, where present, have their type. *)
Definition table_typed (t : Settings) : bool :=
  forallb (fun kt => match t !! kt.1 with Some v => json_has_type kt.2 v | None => true end)
    SETTING_TYPES.

(** ** Handlers *)

(** One row of the answer: copy it into the object when its key is one of
    the object's ([if (key in settingsObj)]). *)
Definition merge_row (o : Settings) (row : string * Json) : Settings :=
  if decide (row.1 ∈ dom o) then <[row.1 := row.2]> o else o.

(** [fetchSettings]: the rows with the six keys; when there are some, the
    defaults overwritten by them, otherwise the current settings. *)
Definition fetchSettings (table : Settings) (current : Settings) : Settings :=
  let rows := filter (fun kv => kv.1 ∈ KEYS) (map_to_list table) in
  match rows with
  | [] => current
  | _ => foldl merge_row DEFAULT_SETTINGS rows
  end.

(** [saveSetting(key, value)]: update the row when one exists, insert one
    otherwise; either way the key then holds the value. *)
Definition saveSetting (key : string) (value : Json) (table : Settings) : Settings :=
  match table !! key with
  | Some _ => <[key := value]> table
  | None => <[key := value]> table
  end.

(** The value the page sends for a key ([settings.key]). *)
Definition setting_value (s : Settings) (key : string) : Json := default JNull (s !! key).

(** The six saves of [handleSaveSettings], applied in the order [order]
    (the [Promise.all] runs them concurrently, so any order can happen). *)
Definition save_all (s : Settings) (order : list string) (table : Settings) : Settings :=
  foldr (fun key t => saveSetting key (setting_value s key) t) table order.

Definition handleSaveSettings (s : Settings) (table : Settings) : Settings :=
  save_all s KEYS table.

(** [handleSaveSettings] with the outcome of each save: [ok key] is
    false when the update or insert of [key] answers an error, which
    [saveSetting] rethrows.  [Promise.all] rejects as soon as one save
    rejects, but the other saves are not cancelled and still write.  The
    boolean is whether every save succeeded. *)
Definition save_outcome (ok : string -> bool) (s : Settings) (order : list string) (table : Settings)
    : Settings * bool :=
  foldr (fun key acc => if ok key then (saveSetting key (setting_value s key) acc.1, acc.2)
                        else (acc.1, false)) (table, true) order.

(** The toast of lines 115-119. *)
Definition save_toast (all_ok : bool) : UiEffect :=
  if all_ok then Toast "Settings saved successfully" "" false else Toast "Failed to save settings" "" true.

(** The number inputs: [parseInt(v) || d] and [parseFloat(v) || d]; the
    parse is [None] for NaN, and [0] is falsy too. *)
Definition number_or_default (parsed : option Q) (d : Q) : Q :=
  match parsed with
  | Some q => if Qeq_bool q 0 then d else q
  | None => d
  end.

(** The setters of the page (lines 153-255). *)
Definition set_field (key : string) (v : Json) (s : Settings) : Settings := <[key := v]> s.

Definition on_private_holder_limit (parsed : option Q) (s : Settings) : Settings :=
  set_field "private_holder_limit" (JNum (number_or_default parsed 3)) s.
Definition on_verified_dealer_limit (parsed : option Q) (s : Settings) : Settings :=
  set_field "verified_dealer_limit" (JNum (number_or_default parsed 25)) s.
Definition on_private_holder_commission (parsed : option Q) (s : Settings) : Settings :=
  set_field "private_holder_commission" (JNum (number_or_default parsed (35 # 10))) s.
Definition on_verified_dealer_commission (parsed : option Q) (s : Settings) : Settings :=
  set_field "verified_dealer_commission" (JNum (number_or_default parsed (25 # 10))) s.
Definition on_zero_fee_toggle (checked : bool) (s : Settings) : Settings :=
  set_field "zero_fee_period_active" (JBool checked) s.
(** [e.target.value || null]. *)
Definition on_zero_fee_end_date (value : string) (s : Settings) : Settings :=
  set_field "zero_fee_end_date" (if decide (value = "") then JNull else JStr value) s.

(** The page and the [admin_settings] table under the page's handlers:
    a fetch (lines 34-67; a failed fetch changes nothing), the six inputs
    and the save button, whose saves complete in any order and may fail. *)
Inductive settings_step : Settings * Settings -> Settings * Settings -> Prop :=
| ss_fetch s t : settings_step (s, t) (fetchSettings t s, t)
| ss_toggle s t b : settings_step (s, t) (on_zero_fee_toggle b s, t)
| ss_end_date s t v : settings_step (s, t) (on_zero_fee_end_date v s, t)
| ss_ph_limit s t p : settings_step (s, t) (on_private_holder_limit p s, t)
| ss_vd_limit s t p : settings_step (s, t) (on_verified_dealer_limit p s, t)
| ss_ph_commission s t p : settings_step (s, t) (on_private_holder_commission p s, t)
| ss_vd_commission s t p : settings_step (s, t) (on_verified_dealer_commission p s, t)
| ss_save s t ok order : order ≡ₚ KEYS -> settings_step (s, t) (s, (save_outcome ok s order t).1).

(** The settings objects the page can hold: exactly the six keys. *)
Definition well_keyed (s : Settings) : Prop := dom s = list_to_set KEYS.

(** ** Lemmas *)

Lemma saveSetting_insert key v t : saveSetting key v t = <[key := v]> t.
Proof. unfold saveSetting. by destruct (t !! key). Qed.

Lemma save_all_lookup s order t k :
  k ∈ order -> save_all s order t !! k = Some (setting_value s k).
Proof.
  induction order as [|k' order IH]; simpl; [set_solver|].
  rewrite saveSetting_insert. intros [->|Hin]%elem_of_cons.
  - apply lookup_insert_eq.
  - destruct (decide (k' = k)) as [->|Hne]; [apply lookup_insert_eq|].
    rewrite lookup_insert_ne by done. by apply IH.
Qed.

(** Two saves of different keys commute, so the order of the six saves
    does not matter. *)
Lemma save_all_perm s order1 order2 t :
  order1 ≡ₚ order2 -> NoDup order1 -> save_all s order1 t = save_all s order2 t.
Proof.
  induction 1 as [|x l1 l2 _ IH|x y l|l1 l2 l3 H12 IH12 _ IH23]; intros Hnd; simpl.
  - done.
  - apply NoDup_cons in Hnd as [_ Hnd]. by rewrite IH.
  - apply NoDup_cons in Hnd as [Hy Hnd]. rewrite !saveSetting_insert.
    apply insert_insert_ne. set_solver.
  - rewrite IH12 by done. apply IH23. by rewrite <- H12.
Qed.

(** With every row's key already in the object, merging the rows is a
    left-biased union. *)
Lemma foldl_merge_row (rows : list (string * Json)) (o : Settings) :
  NoDup rows.*1 -> (forall kv, kv ∈ rows -> kv.1 ∈ dom o) ->
  foldl merge_row o rows = list_to_map rows ∪ o.
Proof.
  revert o. induction rows as [|[k v] rows IH]; intros o Hnd Hdom; simpl.
  - by rewrite map_empty_union.
  - apply NoDup_cons in Hnd as [Hk Hnd].
    unfold merge_row at 2. simpl. rewrite decide_True by (apply (Hdom (k, v)); set_solver).
    rewrite IH; [|done|].
    + rewrite <- insert_union_r by (by apply not_elem_of_list_to_map_1).
      by rewrite insert_union_l.
    + intros kv Hkv. rewrite dom_insert_L. apply elem_of_union_r, Hdom. set_solver.
Qed.

Lemma dom_DEFAULT : dom DEFAULT_SETTINGS = list_to_set KEYS.
Proof. unfold DEFAULT_SETTINGS. rewrite dom_list_to_map_L. reflexivity. Qed.

(** The rows [fetchSettings] reads have distinct keys. *)
Lemma rows_nodup (t : Settings) : NoDup (filter (fun kv : string * Json => kv.1 ∈ KEYS) (map_to_list t)).*1.
Proof.
  apply NoDup_fmap_fst; [|apply NoDup_filter, NoDup_map_to_list].
  intros i x y Hx Hy. apply list_elem_of_filter in Hx as [_ Hx], Hy as [_ Hy].
  apply elem_of_map_to_list in Hx, Hy. congruence.
Qed.

Lemma list_to_map_filter_lookup (t : Settings) k :
  (list_to_map (filter (fun kv => kv.1 ∈ KEYS) (map_to_list t)) : Settings) !! k =
    if decide (k ∈ KEYS) then t !! k else None.
Proof.
  pose proof (rows_nodup t) as Hnd.
  destruct (list_to_map _ !! k) as [v|] eqn:E; case_decide as Hk.
  - apply elem_of_list_to_map_2 in E. apply list_elem_of_filter in E as [_ E].
    by apply elem_of_map_to_list in E.
  - apply elem_of_list_to_map_2 in E. by apply list_elem_of_filter in E as [? _].
  - destruct (t !! k) as [w|] eqn:Ew; [|done]. exfalso.
    assert ((k, w) ∈ filter (fun kv : string * Json => kv.1 ∈ KEYS) (map_to_list t)) as Hin
      by (apply list_elem_of_filter; split; [done | by apply elem_of_map_to_list]).
    apply (elem_of_list_to_map_1 _ _ _ Hnd) in Hin. congruence.
  - done.
Qed.

(** When the table has a row for one of the six keys, [fetchSettings]
    gives the rows over the defaults. *)
Lemma fetchSettings_rows t s k :
  k ∈ KEYS -> is_Some (t !! k) ->
  fetchSettings t s = list_to_map (filter (fun kv => kv.1 ∈ KEYS) (map_to_list t)) ∪ DEFAULT_SETTINGS.
Proof.
  intros Hk [v Hv]. unfold fetchSettings.
  destruct (filter _ (map_to_list t)) as [|row rows] eqn:Hf.
  - assert ((k, v) ∈ filter (fun kv : string * Json => kv.1 ∈ KEYS) (map_to_list t)) as Hin
      by (apply list_elem_of_filter; split; [done | by apply elem_of_map_to_list]).
    rewrite Hf in Hin. set_solver.
  - rewrite <- Hf. apply foldl_merge_row; [apply rows_nodup|].
    intros kv Hkv. apply list_elem_of_filter in Hkv as [Hk' _].
    rewrite dom_DEFAULT. by apply elem_of_list_to_set.
Qed.

Lemma handleSave_lookup_keys s table k :
  k ∈ KEYS -> handleSaveSettings s table !! k = Some (setting_value s k).
Proof. apply save_all_lookup. Qed.

(** *** The saves with their outcomes *)

Lemma save_outcome_all_ok s order t : save_outcome (fun _ => true) s order t = (save_all s order t, true).
Proof. induction order as [|k order IH]; simpl; [done|]. by rewrite IH. Qed.

Lemma save_outcome_flag ok s order t : (save_outcome ok s order t).2 = forallb ok order.
Proof.
  induction order as [|k order IH]; simpl; [done|].
  destruct (ok k); simpl; [exact IH | done].
Qed.

Lemma save_outcome_ok ok s order t k :
  k ∈ order -> ok k = true -> (save_outcome ok s order t).1 !! k = Some (setting_value s k).
Proof.
  induction order as [|k' order IH]; simpl; [set_solver|]. intros Hin Hok.
  destruct (decide (k' = k)) as [->|Hne].
  - rewrite Hok. simpl. by rewrite saveSetting_insert, lookup_insert_eq.
  - assert (k ∈ order) by set_solver.
    destruct (ok k'); simpl; [rewrite saveSetting_insert, lookup_insert_ne by done|]; auto.
Qed.

Lemma save_outcome_failed ok s order t k :
  ok k = false -> (save_outcome ok s order t).1 !! k = t !! k.
Proof.
  intros Hk. induction order as [|k' order IH]; simpl; [done|].
  destruct (ok k') eqn:E; simpl; [|exact IH].
  rewrite saveSetting_insert, lookup_insert_ne by congruence. exact IH.
Qed.

(** *** Types of the values *)

Lemma setting_types_functional k t t' :
  (k, t) ∈ SETTING_TYPES -> (k, t') ∈ SETTING_TYPES -> t = t'.
Proof. unfold SETTING_TYPES. set_unfold. naive_solver. Qed.

Lemma KEYS_types k : k ∈ KEYS -> exists t, (k, t) ∈ SETTING_TYPES.
Proof. unfold KEYS, SETTING_TYPES. set_unfold. naive_solver. Qed.

Lemma types_KEYS k t : (k, t) ∈ SETTING_TYPES -> k ∈ KEYS.
Proof. unfold KEYS, SETTING_TYPES. set_unfold. naive_solver. Qed.

Lemma settings_typed_lookup s k t :
  settings_typed s = true -> (k, t) ∈ SETTING_TYPES -> json_has_type t (setting_value s k) = true.
Proof.
  unfold settings_typed, setting_value. rewrite forallb_forall. intros Hs Hk.
  apply list_elem_of_In in Hk. specialize (Hs _ Hk). simpl in Hs. by destruct (s !! k).
Qed.

Lemma settings_typed_insert s k v t :
  settings_typed s = true -> (k, t) ∈ SETTING_TYPES -> json_has_type t v = true ->
  settings_typed (<[k := v]> s) = true.
Proof.
  unfold settings_typed. rewrite !forallb_forall. intros Hs Hk Hv [k' t'] Hin. simpl.
  destruct (decide (k = k')) as [<-|Hne].
  - rewrite lookup_insert_eq. apply list_elem_of_In in Hin.
    by rewrite (setting_types_functional k t' t).
  - rewrite lookup_insert_ne by done. exact (Hs _ Hin).
Qed.

Lemma table_typed_insert t0 k v t :
  table_typed t0 = true -> (k, t) ∈ SETTING_TYPES -> json_has_type t v = true ->
  table_typed (<[k := v]> t0) = true.
Proof.
  unfold table_typed. rewrite !forallb_forall. intros Hs Hk Hv [k' t'] Hin. simpl.
  destruct (decide (k = k')) as [<-|Hne].
  - rewrite lookup_insert_eq. apply list_elem_of_In in Hin.
    by rewrite (setting_types_functional k t' t).
  - rewrite lookup_insert_ne by done. exact (Hs _ Hin).
Qed.

(** A row of a typed table for one of the six keys has its key's type. *)
Lemma table_typed_row t0 k v :
  table_typed t0 = true -> t0 !! k = Some v -> k ∈ KEYS ->
  exists t, (k, t) ∈ SETTING_TYPES /\ json_has_type t v = true.
Proof.
  unfold table_typed. rewrite forallb_forall. intros Ht Hv Hk.
  destruct (KEYS_types k Hk) as [t Hkt]. exists t. split; [done|].
  apply list_elem_of_In in Hkt. specialize (Ht _ Hkt). simpl in Ht. by rewrite Hv in Ht.
Qed.

Lemma settings_typed_DEFAULT : settings_typed DEFAULT_SETTINGS = true.
Proof. reflexivity. Qed.

Lemma foldl_merge_row_typed t0 rows o :
  table_typed t0 = true -> settings_typed o = true ->
  (forall kv, kv ∈ rows -> t0 !! kv.1 = Some kv.2 /\ kv.1 ∈ KEYS) ->
  settings_typed (foldl merge_row o rows) = true.
Proof.
  intros Ht. revert o. induction rows as [|[k v] rows IH]; intros o Ho Hrows; simpl; [done|].
  apply IH; [|set_solver]. unfold merge_row. simpl. case_decide; [|done].
  destruct (Hrows (k, v)) as [Hv Hk]; [set_solver|].
  destruct (table_typed_row t0 k v Ht Hv Hk) as (ty & Hty & Hvt).
  by apply (settings_typed_insert _ _ _ ty).
Qed.

Lemma dom_foldl_merge_row rows (o : Settings) : dom (foldl merge_row o rows) = dom o.
Proof.
  revert o. induction rows as [|kv rows IH]; intros o; simpl; [done|].
  rewrite IH. unfold merge_row. case_decide; [|done].
  rewrite dom_insert_L. set_solver.
Qed.

Lemma fetchSettings_typed t0 s :
  table_typed t0 = true -> settings_typed s = true -> settings_typed (fetchSettings t0 s) = true.
Proof.
  intros Ht Hs. unfold fetchSettings. destruct (filter _ _) as [|r rs] eqn:E; [done|].
  rewrite <- E. apply (foldl_merge_row_typed t0); [done | apply settings_typed_DEFAULT |].
  intros [k v] Hkv. apply list_elem_of_filter in Hkv as [Hk Hkv].
  apply elem_of_map_to_list in Hkv. done.
Qed.

Lemma fetchSettings_well_keyed t0 s : well_keyed s -> well_keyed (fetchSettings t0 s).
Proof.
  unfold well_keyed, fetchSettings. intros Hs. destruct (filter _ _); [done|].
  rewrite dom_foldl_merge_row. apply dom_DEFAULT.
Qed.

Lemma set_field_well_keyed k v s : k ∈ KEYS -> well_keyed s -> well_keyed (set_field k v s).
Proof.
  unfold well_keyed, set_field. intros Hk Hs. rewrite dom_insert_L, Hs.
  apply (elem_of_list_to_set (C:=gset string)) in Hk. set_solver.
Qed.

Lemma save_outcome_typed ok s order t0 :
  settings_typed s = true -> table_typed t0 = true -> (forall k, k ∈ order -> k ∈ KEYS) ->
  table_typed (save_outcome ok s order t0).1 = true.
Proof.
  intros Hs Ht. induction order as [|k order IH]; intros Hord; simpl; [done|].
  destruct (ok k); simpl; [|apply IH; set_solver].
  rewrite saveSetting_insert. destruct (KEYS_types k) as [ty Hty]; [set_solver|].
  apply (table_typed_insert _ _ _ ty); [apply IH; set_solver | done |].
  by apply settings_typed_lookup.
Qed.

(** *** The page's invariant *)

(** The six keys and their types, by computation. *)
Ltac setting_key := unfold SETTING_TYPES, KEYS; set_unfold; naive_solver.

Lemma set_field_inv s k v ty :
  settings_typed s = true /\ well_keyed s -> (k, ty) ∈ SETTING_TYPES -> json_has_type ty v = true ->
  settings_typed (set_field k v s) = true /\ well_keyed (set_field k v s).
Proof.
  intros [Hs Hk] Hkt Hv. split; [by apply (settings_typed_insert _ _ _ ty)|].
  apply set_field_well_keyed; [by eapply types_KEYS | done].
Qed.

Lemma settings_step_inv s t s' t' :
  settings_typed s = true /\ well_keyed s /\ table_typed t = true ->
  settings_step (s, t) (s', t') ->
  settings_typed s' = true /\ well_keyed s' /\ table_typed t' = true.
Proof.
  intros (Hs & Hk & Ht) Hstep.
  inversion Hstep as [| ? ? b | ? ? v | ? ? p | ? ? p | ? ? p | ? ? p | ? ? ok order Hord]; subst.
  - split; [by apply fetchSettings_typed|]. split; [by apply fetchSettings_well_keyed | done].
  - destruct (set_field_inv s "zero_fee_period_active" (JBool b) TBool) as [H1 H2];
      [done | setting_key | done | auto].
  - destruct (set_field_inv s "zero_fee_end_date" (if decide (v = "") then JNull else JStr v)
                TStrOrNull) as [H1 H2]; [done | setting_key | by case_decide | auto].
  - destruct (set_field_inv s "private_holder_limit" (JNum (number_or_default p 3)) TNum)
      as [H1 H2]; [done | setting_key | done | auto].
  - destruct (set_field_inv s "verified_dealer_limit" (JNum (number_or_default p 25)) TNum)
      as [H1 H2]; [done | setting_key | done | auto].
  - destruct (set_field_inv s "private_holder_commission" (JNum (number_or_default p (35 # 10))) TNum)
      as [H1 H2]; [done | setting_key | done | auto].
  - destruct (set_field_inv s "verified_dealer_commission" (JNum (number_or_default p (25 # 10))) TNum)
      as [H1 H2]; [done | setting_key | done | auto].
  - split; [done|]. split; [done|]. apply save_outcome_typed; [done | done |].
    intros k' Hk'. by rewrite <- Hord.
Qed.

(** ** Properties *)

(** The six saves that [handleSaveSettings] runs under [Promise.all]
    write different keys, so every order in which they complete leaves the
    table in the same state. *)
Theorem handleSaveSettings_any_order s table order :
  order ≡ₚ KEYS -> save_all s order table = handleSaveSettings s table.
Proof.
  intros Hp. unfold handleSaveSettings. apply save_all_perm; [exact Hp|].
  rewrite Hp. vm_compute. repeat constructor; set_solver.
Qed.

(** Saving the page's settings and fetching them again gives the same
    settings back, whatever the table held before. *)
Theorem save_fetch_roundtrip s table current :
  well_keyed s -> fetchSettings (handleSaveSettings s table) current = s.
Proof.
  intros Hwk. rewrite (fetchSettings_rows _ _ "private_holder_limit"); [| set_solver |].
  2:{ rewrite handleSave_lookup_keys by set_solver. eauto. }
  apply map_eq. intros k. rewrite lookup_union, list_to_map_filter_lookup.
  case_decide as Hk.
  - rewrite handleSave_lookup_keys by done. unfold setting_value.
    assert (k ∈ dom s) as Hks by (rewrite Hwk; by apply elem_of_list_to_set).
    apply elem_of_dom in Hks as [v Hv]. rewrite Hv. simpl.
    destruct (DEFAULT_SETTINGS !! k); reflexivity.
  - assert (DEFAULT_SETTINGS !! k = None) as Hd
      by (apply not_elem_of_dom; rewrite dom_DEFAULT; by rewrite elem_of_list_to_set).
    assert (s !! k = None) as Hs
      by (apply not_elem_of_dom; rewrite Hwk; by rewrite elem_of_list_to_set).
    by rewrite Hd, Hs.
Qed.

(** C36: the page's state keeps its type.  Whatever the admin types, toggles,
    saves (the saves completing in any order, some of them failing) and
    fetches, the page's settings object keeps exactly the six keys of
    [PlatformSettings], each holding a value of its declared type, and
    the table's six rows keep their types, provided the table's rows had
    them at the start. *)
Theorem settings_reachable_typed t0 s t :
  table_typed t0 = true -> star settings_step (DEFAULT_SETTINGS, t0) (s, t) ->
  settings_typed s = true /\ well_keyed s /\ table_typed t = true.
Proof.
  intros Ht0 Hrun.
  refine (star_invariant settings_step
            (fun c => settings_typed c.1 = true /\ well_keyed c.1 /\ table_typed c.2 = true)
            _ _ _ Hrun _).
  - intros [s1 t1] [s2 t2]. apply settings_step_inv.
  - split; [reflexivity|]. split; [apply dom_DEFAULT | exact Ht0].
Qed.

(** C37: a failed save is reported while the others are kept.  When the
    save of one key answers an error, the page shows "Failed to save
    settings", that key keeps its old row, and every other key whose save
    succeeded holds the page's new value: the table mixes old and new
    settings. *)
Theorem handleSaveSettings_partial ok s t k :
  k ∈ KEYS -> ok k = false ->
  let r := save_outcome ok s KEYS t in
  save_toast r.2 = Toast "Failed to save settings" "" true /\ r.1 !! k = t !! k /\
  (forall k', k' ∈ KEYS -> ok k' = true -> r.1 !! k' = Some (setting_value s k')).
Proof.
  intros Hk Hok r. split; [|split].
  - unfold r. rewrite save_outcome_flag.
    destruct (forallb ok KEYS) eqn:E; [|reflexivity].
    rewrite forallb_forall in E. apply list_elem_of_In in Hk. rewrite E in Hok by exact Hk. discriminate.
  - by apply save_outcome_failed.
  - intros k' Hk' Hok'. by apply save_outcome_ok.
Qed.

(** The fetch copies a stored value into the page without checking its
    type ([(settingsObj as Record<string, unknown>)[key] = row.value]): a
    row of the wrong type, for instance a limit stored as a string, ends
    up in the page's state, which then no longer has the interface's
    type. *)
Theorem fetch_keeps_untyped_row t0 s k v ty :
  (k, ty) ∈ SETTING_TYPES -> t0 !! k = Some v -> json_has_type ty v = false ->
  fetchSettings t0 s !! k = Some v /\ settings_typed (fetchSettings t0 s) = false.
Proof.
  intros Hkt Hv Hty. assert (k ∈ KEYS) as Hk by (by eapply types_KEYS).
  assert (fetchSettings t0 s !! k = Some v) as Hf.
  { rewrite (fetchSettings_rows _ _ k Hk) by eauto.
    rewrite lookup_union, list_to_map_filter_lookup, decide_True, Hv by done.
    by destruct (DEFAULT_SETTINGS !! k). }
  split; [exact Hf|]. unfold settings_typed.
  destruct (forallb _ _) eqn:E; [|reflexivity]. rewrite forallb_forall in E.
  apply list_elem_of_In in Hkt. specialize (E _ Hkt). simpl in E. by rewrite Hf, Hty in E.
Qed.

(** The number inputs replace a typed 0 by the default ([|| 3],
    [|| 3.5], ...), so an admin cannot set a Private Holder's commission or
    a tier's limit to 0, while a negative value is stored as typed. *)
Theorem settings_zero_input_replaced s (q : Q) :
  on_private_holder_commission (Some 0%Q) s !! "private_holder_commission" = Some (JNum (35 # 10)) /\
  on_private_holder_limit (Some 0%Q) s !! "private_holder_limit" = Some (JNum 3) /\
  on_verified_dealer_limit (Some 0%Q) s !! "verified_dealer_limit" = Some (JNum 25) /\
  ((q < 0)%Q -> on_private_holder_limit (Some q) s !! "private_holder_limit" = Some (JNum q)).
Proof.
  unfold on_private_holder_commission, on_private_holder_limit, on_verified_dealer_limit,
    set_field, number_or_default.
  rewrite !lookup_insert_eq. repeat split.
  intros Hq. destruct (Qeq_bool q 0) eqn:E; [|reflexivity].
  apply Qeq_bool_eq in E. rewrite E in Hq. discriminate.
Qed.

(** ** Witnesses *)

Lemma save_fetch_roundtrip_witness :
  fetchSettings (handleSaveSettings (on_private_holder_limit (Some 5%Q) DEFAULT_SETTINGS) ∅)
    DEFAULT_SETTINGS = on_private_holder_limit (Some 5%Q) DEFAULT_SETTINGS.
Proof.
  apply save_fetch_roundtrip. unfold well_keyed, on_private_holder_limit, set_field.
  rewrite dom_insert_L, dom_DEFAULT. set_solver.
Defined.

Lemma handleSaveSettings_any_order_witness :
  save_all DEFAULT_SETTINGS (reverse KEYS) ∅ = handleSaveSettings DEFAULT_SETTINGS ∅.
Proof. apply handleSaveSettings_any_order. apply reverse_Permutation. Defined.

Lemma settings_zero_input_replaced_witness :
  on_private_holder_limit (Some (-2)%Q) DEFAULT_SETTINGS !! "private_holder_limit" =
    Some (JNum (-2)).
Proof.
  apply (settings_zero_input_replaced DEFAULT_SETTINGS (-2)%Q). reflexivity.
Defined.

Lemma settings_reachable_typed_witness :
  settings_typed (on_private_holder_limit (Some 5%Q) DEFAULT_SETTINGS) = true.
Proof.
  refine (proj1 (settings_reachable_typed ∅ _ ∅ eq_refl _)).
  apply star_one. apply ss_ph_limit.
Defined.

Lemma handleSaveSettings_partial_witness :
  save_toast (save_outcome (fun k => bool_decide (k <> "private_holder_limit")) DEFAULT_SETTINGS KEYS ∅).2
    = Toast "Failed to save settings" "" true.
Proof.
  refine (proj1 (handleSaveSettings_partial _ DEFAULT_SETTINGS ∅ "private_holder_limit" _ _)).
  - set_solver.
  - reflexivity.
Defined.

Lemma fetch_keeps_untyped_row_witness :
  fetchSettings {["private_holder_limit" := JStr "5"]} DEFAULT_SETTINGS !! "private_holder_limit"
    = Some (JStr "5").
Proof.
  refine (proj1 (fetch_keeps_untyped_row _ DEFAULT_SETTINGS "private_holder_limit" (JStr "5") TNum _ _ _)).
  - set_solver.
  - reflexivity.
  - reflexivity.
Defined.
