(* ===== verification/AdminPage.v ===== *)
(** * AdminPage: the admin panel and its users table

    src/src/pages/Admin.tsx: the guard (the effect of lines 15-19 and the
    renders of lines 21-34) and the three tabs (lines 45-63), whose
    contents are the pages of Accounts.v and Settings.v (user management
    and platform settings) and of Moderation.v and ModerationTable.v
    (listing moderation).  src/src/components/admin/AdminUserManagement.tsx:
    the KYC badge (lines 159-166) and the table's body (lines 209-267),
    around the rows of [user_row] (Accounts.v).  The guard is the page's
    only protection of the three tabs in this repository: the tables'
    row-level security is not part of src/. *)

From S2P Require Import Prelude Accounts Listings Moderation ModerationTable Settings.

Local Open Scope string_scope.
Local Open Scope list_scope.

(** ** The users table *)

(** [getKycBadgeVariant] (lines 159-166). *)
Definition getKycBadgeVariant (s : verification_status) : BadgeVariant :=
  match s with
  | verified => badge_default
  | pending => badge_secondary
  | Accounts.rejected => badge_destructive
  | _ => badge_outline
  end.

Inductive UsersBody := ULoading | UEmpty | URows (rows : list UserRowView).

(** The table's body (lines 209-267): "Loading users...", "No users
    found", or a row per user the search keeps. *)
Definition users_table (loading : bool) (search : string) (updating : option string)
    (users : list UserWithRole) : UsersBody :=
  if loading then ULoading else
  match filteredUsers search users with
  | [] => UEmpty
  | us => URows (user_row updating <$> us)
  end.

(** ** The panel *)

Inductive AdminTab := tab_users | tab_listings | tab_settings.

(** The tab triggers (lines 46-50), [defaultValue="users"]. *)
Definition ADMIN_TABS : list (AdminTab * string) :=
  [(tab_users, "User Management"); (tab_listings, "Listing Moderation");
   (tab_settings, "Platform Settings")].

(** The effect of lines 15-19. *)
Definition admin_effect (loading signed_in : bool) (role : option app_role) : list UiEffect :=
  if negb loading && negb (admin_page_allowed signed_in role) then [Navigate "/dashboard"] else [].

Inductive AdminRender := AdminSkeleton | AdminNothing | AdminPanel (tabs : list (AdminTab * string))
  (selected : AdminTab).

(** The render (lines 21-66): the skeleton while the auth context loads,
    nothing for a visitor who is not an admin, otherwise the panel with
    the tab the admin selected ([tab_users] at first). *)
Definition admin_render (loading signed_in : bool) (role : option app_role) (tab : AdminTab)
    : AdminRender :=
  if loading then AdminSkeleton
  else if admin_page_allowed signed_in role then AdminPanel ADMIN_TABS tab else AdminNothing.

(** ** Properties *)

(** Once the auth context has loaded, a visitor who is not a signed-in
    admin sees nothing of the panel and is sent to [/dashboard], and an
    admin sees the three tabs and is not redirected; while it loads,
    there is only the skeleton and no redirect. *)
Theorem admin_guard loading signed_in role tab :
  (loading = true -> admin_render loading signed_in role tab = AdminSkeleton /\
                     admin_effect loading signed_in role = []) /\
  (loading = false -> admin_page_allowed signed_in role = false ->
     admin_render loading signed_in role tab = AdminNothing /\
     admin_effect loading signed_in role = [Navigate "/dashboard"]) /\
  (loading = false -> admin_page_allowed signed_in role = true ->
     admin_render loading signed_in role tab = AdminPanel ADMIN_TABS tab /\
     admin_effect loading signed_in role = []).
Proof.
  unfold admin_render, admin_effect.
  split; [intros ->; done|]. split; intros -> Ha; rewrite Ha; done.
Qed.

(** Each row of the users table is a user the search keeps, and the table
    lists every such user once the fetch is over. *)
Theorem users_table_rows loading search updating users u :
  loading = false -> u ∈ filteredUsers search users ->
  exists rows, users_table loading search updating users = URows rows /\ user_row updating u ∈ rows.
Proof.
  intros -> Hu. unfold users_table.
  destruct (filteredUsers search users) as [|u0 us] eqn:E; [set_solver|].
  eexists. split; [reflexivity|]. by apply list_elem_of_fmap_2.
Qed.
