(* ===== verification/UsersPage.v ===== *)
(** * UsersPage: the user-management tab with its requests in flight

    src/src/components/admin/AdminUserManagement.tsx as a page: its state
    (lines 44-48: [users], [loading], [searchQuery], [updatingUser]), the
    mount effect (lines 86-88), the Refresh button and the search input
    (lines 167-193), and the three [async] handlers split at their
    [await]s: [fetchUsers] (lines 50-84), [handleRoleChange] (lines
    90-129: the [maybeSingle] lookup, then the update or insert) and
    [handleZeroFeeToggle] (lines 131-151), each with its failure and its
    toast.  Accounts.v has the handlers as functions of the tables; here
    a handler that has passed its first [await] is a [UsersTask] waiting
    for its answer, and the answers arrive in any order.

    Two things of the code matter once requests overlap.  The handlers
    write [setUsers(users.map(...))] with the [users] of the render in
    which the admin clicked, not the current one: a task keeps that
    snapshot.  And [updatingUser] holds one user: the first handler to
    finish sets it to [null] while the others are still running, which
    enables their selects and switches again. *)

From S2P Require Import Prelude Accounts AdminPage.

Local Open Scope string_scope.
Local Open Scope list_scope.
Local Open Scope nat_scope.

(** ** Configurations *)

Inductive UsersTask :=
| TFetch                                                          (* lines 53-63 *)
| TRoleLookup (uid : string) (r : app_role) (snapshot : list UserWithRole)   (* lines 94-98 *)
| TRoleWrite (uid : string) (r : app_role) (snapshot : list UserWithRole) (found : bool)
                                                                  (* lines 100-114 *)
| TZeroFee (uid : string) (enabled : bool) (snapshot : list UserWithRole).   (* lines 134-137 *)

(** The two tables, the page's state, the handlers waiting for an answer
    and the toasts shown so far. *)
Record UsersConf := mkUsersConf {
  uc_roles : list RoleRow;
  uc_profiles : gmap string Profile;
  uc_users : list UserWithRole;
  uc_loading : bool;
  uc_search : string;
  uc_updating : option string;
  uc_pending : list UsersTask;
  uc_toasts : list UiEffect
}.

Definition with_page (c : UsersConf) (users : list UserWithRole) (loading : bool)
    (updating : option string) (pending : list UsersTask) (toasts : list UiEffect) : UsersConf :=
  mkUsersConf (uc_roles c) (uc_profiles c) users loading (uc_search c) updating pending toasts.

(** [.order('email')] of the profiles query; the database compares
    e-mails byte by byte (the C collation). *)
Definition profiles_by_email (profiles : gmap string Profile) : list Profile :=
  isort (fun p q => String.leb (p_email p) (p_email q)) (snd <$> map_to_list profiles).

(** [useState(true)] and the mount effect calling [fetchUsers]. *)
Definition users_init (roles : list RoleRow) (profiles : gmap string Profile) : UsersConf :=
  mkUsersConf roles profiles [] true "" None [TFetch] [].

(** ** The handlers up to their first [await] *)

(** [setLoading(true)] and the queries sent. *)
Definition start_fetch (c : UsersConf) : UsersConf :=
  with_page c (uc_users c) true (uc_updating c) (uc_pending c ++ [TFetch]) (uc_toasts c).

(** The search input's [onChange] (line 190). *)
Definition set_search (s : string) (c : UsersConf) : UsersConf :=
  mkUsersConf (uc_roles c) (uc_profiles c) (uc_users c) (uc_loading c) s (uc_updating c)
    (uc_pending c) (uc_toasts c).

(** [setUpdatingUser(userId)] and the lookup sent; the [users] of this
    render go with the task. *)
Definition role_click (uid : string) (r : app_role) (c : UsersConf) : UsersConf :=
  with_page c (uc_users c) (uc_loading c) (Some uid)
    (uc_pending c ++ [TRoleLookup uid r (uc_users c)]) (uc_toasts c).

Definition zero_fee_click (uid : string) (enabled : bool) (c : UsersConf) : UsersConf :=
  with_page c (uc_users c) (uc_loading c) (Some uid)
    (uc_pending c ++ [TZeroFee uid enabled (uc_users c)]) (uc_toasts c).

(** ** The handlers after an [await]

    [resume t ok c] is what the handler of task [t] does when its request
    answers, successfully or not, in [c] from which [t] was removed. *)

Definition fetch_failed_toast : UiEffect := Toast "Failed to load users" "" true.
Definition role_toast (ok : bool) : UiEffect :=
  if ok then Toast "Role updated successfully" "" false else Toast "Failed to update role" "" true.
Definition zero_fee_toast (ok enabled : bool) : UiEffect :=
  if ok then Toast ("Zero-fee period " ++ if enabled then "enabled" else "disabled") "" false
  else Toast "Failed to update zero-fee status" "" true.

(** The update of every row of the user, or the insert of one. *)
Definition role_write (uid : string) (r : app_role) (found : bool) (roles : list RoleRow) : list RoleRow :=
  if found then map (set_row_role uid r) roles else roles ++ [mkRoleRow uid r].

Definition resume (t : UsersTask) (ok : bool) (c : UsersConf) : UsersConf :=
  match t with
  | TFetch =>
      (* lines 58-83: a failed query throws; [finally] clears [loading] *)
      if ok then with_page c (fetchUsers (profiles_by_email (uc_profiles c)) (uc_roles c)) false
                   (uc_updating c) (uc_pending c) (uc_toasts c)
      else with_page c (uc_users c) false (uc_updating c) (uc_pending c) (uc_toasts c ++ [fetch_failed_toast])
  | TRoleLookup uid r snap =>
      (* the lookup's error is not read: a failed lookup leaves [data] [null]
         and the role is inserted *)
      with_page c (uc_users c) (uc_loading c) (uc_updating c)
        (uc_pending c ++ [TRoleWrite uid r snap (ok && bool_decide (is_Some (maybe_single (roles_of uid (uc_roles c)))))])
        (uc_toasts c)
  | TRoleWrite uid r snap found =>
      if ok then
        mkUsersConf (role_write uid r found (uc_roles c)) (uc_profiles c) (map (set_user_role uid r) snap)
          (uc_loading c) (uc_search c) None (uc_pending c) (uc_toasts c ++ [role_toast true])
      else with_page c (uc_users c) (uc_loading c) None (uc_pending c) (uc_toasts c ++ [role_toast false])
  | TZeroFee uid en snap =>
      if ok then
        mkUsersConf (uc_roles c) (alter (set_profile_zero_fee en) uid (uc_profiles c))
          (map (set_user_zero_fee uid en) snap) (uc_loading c) (uc_search c) None (uc_pending c)
          (uc_toasts c ++ [zero_fee_toast true en])
      else with_page c (uc_users c) (uc_loading c) None (uc_pending c) (uc_toasts c ++ [zero_fee_toast false en])
  end.

Definition drop_task (pre post : list UsersTask) (c : UsersConf) : UsersConf :=
  with_page c (uc_users c) (uc_loading c) (uc_updating c) (pre ++ post) (uc_toasts c).

(** A row's select and switch can be used when the table shows the row
    (not loading, kept by the search) and [updatingUser] is not its user
    (lines 246 and 252). *)
Definition row_enabled (c : UsersConf) (u : UserWithRole) : Prop :=
  uc_loading c = false /\ u ∈ filteredUsers (uc_search c) (uc_users c) /\
  uc_updating c <> Some (uw_user_id u).

(** ** The step relation *)

Inductive users_step : UsersConf -> UsersConf -> Prop :=
| us_refresh c :                        (* the Refresh button, [disabled={loading}] *)
    uc_loading c = false -> users_step c (start_fetch c)
| us_search c s : users_step c (set_search s c)
| us_role c u r :                       (* the select's [onValueChange] fires on a new value *)
    row_enabled c u -> uw_role u <> Some r -> users_step c (role_click (uw_user_id u) r c)
| us_zero_fee c u en :                  (* the switch's [onCheckedChange] *)
    row_enabled c u -> default false (uw_zero_fee_eligible u) <> en ->
    users_step c (zero_fee_click (uw_user_id u) en c)
| us_answer c pre t post ok :           (* any request in flight answers *)
    uc_pending c = pre ++ t :: post -> users_step c (resume t ok (drop_task pre post c)).

(** ** What the tab shows around the table (lines 167-208) *)

Record UsersHeader := mkUsersHeader {
  uh_title : string;
  uh_refresh_disabled : bool;
  uh_refresh_spinning : bool;
  uh_search_placeholder : string;
  uh_search_value : string;
  uh_columns : list string
}.

Definition users_header (c : UsersConf) : UsersHeader :=
  mkUsersHeader "User Management" (uc_loading c) (uc_loading c) "Search by email or name..."
    (uc_search c) ["User"; "Role"; "KYC Status"; "Zero-Fee Period"; "Actions"].

Definition users_view (c : UsersConf) : UsersHeader * UsersBody :=
  (users_header c, users_table (uc_loading c) (uc_search c) (uc_updating c) (uc_users c)).

(** ** Example data for the witnesses *)

Definition ex_users_conf (roles : list RoleRow) : UsersConf :=
  mkUsersConf roles (list_to_map ((fun p => (p_user_id p, p)) <$> ex_profiles))
    (fetchUsers ex_profiles roles) false "" None [] [].

Definition ex_user (i : nat) (roles : list RoleRow) : UserWithRole :=
  default (mkUserWithRole "" "" None not_started None None None) (fetchUsers ex_profiles roles !! i).

(** ** Lemmas *)

Definition is_fetch (t : UsersTask) : bool := match t with TFetch => true | _ => false end.

Definition fetch_count (ts : list UsersTask) : nat := length (filter (fun t => is_fetch t = true) ts).

Lemma fetch_count_app ts1 ts2 : fetch_count (ts1 ++ ts2) = fetch_count ts1 + fetch_count ts2.
Proof. unfold fetch_count. by rewrite filter_app, length_app. Qed.

Lemma fetch_count_cons t ts : fetch_count (t :: ts) = (if is_fetch t then 1 else 0) + fetch_count ts.
Proof. unfold fetch_count. rewrite filter_cons. by destruct (is_fetch t). Qed.

Lemma fetch_count_nil : fetch_count [] = 0.
Proof. done. Qed.

#[local] Hint Rewrite fetch_count_app fetch_count_cons fetch_count_nil : dcs_rw.

(** A lookup answered right before its write is [handleRoleChange]'s
    update or insert. *)
Lemma role_write_handleRoleChange uid r roles users :
  role_write uid r (bool_decide (is_Some (maybe_single (roles_of uid roles)))) roles =
    (handleRoleChange uid r roles users).1.
Proof. unfold role_write. simpl. by destruct (maybe_single _). Qed.

(** The rows of another user are those before a role write. *)
Lemma roles_of_role_write u uid r roles :
  roles_unique roles -> u <> uid ->
  roles_of u (role_write uid r (bool_decide (is_Some (maybe_single (roles_of uid roles)))) roles) =
    roles_of u roles.
Proof.
  intros Hu Hne. rewrite (role_write_handleRoleChange _ _ _ []), roles_of_handleRoleChange by done.
  by rewrite decide_False.
Qed.

Lemma role_write_unique uid r roles :
  roles_unique roles ->
  roles_unique (role_write uid r (bool_decide (is_Some (maybe_single (roles_of uid roles)))) roles).
Proof. intros Hu. rewrite (role_write_handleRoleChange _ _ _ []). by apply handleRoleChange_unique. Qed.

Lemma role_of_role_write u uid r roles :
  roles_unique roles ->
  role_of u (role_write uid r (bool_decide (is_Some (maybe_single (roles_of uid roles)))) roles) =
    if decide (u = uid) then Some r else role_of u roles.
Proof. intros Hu. rewrite (role_write_handleRoleChange _ _ _ []). by apply handleRoleChange_role_of. Qed.

Definition fetch_inv (c : UsersConf) : Prop :=
  fetch_count (uc_pending c) = if uc_loading c then 1 else 0.

Lemma users_step_fetch_inv c c' : fetch_inv c -> users_step c c' -> fetch_inv c'.
Proof.
  unfold fetch_inv. intros Hi Hs. destruct Hs as [c Hl|c s|c u r _ _|c u en _ _|c pre t post ok Hp].
  - rewrite Hl in Hi. simpl in *. autorewrite with dcs_rw. simpl. lia.
  - done.
  - simpl. autorewrite with dcs_rw. simpl. lia.
  - simpl. autorewrite with dcs_rw. simpl. lia.
  - rewrite Hp in Hi. autorewrite with dcs_rw in Hi.
    destruct t; [destruct ok| |destruct ok|destruct ok]; simpl; autorewrite with dcs_rw; simpl in *;
      destruct (uc_loading c); lia.
Qed.



Lemma in_filteredUsers search users u : u ∈ filteredUsers search users -> u ∈ users.
Proof. unfold filteredUsers. by intros [_ ?]%list_elem_of_filter. Qed.

Lemma set_user_role_other uid r u : uw_user_id u <> uid -> set_user_role uid r u = u.
Proof. unfold set_user_role. intros. by rewrite decide_False. Qed.

(** ** Properties *)

(** C12: the users list is never overwritten by a stale fetch: the Refresh
    button is disabled while [loading], so in every state reached from
    the mount at most one [fetchUsers] is in flight, exactly when the tab
    shows "Loading users...". *)
Theorem users_fetches_never_overlap roles profiles c :
  star users_step (users_init roles profiles) c ->
  fetch_count (uc_pending c) <= 1 /\ (uc_loading c = true <-> fetch_count (uc_pending c) = 1).
Proof.
  intros Hr. assert (fetch_inv c) as Hi
    by (eapply (star_invariant users_step fetch_inv); [apply users_step_fetch_inv | exact Hr | reflexivity]).
  unfold fetch_inv in Hi. destruct (uc_loading c); split; [lia|done|lia|lia].
Qed.

(** C10: two role changes in flight lose one on the page.  For any two users
    shown with their selects enabled, the admin can change the first's
    role and then the second's before the first answers (the select of
    the second is enabled: [updatingUser] names the first).  Both writes
    succeed and the table holds both new roles, but each handler sets
    [users] from the list of its own render: the second answer writes
    back the first user's old role, and the tab shows it until a
    refresh. *)
Theorem concurrent_role_changes_lose_update c a b r1 r2 :
  roles_unique (uc_roles c) -> row_enabled c a -> row_enabled c b ->
  uw_user_id a <> uw_user_id b -> uw_role a <> Some r1 -> uw_role b <> Some r2 ->
  exists c', star users_step c c' /\
    role_of (uw_user_id a) (uc_roles c') = Some r1 /\ role_of (uw_user_id b) (uc_roles c') = Some r2 /\
    uc_users c' = map (set_user_role (uw_user_id b) r2) (uc_users c) /\ a ∈ uc_users c'.
Proof.
  intros Hu Ha Hb Hne Hr1 Hr2.
  assert (row_enabled (role_click (uw_user_id a) r1 c) b) as Hb'
    by (destruct Hb as (? & ? & _); split_and!; simpl; congruence).
  eexists. split.
  { eapply star_step; [by apply (us_role _ a r1)|].
    eapply star_step; [by apply (us_role _ b r2)|].
    eapply star_step; [eapply (us_answer _ (uc_pending c) _ _ true); simpl; rewrite <- ?app_assoc; reflexivity|].
    eapply star_step; [eapply (us_answer _ (uc_pending c) _ _ true); simpl; rewrite <- ?app_assoc; reflexivity|].
    eapply star_step; [eapply (us_answer _ (uc_pending c) _ _ true); simpl; rewrite <- ?app_assoc; reflexivity|].
    eapply star_step; [eapply (us_answer _ (uc_pending c) _ [] true); simpl; rewrite ?app_nil_r; reflexivity|].
    apply star_refl. }
  simpl. rewrite <- (roles_of_role_write (uw_user_id b) (uw_user_id a) r1) by done.
  rewrite !role_of_role_write by auto using role_write_unique.
  split_and!; [repeat case_decide; congruence|repeat case_decide; congruence|done|].
  apply list_elem_of_fmap. exists a. rewrite set_user_role_other by done.
  split; [done|]. destruct Ha as (_ & Ha & _). by eapply in_filteredUsers.
Qed.

(** C11: two role changes of one user in flight insert two rows.  A user
    without a role row, shown with the select enabled: the admin sets its
    role, then changes another user's, which moves [updatingUser] and
    enables the first user's select again, and sets the first user's role
    a second time.  Both lookups answer before either write: each finds
    no row and inserts one.  The user then has two [user_roles] rows, so
    [.maybeSingle()] fails and every page reads no role for it: it can no
    longer sell ([canSell]). *)
Theorem concurrent_role_changes_duplicate_row c a b r1 r2 r3 :
  roles_of (uw_user_id a) (uc_roles c) = [] ->
  row_enabled c a -> row_enabled c b -> uw_user_id a <> uw_user_id b ->
  uw_role a <> Some r1 -> uw_role b <> Some r2 -> uw_role a <> Some r3 ->
  exists c', star users_step c c' /\
    roles_of (uw_user_id a) (uc_roles c') = [mkRoleRow (uw_user_id a) r1; mkRoleRow (uw_user_id a) r3] /\
    ~ roles_unique (uc_roles c') /\ role_of (uw_user_id a) (uc_roles c') = None.
Proof.
  intros Hnone Ha Hb Hne Hr1 Hr2 Hr3.
  assert (row_enabled (role_click (uw_user_id a) r1 c) b) as Hb'
    by (destruct Hb as (? & ? & _); split_and!; simpl; congruence).
  assert (row_enabled (role_click (uw_user_id b) r2 (role_click (uw_user_id a) r1 c)) a) as Ha'
    by (destruct Ha as (? & ? & _); split_and!; simpl; congruence).
  assert (roles_of (uw_user_id a) (uc_roles c ++ [mkRoleRow (uw_user_id a) r1; mkRoleRow (uw_user_id a) r3]) =
          [mkRoleRow (uw_user_id a) r1; mkRoleRow (uw_user_id a) r3]) as Hrows.
  { rewrite roles_of_app, Hnone. unfold roles_of. by rewrite !filter_cons, decide_True, decide_True. }
  eexists. split.
  { eapply star_step; [by apply (us_role _ a r1)|].
    eapply star_step; [by apply (us_role _ b r2)|].
    eapply star_step; [by apply (us_role _ a r3)|].
    eapply star_step; [eapply (us_answer _ (uc_pending c) _ _ true); simpl; rewrite <- ?app_assoc; reflexivity|].
    eapply star_step; [eapply (us_answer _ (uc_pending c ++ [_]) _ _ true); simpl; rewrite <- ?app_assoc; reflexivity|].
    eapply star_step; [eapply (us_answer _ (uc_pending c ++ [_]) _ _ true); simpl; rewrite <- ?app_assoc; reflexivity|].
    eapply star_step; [eapply (us_answer _ (uc_pending c ++ [_]) _ [] true); simpl; rewrite ?app_nil_r; reflexivity|].
    apply star_refl. }
  simpl. rewrite Hnone. simpl. rewrite <- app_assoc. simpl.
  split_and!; [done| |unfold role_of; by rewrite Hrows].
  unfold roles_unique. rewrite map_app. simpl. intros Hnd%NoDup_app. destruct Hnd as (_ & _ & Hnd).
  apply NoDup_cons in Hnd as [Hn _]. set_solver.
Qed.

(** Without overlap the tab does what Accounts.v's [handleRoleChange]
    does: from a state with nothing in flight, a role change whose
    requests succeed leaves the table and the list as [handleRoleChange]
    computes them, re-enables the row and shows the success toast. *)
Theorem role_change_sequential c u r :
  row_enabled c u -> uw_role u <> Some r -> uc_pending c = [] ->
  exists c', star users_step c c' /\ uc_pending c' = [] /\
    (uc_roles c', uc_users c') = handleRoleChange (uw_user_id u) r (uc_roles c) (uc_users c) /\
    uc_updating c' = None /\ uc_toasts c' = uc_toasts c ++ [role_toast true].
Proof.
  intros Hu Hr Hp. eexists. split.
  { eapply star_step; [by apply (us_role _ u r)|].
    eapply star_step; [eapply (us_answer _ [] _ [] true); simpl; rewrite Hp; reflexivity|].
    eapply star_step; [eapply (us_answer _ [] _ [] true); reflexivity|].
    apply star_refl. }
  simpl. split_and!; [done| |done|done]. by rewrite (role_write_handleRoleChange _ _ _ (uc_users c)).
Qed.

(** ** Witnesses *)

Lemma ex_row_enabled i roles : i < 2 -> row_enabled (ex_users_conf roles) (ex_user i roles).
Proof.
  intros Hi. split_and!; [done| |by destruct i as [|[|]]; [..|lia]].
  destruct i as [|[|]]; [by left|by right; left|lia].
Qed.

Lemma users_fetches_never_overlap_witness :
  fetch_count (uc_pending (start_fetch (resume TFetch true (drop_task [] [] (users_init ex_roles ∅))))) <= 1.
Proof.
  refine (proj1 (users_fetches_never_overlap ex_roles ∅ _ _)).
  eapply star_step; [apply (us_answer _ [] TFetch [] true); reflexivity|].
  eapply star_step; [apply us_refresh; reflexivity|]. apply star_refl.
Defined.

Lemma concurrent_role_changes_lose_update_witness :
  exists c', star users_step (ex_users_conf ex_roles) c' /\
    role_of "u1" (uc_roles c') = Some super_seller /\ role_of "u2" (uc_roles c') = Some buyer /\
    uc_users c' = map (set_user_role "u2" buyer) (uc_users (ex_users_conf ex_roles)) /\
    ex_user 0 ex_roles ∈ uc_users c'.
Proof.
  apply (concurrent_role_changes_lose_update _ (ex_user 0 ex_roles) (ex_user 1 ex_roles));
    [exact ex_roles_unique|apply ex_row_enabled; lia|apply ex_row_enabled; lia|done|done|done].
Defined.

Lemma concurrent_role_changes_duplicate_row_witness :
  exists c', star users_step (ex_users_conf [mkRoleRow "u2" buyer]) c' /\
    roles_of "u1" (uc_roles c') = [mkRoleRow "u1" individual_seller; mkRoleRow "u1" super_seller] /\
    ~ roles_unique (uc_roles c') /\ role_of "u1" (uc_roles c') = None.
Proof.
  apply (concurrent_role_changes_duplicate_row _ (ex_user 0 [mkRoleRow "u2" buyer])
           (ex_user 1 [mkRoleRow "u2" buyer]) individual_seller observer super_seller);
    [reflexivity|apply ex_row_enabled; lia|apply ex_row_enabled; lia|done|done|done|done].
Defined.

Lemma role_change_sequential_witness :
  exists c', star users_step (ex_users_conf ex_roles) c' /\ uc_pending c' = [] /\
    (uc_roles c', uc_users c') =
      handleRoleChange "u1" super_seller ex_roles (uc_users (ex_users_conf ex_roles)) /\
    uc_updating c' = None /\ uc_toasts c' = [role_toast true].
Proof.
  exact (role_change_sequential (ex_users_conf ex_roles) (ex_user 0 ex_roles) super_seller
           (ex_row_enabled 0 ex_roles ltac:(lia)) ltac:(done) eq_refl).
Defined.
