(* ===== verification/Onboarding.v ===== *)
(** * Onboarding: the seller onboarding wizard

    src/src/pages/SellerOnboarding.tsx: a three-step wizard (intent,
    details, verification) whose state is [currentStep], [selectedIntent]
    and [isSubmitting], with the handlers [handleIntentSelect] (lines
    59-61), [handleContinue] (lines 63-108) and [handleBack] (lines
    110-114).  The last step shows a toast and navigates to the dashboard;
    it does not write the user's role (the comment of lines 72-76 says the
    role would be updated there).  The signed-in user's role is part of the
    state so that what the wizard leaves it can be stated.  The redirects
    of lines 36-47, the last step's note (lines 519-530) and the continue
    button's label (lines 569-593) are modelled with the handlers, and so
    is what the page shows: the header's links, the step indicators and
    the body of each step with its texts (lines 116-516).  The intent
    cards' texts are in TierOffers.v. *)

From S2P Require Import Prelude Accounts Listings.

Local Open Scope string_scope.
Local Open Scope nat_scope.

Inductive SellerIntent := private_holder | verified_dealer | certified_partner.

#[export] Instance SellerIntent_eq_dec : EqDecision SellerIntent.
Proof. solve_decision. Defined.

Record Wizard := mkWizard {
  w_step : nat;
  w_intent : option SellerIntent;
  w_submitting : bool;
  w_role : option app_role
}.

(** What a handler shows and where it goes. *)
Inductive Effect := NoEffect | ToastAndDashboard (title description : string).

Definition initial_wizard (role : option app_role) : Wizard := mkWizard 1 None false role.

Definition handleIntentSelect (i : SellerIntent) (w : Wizard) : Wizard :=
  mkWizard (w_step w) (Some i) (w_submitting w) (w_role w).

(** The toasts of lines 77-97. *)
Definition completion_toast (i : SellerIntent) : Effect :=
  match i with
  | private_holder =>
      ToastAndDashboard "Welcome, Private Holder" "You can now list up to 3 watches on the exchange."
  | verified_dealer =>
      ToastAndDashboard "Verified Dealer Application" "You will be redirected to complete your subscription."
  | certified_partner =>
      ToastAndDashboard "Partnership Application Received"
        "Our team will review your application and contact you within 48 hours."
  end.

Definition handleContinue (w : Wizard) : Wizard * Effect :=
  if decide (w_step w = 1 /\ is_Some (w_intent w)) then
    (mkWizard 2 (w_intent w) (w_submitting w) (w_role w), NoEffect)
  else if decide (w_step w = 2) then
    (mkWizard 3 (w_intent w) (w_submitting w) (w_role w), NoEffect)
  else if decide (w_step w = 3) then
    (* setIsSubmitting(true) ... finally setIsSubmitting(false) *)
    (mkWizard 3 (w_intent w) false (w_role w),
     match w_intent w with Some i => completion_toast i | None => NoEffect end)
  else (w, NoEffect).

Definition handleBack (w : Wizard) : Wizard :=
  if decide (1 < w_step w) then mkWizard (w_step w - 1) (w_intent w) (w_submitting w) (w_role w)
  else w.

(** The continue button's [disabled] (line 565). *)
Definition continue_disabled (w : Wizard) : bool :=
  (bool_decide (w_step w = 1) && bool_decide (w_intent w = None)) || w_submitting w.

(** The effects of lines 36-47: a signed-out visitor is sent to sign up,
    a user who already holds a seller role to the dashboard. *)
Definition onboarding_effects (loading : bool) (user : option string) (role : option app_role)
    : list UiEffect :=
  (if negb loading && bool_decide (user = None) then [Navigate "/auth?mode=signup"] else []) ++
  (if negb loading && onboarding_redirects role then [Navigate "/dashboard"] else []).

(** The note of the last step for the chosen intent (lines 519-530). *)
Definition step3_note (i : option SellerIntent) : string :=
  match i with
  | Some private_holder =>
      "After completing this step, you'll be able to create up to 3 listings. Verification typically completes within 24-48 hours."
  | Some verified_dealer =>
      "You'll be redirected to set up your $50/month subscription, then complete identity verification. Priority review ensures faster approval."
  | Some certified_partner =>
      "Our team will review your partnership application and contact you within 48 hours. Priority verification is included with your tier."
  | None => ""
  end.

(** The continue button's label (lines 569-593). *)
Definition continue_label (w : Wizard) : string :=
  if w_submitting w then "Processing..."
  else if decide (w_step w = 3) then
    match w_intent w with
    | Some private_holder => "Complete Setup"
    | Some verified_dealer => "Continue to Subscription"
    | _ => "Submit Application"
    end
  else "Continue".

(** ** What the wizard shows (lines 116-596) *)

(** The header's links (lines 119-130): the logo and "Skip for now". *)
Definition onboarding_header_links : list string := ["/"; "/dashboard"].

(** [steps] (lines 20-24): id, name and description. *)
Definition STEPS : list (nat * string * string) :=
  [(1, "Intent", "Your selling role"); (2, "Details", "Role confirmation");
   (3, "Verification", "Identity check")].

Inductive StepState := step_done | step_current | step_upcoming.

#[export] Instance StepState_eq_dec : EqDecision StepState.
Proof. solve_decision. Defined.

(** The indicator of a step (lines 141-152): a check mark before the
    current step, the highlighted number on it, a plain number after. *)
Definition step_state (current id : nat) : StepState :=
  if Nat.ltb id current then step_done
  else if Nat.eqb id current then step_current else step_upcoming.

(** A step of the progress bar (lines 139-175): its indicator, its
    name and description, the name highlighted from the step on, and
    the connector to the next step (all but the last), filled once the
    step is done. *)
Record StepView := mkStepView {
  sv_state : StepState;
  sv_name : string;
  sv_description : string;
  sv_name_active : bool;
  sv_connector : option bool
}.

Definition step_views (current : nat) : list StepView :=
  (fun s => let '(id, name, desc) := s in
            mkStepView (step_state current id) name desc (Nat.leb id current)
              (if Nat.eqb id (length STEPS) then None else Some (Nat.ltb id current))) <$> STEPS.

(** The left button of the navigation (lines 541-563): Back past the
    first step, a link to the dashboard on it. *)
Inductive BackControl := BackButton | DashboardLink (path : string).

Definition back_control (w : Wizard) : BackControl :=
  if Nat.ltb 1 (w_step w) then BackButton else DashboardLink "/dashboard".

Inductive OnboardingRender := OLoading | ONothing | OWizard.

(** Lines 48-58: the spinner while the auth context loads, nothing
    without a user (the effect redirects), otherwise the wizard. *)
Definition onboarding_render (loading : bool) (user : option string) : OnboardingRender :=
  if loading then OLoading else match user with None => ONothing | Some _ => OWizard end.

(** The title of the second step (lines 307-309). *)
Definition intent_title (i : SellerIntent) : string :=
  match i with
  | private_holder => "Private Holder"
  | verified_dealer => "Verified Dealer"
  | certified_partner => "Certified Exchange Partner"
  end.

(** "Role Requirements" (lines 319-358), as JSX joins their lines. *)
Definition ROLE_REQUIREMENTS : list (string * string) :=
  [("Identity Verification",
    "Complete government ID verification to build trust with buyers. This is required for all sellers on the exchange.");
   ("Structured Listings",
    "Each listing requires structured details: brand, model, reference number, condition, and a 6-photo documentation set.");
   ("Listing Approval",
    "All listings undergo admin review before going live. This ensures every watch meets exchange standards.")].

(** "What You'll Need" of the last step (lines 472-512). *)
Definition VERIFICATION_NEEDS : list string :=
  ["Government-Issued ID"; "Proof of Address"; "Selfie Verification"].

Inductive StepBody := IntentCards | RoleConfirmation (title : string) | VerificationInfo | NoBody.

(** The body of the page: step 1 (line 179), step 2 only with an intent
    (line 305), step 3 (line 459). *)
Definition onboarding_body (w : Wizard) : StepBody :=
  if decide (w_step w = 1) then IntentCards
  else if decide (w_step w = 2) then
    match w_intent w with Some i => RoleConfirmation (intent_title i) | None => NoBody end
  else if decide (w_step w = 3) then VerificationInfo else NoBody.

Inductive wizard_step : Wizard -> Wizard -> Prop :=
| ws_select i w : wizard_step w (handleIntentSelect i w)
| ws_continue w : continue_disabled w = false -> wizard_step w (handleContinue w).1
| ws_back w : wizard_step w (handleBack w).

Definition wizard_inv (w : Wizard) : Prop :=
  1 <= w_step w <= 3 /\ (2 <= w_step w -> is_Some (w_intent w)).

(** ** Properties *)

Lemma wizard_step_inv w w' : wizard_inv w -> wizard_step w w' -> wizard_inv w'.
Proof.
  unfold wizard_inv. intros [Hb Hi] Hs. destruct Hs as [i w|w _|w]; simpl.
  - unfold handleIntentSelect. simpl. split; [lia | eauto].
  - unfold handleContinue. repeat case_decide; simpl; split; try lia; try tauto;
      intros _; apply Hi; lia.
  - unfold handleBack. case_decide; simpl;
      [split; [lia | intros _; apply Hi; lia] | split; assumption].
Qed.

(** Every state the wizard reaches from its initial state is on one of
    its three steps, and past the first step an intent is selected. *)
Theorem wizard_reachable_inv role w :
  star wizard_step (initial_wizard role) w -> wizard_inv w.
Proof.
  intros Hr. apply (star_invariant wizard_step wizard_inv wizard_step_inv _ _ Hr).
  split; simpl; [lia | intros; lia].
Qed.

(** In every state the wizard reaches, the page shows one of its three
    step bodies, never an empty one, and the progress bar has the steps
    before the current one done, with their connectors filled, the
    current one highlighted and the ones after it upcoming. *)
Theorem wizard_renders_one_step role w :
  star wizard_step (initial_wizard role) w ->
  onboarding_body w <> NoBody /\
  (fun v => (sv_state v, sv_connector v)) <$> step_views (w_step w) ∈
    [[(step_current, Some false); (step_upcoming, Some false); (step_upcoming, None)];
     [(step_done, Some true); (step_current, Some false); (step_upcoming, None)];
     [(step_done, Some true); (step_done, Some true); (step_current, None)]].
Proof.
  intros Hr. destruct (wizard_reachable_inv role w Hr) as [Hb Hi].
  unfold onboarding_body.
  assert (w_step w = 1 \/ w_step w = 2 \/ w_step w = 3) as [H|[H|H]] by lia; rewrite H.
  - split; [done | by left].
  - destruct (Hi ltac:(lia)) as [i ->]. split; [done | by right; left].
  - split; [done | by right; right; left].
Qed.

(** The second step tells every seller that a listing needs "a 6-photo
    documentation set", but the listing form asks for four photos, and
    for six only when the watch comes with both its box and its papers. *)
Theorem six_photo_text_vs_form hb hp :
  str_includes "6-photo documentation set" (nth 1 ROLE_REQUIREMENTS ("", "")).2 = true /\
  (length (requiredPhotos hb hp) = 6 <-> hb = true /\ hp = true) /\
  length (requiredPhotos false false) = 4.
Proof. split; [reflexivity|]. split; [|reflexivity]. destruct hb, hp; simpl; intuition congruence. Qed.

(** Choosing "Private Holder" and continuing through the three steps
    ends with the toast "You can now list up to 3 watches" and the role
    unchanged, so an [observer] who completes the wizard still cannot
    sell ([canSell] is false). *)
Theorem onboarding_private_holder_no_role :
  let w0 := handleIntentSelect private_holder (initial_wizard (Some observer)) in
  let w1 := (handleContinue w0).1 in
  let w2 := (handleContinue w1).1 in
  let r := handleContinue w2 in
  star wizard_step (initial_wizard (Some observer)) r.1 /\
  r.2 = ToastAndDashboard "Welcome, Private Holder" "You can now list up to 3 watches on the exchange." /\
  w_role r.1 = Some observer /\ canSell (w_role r.1) = false.
Proof.
  intros w0 w1 w2 r. split; [|repeat split; reflexivity].
  unfold r, w2, w1, w0.
  eapply star_step; [apply (ws_select private_holder)|].
  eapply star_step; [apply ws_continue; reflexivity|].
  eapply star_step; [apply ws_continue; reflexivity|].
  apply star_one, ws_continue. reflexivity.
Qed.

(** The last step of the Verified Dealer path promises a subscription
    that never starts: the button says "Continue to Subscription" and the
    note says the user will be redirected to set it up, but the click
    shows a toast and goes to the dashboard with the role unchanged. *)
Theorem dealer_subscription_not_started role :
  let w := (handleContinue (handleContinue
              (handleIntentSelect verified_dealer (initial_wizard role))).1).1 in
  continue_label w = "Continue to Subscription" /\
  step3_note (w_intent w) =
    "You'll be redirected to set up your $50/month subscription, then complete identity verification. Priority review ensures faster approval." /\
  (handleContinue w).2 =
    ToastAndDashboard "Verified Dealer Application" "You will be redirected to complete your subscription." /\
  w_role (handleContinue w).1 = role.
Proof. repeat split. Qed.

(** ** Witnesses *)

Lemma wizard_reachable_inv_witness :
  wizard_inv (handleBack (handleContinue (handleIntentSelect verified_dealer
                                            (initial_wizard (Some buyer)))).1).
Proof.
  apply (wizard_reachable_inv (Some buyer)).
  eapply star_step; [apply ws_select|].
  eapply star_step; [apply ws_continue; reflexivity|].
  apply star_one, ws_back.
Defined.
