(* ===== verification/TierOffers.v ===== *)
(** * TierOffers: what the pages promise each tier

    The membership tiers are described as text in three places:
    [roles] of src/src/pages/Pricing.tsx (lines 6-80), the intent cards of
    src/src/pages/SellerOnboarding.tsx (lines 192-295) and its "Your Tier
    Includes" lists (lines 366-446).  The texts are kept verbatim; the
    commission rate and the listing limit each text announces are read off
    by small parsers ([advertised_rate], [advertised_limit]) and compared
    with the tier registry of Fees.v (spec 4.1).  The rest of the pricing
    page (the role cards as rendered, lines 111-156, the launch notice,
    the comparison and the FAQ, lines 99-229) is kept the same way; the
    FAQ's fee answer is read with [percents_in]. *)

From S2P Require Import Prelude Accounts Fees Onboarding.

Local Open Scope string_scope.
Local Open Scope list_scope.

(** ** The texts *)

(** An entry of [roles] (Pricing.tsx). *)
Record Offer := mkOffer {
  of_name : string;
  of_price : string;
  of_period : string;
  of_commission : string;
  of_description : string;
  of_features : list string;
  of_cta : string;
  of_cta_link : string;
  of_highlighted : bool
}.

Definition PRICING_ROLES : list Offer :=
  [mkOffer "Buyer" "Free" "" "$0"
     "Browse and purchase with confidence on a trust-first exchange."
     ["Browse all approved listings"; "Save watches to collection"; "Message verified sellers";
      "Purchase with buyer protection"; "Identity verification at checkout"] "Create Account" "/auth" false;
   mkOffer "Private Holder" "Free" "" "3.5% per transaction"
     "Designed for individuals selling a personal timepiece with no monthly commitment."
     ["List up to 3 watches"; "Message buyers directly"; "Complete secure transactions";
      "Identity verification required"; "Standard verification queue"] "Start Selling" "/auth" false;
   mkOffer "Verified Dealer" "$50" "/month" "2.5% per transaction"
     "Built for repeat sellers who value speed, tools, and professional credibility."
     ["List up to 25 watches"; "Priority listing review"; "Faster dispute handling";
      "Saved listing templates"; "Duplicate & relist tools"; "Basic performance insights";
      "Verified Dealer designation"] "Apply Now" "/auth" false;
   mkOffer "Certified Exchange Partner" "$195" "/month" "0%"
     "Institutional-grade access for high-volume dealers aligned with exchange standards."
     ["Unlimited listings"; "Branded storefront profile"; "Priority verification lanes";
      "Enhanced analytics dashboard"; "Market insight previews"; "Streamlined bulk actions";
      "Dedicated support escalation"; "Certified Partner designation"] "Apply Now" "/auth" true].

(** The rest of the pricing page (lines 84-230), with its lines joined
    as JSX joins them. *)
Definition LAUNCH_NOTICE : string :=
  "90-Day Launch Period — All seller tiers currently operate with zero fees. Standard fees activate automatically after the launch window.".

Definition ROLE_COMPARISON : list (string * string) :=
  [("Why Private Holder exists",
    "For collectors selling one or two personal pieces without ongoing selling intent. No subscription required—simply pay a transaction fee when your watch sells.");
   ("When Verified Dealer becomes necessary",
    "Once you're regularly listing watches, the operational advantages become valuable: faster review times, listing templates, and the credibility signal of dealer verification. The lower commission rate typically pays for itself after a few transactions.");
   ("Why Certified Exchange Partner is earned",
    "This tier is designed for established dealers operating at institutional scale. Zero commission, advanced tools, and a branded presence—but with the expectation of consistent alignment with exchange standards and volume.")].

Definition PRICING_FAQ : list (string * string) :=
  [("What is identity verification?",
    "All sellers undergo third-party identity verification before listing. Buyers verify at checkout. This maintains exchange integrity and protects all parties.");
   ("How do transaction fees work?",
    "Private Holders pay 3.5% on completed sales. Verified Dealers pay 2.5%. Certified Exchange Partners pay 0%—the subscription covers all transaction costs.");
   ("What is the 90-day launch period?",
    "During launch, all seller tiers operate with zero fees to establish the exchange. Standard fees activate automatically after this window closes.");
   ("Can I change my role?",
    "Roles can be adjusted based on your selling activity. Changes take effect at the start of your next billing cycle.")].

Inductive ButtonVariant := variant_default | variant_outline.

(** A role card (lines 118-153): name, price and period, commission,
    description, features, and the call to action with its link. *)
Record PricingCard := mkPricingCard {
  pc_name : string;
  pc_price : string;
  pc_commission : string;
  pc_description : string;
  pc_features : list string;
  pc_cta : string * string;
  pc_variant : ButtonVariant
}.

Definition pricing_card (o : Offer) : PricingCard :=
  mkPricingCard (of_name o) (of_price o +:+ of_period o) ("Commission: " +:+ of_commission o)
    (of_description o) (of_features o) (of_cta o, of_cta_link o)
    (if of_highlighted o then variant_default else variant_outline).

(** ** Page2.tsx (the [/page-2] route) *)

(** "Built on Trust" (lines 8-57): the three pillars. *)
Definition TRUST_PILLARS : list (string * string) :=
  [("Verified Sellers",
    "Every seller completes identity verification before listing. No anonymous actors. No unknown parties.");
   ("Authenticated Listings",
    "Structured photo requirements and admin review ensure every listing meets exchange standards.");
   ("Protected Transactions",
    "Secure payment processing with buyer protection. Funds held until confirmed delivery.")].

(** A card of "Membership Tiers" (lines 59-213). *)
Record Page2Card := mkPage2Card {
  p2_header : string;
  p2_title : string;
  p2_description : string;
  p2_features : list string;
  p2_cta : string;
  p2_link : string
}.

Definition PAGE2_TIERS : list Page2Card :=
  [mkPage2Card "Free Access" "Buyer" "Browse and purchase with confidence on a trust-first exchange."
     ["Browse all listings"; "Save watches"; "Message sellers"; "Purchase watches"]
     "Create Free Account" "/auth?mode=signup";
   mkPage2Card "Free • 3.5% commission" "Private Holder"
     "For individuals selling a personal timepiece with no monthly commitment."
     ["1–3 active listings"; "Message buyers"; "Complete transactions"; "Identity verification"]
     "Start Selling" "/auth?mode=signup";
   mkPage2Card "$50/month • 2.5% commission" "Verified Dealer"
     "Built for repeat sellers who value speed, tools, and professional credibility."
     ["Up to 25 active listings"; "Priority listing review"; "Saved listing templates";
      "Basic performance insights"] "Become a Dealer" "/auth?mode=signup";
   mkPage2Card "$195/month • 0% commission" "Certified Partner"
     "Institutional-grade access for high-volume dealers aligned with exchange standards."
     ["Unlimited listings"; "Zero commission"; "Branded storefront"; "Advanced analytics";
      "Dedicated support"] "Apply for Partnership" "/auth?mode=signup"].

(** The links of the closing call to action (lines 303-316) and of the
    tier cards. *)
Definition PAGE2_LINKS : list string :=
  (p2_link <$> PAGE2_TIERS) ++ ["/browse"; "/auth?mode=signup"].

(** An intent card of the onboarding wizard's first step. *)
Record IntentCard := mkIntentCard {
  ic_intent : SellerIntent;
  ic_header : string;
  ic_title : string;
  ic_features : list string
}.

Definition INTENT_CARDS : list IntentCard :=
  [mkIntentCard private_holder "Free • 3.5% commission" "Private Holder"
     ["1–3 active listings"; "Standard review queue"; "Identity verification"];
   mkIntentCard verified_dealer "$50/month • 2.5% commission" "Verified Dealer"
     ["Up to 25 active listings"; "Priority review queue"; "Listing templates & tools"];
   mkIntentCard certified_partner "$195/month • 0% commission" "Certified Partner"
     ["Unlimited listings"; "Branded storefront"; "Advanced analytics"]].

(** "Your Tier Includes" of the second step. *)
Definition TIER_INCLUDES (i : SellerIntent) : list string :=
  match i with
  | private_holder =>
      ["1–3 active listings"; "3.5% commission per sale"; "Standard review queue";
       "No monthly commitment"]
  | verified_dealer =>
      ["Up to 25 active listings"; "2.5% commission per sale"; "Priority review queue";
       "$50/month subscription"; "Listing templates"; "Basic performance insights"]
  | certified_partner =>
      ["Unlimited listings"; "0% commission"; "Priority verification"; "$195/month subscription";
       "Branded storefront"; "Advanced analytics"; "Dedicated support"; "Early access to tools"]
  end.

(** ** Reading the texts *)

Definition is_digit (c : Ascii.ascii) : bool :=
  Nat.leb 48 (Ascii.nat_of_ascii c) && Nat.leb (Ascii.nat_of_ascii c) 57.

(** The digits at the start of [s]: their value, their count and the rest. *)
Fixpoint read_digits (s : string) (acc n : nat) : nat * nat * string :=
  match s with
  | String c s' =>
      if is_digit c then read_digits s' (10 * acc + (Ascii.nat_of_ascii c - 48)) (S n)
      else (acc, n, s)
  | EmptyString => (acc, n, s)
  end%nat.

(** A decimal number [d] or [d.d] at the start of [s], then the rest. *)
Definition read_number (s : string) : option (Q * string) :=
  match read_digits s 0 0 with
  | (_, O, _) => None
  | (i, _, String c rest) =>
      if Nat.eqb (Ascii.nat_of_ascii c) 46 then
        match read_digits rest 0 0 with
        | (_, O, _) => Some (inject_Z (Z.of_nat i), String c rest)
        | (f, k, rest') =>
            Some (inject_Z (Z.of_nat i) + inject_Z (Z.of_nat f) / inject_Z (10 ^ Z.of_nat k), rest')%Q
        end
      else Some (inject_Z (Z.of_nat i), String c rest)
  | (i, _, EmptyString) => Some (inject_Z (Z.of_nat i), EmptyString)
  end.

(** The first [N%] or [N.M%] of a text. *)
Fixpoint find_percent (s : string) : option Q :=
  match s with
  | EmptyString => None
  | String c s' =>
      match read_number s with
      | Some (q, String p _) => if Nat.eqb (Ascii.nat_of_ascii p) 37 then Some q else find_percent s'
      | _ => find_percent s'
      end
  end.

(** The commission a text announces, as a rate. *)
Definition advertised_rate (s : string) : option Q := (fun q => q / 100)%Q <$> find_percent s.

(** The whole numbers of a text, in order. *)
Fixpoint numbers_in_fuel (fuel : nat) (s : string) : list nat :=
  match fuel with
  | O => []
  | S fuel' =>
      match s with
      | EmptyString => []
      | String c s' =>
          if is_digit c then
            let '(v, _, rest) := read_digits s 0 0 in v :: numbers_in_fuel fuel' rest
          else numbers_in_fuel fuel' s'
      end
  end.

Definition numbers_in (s : string) : list nat := numbers_in_fuel (String.length s) s.

(** Every [N%] or [N.M%] of a text, in order. *)
Fixpoint percents_in_fuel (fuel : nat) (s : string) : list Q :=
  match fuel with
  | O => []
  | S fuel' =>
      match s with
      | EmptyString => []
      | String _ s' =>
          match read_number s with
          | Some (q, String p rest) =>
              if Nat.eqb (Ascii.nat_of_ascii p) 37 then q :: percents_in_fuel fuel' rest
              else percents_in_fuel fuel' s'
          | _ => percents_in_fuel fuel' s'
          end
      end
  end.

Definition percents_in (s : string) : list Q := percents_in_fuel (String.length s) s.

(** The listing limit a list of features announces: "Unlimited", or the
    last number of the first feature about listings or watches. *)
Definition advertised_limit (features : list string) : option listing_limit :=
  if existsb (str_includes "Unlimited") features then Some Unbounded
  else match filter (fun f => str_includes "listings" f || str_includes "watches" f) features with
       | f :: _ => Bounded <$> last (numbers_in f)
       | [] => None
       end.

(** ** The tiers the texts describe *)

Definition offer_role (name : string) : option app_role :=
  if decide (name = "Private Holder") then Some observer
  else if decide (name = "Verified Dealer") then Some individual_seller
  else if decide (name = "Certified Exchange Partner") then Some super_seller
  else if decide (name = "Buyer") then Some buyer
  else None.

(** The tier a Page2 card names. *)
Definition page2_role (title : string) : option app_role :=
  if decide (title = "Certified Partner") then Some super_seller else offer_role title.

Definition intent_role (i : SellerIntent) : app_role :=
  match i with
  | private_holder => observer
  | verified_dealer => individual_seller
  | certified_partner => super_seller
  end.

Definition opt_Qeq (a b : option Q) : bool :=
  match a, b with Some x, Some y => Qeq_bool x y | None, None => true | _, _ => false end.

(** A text's rate and limit are the registry's for the role. *)
Definition terms_match (r : app_role) (commission : string) (features : list string) : bool :=
  opt_Qeq (advertised_rate commission) (baseRateFor r) &&
  bool_decide (advertised_limit features = Some (limitFor r)).

(** ** Lemmas *)

Section Scanners.
Local Open Scope nat_scope.

Lemma read_digits_length s acc n : (String.length (read_digits s acc n).2 <= String.length s)%nat.
Proof.
  revert acc n. induction s as [|c s IH]; intros acc n; simpl; [lia|].
  destruct (is_digit c); [etransitivity; [apply IH | simpl; lia] | simpl; lia].
Qed.

Lemma read_digits_step c s acc n :
  is_digit c = true -> (String.length (read_digits (String c s) acc n).2 <= String.length s)%nat.
Proof. intros Hc. simpl. rewrite Hc. apply read_digits_length. Qed.

(** A number read off a text leaves a strictly shorter rest. *)
Lemma read_number_length s q rest :
  read_number s = Some (q, rest) -> (String.length rest < String.length s)%nat.
Proof.
  unfold read_number. destruct s as [|c s]; [simpl; discriminate|].
  pose proof (read_digits_length (String c s) 0 0) as Hl.
  destruct (read_digits (String c s) 0 0) as [[i k] r] eqn:E. simpl in Hl.
  destruct k as [|k]; [discriminate|].
  assert (is_digit c = true) as Hc.
  { simpl in E. destruct (is_digit c); [done | injection E; intros; lia]. }
  pose proof (read_digits_step c s 0 0 Hc) as Hs. rewrite E in Hs. simpl in Hs.
  destruct r as [|c' r].
  - intros [= _ <-]. simpl in *. lia.
  - destruct (Nat.eqb _ 46).
    + pose proof (read_digits_length r 0 0) as Hr.
      destruct (read_digits r 0 0) as [[f [|k']] r'].
      * intros [= _ <-]. simpl in *. lia.
      * intros [= _ <-]. simpl in *. lia.
    + intros [= _ <-]. simpl in *. lia.
Qed.

(** Enough fuel: the scanners' results do not change once the fuel
    reaches the text's length, since every step consumes a character. *)
Lemma numbers_in_fuel_enough fuel fuel' s :
  (String.length s <= fuel)%nat -> (String.length s <= fuel')%nat ->
  numbers_in_fuel fuel s = numbers_in_fuel fuel' s.
Proof.
  revert fuel' s. induction fuel as [|fuel IH]; intros fuel' s H H'.
  - destruct s; [destruct fuel'; reflexivity | simpl in H; lia].
  - destruct fuel' as [|fuel']; [destruct s; [reflexivity | simpl in H'; lia]|].
    destruct s as [|c s]; [reflexivity|]. simpl.
    destruct (is_digit c) eqn:Hc.
    + pose proof (read_digits_step c s 0 0 Hc) as Hs. simpl in Hs. rewrite Hc in Hs.
      destruct (read_digits s _ _) as [[v k] rest]. simpl in *. f_equal. apply IH; simpl in *; lia.
    + apply IH; simpl in *; lia.
Qed.

Lemma percents_in_fuel_enough fuel fuel' s :
  (String.length s <= fuel)%nat -> (String.length s <= fuel')%nat ->
  percents_in_fuel fuel s = percents_in_fuel fuel' s.
Proof.
  revert fuel' s. induction fuel as [|fuel IH]; intros fuel' s H H'.
  - destruct s; [destruct fuel'; reflexivity | simpl in H; lia].
  - destruct fuel' as [|fuel']; [destruct s; [reflexivity | simpl in H'; lia]|].
    destruct s as [|c s]; [reflexivity|]. cbn [percents_in_fuel].
    destruct (read_number (String c s)) as [[q [|p rest]]|] eqn:E; [apply IH; simpl in *; lia | |
      apply IH; simpl in *; lia].
    pose proof (read_number_length _ _ _ E) as Hl. simpl in Hl.
    destruct (Nat.eqb _ 37); [f_equal|]; apply IH; simpl in *; lia.
Qed.

End Scanners.

(** ** Properties *)

(** The pricing page announces for each seller tier the commission rate
    and the listing limit of the spec's tier registry: Private Holder 3.5%
    and 3 listings, Verified Dealer 2.5% and 25, Certified Exchange
    Partner 0% and no limit. *)
Theorem pricing_matches_registry o :
  o ∈ PRICING_ROLES -> of_name o <> "Buyer" ->
  exists r, offer_role (of_name o) = Some r /\ terms_match r (of_commission o) (of_features o) = true.
Proof.
  rewrite list_elem_of_In. simpl. intros Ho Hb.
  repeat destruct Ho as [<- | Ho]; try contradiction; eexists; split; reflexivity || vm_compute; reflexivity.
Qed.

(** The onboarding wizard's intent cards and its "Your Tier Includes"
    lists announce the same terms, which are the registry's. *)
Theorem onboarding_matches_registry :
  (forall c, c ∈ INTENT_CARDS ->
     terms_match (intent_role (ic_intent c)) (ic_header c) (ic_features c) = true) /\
  (forall i, terms_match (intent_role i) (String.concat " " (TIER_INCLUDES i)) (TIER_INCLUDES i) = true).
Proof.
  split.
  - intros c. rewrite list_elem_of_In. simpl. intros Hc.
    repeat destruct Hc as [<- | Hc]; try contradiction; vm_compute; reflexivity.
  - intros []; vm_compute; reflexivity.
Qed.

(** The pricing page's answer on transaction fees quotes, in order, the
    registry's rates of the three seller tiers. *)
Theorem pricing_faq_rates :
  Forall2 (fun q r => opt_Qeq (Some (q / 100)%Q) (baseRateFor r) = true)
    (percents_in (nth 1 PRICING_FAQ ("", "")).2) [observer; individual_seller; super_seller].
Proof. vm_compute. repeat constructor. Qed.

(** The [/page-2] tier cards announce the registry's terms too. *)
Theorem page2_matches_registry c :
  c ∈ PAGE2_TIERS -> p2_title c <> "Buyer" ->
  exists r, page2_role (p2_title c) = Some r /\ terms_match r (p2_header c) (p2_features c) = true.
Proof.
  rewrite list_elem_of_In. simpl. intros Hc Hb.
  repeat destruct Hc as [<- | Hc]; try contradiction; eexists; split; reflexivity || vm_compute; reflexivity.
Qed.

(** The scanners are total and their fuel is enough: with any fuel at
    least the text's length, [numbers_in] and [percents_in] give the same
    result as with exactly that length. *)
Theorem scanners_fuel_sufficient s fuel :
  (String.length s <= fuel)%nat ->
  numbers_in_fuel fuel s = numbers_in s /\ percents_in_fuel fuel s = percents_in s.
Proof.
  intros H. split; [apply numbers_in_fuel_enough | apply percents_in_fuel_enough]; lia.
Qed.
