(* ===== verification/Dashboard.v ===== *)
(** * Dashboard: the signed-in user's home page

    src/src/pages/Dashboard.tsx.  The page reads [user], [profile], [role]
    and [loading] from the auth context (line 19); the effect of lines
    22-26 sends a signed-out visitor to [/auth]; while loading it shows a
    skeleton (lines 28-39) and without a user or a profile nothing (line
    41).  Otherwise it derives [isObserver], [isAdmin], [canSell] and
    [needsVerification] from the role and the profile (lines 43-46) and
    shows the header with the Create Listing link, the verification alert,
    the Private Holder call to action, the quick-action links and the
    account status (lines 48-246).

    [dashboard_links] lists the targets of the page's links in document
    order; Layout.v checks them against the routes of App.tsx.  The
    theorem of this file compares the alert with the guard of the listing
    form (Listings.v): the alert says identity verification is required to
    list, the form does not read the KYC status. *)

From S2P Require Import Prelude Accounts Listings.

Local Open Scope string_scope.
Local Open Scope list_scope.

(** What [useAuth()] gives the page. *)
Record DashboardAuth := mkDashboardAuth {
  da_user : option string;
  da_profile : option Profile;
  da_role : option app_role;
  da_loading : bool
}.

(** [if (!loading && !user) navigate('/auth')] (lines 22-26). *)
Definition dashboard_effect (a : DashboardAuth) : list UiEffect :=
  if negb (da_loading a) && bool_decide (da_user a = None) then [Navigate "/auth"] else [].

(** [x || 'fallback'] on a nullable text column. *)
Definition or_text (o : option string) (fallback : string) : string :=
  match o with Some "" | None => fallback | Some s => s end.

(** The targets of the page's links, in document order: Create Listing
    (lines 63-70), the alert's Start Verification (74-91), the Private
    Holder call to action (94-117), then the quick actions (120-206). *)
Definition dashboard_links (role : option app_role) (kyc : verification_status) : list string :=
  (if canSell role then ["/sell/new"] else []) ++
  (if needsVerification role kyc then ["/verification"] else []) ++
  (if bool_decide (role = Some observer) then ["/onboarding/seller"; "/pricing"] else []) ++
  (if bool_decide (role = Some admin) then ["/admin"] else []) ++
  ["/browse"] ++
  (if canSell role then ["/dashboard/listings"] else []) ++
  ["/settings"] ++
  (if canSell role then ["/verification"; "/dashboard/transactions"] else []).

(** The Account Status card (lines 207-246). *)
Record AccountStatus := mkAccountStatus {
  as_membership : string;       (* lines 219-223 *)
  as_verification : string;     (* profile.kyc_status.replace('_', ' ') *)
  as_subscription : string;     (* profile.subscription_status || 'None' *)
  as_zero_fee : bool            (* {profile.zero_fee_eligible && ...} *)
}.

Definition account_status (p : Profile) (role : option app_role) : AccountStatus :=
  mkAccountStatus (dashboard_role_label role)
    (js_replace_first "_" " " (verification_status_str (p_kyc_status p)))
    (or_text (p_subscription_status p) "None")
    (default false (p_zero_fee_eligible p)).

Record DashboardView := mkDashboardView {
  dv_name : string;             (* profile.full_name || 'Welcome' *)
  dv_badge : option app_role;   (* {role && <TierBadge tier={role} />} *)
  dv_email : string;
  dv_create_listing : bool;     (* {canSell && <Link to="/sell/new">} *)
  dv_alert : bool;              (* {needsVerification && ...} *)
  dv_private_cta : bool;        (* {isObserver && ...} *)
  dv_links : list string;
  dv_account : AccountStatus
}.

Definition dashboard_view (p : Profile) (role : option app_role) : DashboardView :=
  mkDashboardView (or_text (p_full_name p) "Welcome") role (p_email p)
    (canSell role) (needsVerification role (p_kyc_status p)) (bool_decide (role = Some observer))
    (dashboard_links role (p_kyc_status p)) (account_status p role).

Inductive DashboardRender := DSkeleton | DNothing | DShow (v : DashboardView).

(** The component's render (lines 28-249). *)
Definition Dashboard (a : DashboardAuth) : DashboardRender :=
  if da_loading a then DSkeleton else
  match da_user a, da_profile a with
  | Some _, Some p => DShow (dashboard_view p (da_role a))
  | _, _ => DNothing
  end.

(** ** Example data for the witnesses *)

Definition ex_dealer_profile : Profile :=
  mkProfile "seller" "seller@example.com" (Some "Sam Seller") not_started None None None.

Definition ex_dealer_auth : DashboardAuth :=
  mkDashboardAuth (Some "seller") (Some ex_dealer_profile) (Some individual_seller) false.

(** ** Lemmas *)

Lemma Dashboard_DShow a v :
  Dashboard a = DShow v ->
  exists u p, da_loading a = false /\ da_user a = Some u /\ da_profile a = Some p /\
              v = dashboard_view p (da_role a).
Proof.
  unfold Dashboard. destruct (da_loading a); [discriminate|].
  destruct (da_user a), (da_profile a); intros; simplify_eq; eauto 10.
Qed.

(** ** Properties *)

(** C18: the dashboard of a seller whose identity is not verified says
    that verification is required to list and offers the Create Listing
    link, yet the listing form never reads the KYC status: with a valid
    form, its photos and successful uploads, the seller's listing is
    inserted as [pending_review].  The spec (section 3 and the lifecycle
    table) forbids [pending_review] without verified KYC. *)
Theorem unverified_seller_lists a v uid cy d photos fid db :
  Dashboard a = DShow v -> da_user a = Some uid ->
  canSell (da_role a) = true -> as_verification (dv_account v) <> "verified" ->
  listingSchema_ok cy d = true ->
  validatePhotos (fd_has_box d) (fd_has_papers d) photos = Ok tt ->
  db_listings db !! fid = None ->
  let res := submitListing (da_role a) (Some uid) cy d photos fid true (fun _ => true) db in
  dv_alert v = true /\ "/sell/new" ∈ dv_links v /\
  res.2 = None /\ db_listings res.1 !! fid = Some (new_listing fid uid d) /\
  l_status (new_listing fid uid d) = pending_review.
Proof.
  intros (u & p & _ & Hu & _ & ->)%Dashboard_DShow Hu' Hsell Hver Hschema Hval Hfresh res.
  assert (p_kyc_status p <> verified) as Hkyc by (intros Hk; apply Hver; simpl; rewrite Hk; done).
  destruct (submitListing_inserts (da_role a) uid cy d photos fid (fun _ => true) db
              Hsell Hschema Hval Hfresh) as [Hl Hres].
  fold res in Hl, Hres.
  pose proof (upload_all_no_error (fun _ => true) fid photos (requiredPhotos (fd_has_box d) (fd_has_papers d)) 0
    (mkListingDb (<[fid := new_listing fid uid d]> (db_listings db)) (db_photos db) (db_storage db))
    (fun _ _ => eq_refl)) as Herr.
  simpl. unfold needsVerification. rewrite Hsell, bool_decide_eq_true_2 by done.
  split; [done|]. split; [unfold dashboard_links; rewrite Hsell; set_solver|].
  rewrite Hres, Herr, <- Hres, Hl, lookup_insert_eq. auto.
Qed.

(** ** Witnesses *)

Lemma unverified_seller_lists_witness :
  (submitListing (Some individual_seller) (Some "seller") 2026 ex_form ex_photos "L1"
     true (fun _ => true) ex_empty_db).2 = None.
Proof.
  refine (proj1 (proj2 (proj2 (unverified_seller_lists ex_dealer_auth
            (dashboard_view ex_dealer_profile (Some individual_seller)) "seller" 2026 ex_form ex_photos
            "L1" ex_empty_db eq_refl eq_refl eq_refl _ eq_refl eq_refl eq_refl)))).
  vm_compute. discriminate.
Defined.
