(* ===== verification/Layout.v ===== *)
(** * Layout: the site's header, footer and home page, and where their links go

    src/src/components/layout/Header.tsx (the navigation of lines 28-63,
    the account menu of lines 67-103 and [handleSignOut], lines 17-20),
    src/src/components/layout/Footer.tsx (lines 11-103) and
    src/src/pages/Index.tsx (lines 26-46), with the links of the pages of
    fixed content (TierOffers.v, Onboarding.v).  Every page renders inside
    [Layout], so the header and the footer are on every page.

    The links are router targets; [route_of] of Navigation.v tells which
    page each renders.  The theorem of this file lists the targets of the
    header, the footer, the home page, the pages of fixed content and the
    dashboard (Dashboard.v) that no route of App.tsx matches, for every
    role and sign-in state. *)

From S2P Require Import Prelude Accounts Navigation Onboarding TierOffers Dashboard.

Local Open Scope string_scope.
Local Open Scope list_scope.

(** The header's links (lines 28-63 and 92-101); [canSell] is line 22. *)
Definition header_links (signed_in : bool) (role : option app_role) : list string :=
  ["/"; "/browse"; "/community"; "/appraisal"] ++
  (if canSell role then ["/sell"] else []) ++
  (if signed_in then [] else ["/auth"; "/auth?mode=signup"]).

(** The account menu of a signed-in user (lines 75-86): Dashboard and
    Settings navigate; Sign Out is [handleSignOut]. *)
Definition header_menu (signed_in : bool) : list UiEffect :=
  if signed_in then [Navigate "/dashboard"; Navigate "/settings"] else [].

(** [handleSignOut] (lines 17-20): [signOut()] ends the session, then the
    router goes home.  The result is whether a user is signed in after it,
    with the effects. *)
Definition handleSignOut : bool * list UiEffect := (false, [Navigate "/"]).

(** The footer's links (lines 11-103). *)
Definition footer_links : list string :=
  ["/"; "/browse"; "/sell"; "/pricing"; "/community"; "/community?category=market_insights";
   "/community?category=reference_guides"; "/how-it-works"; "/verification";
   "/buyer-protection"; "/privacy"; "/terms"].

(** The home page's buttons (lines 26-46). *)
Definition index_links : list string :=
  ["/browse"; "/auth?mode=signup"; "/community"; "/appraisal-tool"].

(** The links of the pages of fixed content: the calls to action of
    Pricing.tsx (line 150), the links of Page2.tsx and the header of the
    onboarding wizard. *)
Definition page_links : list string :=
  (of_cta_link <$> PRICING_ROLES) ++ PAGE2_LINKS ++ onboarding_header_links.

(** What [/appraisal-tool], the home page's appraisal link, renders
    (AppraisalTool.tsx lines 3-18): a title and "Coming soon."; the
    appraisal page of Appraisal.tsx has no route. *)
Definition appraisal_tool_page : string * string := ("Watch Appraisal Tool", "Coming soon.").

(** Every target of a navigation effect. *)
Definition navigate_targets (es : list UiEffect) : list string :=
  omap (fun e => match e with Navigate p => Some p | _ => None end) es.

(** The targets a user with this role and KYC status can follow from the
    layout, the home page and the dashboard. *)
Definition site_links (signed_in : bool) (role : option app_role) (kyc : verification_status)
    : list string :=
  header_links signed_in role ++ navigate_targets (header_menu signed_in) ++
  navigate_targets (snd handleSignOut) ++ footer_links ++ index_links ++ page_links ++
  (if signed_in then dashboard_links role kyc else []).

(** A target the router sends to NotFound. *)
Definition dead_link (target : string) : bool :=
  bool_decide ((route_of (path_of target)).1 = PNotFound).

(** The targets without a route. *)
Definition DEAD_TARGETS : list string :=
  ["/appraisal"; "/sell"; "/settings"; "/how-it-works"; "/buyer-protection"; "/privacy";
   "/terms"; "/dashboard/listings"; "/dashboard/transactions"].

(** ** Lemmas *)

(** A statement about the targets of [site_links] holds when it holds of
    the finitely many targets each role and state produce. *)
Lemma site_links_cases (P : string -> Prop) :
  (forall b r k, Forall P (site_links b r k)) ->
  forall b r k t, t ∈ site_links b r k -> P t.
Proof. intros H b r k t Ht. exact (proj1 (Forall_forall _ _) (H b r k) t Ht). Qed.

(** ** Properties *)

(** The links of the header, the footer, the home page, the pages
    of fixed content and the dashboard that the router sends to NotFound are exactly [/appraisal]
    and [/sell] (header and footer), [/settings] (the account menu and
    the dashboard), [/how-it-works], [/buyer-protection], [/privacy] and
    [/terms] (footer), and [/dashboard/listings] and
    [/dashboard/transactions] (the dashboard of a seller); every other
    link renders a page. *)
Theorem site_dead_links signed_in role kyc t :
  t ∈ site_links signed_in role kyc -> dead_link t = true <-> t ∈ DEAD_TARGETS.
Proof.
  revert signed_in role kyc t. apply site_links_cases.
  intros [] [[]|] []; apply (bool_decide_unpack _); vm_compute; reflexivity.
Qed.

(** ** Witnesses *)

Lemma site_dead_links_witness : dead_link "/settings" = true.
Proof.
  apply (proj2 (site_dead_links true (Some individual_seller) not_started "/settings"
                  ltac:(apply (bool_decide_unpack _); vm_compute; reflexivity))).
  apply (bool_decide_unpack _). vm_compute. reflexivity.
Defined.
