(* ===== verification/Appraisal.v ===== *)
(** * Appraisal: the watch appraisal page and its market-data clients

    src/src/pages/Appraisal.tsx with the three clients it calls,
    src/src/api/watchbase.ts, src/src/api/watchanalytics.ts and
    src/src/api/ebay.ts.  The page's state is [query], [loading],
    [searched], [error] and the three results (lines 14-20).
    [handleSearch] (lines 22-48) is split at its [await]: the part before
    it clears the results and sets [loading]; the part after it stores the
    three answers of [Promise.all], or the error message when one of them
    rejects, and clears [loading].  The search button is disabled while
    [loading] (line 159), so the form cannot be submitted again before the
    answers arrive.  The three cards render the results (lines 50-135).

    The clients wait for a fixed delay and return fixed data whatever the
    query; they never reject.  The page's behaviour is the step relation
    [appraisal_step] over the state and the search in flight.

    App.tsx routes no path to this page (Navigation.v: [/appraisal-tool]
    renders the placeholder AppraisalTool.tsx, [/appraisal] NotFound);
    the model describes the page as written. *)

From S2P Require Import Prelude.

Local Open Scope string_scope.
Local Open Scope list_scope.

(** ** The clients (src/src/api) *)

Record WatchBaseData := mkWatchBaseData { wb_specs : list (string * string) }.
Record WatchAnalyticsData := mkWatchAnalyticsData { wa_market_trends : list (string * string) }.
Record EbaySale := mkEbaySale { es_id : nat; es_title : string; es_price : string; es_date : string }.
Record EbayData := mkEbayData { eb_recent_sales : list EbaySale }.

(** [getWatchBaseData] (watchbase.ts lines 2-17). *)
Definition getWatchBaseData (query : string) : WatchBaseData :=
  mkWatchBaseData
    [("brand", "Rolex"); ("model", "Submariner"); ("reference", "126610LN");
     ("case_size", "41mm"); ("material", "Oystersteel"); ("movement", "Calibre 3235");
     ("power_reserve", "70 hours")].

(** [getWatchAnalyticsData] (watchanalytics.ts lines 2-13). *)
Definition getWatchAnalyticsData (query : string) : WatchAnalyticsData :=
  mkWatchAnalyticsData [("avg_price", "$15,000"); ("price_change_6m", "+5%"); ("demand", "High")].

(** [getEbayData] (ebay.ts lines 2-13). *)
Definition getEbayData (query : string) : EbayData :=
  mkEbayData
    [mkEbaySale 1 "Rolex Submariner 126610LN" "$14,800" "2026-02-10";
     mkEbaySale 2 "Rolex Submariner Date 126610LN" "$15,200" "2026-02-08";
     mkEbaySale 3 "New Rolex Submariner 126610LN" "$15,500" "2026-02-05"].

(** The answer of [Promise.all([...])]: the three results, or the
    rejection that the [catch] turns into the error message. *)
Definition AllResult := result string (WatchBaseData * WatchAnalyticsData * EbayData).

Definition fetch_all (query : string) : AllResult :=
  Ok (getWatchBaseData query, getWatchAnalyticsData query, getEbayData query).

(** ** The page *)

Record AppraisalState := mkAppraisalState {
  ap_query : string;
  ap_loading : bool;
  ap_searched : bool;
  ap_error : option string;
  ap_watchBase : option WatchBaseData;
  ap_watchAnalytics : option WatchAnalyticsData;
  ap_ebay : option EbayData
}.

Definition initial_appraisal : AppraisalState :=
  mkAppraisalState "" false false None None None None.

(** The input's [onChange]. *)
Definition setQuery (q : string) (s : AppraisalState) : AppraisalState :=
  mkAppraisalState q (ap_loading s) (ap_searched s) (ap_error s)
    (ap_watchBase s) (ap_watchAnalytics s) (ap_ebay s).

(** [handleSearch] up to its [await] (lines 22-31): nothing for an empty
    query; otherwise the search whose answers are awaited. *)
Definition handleSearch_start (s : AppraisalState) : option (AppraisalState * string) :=
  if decide (ap_query s = "") then None
  else Some (mkAppraisalState (ap_query s) true true None None None None, ap_query s).

(** [handleSearch] after its [await] (lines 33-47). *)
Definition handleSearch_finish (answer : AllResult) (s : AppraisalState) : AppraisalState :=
  match answer with
  | Ok (wb, wa, eb) =>
      mkAppraisalState (ap_query s) false (ap_searched s) (ap_error s) (Some wb) (Some wa) (Some eb)
  | Err _ =>
      mkAppraisalState (ap_query s) false (ap_searched s)
        (Some "Failed to fetch watch data. Please try again.")
        (ap_watchBase s) (ap_watchAnalytics s) (ap_ebay s)
  end.

(** The dismiss button of the alert (line 170). *)
Definition dismissError (s : AppraisalState) : AppraisalState :=
  mkAppraisalState (ap_query s) (ap_loading s) (ap_searched s) None
    (ap_watchBase s) (ap_watchAnalytics s) (ap_ebay s).

(** What a card shows. *)
Inductive CardContent :=
| Skeleton
| Message (text : string)
| Rows (rows : list (string * string)).

(** [key.replace(/_/g, ' ')]. *)
Fixpoint underscores_to_spaces (s : string) : string :=
  match s with
  | EmptyString => EmptyString
  | String c s' =>
      String (if Ascii.ascii_dec c (Ascii.ascii_of_nat 95) then Ascii.ascii_of_nat 32 else c)
        (underscores_to_spaces s')
  end.

Definition empty_text (s : AppraisalState) (idle : string) : string :=
  if ap_searched s && bool_decide (ap_error s = None) then "No data found." else idle.

Definition entries (kvs : list (string * string)) : list (string * string) :=
  (fun kv => (underscores_to_spaces kv.1, kv.2)) <$> kvs.

(** [renderWatchBaseContent] (lines 50-74). *)
Definition renderWatchBaseContent (s : AppraisalState) : CardContent :=
  if ap_loading s then Skeleton else
  match ap_watchBase s with
  | None => Message (empty_text s "Technical specs will appear here.")
  | Some d => Rows (entries (wb_specs d))
  end.

(** [renderWatchAnalyticsContent] (lines 76-98). *)
Definition renderWatchAnalyticsContent (s : AppraisalState) : CardContent :=
  if ap_loading s then Skeleton else
  match ap_watchAnalytics s with
  | None => Message (empty_text s "Market trends will appear here.")
  | Some d => Rows (entries (wa_market_trends d))
  end.

(** [renderEbayContent] (lines 100-135): title, then price and date. *)
Definition renderEbayContent (s : AppraisalState) : CardContent :=
  if ap_loading s then Skeleton else
  match ap_ebay s with
  | Some d =>
      match eb_recent_sales d with
      | [] => Message (empty_text s "Recent sales will appear here.")
      | sales => Rows ((fun e => (es_title e, es_price e +:+ " " +:+ es_date e)) <$> sales)
      end
  | None => Message (empty_text s "Recent sales will appear here.")
  end.

(** The page and the searches in flight (the [await]s not yet resumed). *)
Definition AppraisalConf := (AppraisalState * list string)%type.

(** What the user and the clients can do: type (the input stays enabled),
    submit while the button is enabled, receive the answers of a search
    in flight, dismiss the alert. *)
Inductive appraisal_step : AppraisalConf -> AppraisalConf -> Prop :=
| as_type s pend q : appraisal_step (s, pend) (setQuery q s, pend)
| as_submit s s' pend q :
    ap_loading s = false -> handleSearch_start s = Some (s', q) ->
    appraisal_step (s, pend) (s', q :: pend)
| as_answer s pend1 q pend2 :
    appraisal_step (s, pend1 ++ q :: pend2) (handleSearch_finish (fetch_all q) s, pend1 ++ pend2)
| as_dismiss s pend : appraisal_step (s, pend) (dismissError s, pend).

(** ** Invariant *)

(** The three results the clients give. *)
Definition fixed_results : WatchBaseData * WatchAnalyticsData * EbayData :=
  (getWatchBaseData "", getWatchAnalyticsData "", getEbayData "").

(** In a reachable configuration: no error, [loading] exactly while a
    search is in flight and at most one in flight, and the results either
    all absent (before any search and while loading) or the clients'. *)
Definition appraisal_inv (c : AppraisalConf) : Prop :=
  let '(s, pend) := c in
  ap_error s = None /\
  (ap_loading s = true <-> pend <> []) /\ (length pend <= 1)%nat /\
  ((ap_watchBase s, ap_watchAnalytics s, ap_ebay s) = (None, None, None) \/
   (ap_watchBase s, ap_watchAnalytics s, ap_ebay s) =
     (Some fixed_results.1.1, Some fixed_results.1.2, Some fixed_results.2)) /\
  (ap_loading s = true -> ap_searched s = true) /\
  (ap_watchBase s = None <-> ap_searched s = false \/ ap_loading s = true).

(** ** Lemmas *)

Lemma appraisal_inv_initial : appraisal_inv (initial_appraisal, []).
Proof. simpl. repeat split; auto; try done. Qed.

(** A list of at most one element that holds [q] is [[q]]. *)
Lemma single_in_flight {A} (l1 l2 : list A) (q : A) :
  (length (l1 ++ q :: l2) <= 1)%nat -> l1 = [] /\ l2 = [].
Proof. rewrite length_app. simpl. destruct l1, l2; simpl; intros; split; try done; lia. Qed.

Lemma appraisal_step_inv c c' : appraisal_inv c -> appraisal_step c c' -> appraisal_inv c'.
Proof.
  intros Hinv Hstep. destruct Hstep as [s pend q|s s' pend q Hl Hst|s pend1 q pend2|s pend];
    destruct Hinv as (He & Hload & Hlen & Hres & Hld & Hnone).
  - exact (conj He (conj Hload (conj Hlen (conj Hres (conj Hld Hnone))))).
  - unfold handleSearch_start in Hst. case_decide; simplify_eq/=.
    assert (pend = []) as -> by (destruct pend; [done|]; exfalso; rewrite (proj2 Hload) in Hl; done).
    repeat split; auto; try done.
  - apply single_in_flight in Hlen as [-> ->]. simpl.
    pose proof (Hld (proj2 Hload ltac:(done))) as Hs.
    repeat split; auto; try done; try congruence; intros [H|H]; congruence.
  - exact (conj eq_refl (conj Hload (conj Hlen (conj Hres (conj Hld Hnone))))).
Qed.

Lemma appraisal_reachable_inv c :
  star appraisal_step (initial_appraisal, []) c -> appraisal_inv c.
Proof.
  intros Hr. apply (star_invariant _ _ appraisal_step_inv _ _ Hr), appraisal_inv_initial.
Qed.

(** ** Properties *)

(** The appraisal page shows the same data whatever the user
    searches for: in every state the page can reach, once a search has
    completed the WatchBase card lists the specs of a Rolex Submariner
    126610LN, the WatchAnalytics card its market trend and the eBay card
    its three sales, and the error alert never appears.  The page
    promises "real-time market data" (line 146). *)
Theorem appraisal_ignores_query s pend :
  star appraisal_step (initial_appraisal, []) (s, pend) ->
  ap_loading s = false -> ap_searched s = true ->
  ap_error s = None /\
  renderWatchBaseContent s =
    Rows [("brand", "Rolex"); ("model", "Submariner"); ("reference", "126610LN");
          ("case size", "41mm"); ("material", "Oystersteel"); ("movement", "Calibre 3235");
          ("power reserve", "70 hours")] /\
  renderWatchAnalyticsContent s =
    Rows [("avg price", "$15,000"); ("price change 6m", "+5%"); ("demand", "High")] /\
  renderEbayContent s =
    Rows [("Rolex Submariner 126610LN", "$14,800 2026-02-10");
          ("Rolex Submariner Date 126610LN", "$15,200 2026-02-08");
          ("New Rolex Submariner 126610LN", "$15,500 2026-02-05")].
Proof.
  intros Hr Hl Hs. destruct (appraisal_reachable_inv _ Hr) as (He & _ & _ & Hres & _ & Hnone).
  unfold renderWatchBaseContent, renderWatchAnalyticsContent, renderEbayContent. rewrite Hl.
  destruct Hres as [Hres|Hres]; injection Hres as Hwb Hwa Heb.
  - exfalso. destruct (proj1 Hnone Hwb); congruence.
  - rewrite Hwb, Hwa, Heb. split; [exact He | repeat split; reflexivity].
Qed.

(** While a search is in flight the button stays disabled, so there is
    never more than one, and [loading] is set exactly while one is. *)
Theorem appraisal_one_search s pend :
  star appraisal_step (initial_appraisal, []) (s, pend) ->
  (length pend <= 1)%nat /\ (ap_loading s = true <-> pend <> []).
Proof. intros Hr. destruct (appraisal_reachable_inv _ Hr) as (_ & Hl & Hlen & _). auto. Qed.

(** ** Witnesses *)

Lemma appraisal_ignores_query_witness :
  renderWatchBaseContent
    (handleSearch_finish (fetch_all "Omega Speedmaster")
       (mkAppraisalState "Omega Speedmaster" true true None None None None)) =
  Rows [("brand", "Rolex"); ("model", "Submariner"); ("reference", "126610LN");
        ("case size", "41mm"); ("material", "Oystersteel"); ("movement", "Calibre 3235");
        ("power reserve", "70 hours")].
Proof.
  refine (proj1 (proj2 (appraisal_ignores_query
    (handleSearch_finish (fetch_all "Omega Speedmaster")
       (mkAppraisalState "Omega Speedmaster" true true None None None None)) [] _ eq_refl eq_refl))).
  eapply star_step; [apply (as_type initial_appraisal [] "Omega Speedmaster")|].
  eapply star_step; [apply (as_submit _ (mkAppraisalState "Omega Speedmaster" true true None None None None)
                             [] "Omega Speedmaster"); reflexivity|].
  eapply star_step; [apply (as_answer _ [] "Omega Speedmaster" [])|].
  apply star_refl.
Defined.
