(* ===== verification/Community.v ===== *)
(** * Community: the forum's post list

    src/src/pages/Community.tsx.  The category comes from the url's
    [?category=] (line 34, ['all'] without one); [fetchPosts] (lines
    41-92) asks the [posts] table for its rows newest first, narrowed to
    the category unless it is ['all'], then completes each post with its
    number of comments and its author's [full_name] read by
    [maybeSingle()]; the list is replaced only when the query answers data
    (line 62).  [canPost] (line 35) is the [canSell] expression of
    Accounts.v.  The page links to [/community/new], to each post's
    [/community/:id] and, for a user who cannot post, to [/pricing].

    A category outside the [post_category] enum makes PostgREST refuse
    the query, so [data] is [null]: [fetchPosts] answers [None] then.
    [on_category] is one fetch run to its end; [community_step]
    ([async_step] of Prelude.v) lets the url change while fetches are in
    flight and their answers arrive in any order, which is how the page
    can end up showing a category other than the selected one. *)

From stdpp Require Import sorting.
From S2P Require Import Prelude Accounts Navigation Layout.

Local Open Scope string_scope.
Local Open Scope list_scope.

(** The [post_category] enum (types.ts). *)
Inductive post_category := market_insights | reference_guides | authentication.

#[export] Instance post_category_eq_dec : EqDecision post_category.
Proof. solve_decision. Defined.

Definition category_str (c : post_category) : string :=
  match c with
  | market_insights => "market_insights"
  | reference_guides => "reference_guides"
  | authentication => "authentication"
  end.

Definition category_of_string (s : string) : option post_category :=
  if decide (s = "market_insights") then Some market_insights
  else if decide (s = "reference_guides") then Some reference_guides
  else if decide (s = "authentication") then Some authentication
  else None.

(** [categoryLabels] (lines 22-26), in the order of [Object.entries]. *)
Definition categoryLabels : list (post_category * string) :=
  [(market_insights, "Market Insights"); (reference_guides, "Reference Guides");
   (authentication, "Authentication")].

(** [categoryLabels[post.category]]. *)
Definition categoryLabel (c : post_category) : string :=
  default "" (snd <$> head (filter (fun kv => kv.1 = c) categoryLabels)).

(** A [posts] row, the columns the page selects (lines 46-52). *)
Record PostRow := mkPostRow {
  pr_id : string;
  pr_title : string;
  pr_content : string;
  pr_category : post_category;
  pr_created_at : Z;
  pr_author_id : string
}.

Record CommunityDb := mkCommunityDb {
  cm_posts : list PostRow;
  cm_comments : list string;                 (* the post_id of each comment *)
  cm_profiles : list (string * option string) (* user_id, full_name *)
}.

(** The page's [Post] (lines 10-20); [profiles] is [null] when
    [maybeSingle()] finds no row or fails on several. *)
Record Post := mkPost {
  po_id : string;
  po_title : string;
  po_content : string;
  po_category : post_category;
  po_created_at : Z;
  po_profiles : option (option string);
  po_comment_count : nat
}.

(** [searchParams.get('category') || 'all']. *)
Definition selectedCategory (search : option string) : string :=
  match query_get "category" search with Some "" | None => "all" | Some c => c end.

(** [canPost] (line 35). *)
Definition canPost (role : option app_role) : bool := canSell role.

(** [.order('created_at', { ascending: false })]. *)
Definition post_le (a b : PostRow) : bool := Z.leb (pr_created_at b) (pr_created_at a).

(** The [map] of lines 64-88: the comment count ([count || 0]) and the
    author's profile. *)
Definition enrich_post (db : CommunityDb) (r : PostRow) : Post :=
  mkPost (pr_id r) (pr_title r) (pr_content r) (pr_category r) (pr_created_at r)
    (snd <$> maybe_single (filter (fun p => p.1 = pr_author_id r) (cm_profiles db)))
    (length (filter (fun pid => pid = pr_id r) (cm_comments db))).

(** The query of lines 44-60 and the completion of lines 64-88; [None]
    is [data] being [null]. *)
Definition fetchPosts (db : CommunityDb) (selected : string) : option (list Post) :=
  if decide (selected = "all") then Some (enrich_post db <$> isort post_le (cm_posts db))
  else match category_of_string selected with
       | Some c => Some (enrich_post db <$>
                          isort post_le (filter (fun r => pr_category r = c) (cm_posts db)))
       | None => None
       end.

Record CommunityPage := mkCommunityPage { cp_posts : list Post; cp_loading : bool }.

Definition initial_community : CommunityPage := mkCommunityPage [] true.

(** [fetchPosts]'s state updates: [setLoading(true)], then
    [if (data) setPosts(...)] and [setLoading(false)]. *)
Definition fetch_start (p : CommunityPage) : CommunityPage := mkCommunityPage (cp_posts p) true.

Definition fetch_finish (answer : option (list Post)) (p : CommunityPage) : CommunityPage :=
  mkCommunityPage (default (cp_posts p) answer) false.

(** The effect of lines 37-39: a fetch for each category the url selects. *)
Definition on_category (db : CommunityDb) (search : option string) (p : CommunityPage)
    : CommunityPage :=
  fetch_finish (fetchPosts db (selectedCategory search)) (fetch_start p).

(** A post's card (lines 159-192). *)
Record PostCard := mkPostCard {
  pc_link : string;
  pc_label : string;
  pc_author : string;
  pc_title : string;
  pc_comments : nat
}.

Definition post_card (p : Post) : PostCard :=
  mkPostCard ("/community/" +:+ po_id p) (categoryLabel (po_category p))
    (match po_profiles p with Some (Some n) => if decide (n = "") then "Anonymous" else n
                             | _ => "Anonymous" end)
    (po_title p) (po_comment_count p).

(** What the post area shows (lines 138-195). *)
Inductive PostsView :=
| PostsSkeleton
| NoPosts (first_post_link : bool)
| PostCards (cards : list PostCard).

Definition posts_view (role : option app_role) (p : CommunityPage) : PostsView :=
  if cp_loading p then PostsSkeleton else
  match cp_posts p with
  | [] => NoPosts (canPost role)
  | ps => PostCards (post_card <$> ps)
  end.

(** The page's links in document order: New Post (lines 106-113), the
    first post's link or the cards (148-195), the call to action (198-210). *)
Definition community_links (role : option app_role) (p : CommunityPage) : list string :=
  (if canPost role then ["/community/new"] else []) ++
  match posts_view role p with
  | NoPosts true => ["/community/new"]
  | PostCards cs => pc_link <$> cs
  | _ => []
  end ++
  (if canPost role then [] else ["/pricing"]).

(** The category buttons (lines 117-135): the key each selects and
    whether it is highlighted. *)
Definition category_buttons (selected : string) : list (string * bool) :=
  ("all", bool_decide (selected = "all")) ::
  ((fun kv => (category_str kv.1, bool_decide (selected = category_str kv.1))) <$> categoryLabels).

(** ** Fetches in flight

    [fetchPosts] is an [async] function started by the effect of lines
    37-39 each time the selected category changes; nothing cancels a
    fetch that is still running, and the answers can arrive in any order.
    This is the pattern [async_step] of Prelude.v, with the url's query as
    the query, [selectedCategory] as the effect's dependency, [setLoading(true)]
    (line 42) before the [await] and the state updates of lines 62-90
    after it. *)
Definition community_step (db : CommunityDb) :=
  async_step selectedCategory (fetchPosts db) (fun _ => fetch_start) fetch_finish.

(** The page as it mounts: the effect's first run. *)
Definition community_init (search : option string) : AsyncConf :=
  async_init selectedCategory search initial_community.

(** ** Example data for the witnesses *)

Definition ex_post (id : string) (c : post_category) (t : Z) : PostRow :=
  mkPostRow id ("Post " +:+ id) "" c t "u1".

Definition ex_community_db : CommunityDb :=
  mkCommunityDb [ex_post "p1" market_insights 1; ex_post "p2" authentication 2;
                 ex_post "p3" market_insights 3] ["p1"; "p1"; "p3"] [("u1", Some "Ada")].

(** ** Lemmas *)

Lemma post_le_total a b : post_le a b = false -> post_le b a = true.
Proof. unfold post_le. rewrite Z.leb_gt, Z.leb_le. lia. Qed.

Lemma fetchPosts_category db c :
  fetchPosts db (category_str c) =
    Some (enrich_post db <$> isort post_le (filter (fun r => pr_category r = c) (cm_posts db))).
Proof. unfold fetchPosts. rewrite decide_False by (destruct c; discriminate). destruct c; reflexivity. Qed.

(** The url of a category link selects that category. *)
Lemma selectedCategory_link c :
  selectedCategory (query_of ("/community?category=" +:+ category_str c)) = category_str c.
Proof. destruct c; vm_compute; reflexivity. Qed.

(** A post's page has no route. *)
Lemma community_post_link_dead id :
  url_plain id = true -> dead_link ("/community/" +:+ id) = true.
Proof.
  intros (Hne & H47 & H63 & _)%url_plain_spec. unfold dead_link, path_of.
  rewrite split_first_none by (rewrite has_char_app; exact H63).
  unfold route_of, segments. simpl.
  change ("" +:+ id) with id. rewrite (str_split_nosep slash id H47).
  rewrite filter_cons_True by done. reflexivity.
Qed.

(** ** Properties *)

(** Every link of the community page but [/pricing] leads to
    NotFound: the New Post and Be the First to Post buttons go to
    [/community/new] and each post's card to [/community/<id>], and App.tsx
    routes neither; so no post can be written or read. *)
Theorem community_links_dead role p t :
  Forall (fun po => url_plain (po_id po) = true) (cp_posts p) ->
  t ∈ community_links role p -> dead_link t = true <-> t <> "/pricing".
Proof.
  intros Hids. unfold community_links, posts_view.
  assert (dead_link "/community/new" = true /\ "/community/new" <> "/pricing") as Hnew
    by (split; [vm_compute; reflexivity | discriminate]).
  assert (Hpricing : dead_link "/pricing" = false) by (vm_compute; reflexivity).
  rewrite !elem_of_app. intros [Ht | [Ht | Ht]].
  - destruct (canPost role); [apply list_elem_of_singleton in Ht as ->|set_solver]. naive_solver.
  - destruct (cp_loading p); [set_solver|]. destruct (cp_posts p) as [|po ps] eqn:Hps.
    + destruct (canPost role); [apply list_elem_of_singleton in Ht as ->|set_solver]. naive_solver.
    + rewrite <- Hps in *. apply list_elem_of_fmap in Ht as (cd & -> & Hcd).
      apply list_elem_of_fmap in Hcd as (po' & -> & Hpo'). simpl.
      rewrite community_post_link_dead by (exact (proj1 (Forall_forall _ _) Hids po' Hpo')).
      split; [intros _; discriminate | done].
  - destruct (canPost role); [set_solver|]. apply list_elem_of_singleton in Ht as ->.
    rewrite Hpricing. naive_solver.
Qed.

(** Following a category link (the footer's Market Insights and
    Reference Guides, or a category button) shows exactly the posts of
    that category, each with its comments counted and its author looked
    up, newest first. *)
Theorem community_category_shows db c p :
  let p' := on_category db (query_of ("/community?category=" +:+ category_str c)) p in
  cp_loading p' = false /\
  (forall po, po ∈ cp_posts p' <->
     exists r, r ∈ cm_posts db /\ pr_category r = c /\ po = enrich_post db r) /\
  Sorted (fun a b => (po_created_at b <= po_created_at a)%Z) (cp_posts p').
Proof.
  unfold on_category. rewrite selectedCategory_link, fetchPosts_category. simpl.
  split; [done|]. split.
  - intros po. rewrite list_elem_of_fmap. setoid_rewrite <- isort_perm.
    setoid_rewrite list_elem_of_filter. naive_solver.
  - apply (Sorted_fmap _ (fun a b => post_le a b = true)); [|apply isort_sorted, post_le_total].
    intros a b Hab. apply Z.leb_le in Hab. exact Hab.
Qed.

(** A url whose category is not in the enum makes the query fail: the
    page keeps the posts it showed before, under buttons none of which is
    highlighted. *)
Theorem community_bad_category_stale db p k :
  k <> "" -> k <> "all" -> category_of_string k = None -> has_char 38 k = false ->
  let sel := selectedCategory (Some ("category" +:+ String eq_sign k)) in
  cp_posts (on_category db (Some ("category" +:+ String eq_sign k)) p) = cp_posts p /\
  Forall (fun b => b.2 = false) (category_buttons sel).
Proof.
  intros Hne Hall Hcat Hamp sel.
  assert (sel = k) as Hsel.
  { unfold sel, selectedCategory. rewrite query_get_last by done.
    rewrite decide_True by done. destruct k; [done|]. reflexivity. }
  unfold on_category, fetchPosts. fold sel. rewrite Hsel, decide_False, Hcat by done.
  split; [done|]. repeat constructor; simpl; apply bool_decide_eq_false_2; [done|..];
    intros ->; discriminate Hcat.
Qed.

(** C35: switching categories quickly can leave the page showing the wrong
    category: when the fetch of an earlier category answers after the
    fetch of the selected one, its posts replace the selected category's
    and the loading indicator is off, so a post of [c1] is listed while the
    url and the buttons select [c2]. *)
Theorem community_category_race db c1 c2 r :
  r ∈ cm_posts db -> pr_category r = c1 -> c1 <> c2 ->
  exists cf, star (community_step db) (community_init None) cf /\
    selectedCategory (ac_query cf) = category_str c2 /\ cp_loading (ac_page cf) = false /\
    ac_pending cf = [] /\ enrich_post db r ∈ cp_posts (ac_page cf).
Proof.
  intros Hr Hc Hne.
  set (q1 := query_of ("/community?category=" +:+ category_str c1)).
  set (q2 := query_of ("/community?category=" +:+ category_str c2)).
  assert (Hinj : category_str c1 <> category_str c2) by (destruct c1, c2; done).
  eexists. split.
  - apply (async_late_answer _ _ _ _ None q1 q2 initial_community).
    + unfold q1. rewrite selectedCategory_link. destruct c1; discriminate.
    + unfold q1, q2. rewrite !selectedCategory_link. exact (not_eq_sym Hinj).
  - simpl. split; [apply selectedCategory_link|]. split; [reflexivity|]. split; [reflexivity|].
    unfold q1. rewrite selectedCategory_link, fetchPosts_category. simpl.
    apply list_elem_of_fmap. exists r. split; [done|].
    rewrite <- isort_perm. apply list_elem_of_filter. done.
Qed.

(** ** Witnesses *)

Lemma community_links_dead_witness :
  dead_link "/community/p3" = true.
Proof.
  apply (proj2 (community_links_dead None (on_category ex_community_db None initial_community)
                  "/community/p3" ltac:(apply (bool_decide_unpack _); vm_compute; reflexivity)
                  ltac:(apply (bool_decide_unpack _); vm_compute; reflexivity))).
  discriminate.
Defined.

Lemma community_bad_category_stale_witness :
  cp_posts (on_category ex_community_db (Some ("category" +:+ String eq_sign "news"))
              (on_category ex_community_db None initial_community)) =
  cp_posts (on_category ex_community_db None initial_community).
Proof.
  apply (community_bad_category_stale ex_community_db (on_category ex_community_db None initial_community)
           "news"); reflexivity || discriminate.
Defined.

Lemma community_category_race_witness :
  exists cf, star (community_step ex_community_db) (community_init None) cf /\
    selectedCategory (ac_query cf) = "authentication" /\
    enrich_post ex_community_db (ex_post "p1" market_insights 1) ∈ cp_posts (ac_page cf).
Proof.
  destruct (community_category_race ex_community_db market_insights authentication
              (ex_post "p1" market_insights 1)) as (cf & Hs & Hsel & _ & _ & Hin);
    [apply elem_of_cons; left; reflexivity | reflexivity | discriminate |].
  exists cf. split; [exact Hs | split; [exact Hsel | exact Hin]].
Defined.
