(* ===== verification/CreateListingPage.v ===== *)
(** * CreateListingPage: the listing form's page, photo panel and feedback

    src/src/pages/CreateListing.tsx around the handler modelled in
    Listings.v: the redirect of a signed-out visitor (lines 117-121), the
    loading and "Seller Account Required" renders (lines 125-157),
    [handlePhotoChange] (lines 159-161), the "Missing Photo" toast of
    [validatePhotos] (lines 168-176) and the toasts and navigation of
    [onSubmit] (lines 249-264).  src/src/components/listing/PhotoUpload.tsx:
    the slot labels (lines 14-21), [handleDrop] (lines 33-40),
    [handleFileSelect] (lines 42-47), the remove button (line 102) and the
    "Required" badge (line 74).  The form itself: its values and
    [defaultValues] (lines 84-99), its fields and labels (lines 293-568),
    what [zodResolver] passes to [onSubmit] (line 287), the number
    inputs, switches and currency select (lines 369-540, with the parsers
    of NumberInput.v) and the Cancel button (lines 589-596).

    [submitListing] (Listings.v) gives the database after [onSubmit] and
    the error it stopped on; [onSubmit_effects] turns that error into what
    the seller sees.  [error.message] of a failed insert or upload is the
    message of the Supabase client, a parameter here. *)

From S2P Require Import Prelude Accounts Listings NumberInput.

Local Open Scope string_scope.
Local Open Scope list_scope.

(** ** The photo panel (PhotoUpload.tsx) *)

(** [label] of [PHOTO_SLOTS] (lines 14-21). *)
Definition slot_label (t : PhotoType) : string :=
  match t with
  | dial => "Dial Front" | caseback => "Caseback" | side => "Side Profile"
  | clasp => "Clasp/Bracelet" | box => "Box" | papers => "Papers/Warranty"
  end.

(** [handlePhotoChange] (CreateListing.tsx lines 159-161):
    [setPhotos(prev => ({ ...prev, [type]: file }))]. *)
Definition handlePhotoChange (t : PhotoType) (file : option File) (photos : Photos) : Photos :=
  fun t' => if decide (t' = t) then file else photos t'.

(** [file.type.startsWith('image/')]. *)
Definition is_image (f : File) : bool := String.prefix "image/" (f_type f).

(** [handleDrop] (lines 33-40): the first dropped file, if it is an image. *)
Definition handleDrop (t : PhotoType) (files : list File) (photos : Photos) : Photos :=
  match files with
  | f :: _ => if is_image f then handlePhotoChange t (Some f) photos else photos
  | [] => photos
  end.

(** [handleFileSelect] (lines 42-47): the first selected file, whatever it
    is ([accept="image/*"] only filters the browser's dialog by default). *)
Definition handleFileSelect (t : PhotoType) (files : list File) (photos : Photos) : Photos :=
  match files with
  | f :: _ => handlePhotoChange t (Some f) photos
  | [] => photos
  end.

(** The remove button of a filled slot (line 102). *)
Definition removePhoto (t : PhotoType) (photos : Photos) : Photos := handlePhotoChange t None photos.

(** [isRequired] (line 74). *)
Definition slot_is_required (hasBox hasPapers : bool) (s : PhotoType * bool) : bool :=
  s.2 || (bool_decide (s.1 = box) && hasBox) || (bool_decide (s.1 = papers) && hasPapers).

(** ** The page (CreateListing.tsx) *)

(** The effect of lines 117-121. *)
Definition create_listing_effect (loading : bool) (user : option string) : list UiEffect :=
  if negb loading && bool_decide (user = None) then [Navigate "/auth"] else [].

Inductive CreateListingRender := CLSkeleton | CLSellerRequired | CLForm.

(** Lines 125-157: the skeleton, the "Seller Account Required" card whose
    button navigates to [/pricing], or the form. *)
Definition create_listing_render (loading : bool) (role : option app_role) : CreateListingRender :=
  if loading then CLSkeleton else if canSell role then CLForm else CLSellerRequired.

Definition seller_required_button : UiEffect := Navigate "/pricing".

(** The toast of [validatePhotos] (lines 168-176). *)
Definition missing_photo_toast (t : PhotoType) : UiEffect :=
  Toast "Missing Photo" ("Please upload a " +:+ slot_label t +:+ " photo.") true.

(** What the seller sees after [onSubmit] (lines 206-265), given the
    error it stopped on and [error.message]. *)
Definition onSubmit_effects (err : option SubmitError) (message : string) : list UiEffect :=
  match err with
  | None =>
      [Toast "Listing Submitted" "Your listing has been submitted for review." false;
       Navigate "/dashboard"]
  | Some (MissingPhoto t) => [missing_photo_toast t]
  | Some InsertFailed | Some (UploadFailed _) =>
      [Toast "Error" (if decide (message = "") then "Failed to create listing. Please try again."
                      else message) true]
  | Some NoSellerForm | Some NotSignedIn | Some SchemaInvalid => []
  end.

(** ** The form (lines 84-99 and 266-612) *)

(** The form's values as react-hook-form holds them.  The text inputs
    hold strings; the number inputs hold what their [onChange] gives
    ([year_input_change], [price_input_change] of NumberInput.v):
    [undefined], [NaN] (a year typed as [.5]) or a number. *)
Record FormValues := mkFormValues {
  fv_brand_id : string;
  fv_model : string;
  fv_reference_number : string;
  fv_serial_number : string;
  fv_year_produced : InputNum Z;
  fv_year_produced_end : InputNum Z;
  fv_condition : watch_condition;
  fv_has_box : bool;
  fv_has_papers : bool;
  fv_asking_price : InputNum Q;
  fv_currency : string;
  fv_description : string
}.

(** [defaultValues] (lines 86-98). *)
Definition form_defaults : FormValues :=
  mkFormValues "" "" "" "" Undef Undef excellent false false Undef "USD" "".

(** What [zodResolver] hands to [onSubmit]: the years pass
    [z.number().optional()] when undefined or a number, the price
    [z.number()] only when a number; the optional strings are kept as they
    are (an empty string is a string); then the checks of
    [listingSchema]. *)
Definition to_form_data (v : FormValues) : option ListingFormData :=
  y ← zod_optional_number (fv_year_produced v);
  ye ← zod_optional_number (fv_year_produced_end v);
  p ← zod_number (fv_asking_price v);
  Some (mkForm (fv_brand_id v) (fv_model v) (fv_reference_number v) (Some (fv_serial_number v))
          y ye (fv_condition v) (fv_has_box v) (fv_has_papers v) p (fv_currency v)
          (Some (fv_description v))).

Definition form_submit_data (current_year : Z) (v : FormValues) : option ListingFormData :=
  to_form_data v ≫= fun d => if listingSchema_ok current_year d then Some d else None.

Inductive FormField :=
| f_brand | f_model | f_reference | f_serial | f_year | f_year_end | f_condition
| f_has_box | f_has_papers | f_price | f_currency | f_description.

(** The fields in document order with their labels (lines 295-567). *)
Definition field_label (f : FormField) : string :=
  match f with
  | f_brand => "Brand *" | f_model => "Model *" | f_reference => "Reference Number *"
  | f_serial => "Serial Number" | f_year => "Year Produced"
  | f_year_end => "Year Range End (Optional)" | f_condition => "Condition *"
  | f_has_box => "Includes Original Box" | f_has_papers => "Includes Papers/Warranty"
  | f_price => "Asking Price *" | f_currency => "Currency" | f_description => "Additional Details"
  end.

Definition FORM_FIELDS : list FormField :=
  [f_brand; f_model; f_reference; f_serial; f_year; f_year_end; f_condition; f_has_box;
   f_has_papers; f_price; f_currency; f_description].

(** Emptying a field: a text input becomes [""], a number input
    [undefined]; the selects and the checkboxes cannot be emptied. *)
Definition clear_field (f : FormField) (v : FormValues) : option FormValues :=
  let '(mkFormValues b m r s y ye c hb hp p cu d) := v in
  match f with
  | f_brand => Some (mkFormValues "" m r s y ye c hb hp p cu d)
  | f_model => Some (mkFormValues b "" r s y ye c hb hp p cu d)
  | f_reference => Some (mkFormValues b m "" s y ye c hb hp p cu d)
  | f_serial => Some (mkFormValues b m r "" y ye c hb hp p cu d)
  | f_year => Some (mkFormValues b m r s Undef ye c hb hp p cu d)
  | f_year_end => Some (mkFormValues b m r s y Undef c hb hp p cu d)
  | f_price => Some (mkFormValues b m r s y ye c hb hp Undef cu d)
  | f_description => Some (mkFormValues b m r s y ye c hb hp p cu "")
  | f_condition | f_has_box | f_has_papers | f_currency => None
  end.

(** The number inputs' [field.onChange(...)]: the years (lines 380 and
    403) and the price (line 504). *)
Definition on_year_change (text : string) (v : FormValues) : FormValues :=
  let '(mkFormValues b m r s _ ye c hb hp p cu d) := v in
  mkFormValues b m r s (year_input_change text) ye c hb hp p cu d.

Definition on_year_end_change (text : string) (v : FormValues) : FormValues :=
  let '(mkFormValues b m r s y _ c hb hp p cu d) := v in
  mkFormValues b m r s y (year_input_change text) c hb hp p cu d.

Definition on_price_change (text : string) (v : FormValues) : FormValues :=
  let '(mkFormValues b m r s y ye c hb hp _ cu d) := v in
  mkFormValues b m r s y ye c hb hp (price_input_change text) cu d.

(** The switches' [onCheckedChange] (lines 452 and 470) and the currency
    select's [onValueChange] (line 521, among the values of [CURRENCIES]). *)
Definition on_has_box_change (b' : bool) (v : FormValues) : FormValues :=
  let '(mkFormValues b m r s y ye c _ hp p cu d) := v in mkFormValues b m r s y ye c b' hp p cu d.

Definition on_has_papers_change (b' : bool) (v : FormValues) : FormValues :=
  let '(mkFormValues b m r s y ye c hb _ p cu d) := v in mkFormValues b m r s y ye c hb b' p cu d.

Definition on_currency_change (cu' : string) (v : FormValues) : FormValues :=
  let '(mkFormValues b m r s y ye c hb hp p _ d) := v in mkFormValues b m r s y ye c hb hp p cu' d.

(** A label marked as required. *)
Definition starred (label : String.string) : bool :=
  String.eqb (String.substring (String.length label - 2) 2 label) " *".

(** The Cancel button (lines 589-596). *)
Definition cancel_effect : list UiEffect := [Navigate "/dashboard"].

(** ** Example data for the witnesses *)

(** A 50 MB PDF. *)
Definition ex_pdf : File := mkFile "appraisal.pdf" "application/pdf" 52428800 "%PDF".

(** A filled-in form. *)
Definition ex_form_values : FormValues :=
  mkFormValues "B1" "Submariner Date" "126610LN" "" Undef Undef excellent true false (Num 14800%Q) "USD" "".

(** ** Lemmas *)

Lemma string_app_inj_l (a x y : string) : a +:+ x = a +:+ y -> x = y.
Proof. induction a as [|c a IH]; simpl; [done|]. intros H. injection H. exact IH. Qed.

(** The text before the first dot determines a name of the form [a.e]. *)
Lemma dot_prefix_inj a a' e e' :
  has_char 46 a = false -> has_char 46 a' = false ->
  a +:+ String (Ascii.ascii_of_nat 46) e = a' +:+ String (Ascii.ascii_of_nat 46) e' -> a = a'.
Proof.
  revert a'. induction a as [|c a IH]; intros [|c' a']; simpl; try done.
  - intros _ [Hc _]%orb_false_iff [= <- _]. done.
  - intros [Hc _]%orb_false_iff _ [= -> _]. done.
  - intros [_ Ha]%orb_false_iff [_ Ha']%orb_false_iff [= -> H]. f_equal. eauto.
Qed.

(** Two photo types never share a storage path. *)
Lemma storage_path_inj id t t' f f' : storage_path id t f = storage_path id t' f' -> t = t'.
Proof.
  unfold storage_path. intros H. apply string_app_inj_l in H. simpl in H. injection H as H.
  apply photo_type_name_inj. eapply dot_prefix_inj; [destruct t; reflexivity | destruct t'; reflexivity | exact H].
Qed.

(** A file stored for a type stays stored through the later uploads. *)
Lemma upload_all_keeps ok id photos types i db t f :
  (forall t', t' ∈ types -> ok t' = true) -> photos t = Some f ->
  db_storage db !! storage_path id t f = Some f ->
  db_storage (upload_all ok id photos types i db).1 !! storage_path id t f = Some f.
Proof.
  intros Hok Hf. revert i db. induction types as [|t0 types IH]; intros i db Hdb; simpl; [done|].
  destruct (photos t0) as [f0|] eqn:H0; [|apply IH; [set_solver|done]].
  unfold uploadPhoto. rewrite (Hok t0) by set_solver. simpl. apply IH; [set_solver|]. simpl.
  destruct (decide (storage_path id t0 f0 = storage_path id t f)) as [Hp|Hp].
  - rewrite Hp, lookup_insert_eq. pose proof (storage_path_inj _ _ _ _ _ Hp) as ->. congruence.
  - by rewrite lookup_insert_ne.
Qed.

(** With every upload succeeding, each listed type's file ends up in the
    bucket at its path. *)
Lemma upload_all_stores ok id photos types i db t f :
  (forall t', t' ∈ types -> ok t' = true) -> t ∈ types -> photos t = Some f ->
  db_storage (upload_all ok id photos types i db).1 !! storage_path id t f = Some f.
Proof.
  intros Hok Ht Hf. revert i db. induction types as [|t0 types IH]; intros i db; [set_solver|]. simpl.
  destruct (decide (t0 = t)) as [->|Hne].
  - rewrite Hf. unfold uploadPhoto. rewrite (Hok t) by set_solver. simpl.
    apply upload_all_keeps; [set_solver|done|]. simpl. by rewrite lookup_insert_eq.
  - assert (t ∈ types) as Ht' by set_solver.
    destruct (photos t0) as [f0|]; [|apply IH; [set_solver|done]].
    unfold uploadPhoto. rewrite (Hok t0) by set_solver. simpl. apply IH; [set_solver|done].
Qed.

Lemma handleFileSelect_at t f photos : handleFileSelect t [f] photos t = Some f.
Proof. unfold handleFileSelect, handlePhotoChange. by rewrite decide_True. Qed.

(** ** Properties *)

(** The panel announces "Accepted formats: JPG, PNG, WebP. Maximum
    10MB per photo" (line 134), but neither is checked: a file of any type
    and any size chosen in the file dialog fills the slot, and submitting
    the form uploads it to the bucket at the photo's path and reports
    "Listing Submitted".  Only a dropped file is checked, and only for an
    [image/] type. *)
Theorem photo_any_file_uploaded role uid cy d photos fid db t f :
  canSell role = true -> listingSchema_ok cy d = true ->
  t ∈ requiredPhotos (fd_has_box d) (fd_has_papers d) ->
  validatePhotos (fd_has_box d) (fd_has_papers d) (handleFileSelect t [f] photos) = Ok tt ->
  db_listings db !! fid = None ->
  let res := submitListing role (Some uid) cy d (handleFileSelect t [f] photos) fid true
               (fun _ => true) db in
  onSubmit_effects res.2 "" =
    [Toast "Listing Submitted" "Your listing has been submitted for review." false;
     Navigate "/dashboard"] /\
  db_storage res.1 !! storage_path fid t f = Some f /\
  (is_image f = false -> handleDrop t [f] photos = photos).
Proof.
  intros Hsell Hschema Ht Hval Hfresh res.
  destruct (submitListing_inserts role uid cy d (handleFileSelect t [f] photos) fid (fun _ => true) db
              Hsell Hschema Hval Hfresh) as [_ Hres].
  fold res in Hres. rewrite Hres. split; [|split].
  - by rewrite upload_all_no_error.
  - apply upload_all_stores; [done | exact Ht | apply handleFileSelect_at].
  - unfold handleDrop. intros ->. reflexivity.
Qed.

(** The "Required" badges of the visible slots mark exactly the photos
    [validatePhotos] asks for. *)
Theorem required_badges_match_validation hb hp t :
  t ∈ requiredPhotos hb hp <->
  t ∈ fst <$> filter (fun s => slot_is_required hb hp s = true) (visibleSlots hb hp).
Proof. destruct hb, hp, t; apply (bool_decide_unpack _); vm_compute; reflexivity. Qed.

(** The form marks as required exactly what the schema requires.
    Starting from a form that [zodResolver] accepts, emptying a field
    whose label carries " *" (brand, model, reference, asking price) makes
    the submit stop at validation, and emptying any other field that can
    be emptied (serial number, years, details) leaves the form valid. *)
Theorem required_marks_match_schema cy v f v' :
  is_Some (form_submit_data cy v) -> clear_field f v = Some v' ->
  starred (field_label f) = true <-> form_submit_data cy v' = None.
Proof.
  destruct v as [b m r s [| |?|y] [| |?|ye] c hb hp [| |?|p] cu d]; intros Hv Hc;
    unfold form_submit_data, to_form_data in *; simpl in *; try by destruct Hv.
  all: destruct (listingSchema_ok cy _) eqn:Hok; [|by destruct Hv]; clear Hv;
    unfold listingSchema_ok in Hok; simpl in Hok; rewrite !andb_true_iff in Hok; destruct_and! Hok;
    destruct f; try discriminate Hc; injection Hc as <-; simpl; unfold listingSchema_ok; simpl;
    repeat match goal with H : _ = true |- _ => rewrite H; clear H end; simpl; split; done.
Qed.

(** A year of 0 is hidden in its input and refuses the form.  From a
    form [zodResolver] accepts, typing the valid number [0] into Year
    Produced makes the field hold 0, which [field.value || ''] shows as
    the empty input, and the form stops at validation ([z.number().min(1900)]);
    the input emptied instead looks the same and the form is accepted. *)
Theorem year_zero_shown_empty cy v :
  is_Some (form_submit_data cy v) ->
  year_display (fv_year_produced (on_year_change "0" v)) = "" /\
  form_submit_data cy (on_year_change "0" v) = None /\
  year_display (fv_year_produced (on_year_change "" v)) = "" /\
  is_Some (form_submit_data cy (on_year_change "" v)).
Proof.
  destruct v as [b m r s y [| |?|ye] c hb hp [| |?|p] cu d]; intros Hv;
    unfold form_submit_data, to_form_data in *; simpl in *; try (destruct y; by destruct Hv).
  all: destruct (zod_optional_number y); [|by destruct Hv]; simpl in Hv;
    destruct (listingSchema_ok cy _) eqn:Hok; [|by destruct Hv]; clear Hv;
    unfold listingSchema_ok in Hok; simpl in Hok; rewrite !andb_true_iff in Hok; destruct_and! Hok;
    split_and!; try reflexivity; unfold listingSchema_ok; simpl;
    [by rewrite ?andb_false_r |
     repeat match goal with H : _ = true |- _ => rewrite H; clear H end; by eexists].
Qed.

(** ** Witnesses *)

Lemma photo_any_file_uploaded_witness :
  db_storage (submitListing (Some individual_seller) (Some "seller") 2026 ex_form
                (handleFileSelect dial [ex_pdf] ex_photos) "L1" true (fun _ => true) ex_empty_db).1
    !! storage_path "L1" dial ex_pdf = Some ex_pdf.
Proof.
  refine (proj1 (proj2 (photo_any_file_uploaded (Some individual_seller) "seller" 2026 ex_form ex_photos
            "L1" ex_empty_db dial ex_pdf eq_refl eq_refl _ eq_refl eq_refl))).
  apply (bool_decide_unpack _). vm_compute. reflexivity.
Defined.

Lemma required_marks_match_schema_witness :
  form_submit_data 2026 (mkFormValues "B1" "Submariner Date" "126610LN" "" Undef Undef excellent true false
                           Undef "USD" "") = None.
Proof.
  apply (proj1 (required_marks_match_schema 2026 ex_form_values f_price _
                  ltac:(eexists; reflexivity) eq_refl)).
  reflexivity.
Defined.

Lemma year_zero_shown_empty_witness :
  form_submit_data 2026 (on_year_change "0" ex_form_values) = None /\
  is_Some (form_submit_data 2026 (on_year_change "" ex_form_values)).
Proof.
  destruct (year_zero_shown_empty 2026 ex_form_values ltac:(eexists; reflexivity)) as (_ & H1 & _ & H2).
  split; [exact H1 | exact H2].
Defined.
