(* ===== verification/PhotoPanel.v ===== *)
(** * PhotoPanel: the photo panel's drag state, render and preview URLs

    src/src/components/listing/PhotoUpload.tsx beyond the handlers of
    CreateListingPage.v: the [dragOver] state (line 31) and the slot's
    drag events (lines 85-90), [getPreviewUrl] (lines 49-52), and what
    the panel renders (lines 61-137): the "N required photos" count, and
    for each visible slot either the preview with its remove button or
    the file picker with the slot's label, description and "Required"
    badge, inside a frame whose classes follow [dragOver] and the slot's
    file (lines 79-84).

    [URL.createObjectURL(file)] registers the file in the document's blob
    URL store and returns a fresh URL; the store is [ps_urls], the files
    registered, most recent last.  Nothing in the component calls
    [URL.revokeObjectURL].  A render is an event of its own: React renders
    the panel again whenever its state or the form's state changes (the
    form re-renders on every keystroke, since [hasBox] and [hasPapers] are
    watched). *)

From S2P Require Import Prelude Accounts Listings CreateListingPage.

Local Open Scope string_scope.
Local Open Scope list_scope.
Local Open Scope nat_scope.

(** ** State and events *)

(** [description] of [PHOTO_SLOTS] (lines 14-21). *)
Definition slot_description (t : PhotoType) : string :=
  match t with
  | dial => "Clear front-facing dial shot" | caseback => "Serial number visible"
  | side => "Case thickness and crown" | clasp => "Clasp or strap detail"
  | box => "Original box if included" | papers => "Documentation if included"
  end.

(** The photos (the parent's state), [dragOver], and the blob URL store. *)
Record PanelState := mkPanelState {
  ps_photos : Photos;
  ps_dragOver : option PhotoType;
  ps_urls : list File
}.

Inductive PanelEvent :=
| EDragOver (t : PhotoType)                  (* onDragOver, lines 85-88 *)
| EDragLeave (t : PhotoType)                 (* onDragLeave, line 89 *)
| EDrop (t : PhotoType) (files : list File)  (* onDrop, line 90 *)
| ESelect (t : PhotoType) (files : list File) (* the file input's onChange, line 118 *)
| ERemove (t : PhotoType)                    (* the remove button, line 102 *)
| ERender.                                   (* a render of the panel *)

(** [getPreviewUrl] (lines 49-52) of each visible slot's file, in the
    order of the slots: the files a render registers. *)
Definition render_urls (hasBox hasPapers : bool) (photos : Photos) : list File :=
  omap (fun s => photos s.1) (visibleSlots hasBox hasPapers).

Definition panel_step (hasBox hasPapers : bool) (st : PanelState) (e : PanelEvent) : PanelState :=
  match e with
  | EDragOver t => mkPanelState (ps_photos st) (Some t) (ps_urls st)
  | EDragLeave _ => mkPanelState (ps_photos st) None (ps_urls st)
  | EDrop t files => mkPanelState (handleDrop t files (ps_photos st)) None (ps_urls st)
  | ESelect t files => mkPanelState (handleFileSelect t files (ps_photos st)) (ps_dragOver st) (ps_urls st)
  | ERemove t =>
      (* the button is rendered only over a preview *)
      match ps_photos st t with
      | Some _ => mkPanelState (removePhoto t (ps_photos st)) (ps_dragOver st) (ps_urls st)
      | None => st
      end
  | ERender =>
      mkPanelState (ps_photos st) (ps_dragOver st)
        (ps_urls st ++ render_urls hasBox hasPapers (ps_photos st))
  end.

Definition panel_run (hasBox hasPapers : bool) (st : PanelState) (es : list PanelEvent) : PanelState :=
  foldl (panel_step hasBox hasPapers) st es.

(** ** The render *)

Inductive SlotContent :=
| SlotPreview (alt : string)                                  (* lines 92-111 *)
| SlotPicker (label description : string) (required : bool).  (* lines 113-126 *)

(** A slot's frame and content; the three flags are the conditional
    classes of lines 81-83. *)
Record SlotView := mkSlotView {
  sv_type : PhotoType;
  sv_content : SlotContent;
  sv_drag_highlight : bool;  (* dragOver === slot.type *)
  sv_solid_border : bool;    (* file *)
  sv_default_border : bool   (* !file && !dragOver *)
}.

Definition slot_view (hasBox hasPapers : bool) (st : PanelState) (s : PhotoType * bool) : SlotView :=
  let has_file := bool_decide (is_Some (ps_photos st s.1)) in
  mkSlotView s.1
    (if has_file then SlotPreview (slot_label s.1)
     else SlotPicker (slot_label s.1) (slot_description s.1) (slot_is_required hasBox hasPapers s))
    (bool_decide (ps_dragOver st = Some s.1)) has_file
    (negb has_file && bool_decide (ps_dragOver st = None)).

Record PanelView := mkPanelView {
  pv_required_count : nat;     (* "{n} required photos", line 66 *)
  pv_slots : list SlotView;
  pv_formats_note : string     (* line 134 *)
}.

Definition panel_view (hasBox hasPapers : bool) (st : PanelState) : PanelView :=
  mkPanelView (required_count_label hasBox hasPapers)
    (slot_view hasBox hasPapers st <$> visibleSlots hasBox hasPapers)
    "Accepted formats: JPG, PNG, WebP. Maximum 10MB per photo.".

(** ** Example data for the witnesses *)

Definition ex_dial_photo : File := mkFile "dial.jpg" "image/jpeg" 2000000 "JPEG".

Definition ex_panel : PanelState :=
  mkPanelState (handlePhotoChange dial (Some ex_dial_photo) (fun _ => None)) None [].

(** ** Lemmas *)

Lemma panel_step_urls hb hp st e :
  exists l, ps_urls (panel_step hb hp st e) = ps_urls st ++ l.
Proof.
  destruct e; simpl; try (exists []; by rewrite app_nil_r).
  - destruct (ps_photos st t); simpl; exists []; by rewrite app_nil_r.
  - eauto.
Qed.

Lemma panel_run_urls hb hp st es :
  exists l, ps_urls (panel_run hb hp st es) = ps_urls st ++ l.
Proof.
  revert st. induction es as [|e es IH]; intros st; simpl; [exists []; by rewrite app_nil_r|].
  destruct (panel_step_urls hb hp st e) as [l1 H1]. destruct (IH (panel_step hb hp st e)) as [l2 H2].
  exists (l1 ++ l2). by rewrite H2, H1, app_assoc.
Qed.

Lemma panel_renders_urls hb hp st n :
  ps_photos (panel_run hb hp st (replicate n ERender)) = ps_photos st /\
  length (ps_urls (panel_run hb hp st (replicate n ERender))) =
    length (ps_urls st) + n * length (render_urls hb hp (ps_photos st)).
Proof.
  revert st. induction n as [|n IH]; intros st; simpl; [split; [done|lia]|].
  destruct (IH (panel_step hb hp st ERender)) as [Hp Hl]. simpl in Hp, Hl.
  split; [exact Hp|]. rewrite Hl, length_app. lia.
Qed.

(** ** Properties *)

(** C40: the preview URLs are never revoked.  [getPreviewUrl] calls
    [URL.createObjectURL] for every visible slot holding a file on every
    render, and no event of the panel revokes a URL: through any sequence
    of drags, drops, selections, removals and renders the registered URLs
    only grow, and [n] renders with [k] photos in visible slots register
    [n * k] more, each keeping its file in memory. *)
Theorem preview_urls_never_revoked hb hp st es n :
  ps_urls st `prefix_of` ps_urls (panel_run hb hp st es) /\
  length (ps_urls (panel_run hb hp st (replicate n ERender))) =
    length (ps_urls st) + n * length (render_urls hb hp (ps_photos st)).
Proof.
  split; [|apply panel_renders_urls].
  destruct (panel_run_urls hb hp st es) as [l ->]. by exists l.
Qed.

(** While anything is dragged over the panel, no empty slot keeps its
    default border: [!file && !dragOver] tests whether some slot, not this
    one, is dragged over. *)
Theorem drag_clears_default_borders hb hp st t :
  ps_dragOver st = Some t ->
  Forall (fun sv => sv_default_border sv = false) (pv_slots (panel_view hb hp st)).
Proof.
  intros Hd. apply Forall_forall. intros sv (s & -> & _)%list_elem_of_fmap.
  unfold slot_view. simpl. rewrite Hd. by rewrite andb_false_r.
Qed.

(** ** Witnesses *)

Lemma preview_urls_never_revoked_witness :
  length (ps_urls (panel_run false false ex_panel (replicate 3 ERender))) = 3.
Proof. exact (proj2 (preview_urls_never_revoked false false ex_panel [] 3)). Defined.
