(* ===== verification/ListingForm.v ===== *)
(** * ListingForm: the create-listing page as a whole

    src/src/pages/CreateListing.tsx as the seller uses it: its state
    (lines 74-83: [submitting] and the six photo slots, and the form of
    lines 84-99), the edits of the fields and the photo panel, the Submit
    button ([disabled={submitting}], lines 597-603) and what
    [form.handleSubmit(onSubmit)] does with a click (line 287), up to the
    end of [onSubmit] (lines 206-265).  The pieces are those of
    CreateListingPage.v (the form, its parsers and [onSubmit]'s effects)
    and Listings.v ([submitListing], the writes); this file composes them
    into the page's step relation and renders its frame (lines 266-292
    and 484-612).

    [onSubmit] runs from the click to its end as two steps: the part
    before its first [await] (the photo check and [setSubmitting(true)])
    and the rest (the insert, the uploads, the toasts, [finally]), which
    works on the form data and the photos of the click.  After the
    success toast the page navigates to /dashboard and is left. *)

From S2P Require Import Prelude Accounts Listings NumberInput CreateListingPage.

Local Open Scope string_scope.
Local Open Scope list_scope.

(** ** State *)

(** An [onSubmit] past its first [await]: the data [zodResolver] gave it
    and the photos of its render. *)
Record Submission := mkSubmission { sub_data : ListingFormData; sub_photos : Photos }.

Record FormPage := mkFormPage {
  fp_values : FormValues;
  fp_photos : Photos;
  fp_submitting : bool;
  fp_inflight : option Submission;
  fp_db : ListingDb;
  fp_effects : list UiEffect;
  fp_left : bool            (* navigated to /dashboard *)
}.

(** [useState(false)], the six [null] slots and [defaultValues]. *)
Definition form_page_init (db : ListingDb) : FormPage :=
  mkFormPage form_defaults (fun _ => None) false None db [] false.

(** The text inputs' [{...field}] (the brand select's [onValueChange]
    included): the field's new string. *)
Definition on_text_change (f : FormField) (s : string) (v : FormValues) : option FormValues :=
  let '(mkFormValues b m r sn y ye c hb hp p cu d) := v in
  match f with
  | f_brand => Some (mkFormValues s m r sn y ye c hb hp p cu d)
  | f_model => Some (mkFormValues b s r sn y ye c hb hp p cu d)
  | f_reference => Some (mkFormValues b m s sn y ye c hb hp p cu d)
  | f_serial => Some (mkFormValues b m r s y ye c hb hp p cu d)
  | f_description => Some (mkFormValues b m r sn y ye c hb hp p cu s)
  | _ => None
  end.

(** The condition select's [onValueChange]. *)
Definition on_condition_change (c' : watch_condition) (v : FormValues) : FormValues :=
  let '(mkFormValues b m r sn y ye _ hb hp p cu d) := v in mkFormValues b m r sn y ye c' hb hp p cu d.

(** An edit of the form, with the parser of its field. *)
Inductive FormEdit :=
| EText (f : FormField) (s : string)
| EYear (s : string) | EYearEnd (s : string) | EPrice (s : string)
| EHasBox (b : bool) | EHasPapers (b : bool) | ECurrency (s : string)
| ECondition (c : watch_condition).

Definition apply_edit (e : FormEdit) (v : FormValues) : FormValues :=
  match e with
  | EText f s => default v (on_text_change f s v)
  | EYear s => on_year_change s v
  | EYearEnd s => on_year_end_change s v
  | EPrice s => on_price_change s v
  | EHasBox b => on_has_box_change b v
  | EHasPapers b => on_has_papers_change b v
  | ECurrency s => on_currency_change s v
  | ECondition c => on_condition_change c v
  end.

Definition set_values (v : FormValues) (p : FormPage) : FormPage :=
  mkFormPage v (fp_photos p) (fp_submitting p) (fp_inflight p) (fp_db p) (fp_effects p) (fp_left p).

Definition set_photo (t : PhotoType) (file : option File) (p : FormPage) : FormPage :=
  mkFormPage (fp_values p) (handlePhotoChange t file (fp_photos p)) (fp_submitting p) (fp_inflight p)
    (fp_db p) (fp_effects p) (fp_left p).

(** ** Submit *)

(** A click on Submit for Review (lines 287 and 206-211): the schema,
    then [validatePhotos] with its toast, then [setSubmitting(true)]; a
    form the schema rejects shows its messages and calls nothing. *)
Definition submit_click (cy : Z) (p : FormPage) : FormPage :=
  match form_submit_data cy (fp_values p) with
  | None => p
  | Some d =>
      match validatePhotos (fd_has_box d) (fd_has_papers d) (fp_photos p) with
      | Err t => mkFormPage (fp_values p) (fp_photos p) (fp_submitting p) (fp_inflight p) (fp_db p)
                   (fp_effects p ++ [missing_photo_toast t]) (fp_left p)
      | Ok _ => mkFormPage (fp_values p) (fp_photos p) true (Some (mkSubmission d (fp_photos p)))
                  (fp_db p) (fp_effects p) (fp_left p)
      end
  end.

(** The rest of [onSubmit] (lines 212-264): [submitListing] writes, the
    toasts and the navigation follow its error, [finally] clears
    [submitting].  [fresh_id] is the id the database gives the row,
    [insert_ok] and [ok] the outcomes of the insert and of the uploads,
    [message] the client's [error.message]. *)
Definition submit_finish (role : option app_role) (uid : string) (cy : Z) (fresh_id : string)
    (insert_ok : bool) (ok : UploadOutcome) (message : string) (s : Submission) (p : FormPage) : FormPage :=
  let '(db', err) := submitListing role (Some uid) cy (sub_data s) (sub_photos s) fresh_id insert_ok ok (fp_db p) in
  mkFormPage (fp_values p) (fp_photos p) false None db' (fp_effects p ++ onSubmit_effects err message)
    (bool_decide (err = None)).

Inductive form_step (role : option app_role) (uid : string) (cy : Z) : FormPage -> FormPage -> Prop :=
| fs_edit p e : fp_left p = false -> form_step role uid cy p (set_values (apply_edit e (fp_values p)) p)
| fs_photo p t file : fp_left p = false -> form_step role uid cy p (set_photo t file p)
| fs_submit p :                     (* the button is disabled while submitting *)
    fp_left p = false -> fp_submitting p = false -> form_step role uid cy p (submit_click cy p)
| fs_finish p s fresh_id insert_ok ok message :
    fp_inflight p = Some s ->
    form_step role uid cy p (submit_finish role uid cy fresh_id insert_ok ok message s p).

(** ** The page's frame (lines 266-292 and 484-612) *)

Record SubmitButton := mkSubmitButton { sb_disabled : bool; sb_spinner : bool; sb_label : string }.

Record FormFrame := mkFormFrame {
  ff_title : string;
  ff_subtitle : string;
  ff_sections : list string;
  ff_review_note : string;
  ff_submit : SubmitButton
}.

Definition form_frame (p : FormPage) : FormFrame :=
  mkFormFrame "Create Listing" "All listings are reviewed before going live on the exchange."
    ["Watch Details"; "Pricing"; "Description"; "Photos"]
    "Your listing will be reviewed within 24-48 hours."
    (mkSubmitButton (fp_submitting p) (fp_submitting p) "Submit for Review").

(** ** Example data for the witnesses *)

Definition ex_form_page : FormPage := mkFormPage ex_form_values ex_photos false None ex_empty_db [] false.

(** What [zodResolver] makes of [ex_form_values]. *)
Definition ex_form_data : ListingFormData :=
  mkForm "B1" "Submariner Date" "126610LN" (Some "") None None excellent true false 14800%Q "USD" (Some "").

(** The box photo's upload fails. *)
Definition ex_box_fails : UploadOutcome := fun t => match t with box => false | _ => true end.

(** ** Lemmas *)

Lemma form_submit_data_ok cy v d : form_submit_data cy v = Some d -> listingSchema_ok cy d = true.
Proof.
  unfold form_submit_data. destruct (to_form_data v) as [d'|]; simpl; [|done].
  destruct (listingSchema_ok cy d') eqn:E; [|done]. by intros [= <-].
Qed.

(** A click on a valid form with its photos starts [onSubmit]. *)
Lemma submit_click_starts cy p d :
  form_submit_data cy (fp_values p) = Some d ->
  validatePhotos (fd_has_box d) (fd_has_papers d) (fp_photos p) = Ok tt ->
  submit_click cy p = mkFormPage (fp_values p) (fp_photos p) true (Some (mkSubmission d (fp_photos p)))
                        (fp_db p) (fp_effects p) (fp_left p).
Proof. intros Hd Hv. unfold submit_click. by rewrite Hd, Hv. Qed.

(** The end of [onSubmit] for a valid submission and a free id: the row
    is inserted whatever the uploads do, and the error is the uploads'. *)
Lemma submit_finish_inserts role uid cy f insert_ok ok msg d ph p :
  canSell role = true -> listingSchema_ok cy d = true ->
  validatePhotos (fd_has_box d) (fd_has_papers d) ph = Ok tt -> db_listings (fp_db p) !! f = None ->
  insert_ok = true ->
  let p' := submit_finish role uid cy f insert_ok ok msg (mkSubmission d ph) p in
  let err := (upload_all ok f ph (requiredPhotos (fd_has_box d) (fd_has_papers d)) 0
                (mkListingDb (<[f := new_listing f uid d]> (db_listings (fp_db p)))
                   (db_photos (fp_db p)) (db_storage (fp_db p)))).2 in
  db_listings (fp_db p') = <[f := new_listing f uid d]> (db_listings (fp_db p)) /\
  fp_effects p' = fp_effects p ++ onSubmit_effects err msg /\
  fp_submitting p' = false /\ fp_left p' = bool_decide (err = None) /\
  fp_values p' = fp_values p /\ fp_photos p' = fp_photos p.
Proof.
  intros Hs Hc Hv Hf -> p' err.
  destruct (submitListing_inserts role uid cy d ph f ok (fp_db p) Hs Hc Hv Hf) as [Hl Hr].
  unfold p', err, submit_finish. simpl sub_data. simpl sub_photos.
  destruct (submitListing _ _ _ _ _ _ _ _ _) as [db' err'] eqn:E. simpl in Hl, Hr |- *.
  rewrite <- Hr. simpl. done.
Qed.


Lemma onSubmit_effects_upload_error t msg :
  exists desc, Toast "Error" desc true ∈ onSubmit_effects (Some (UploadFailed t)) msg.
Proof. eexists. simpl. left. Qed.

Definition submitting_inv (p : FormPage) : Prop := fp_submitting p = true <-> is_Some (fp_inflight p).

Lemma form_step_submitting_inv role uid cy p p' :
  submitting_inv p -> form_step role uid cy p p' -> submitting_inv p'.
Proof.
  unfold submitting_inv. intros Hp Hs. destruct Hs as [p e _|p t f _|p _ Hsub|p s f io ok m _]; try done.
  - unfold submit_click. destruct (form_submit_data cy (fp_values p)) as [d|]; [|done].
    destruct (validatePhotos _ _ _); simpl; [split; eauto|done].
  - unfold submit_finish. destruct (submitListing _ _ _ _ _ _ _ _ _). simpl. split; [done|by intros []].
Qed.

(** ** Properties *)


(** C21: a retry after a failed upload lists the watch twice.  On a valid
    form with its photos, a click inserts the listing; when the upload of
    a required photo fails the seller sees the error toast and stays on
    the form with Submit enabled again, and a second click inserts a
    second [pending_review] row for the same watch.  The first row stays,
    without the photo that failed (Listings.submitListing_partial_upload). *)
Theorem retry_after_failed_upload_duplicates role uid cy p d f1 f2 ok1 t :
  canSell role = true -> fp_left p = false -> fp_submitting p = false ->
  form_submit_data cy (fp_values p) = Some d ->
  validatePhotos (fd_has_box d) (fd_has_papers d) (fp_photos p) = Ok tt ->
  db_listings (fp_db p) !! f1 = None -> db_listings (fp_db p) !! f2 = None -> f1 <> f2 ->
  t ∈ requiredPhotos (fd_has_box d) (fd_has_papers d) -> ok1 t = false ->
  exists p', star (form_step role uid cy) p p' /\
    db_listings (fp_db p') !! f1 = Some (new_listing f1 uid d) /\
    db_listings (fp_db p') !! f2 = Some (new_listing f2 uid d) /\
    (exists desc, Toast "Error" desc true ∈ fp_effects p').
Proof.
  intros Hs Hl Hsub Hd Hv H1 H2 Hne Ht Hfail.
  set (msg := ""). set (ok2 := fun _ : PhotoType => true).
  pose proof (form_submit_data_ok _ _ _ Hd) as Hc.
  set (p1 := submit_click cy p).
  set (p2 := submit_finish role uid cy f1 true ok1 msg (mkSubmission d (fp_photos p)) p1).
  assert (p1 = mkFormPage (fp_values p) (fp_photos p) true (Some (mkSubmission d (fp_photos p)))
                 (fp_db p) (fp_effects p) (fp_left p)) as Hp1 by (by apply submit_click_starts).
  destruct (submit_finish_inserts role uid cy f1 true ok1 msg d (fp_photos p) p1 Hs Hc Hv)
    as (Hl2 & He2 & Hs2 & Hl2' & Hv2 & Hph2); [by rewrite Hp1|done|].
  fold p2 in Hl2, He2, Hs2, Hl2', Hv2, Hph2.
  rewrite Hp1 in Hl2, He2, Hl2', Hv2, Hph2. cbn [fp_db fp_effects fp_values fp_photos] in Hl2, He2, Hl2', Hv2, Hph2.
  destruct (upload_all_reports ok1 f1 (fp_photos p) (requiredPhotos (fd_has_box d) (fd_has_papers d)) 0
    (mkListingDb (<[f1 := new_listing f1 uid d]> (db_listings (fp_db p))) (db_photos (fp_db p))
       (db_storage (fp_db p))) t Ht Hfail (proj1 (validatePhotos_Ok _ _ _) Hv t Ht)) as [t' Herr].
  rewrite Herr in He2, Hl2'.
  set (p3 := submit_click cy p2).
  assert (p3 = mkFormPage (fp_values p2) (fp_photos p2) true (Some (mkSubmission d (fp_photos p)))
                 (fp_db p2) (fp_effects p2) (fp_left p2)) as Hp3
    by (unfold p3; rewrite submit_click_starts with (d := d); [by rewrite Hph2|by rewrite Hv2|by rewrite Hph2]).
  set (p4 := submit_finish role uid cy f2 true ok2 msg (mkSubmission d (fp_photos p)) p3).
  destruct (submit_finish_inserts role uid cy f2 true ok2 msg d (fp_photos p) p3 Hs Hc Hv)
    as (Hl4 & He4 & _); [rewrite Hp3; cbn [fp_db]; by rewrite Hl2, lookup_insert_ne|done|]. fold p4 in Hl4, He4.
  exists p4. split_and!.
  - eapply star_step; [by apply fs_submit|]. fold p1.
    eapply star_step; [apply (fs_finish _ _ _ p1 (mkSubmission d (fp_photos p)) f1 true ok1 msg); by rewrite Hp1|]. fold p2.
    eapply star_step; [apply fs_submit; [rewrite Hl2'; by apply bool_decide_eq_false_2|done]|]. fold p3.
    eapply star_step; [apply (fs_finish _ _ _ p3 (mkSubmission d (fp_photos p)) f2 true ok2 msg); by rewrite Hp3|].
    fold p4. apply star_refl.
  - rewrite Hl4, Hp3. cbn [fp_db]. rewrite Hl2, lookup_insert_ne by done. by rewrite lookup_insert_eq.
  - by rewrite Hl4, lookup_insert_eq.
  - destruct (onSubmit_effects_upload_error t' msg) as [desc Hdesc]. exists desc.
    rewrite He4, Hp3. cbn [fp_effects]. rewrite He2. apply elem_of_app; left; apply elem_of_app; right; exact Hdesc.
Qed.

(** ** Witnesses *)


Lemma retry_after_failed_upload_duplicates_witness :
  exists p', star (form_step (Some individual_seller) "seller" 2026) ex_form_page p' /\
    db_listings (fp_db p') !! "L1" = Some (new_listing "L1" "seller" ex_form_data) /\
    db_listings (fp_db p') !! "L2" = Some (new_listing "L2" "seller" ex_form_data) /\
    (exists desc, Toast "Error" desc true ∈ fp_effects p').
Proof.
  apply (retry_after_failed_upload_duplicates _ _ _ ex_form_page ex_form_data "L1" "L2" ex_box_fails box);
    try reflexivity.
  - done.
  - apply list_elem_of_In. simpl. tauto.
Defined.
