(* ===== verification/Journey.v ===== *)
(** * Journey: a sale through the pages and the functions, end to end

    The components share the [listings] table: CreateListing.tsx inserts
    a row (Listings.v), AdminListings.tsx approves it (Moderation.v),
    Browse.tsx shows it (Browse.v) and create-checkout sells it
    (Checkout.v).  This file composes the four models over one table and
    proves that the path the spec describes goes through: a seller's
    valid submission reaches the admin's pending queue with the approve
    button enabled, approving it puts it on the browse grid, and a signed-in
    buyer's checkout for it gets a Stripe session. *)

From S2P Require Import Prelude Accounts Fees Listings Moderation Checkout Browse.

Local Open Scope string_scope.
Local Open Scope list_scope.

(** The table after a submission and an approval. *)
Definition after_approval (role : option app_role) (seller : string) (cy : Z) (d : ListingFormData)
    (photos : Photos) (fid now : string) (db : ListingDb) : gmap string Listing :=
  (handleApprove fid now
     (db_listings (submitListing role (Some seller) cy d photos fid true (fun _ => true) db).1)
     (fetchListings
        (db_listings (submitListing role (Some seller) cy d photos fid true (fun _ => true) db).1)
        pending_queue)).1.

(** ** Properties *)

(** C17: the path of a sale goes through.  A seller's valid submission with
    its photos is in the admin's pending queue with the approve button
    enabled; after the approval the listing is [approved] with its
    approval time, it is on the browse grid as first opened, and a
    signed-in buyer other than the seller who asks create-checkout for it
    gets a session for this listing and this buyer, answered with 200. *)
Theorem sale_journey `{CommissionSource} mk role seller cy d photos fid now db
    created brands roles env req auth u buyer email :
  canSell role = true -> listingSchema_ok cy d = true ->
  validatePhotos (fd_has_box d) (fd_has_papers d) photos = Ok tt ->
  db_listings db !! fid = None ->
  req_method req <> "OPTIONS" -> is_Some (truthy (env_stripe_key env)) ->
  truthy (req_authorization req) = Some auth -> env_get_user env (bearer_token auth) = Ok u ->
  user_with_email u = Some (buyer, email) ->
  req_listing_id req = Some fid -> fid <> "" -> seller <> au_id buyer ->
  let db1 := (submitListing role (Some seller) cy d photos fid true (fun _ => true) db).1 in
  let tbl := after_approval role seller cy d photos fid now db in
  let l := approve_row now (new_listing fid seller d) in
  actions_enabled brands (fetchListings (db_listings db1) pending_queue) fid = true /\
  tbl !! fid = Some l /\ l_status l = approved /\ l_approved_at l = Some now /\
  enrich (mkBrowseDb tbl created brands roles) l
    ∈ displayed (mkBrowseDb tbl created brands roles) initial_filters /\
  exists sp, checkout_session env (mkCheckoutDb tbl brands) req = Ok sp /\
    sp_meta_listing_id sp = fid /\ sp_meta_buyer_id sp = au_id buyer /\
    resp_status (create_checkout mk env (mkCheckoutDb tbl brands) req) = 200%Z.
Proof.
  intros Hsell Hschema Hval Hfresh Hm Hkey Hauth Hu Hbuyer Hreq Hne Hself db1 tbl l.
  destruct (submitListing_inserts role seller cy d photos fid (fun _ => true) db
              Hsell Hschema Hval Hfresh) as [Hl1 _].
  assert (Htbl : tbl !! fid = Some l).
  { unfold tbl, after_approval. simpl. rewrite Hl1, lookup_alter_eq, lookup_insert_eq. done. }
  split; [|split; [exact Htbl | split; [done | split; [done | split]]]].
  - unfold actions_enabled. apply andb_true_intro. split; [|by apply bool_decide_eq_true_2].
    apply existsb_exists. exists (new_listing fid seller d). split.
    + apply list_elem_of_In, list_elem_of_filter. split; [apply search_matches_empty|].
      apply fetchListings_elem with fid; [|done].
      fold db1. unfold db1. rewrite Hl1. by rewrite lookup_insert_eq.
    + by apply bool_decide_eq_true_2.
  - apply (browse_shows_row _ _ fid); [exact Htbl | | done].
    split; [done | split; exact I].
  - destruct (checkout_session_ok mk env (mkCheckoutDb tbl brands) req buyer email l Hm)
      as (sp & Hsp & Hst & Hid & Hb); [| exact Hself |].
    + split; [exact Hkey|]. split; [exists auth, u; auto|].
      exists fid. split; [rewrite Hreq; simpl; by rewrite decide_False|].
      unfold approved_listing. simpl. rewrite Htbl. by rewrite decide_True.
    + exists sp. auto.
Qed.

(** ** Witnesses *)

Lemma sale_journey_witness :
  exists sp, @checkout_session ex_source ex_env
    (mkCheckoutDb (after_approval (Some individual_seller) "seller" 2026 ex_form ex_photos "L1"
                     "2026-11-09" ex_empty_db) ∅)
    (ex_req "tok-buyer" "L1") = Ok sp /\ sp_meta_listing_id sp = "L1".
Proof.
  destruct (@sale_journey ex_source ex_mk (Some individual_seller) "seller" 2026 ex_form ex_photos
              "L1" "2026-11-09" ex_empty_db ∅ ∅ [] ex_env (ex_req "tok-buyer" "L1")
              ("Bearer " +:+ "tok-buyer") (Some ex_buyer) ex_buyer "buyer@example.com")
    as (_ & _ & _ & _ & _ & sp & Hsp & Hid & _); try reflexivity; try discriminate.
  - eexists. reflexivity.
  - exists sp. split; [exact Hsp | exact Hid].
Defined.
