(* ===== verification/Schema.v ===== *)
(** * Schema: the generated table types and the writes the code sends

    src/src/integrations/supabase/types.ts is generated from the database:
    for each table it gives the [Row] type (the columns and their types),
    the [Insert] type (the same columns, those with a default marked
    optional with [?]) and the [Update] type (every column optional).  A
    table is here a list of [Column]s, read off its [Row] and [Insert]
    types; the [Update] type is the same list with every column optional.
    The enums are the lists of their values.

    Every [.insert(...)] and [.update(...)] of the code is a [Payload], the
    object literal it sends, translated from its lines: CreateListing.tsx
    (the listing and its photo rows), AdminListings.tsx (approve, reject),
    AdminUserManagement.tsx (role, zero-fee flag), AdminSettings.tsx (a
    setting) and the three identity functions (the profile's
    [kyc_status]).  [insert_fits] and [update_fits] are what the
    TypeScript compiler checks of such a literal against the [Insert] and
    [Update] types: its keys are distinct columns, each value has the
    column's type (an enum column takes one of the enum's strings, [null]
    only a nullable column), and an insert gives every column that has no
    default.

    A [listings] row is encoded as the list of its columns' JSON values
    ([encode_listing]); [apply_update] is what [UPDATE ... SET payload]
    does to one row, and [update_where] what it does to the rows the
    [.eq(column, value)] filter selects.  The theorems: every write fits
    its table's type, and the approve update of AdminListings.tsx, applied
    to a row inserted by CreateListing.tsx, leaves [approved_by] [null]. *)

From S2P Require Import Prelude Accounts Listings Moderation Kyc Settings ModerationTable.

Local Open Scope string_scope.
Local Open Scope list_scope.

(** ** Column types (types.ts) *)

Inductive ColType := CText | CNumber | CBoolean | CJson | CEnum (vals : list string).

(** A column: name, type, [| null] in the [Row] type, [?] in the
    [Insert] type. *)
Record Column := mkColumn {
  col_name : string;
  col_type : ColType;
  col_nullable : bool;
  col_optional : bool
}.

Abbreviation Table := (list Column).

(** A JSON object literal, keys in source order. *)
Abbreviation Payload := (list (string * Json)).

(** [Enums] (types.ts lines 467-492). *)
Definition app_role_values : list string :=
  ["admin"; "observer"; "individual_seller"; "super_seller"; "buyer"].
Definition listing_status_values : list string :=
  ["draft"; "pending_review"; "approved"; "rejected"; "sold"; "archived"].
Definition verification_status_values : list string :=
  ["not_started"; "pending"; "verified"; "rejected"].
Definition watch_condition_values : list string :=
  ["unworn"; "excellent"; "very_good"; "good"; "fair"].

Definition app_role_str (r : app_role) : string :=
  match r with
  | admin => "admin" | observer => "observer" | individual_seller => "individual_seller"
  | super_seller => "super_seller" | buyer => "buyer"
  end.

Definition watch_condition_str (c : watch_condition) : string :=
  match c with
  | unworn => "unworn" | excellent => "excellent" | very_good => "very_good"
  | good => "good" | fair => "fair"
  end.

(** [admin_settings] (lines 17-40). *)
Definition admin_settings_table : Table :=
  [mkColumn "id" CText false true; mkColumn "key" CText false false;
   mkColumn "updated_at" CText false true; mkColumn "updated_by" CText true true;
   mkColumn "value" CJson false false].

(** [listing_photos] (lines 110-134). *)
Definition listing_photos_table : Table :=
  [mkColumn "created_at" CText false true; mkColumn "display_order" CNumber false false;
   mkColumn "id" CText false true; mkColumn "listing_id" CText false false;
   mkColumn "photo_type" CText false false; mkColumn "storage_path" CText false false].

(** [listings] (lines 145-191). *)
Definition listings_table : Table :=
  [mkColumn "approved_at" CText true true; mkColumn "approved_by" CText true true;
   mkColumn "asking_price" CNumber false false; mkColumn "brand_id" CText false false;
   mkColumn "condition" (CEnum watch_condition_values) false false;
   mkColumn "created_at" CText false true; mkColumn "currency" CText false true;
   mkColumn "description" CText true true; mkColumn "has_box" CBoolean false true;
   mkColumn "has_papers" CBoolean false true; mkColumn "id" CText false true;
   mkColumn "model" CText false false; mkColumn "reference_number" CText false false;
   mkColumn "rejection_reason" CText true true; mkColumn "seller_id" CText false false;
   mkColumn "serial_number" CText true true;
   mkColumn "status" (CEnum listing_status_values) false true;
   mkColumn "updated_at" CText false true; mkColumn "views_count" CNumber true true;
   mkColumn "year_produced" CNumber true true; mkColumn "year_produced_end" CNumber true true].

(** [profiles] (lines 302-338). *)
Definition profiles_table : Table :=
  [mkColumn "avatar_url" CText true true; mkColumn "created_at" CText false true;
   mkColumn "email" CText false false; mkColumn "full_name" CText true true;
   mkColumn "id" CText false true;
   mkColumn "kyc_status" (CEnum verification_status_values) false true;
   mkColumn "kyc_verified_at" CText true true; mkColumn "phone" CText true true;
   mkColumn "stripe_connect_account_id" CText true true;
   mkColumn "stripe_customer_id" CText true true;
   mkColumn "subscription_ends_at" CText true true;
   mkColumn "subscription_status" CText true true;
   mkColumn "subscription_tier" CText true true; mkColumn "updated_at" CText false true;
   mkColumn "user_id" CText false false; mkColumn "zero_fee_eligible" CBoolean true true].

(** [user_roles] (lines 424-436). *)
Definition user_roles_table : Table :=
  [mkColumn "created_at" CText false true; mkColumn "id" CText false true;
   mkColumn "role" (CEnum app_role_values) false false; mkColumn "user_id" CText false false].

(** ** What the compiler checks of a literal *)

Definition json_fits (c : Column) (v : Json) : bool :=
  match col_type c, v with
  | CJson, _ => true
  | _, JNull => col_nullable c
  | CText, JStr _ => true
  | CEnum vs, JStr s => bool_decide (s ∈ vs)
  | CNumber, JNum _ => true
  | CBoolean, JBool _ => true
  | _, _ => false
  end.

Definition find_column (t : Table) (k : string) : option Column :=
  find (fun c => String.eqb (col_name c) k) t.

(** Against the [Update] type: distinct known keys with values of their
    columns' types. *)
Definition update_fits (t : Table) (p : Payload) : bool :=
  bool_decide (NoDup p.*1) &&
  forallb (fun kv => match find_column t kv.1 with Some c => json_fits c kv.2 | None => false end) p.

(** Against the [Insert] type: also every column without a default. *)
Definition insert_fits (t : Table) (p : Payload) : bool :=
  update_fits t p && forallb (fun c => col_optional c || bool_decide (col_name c ∈ p.*1)) t.

(** ** The payloads the code sends *)

(** [x || null] of an optional text and of an optional number: the empty
    string and [0] are falsy. *)
Definition text_or_null (o : option string) : Json :=
  match o with Some s => if String.eqb s "" then JNull else JStr s | None => JNull end.

Definition num_or_null (o : option Z) : Json :=
  match o with Some y => if Z.eqb y 0 then JNull else JNum (inject_Z y) | None => JNull end.

(** CreateListing.tsx lines 213-230. *)
Definition listing_insert_payload (seller : string) (d : ListingFormData) : Payload :=
  [("seller_id", JStr seller); ("brand_id", JStr (fd_brand_id d)); ("model", JStr (fd_model d));
   ("reference_number", JStr (fd_reference_number d));
   ("serial_number", text_or_null (fd_serial_number d));
   ("year_produced", num_or_null (fd_year_produced d));
   ("year_produced_end", num_or_null (fd_year_produced_end d));
   ("condition", JStr (watch_condition_str (fd_condition d)));
   ("has_box", JBool (fd_has_box d)); ("has_papers", JBool (fd_has_papers d));
   ("asking_price", JNum (fd_asking_price d)); ("currency", JStr (fd_currency d));
   ("description", text_or_null (fd_description d)); ("status", JStr "pending_review")].

(** CreateListing.tsx lines 191-199, in [uploadPhoto]. *)
Definition photo_insert_payload (listing_id path : string) (t : PhotoType) (order : nat) : Payload :=
  [("listing_id", JStr listing_id); ("storage_path", JStr path);
   ("photo_type", JStr (photo_type_name t)); ("display_order", JNum (inject_Z (Z.of_nat order)))].

(** AdminListings.tsx lines 111-117: [approved_by] is not sent. *)
Definition approve_payload (now : string) : Payload :=
  [("status", JStr "approved"); ("approved_at", JStr now)].

(** AdminListings.tsx lines 145-151: [rejectionReason || null]. *)
Definition reject_payload (reason : string) : Payload :=
  [("status", JStr "rejected"); ("rejection_reason", text_or_null (Some reason))].

(** AdminUserManagement.tsx lines 102-105 and 109-112. *)
Definition role_update_payload (r : app_role) : Payload := [("role", JStr (app_role_str r))].

Definition role_insert_payload (uid : string) (r : app_role) : Payload :=
  [("user_id", JStr uid); ("role", JStr (app_role_str r))].

(** AdminUserManagement.tsx lines 134-137. *)
Definition zero_fee_payload (enabled : bool) : Payload := [("zero_fee_eligible", JBool enabled)].

(** AdminSettings.tsx lines 84-87 and 92-94. *)
Definition setting_update_payload (v : Json) : Payload := [("value", v)].

Definition setting_insert_payload (key : string) (v : Json) : Payload := [("key", JStr key); ("value", v)].

(** stripe-identity-webhook lines 58-65 and check-verification-status
    lines 87-93. *)
Definition kyc_verified_payload (now : string) : Payload :=
  [("kyc_status", JStr "verified"); ("kyc_verified_at", JStr now)].

(** The other profile updates: [{ kyc_status: "pending" }] and
    [{ kyc_status: "not_started" }]. *)
Definition kyc_status_payload (s : verification_status) : Payload :=
  [("kyc_status", JStr (verification_status_str s))].

(** ** Rows *)

Abbreviation Row := (list (string * Json)).

Definition assoc (r : Row) (k : string) : option Json :=
  snd <$> find (fun kv => String.eqb kv.1 k) r.

(** [UPDATE ... SET p] on one row: the columns [p] names take its values. *)
Definition apply_update (p : Payload) (r : Row) : Row :=
  (fun kv => (kv.1, default kv.2 (assoc p kv.1))) <$> r.

(** [.update(p).eq(column, key)] on a table keyed by that column. *)
Definition update_where {A} (enc : string -> A -> Row) (p : Payload) (key : string)
    (db : gmap string A) : gmap string Row :=
  map_imap (fun k a => Some (if String.eqb k key then apply_update p (enc k a) else enc k a)) db.

(** A table keyed by one of its columns, encoded row by row. *)
Definition encode_table {A} (enc : string -> A -> Row) (db : gmap string A) : gmap string Row :=
  map_imap (fun k a => Some (enc k a)) db.

Definition opt_text (o : option string) : Json := match o with Some s => JStr s | None => JNull end.
Definition opt_num (o : option Z) : Json := match o with Some y => JNum (inject_Z y) | None => JNull end.
Definition opt_bool (o : option bool) : Json := match o with Some b => JBool b | None => JNull end.

(** A [listings] row (types.ts lines 146-168), the columns [Listing] keeps. *)
Definition encode_listing (l : Listing) : Row :=
  [("approved_at", opt_text (l_approved_at l)); ("approved_by", opt_text (l_approved_by l));
   ("asking_price", JNum (l_asking_price l)); ("brand_id", JStr (l_brand_id l));
   ("condition", JStr (watch_condition_str (l_condition l))); ("currency", JStr (l_currency l));
   ("description", opt_text (l_description l)); ("has_box", JBool (l_has_box l));
   ("has_papers", JBool (l_has_papers l)); ("id", JStr (l_id l)); ("model", JStr (l_model l));
   ("reference_number", JStr (l_reference_number l));
   ("rejection_reason", opt_text (l_rejection_reason l)); ("seller_id", JStr (l_seller_id l));
   ("serial_number", opt_text (l_serial_number l));
   ("status", JStr (listing_status_str (l_status l)));
   ("year_produced", opt_num (l_year_produced l)); ("year_produced_end", opt_num (l_year_produced_end l))].

(** ** Lemmas *)

Lemma text_or_null_cases o : text_or_null o = JNull \/ exists s, text_or_null o = JStr s.
Proof. destruct o as [s|]; simpl; [destruct (String.eqb s "")|]; eauto. Qed.

Lemma num_or_null_cases o : num_or_null o = JNull \/ exists q, num_or_null o = JNum q.
Proof. destruct o as [y|]; simpl; [destruct (Z.eqb y 0)|]; eauto. Qed.

(** Split on the shapes [x || null] can take, leaving closed checks. *)
Ltac json_cases :=
  repeat match goal with
  | |- context [text_or_null ?o] => destruct (text_or_null_cases o) as [->|[? ->]]
  | |- context [num_or_null ?o] => destruct (num_or_null_cases o) as [->|[? ->]]
  end.

(** An [alter] of the row under [key] whose effect on that row is the
    update [p] is the filtered update of the encoded table. *)
Lemma alter_update_where {A} (f : A -> A) (enc : string -> A -> Row) p key (db : gmap string A) :
  (forall a, enc key (f a) = apply_update p (enc key a)) ->
  encode_table enc (alter f key db) = update_where enc p key db.
Proof.
  intros Hf. apply map_eq. intros k. unfold encode_table, update_where. rewrite !map_lookup_imap.
  destruct (decide (k = key)) as [->|Hne].
  - rewrite lookup_alter_eq, String.eqb_refl. destruct (db !! key); simpl; [by rewrite Hf | done].
  - rewrite lookup_alter_ne by congruence. apply String.eqb_neq in Hne. rewrite Hne.
    by destruct (db !! k).
Qed.

(** Approving a row is the update [approve_payload] sends. *)
Lemma approve_row_update now l :
  encode_listing (approve_row now l) = apply_update (approve_payload now) (encode_listing l).
Proof. reflexivity. Qed.

(** ** Properties *)

(** C15: every write of the code type-checks against the generated types:
    the listing and photo inserts of CreateListing.tsx, the approve and
    reject updates of AdminListings.tsx, the role update and insert and
    the zero-fee update of AdminUserManagement.tsx, the setting update and
    insert of AdminSettings.tsx and the profile updates of the identity
    functions name distinct columns of their table, give each a value of
    the column's type (enum values among the enum's, [null] only where the
    column is nullable), and each insert gives every column that has no
    default. *)
Theorem writes_fit_schema :
  (forall seller d, insert_fits listings_table (listing_insert_payload seller d) = true) /\
  (forall lid path t order, insert_fits listing_photos_table (photo_insert_payload lid path t order) = true) /\
  (forall now, update_fits listings_table (approve_payload now) = true) /\
  (forall reason, update_fits listings_table (reject_payload reason) = true) /\
  (forall r, update_fits user_roles_table (role_update_payload r) = true) /\
  (forall uid r, insert_fits user_roles_table (role_insert_payload uid r) = true) /\
  (forall b, update_fits profiles_table (zero_fee_payload b) = true) /\
  (forall v, update_fits admin_settings_table (setting_update_payload v) = true) /\
  (forall key v, insert_fits admin_settings_table (setting_insert_payload key v) = true) /\
  (forall now, update_fits profiles_table (kyc_verified_payload now) = true) /\
  (forall s, update_fits profiles_table (kyc_status_payload s) = true).
Proof.
  split_and!; intros;
    unfold listing_insert_payload, photo_insert_payload, reject_payload, role_update_payload,
      role_insert_payload, setting_update_payload, setting_insert_payload, kyc_status_payload;
    [destruct (fd_condition d) | | | | destruct r | destruct r | | destruct v | destruct v | | destruct s];
    json_cases; vm_compute; reflexivity.
Qed.


(** C24: an approval does not record its approver.  The spec's lifecycle
    (section 4.3) sets [approved_at] and [approved_by] on approval; the
    update [handleApprove] sends sets [status] and [approved_at] only, so a
    listing submitted through the form and approved by any admin has
    [approved_by] [null] in the table. *)
Theorem approval_has_no_approver id seller d now db page r :
  db !! id = Some (new_listing id seller d) ->
  encode_table (fun _ => encode_listing) (handleApprove id now db page).1 !! id = Some r ->
  assoc r "status" = Some (JStr "approved") /\ assoc r "approved_at" = Some (JStr now) /\
  assoc r "approved_by" = Some JNull.
Proof.
  intros Hdb. unfold handleApprove. simpl.
  rewrite (alter_update_where _ _ (approve_payload now)) by apply approve_row_update.
  unfold update_where. rewrite map_lookup_imap, Hdb, String.eqb_refl. intros [= <-].
  split_and!; reflexivity.
Qed.

(** ** Witnesses *)

Lemma approval_has_no_approver_witness :
  encode_table (fun _ => encode_listing) (handleApprove "L1" "2025-01-01T00:00:00Z" ex_table ex_page).1 !! "L1" =
    Some (apply_update (approve_payload "2025-01-01T00:00:00Z") (encode_listing (new_listing "L1" "seller" ex_form))) /\
  assoc (apply_update (approve_payload "2025-01-01T00:00:00Z") (encode_listing (new_listing "L1" "seller" ex_form)))
    "approved_by" = Some JNull.
Proof.
  assert (H : encode_table (fun _ => encode_listing) (handleApprove "L1" "2025-01-01T00:00:00Z" ex_table ex_page).1 !! "L1" =
    Some (apply_update (approve_payload "2025-01-01T00:00:00Z") (encode_listing (new_listing "L1" "seller" ex_form))))
    by reflexivity.
  split; [exact H|].
  exact (proj2 (proj2 (approval_has_no_approver "L1" "seller" ex_form "2025-01-01T00:00:00Z" ex_table ex_page _ eq_refl H))).
Defined.

Lemma writes_fit_schema_witness :
  insert_fits listings_table (listing_insert_payload "seller" ex_form) = true /\
  update_fits listings_table (reject_payload "") = true.
Proof.
  split; [exact (proj1 writes_fit_schema "seller" ex_form) |
          exact (proj1 (proj2 (proj2 (proj2 writes_fit_schema))) "")].
Defined.
