(* ===== verification/Queries.v ===== *)
(** * Queries: the reads of the code against the generated types

    Every [supabase.from(table).select(...)] of src/ with its filters
    ([.eq], [.in]) and its [.order], as a [Query] value translated from its
    lines: the admin tabs (AdminUserManagement.tsx, AdminSettings.tsx,
    AdminListings.tsx), the pages (Browse.tsx, ListingDetail.tsx,
    CheckoutSuccess.tsx, CreateListing.tsx, Community.tsx) and the edge
    functions (create-checkout, check-verification-status).  A select
    lists columns, [*], or an embedded table ([brands (name)],
    [brand:brands(name)]), which PostgREST resolves through a foreign key
    between the two tables.

    [query_fits] is what the generated types and PostgREST accept: the
    table exists, every selected, filtered and ordered column is one of
    its columns, each embedded table is joined to it by a foreign key of
    types.ts and has the columns selected from it, and each filter value
    has its column's type.  The columns a page then reads from the rows
    are not checked here. *)

From S2P Require Import Prelude Accounts Listings Moderation Settings ModerationTable Browse Community Schema.

Local Open Scope string_scope.
Local Open Scope list_scope.

(** ** The tables the code only reads (types.ts) *)

(** [brands] (lines 41-64). *)
Definition brands_table : Table :=
  [mkColumn "created_at" CText false true; mkColumn "display_order" CNumber true true;
   mkColumn "id" CText false true; mkColumn "is_active" CBoolean true true;
   mkColumn "name" CText false false].

(** [comments] (lines 65-93). *)
Definition comments_table : Table :=
  [mkColumn "author_id" CText false false; mkColumn "content" CText false false;
   mkColumn "created_at" CText false true; mkColumn "id" CText false true;
   mkColumn "parent_id" CText true true; mkColumn "post_id" CText false false;
   mkColumn "updated_at" CText false true].

Definition post_category_values : list string := ["market_insights"; "reference_guides"; "authentication"].

(** [posts] (lines 225-253). *)
Definition posts_table : Table :=
  [mkColumn "author_id" CText false false;
   mkColumn "category" (CEnum post_category_values) false false;
   mkColumn "content" CText false false; mkColumn "created_at" CText false true;
   mkColumn "id" CText false true; mkColumn "title" CText false false;
   mkColumn "updated_at" CText false true].

(** The tables of [Database["public"]["Tables"]] the code uses. *)
Definition TABLES : list (string * Table) :=
  [("admin_settings", admin_settings_table); ("brands", brands_table);
   ("comments", comments_table); ("listing_photos", listing_photos_table);
   ("listings", listings_table); ("posts", posts_table);
   ("profiles", profiles_table); ("user_roles", user_roles_table)].

(** A foreign key: table, column, referenced table ([referencedColumns] is
    [["id"]] for all of them). *)
Record ForeignKey := mkForeignKey { fk_table : string; fk_column : string; fk_ref : string }.

(** The [Relationships] of types.ts (lines 94-108, 136-142, 216-222,
    293-299, 415-421). *)
Definition FOREIGN_KEYS : list ForeignKey :=
  [mkForeignKey "comments" "parent_id" "comments"; mkForeignKey "comments" "post_id" "posts";
   mkForeignKey "listing_photos" "listing_id" "listings"; mkForeignKey "listings" "brand_id" "brands";
   mkForeignKey "pricing_context" "brand_id" "brands"; mkForeignKey "transactions" "listing_id" "listings"].

(** ** Queries *)

Inductive SelectItem :=
| SCol (c : string)
| SStar
| SEmbed (alias : option string) (rel : string) (cols : list string).

Inductive Filter :=
| FEq (c : string) (v : Json)
| FIn (c : string) (vs : list Json).

Record Query := mkQuery {
  q_table : string;
  q_select : list SelectItem;
  q_filters : list Filter;
  q_order : list string
}.

Definition cols (cs : list string) : list SelectItem := SCol <$> cs.

(** AdminUserManagement.tsx lines 54-57 and 62-64 ([fetchUsers]) and
    94-98 (the role lookup of [handleRoleChange]). *)
Definition users_profiles_query : Query :=
  mkQuery "profiles"
    (cols ["user_id"; "email"; "full_name"; "kyc_status"; "subscription_status"; "zero_fee_eligible"])
    [] ["email"].

Definition users_roles_query : Query := mkQuery "user_roles" (cols ["user_id"; "role"]) [] [].

Definition role_lookup_query (uid : string) : Query :=
  mkQuery "user_roles" (cols ["id"]) [FEq "user_id" (JStr uid)] [].

(** AdminSettings.tsx lines 37-47 ([fetchSettings]) and 76-80 (the lookup
    of [saveSetting]). *)
Definition settings_query : Query :=
  mkQuery "admin_settings" (cols ["key"; "value"]) [FIn "key" (JStr <$> KEYS)] [].

Definition setting_lookup_query (key : string) : Query :=
  mkQuery "admin_settings" (cols ["id"]) [FEq "key" (JStr key)] [].

(** AdminListings.tsx lines 72-88: the status filter unless ['all']. *)
Definition admin_listings_query (statusFilter : option listing_status) : Query :=
  mkQuery "listings"
    (cols ["id"; "model"; "reference_number"; "asking_price"; "currency"; "status"; "created_at";
           "seller_id"] ++ [SEmbed (Some "brand") "brands" ["name"]])
    (match statusFilter with Some s => [FEq "status" (JStr (listing_status_str s))] | None => [] end)
    ["created_at"].

(** Browse.tsx lines 51-55 and CreateListing.tsx lines 107-111: the active
    brands for the selects. *)
Definition brands_query : Query :=
  mkQuery "brands" (cols ["id"; "name"]) [FEq "is_active" (JBool true)] ["display_order"].

(** Browse.tsx lines 63-94: approved listings, the brand and condition
    selects unless ['all'], the sort. *)
Definition browse_query (f : BrowseFilters) : Query :=
  mkQuery "listings"
    (cols ["id"; "model"; "reference_number"; "year_produced"; "condition"; "has_box"; "has_papers";
           "asking_price"; "currency"; "seller_id"] ++ [SEmbed None "brands" ["name"]])
    ([FEq "status" (JStr "approved")] ++
     (match bf_brand f with Some b => [FEq "brand_id" (JStr b)] | None => [] end) ++
     (match bf_condition f with Some c => [FEq "condition" (JStr (watch_condition_str c))] | None => [] end))
    [match bf_sort f with newest => "created_at" | _ => "asking_price" end].

(** Browse.tsx lines 103-112 and ListingDetail.tsx lines 112-121: the
    seller's profile and role. *)
Definition seller_profile_query (cs : list string) (seller : string) : Query :=
  mkQuery "profiles" (cols cs) [FEq "user_id" (JStr seller)] [].

Definition seller_role_query (seller : string) : Query :=
  mkQuery "user_roles" (cols ["role"]) [FEq "user_id" (JStr seller)] [].

(** ListingDetail.tsx lines 79-100. *)
Definition detail_query (id : string) : Query :=
  mkQuery "listings"
    (cols ["id"; "model"; "reference_number"; "serial_number"; "year_produced"; "year_produced_end";
           "condition"; "has_box"; "has_papers"; "asking_price"; "currency"; "description"; "seller_id";
           "status"] ++
     [SEmbed None "brands" ["name"];
      SEmbed None "listing_photos" ["storage_path"; "photo_type"; "display_order"]])
    [FEq "id" (JStr id); FEq "status" (JStr "approved")] [].

(** CheckoutSuccess.tsx lines 37-47: no status filter. *)
Definition success_query (id : string) : Query :=
  mkQuery "listings"
    (cols ["id"; "model"; "reference_number"; "asking_price"; "currency"] ++ [SEmbed None "brands" ["name"]])
    [FEq "id" (JStr id)] [].

(** create-checkout lines 49-63 and 72-76. *)
Definition checkout_listing_query (id : string) : Query :=
  mkQuery "listings"
    (cols ["id"; "model"; "reference_number"; "asking_price"; "currency"; "seller_id"; "status"; "brand_id"])
    [FEq "id" (JStr id); FEq "status" (JStr "approved")] [].

Definition checkout_brand_query (brand_id : string) : Query :=
  mkQuery "brands" (cols ["name"]) [FEq "id" (JStr brand_id)] [].

(** check-verification-status lines 43-47. *)
Definition kyc_profile_query (uid : string) : Query :=
  mkQuery "profiles" (cols ["kyc_status"; "kyc_verified_at"]) [FEq "user_id" (JStr uid)] [].

(** Community.tsx lines 44-58 (the category filter unless ['all']) and
    66-75 (the comment count and the author's name of a post). *)
Definition posts_query (category : option post_category) : Query :=
  mkQuery "posts" (cols ["id"; "title"; "content"; "category"; "created_at"; "author_id"])
    (match category with Some c => [FEq "category" (JStr (category_str c))] | None => [] end)
    ["created_at"].

Definition comment_count_query (post_id : string) : Query :=
  mkQuery "comments" [SStar] [FEq "post_id" (JStr post_id)] [].

Definition author_query (author_id : string) : Query :=
  mkQuery "profiles" (cols ["full_name"]) [FEq "user_id" (JStr author_id)] [].

(** ** What the types and PostgREST accept *)

Definition table_of (name : string) : option Table :=
  snd <$> find (fun nt => String.eqb nt.1 name) TABLES.

Definition has_column (name c : string) : bool :=
  match table_of name with Some t => bool_decide (is_Some (find_column t c)) | None => false end.

(** A foreign key joins the two tables, in either direction. *)
Definition joined (a b : string) : bool :=
  existsb (fun fk => (String.eqb (fk_table fk) a && String.eqb (fk_ref fk) b) ||
                     (String.eqb (fk_table fk) b && String.eqb (fk_ref fk) a)) FOREIGN_KEYS.

Definition item_fits (table : string) (it : SelectItem) : bool :=
  match it with
  | SCol c => has_column table c
  | SStar => true
  | SEmbed _ rel cs => joined table rel && forallb (has_column rel) cs
  end.

Definition value_fits (table c : string) (v : Json) : bool :=
  match table_of table ≫= fun t => find_column t c with Some col => json_fits col v | None => false end.

Definition filter_fits (table : string) (f : Filter) : bool :=
  match f with
  | FEq c v => value_fits table c v
  | FIn c vs => forallb (value_fits table c) vs
  end.

Definition query_fits (q : Query) : bool :=
  bool_decide (is_Some (table_of (q_table q))) &&
  forallb (item_fits (q_table q)) (q_select q) &&
  forallb (filter_fits (q_table q)) (q_filters q) &&
  forallb (has_column (q_table q)) (q_order q).

(** ** Properties *)



(** ** Witnesses *)


