(* ===== verification/Catalog.v ===== *)
(** * Catalog: the whole of the generated types file

    src/src/integrations/supabase/types.ts beyond the tables the code
    reads and writes (Schema.v, Queries.v): the two tables no query uses
    ([pricing_context], [transactions]), the [Functions] the database
    exports with their argument and result types, the [Enums] and the
    runtime [Constants] object that repeats them, and the generic helper
    types [Tables], [TablesInsert], [TablesUpdate] and [Enums] that look
    a table or an enum up by name.

    [catalog_ok] is what makes the file one consistent schema: distinct
    table names, distinct column names in every table, an [id] text key
    with a default in each, each foreign key from a column of its table to
    a table of the file, each enum column typed by one of the [Enums].
    The one [supabase.rpc] call of the code (create-checkout) is an [Rpc]
    value checked against the [Functions] entry it names. *)

From S2P Require Import Prelude Accounts Listings Moderation Settings ModerationTable Community Schema Queries.

Local Open Scope string_scope.
Local Open Scope list_scope.

#[export] Instance ColType_eq_dec : EqDecision ColType.
Proof. solve_decision. Defined.

#[export] Instance Column_eq_dec : EqDecision Column.
Proof. solve_decision. Defined.

(** ** The tables no query uses *)

(** [pricing_context] (lines 254-301). *)
Definition pricing_context_table : Table :=
  [mkColumn "brand_id" CText true true; mkColumn "created_at" CText false true;
   mkColumn "id" CText false true; mkColumn "last_updated_by" CText true true;
   mkColumn "notes" CText true true; mkColumn "price_expected" CNumber true true;
   mkColumn "price_low" CNumber true true; mkColumn "price_premium" CNumber true true;
   mkColumn "reference_number" CText false false; mkColumn "updated_at" CText false true].

(** [transaction_status] (lines 482-490). *)
Definition transaction_status_values : list string :=
  ["pending_payment"; "payment_held"; "shipped"; "delivered"; "completed"; "disputed";
   "refunded"; "cancelled"].

(** [transactions] (lines 357-423). *)
Definition transactions_table : Table :=
  [mkColumn "amount" CNumber false false; mkColumn "buyer_id" CText false false;
   mkColumn "commission_amount" CNumber true true; mkColumn "completed_at" CText true true;
   mkColumn "created_at" CText false true; mkColumn "currency" CText false true;
   mkColumn "delivered_at" CText true true; mkColumn "id" CText false true;
   mkColumn "listing_id" CText false false; mkColumn "seller_id" CText false false;
   mkColumn "shipped_at" CText true true;
   mkColumn "status" (CEnum transaction_status_values) false true;
   mkColumn "stripe_payment_intent_id" CText true true;
   mkColumn "stripe_transfer_id" CText true true; mkColumn "tracking_number" CText true true;
   mkColumn "updated_at" CText false true].

(** [Database["public"]["Tables"]], all ten, in the file's order. *)
Definition DATABASE_TABLES : list (string * Table) :=
  [("admin_settings", admin_settings_table); ("brands", brands_table);
   ("comments", comments_table); ("listing_photos", listing_photos_table);
   ("listings", listings_table); ("posts", posts_table);
   ("pricing_context", pricing_context_table); ("profiles", profiles_table);
   ("transactions", transactions_table); ("user_roles", user_roles_table)].

(** ** Functions *)

Record FunctionSig := mkFunctionSig {
  fn_name : string;
  fn_args : list (string * ColType);
  fn_returns : ColType
}.

(** [Functions] (lines 449-466). *)
Definition FUNCTIONS : list FunctionSig :=
  [mkFunctionSig "can_sell" [("_user_id", CText)] CBoolean;
   mkFunctionSig "count_active_listings" [("_user_id", CText)] CNumber;
   mkFunctionSig "get_commission_rate" [("_user_id", CText)] CNumber;
   mkFunctionSig "get_listing_limit" [("_user_id", CText)] CNumber;
   mkFunctionSig "get_user_role" [("_user_id", CText)] (CEnum app_role_values);
   mkFunctionSig "has_role" [("_role", CEnum app_role_values); ("_user_id", CText)] CBoolean;
   mkFunctionSig "is_admin" [("_user_id", CText)] CBoolean].

(** A call [supabase.rpc(name, args)]. *)
Record Rpc := mkRpc { rpc_name : string; rpc_args : Payload }.

(** create-checkout lines 87-89. *)
Definition commission_rpc (seller_id : string) : Rpc :=
  mkRpc "get_commission_rate" [("_user_id", JStr seller_id)].

(** The arguments object has exactly the declared keys, each a value of
    its type (no argument of these functions is nullable). *)
Definition rpc_fits (r : Rpc) : bool :=
  match find (fun f => String.eqb (fn_name f) (rpc_name r)) FUNCTIONS with
  | Some f =>
      bool_decide (NoDup (rpc_args r).*1) &&
      bool_decide (length (rpc_args r) = length (fn_args f)) &&
      forallb (fun a => match list_to_map (M := gmap string ColType) (fn_args f) !! a.1 with
                        | Some t => json_fits (mkColumn a.1 t false false) a.2
                        | None => false
                        end) (rpc_args r)
  | None => false
  end.

(** ** Enums and Constants *)

(** [Database["public"]["Enums"]] (lines 467-492). *)
Definition DATABASE_ENUMS : list (string * list string) :=
  [("app_role", app_role_values); ("listing_status", listing_status_values);
   ("post_category", post_category_values); ("transaction_status", transaction_status_values);
   ("verification_status", verification_status_values); ("watch_condition", watch_condition_values)].

(** [Constants.public.Enums] (lines 617-651), the arrays written out. *)
Definition Constants : list (string * list string) :=
  [("app_role", ["admin"; "observer"; "individual_seller"; "super_seller"; "buyer"]);
   ("listing_status", ["draft"; "pending_review"; "approved"; "rejected"; "sold"; "archived"]);
   ("post_category", ["market_insights"; "reference_guides"; "authentication"]);
   ("transaction_status", ["pending_payment"; "payment_held"; "shipped"; "delivered"; "completed";
                           "disputed"; "refunded"; "cancelled"]);
   ("verification_status", ["not_started"; "pending"; "verified"; "rejected"]);
   ("watch_condition", ["unworn"; "excellent"; "very_good"; "good"; "fair"])].

(** ** The helper types *)

(** The first parameter of the helpers: a name of the default schema, or
    [{ schema }] with a second parameter naming the table. *)
Inductive NameOrOptions :=
| DefaultName (name : string)
| WithSchema (schema name : string).

(** [keyof DatabaseWithoutInternals] (lines 500-502): [Omit] removes
    [__InternalSupabase], leaving ["public"]. *)
Definition SCHEMAS : list string := ["public"].

Definition lookup_named {A} (name : string) (xs : list (string * A)) : option A :=
  snd <$> find (fun nx => String.eqb nx.1 name) xs.

(** [Views] is empty (lines 446-448), so [Tables & Views] has the tables
    only. *)
Definition schema_lookup {A} (xs : list (string * A)) (o : NameOrOptions) : option A :=
  match o with
  | DefaultName n => lookup_named n xs
  | WithSchema s n => if bool_decide (s ∈ SCHEMAS) then lookup_named n xs else None
  end.

(** A [Row] field: name, type, [| null]. *)
Abbreviation RowType := (list (string * ColType * bool)).

(** An [Insert] or [Update] field: also [?]. *)
Abbreviation WriteType := (list (string * ColType * bool * bool)).

(** [Tables<T>] (lines 504-531): the [Row] type, [never] as [None]. *)
Definition Tables (o : NameOrOptions) : option RowType :=
  List.map (fun c => (col_name c, col_type c, col_nullable c)) <$> schema_lookup DATABASE_TABLES o.

(** [TablesInsert<T>] (lines 533-556). *)
Definition TablesInsert (o : NameOrOptions) : option WriteType :=
  List.map (fun c => (col_name c, col_type c, col_nullable c, col_optional c)) <$>
    schema_lookup DATABASE_TABLES o.

(** [TablesUpdate<T>] (lines 558-581): every field optional. *)
Definition TablesUpdate (o : NameOrOptions) : option WriteType :=
  List.map (fun c => (col_name c, col_type c, col_nullable c, true)) <$> schema_lookup DATABASE_TABLES o.

(** [Enums<T>] (lines 583-598). *)
Definition Enums (o : NameOrOptions) : option (list string) := schema_lookup DATABASE_ENUMS o.

(** ** Consistency of the file *)

Definition table_ok (t : Table) : bool :=
  bool_decide (NoDup (col_name <$> t)) &&
  bool_decide (find_column t "id" = Some (mkColumn "id" CText false true)) &&
  forallb (fun c => match col_type c with
                    | CEnum vs => bool_decide (vs ∈ DATABASE_ENUMS.*2)
                    | _ => true
                    end) t.

Definition fk_ok (fk : ForeignKey) : bool :=
  match lookup_named (fk_table fk) DATABASE_TABLES, lookup_named (fk_ref fk) DATABASE_TABLES with
  | Some t, Some _ =>
      match find_column t (fk_column fk) with Some c => bool_decide (col_type c = CText) | None => false end
  | _, _ => false
  end.

Definition catalog_ok : bool :=
  bool_decide (NoDup DATABASE_TABLES.*1) && forallb (table_ok ∘ snd) DATABASE_TABLES &&
  forallb fk_ok FOREIGN_KEYS && bool_decide (NoDup DATABASE_ENUMS.*1).

(** A literal against a [TablesInsert] or [TablesUpdate] type: distinct
    keys, each a field of the type with a value of its type, and every
    field without [?] given. *)
Definition write_fits (w : WriteType) (p : Payload) : bool :=
  bool_decide (NoDup p.*1) &&
  forallb (fun kv => match find (fun f => String.eqb f.1.1.1 kv.1) w with
                     | Some (n, ty, nl, o) => json_fits (mkColumn n ty nl o) kv.2
                     | None => false
                     end) p &&
  forallb (fun f => f.2 || bool_decide (f.1.1.1 ∈ p.*1)) w.

(** ** Lemmas *)

Lemma find_map {A B} (f : A -> B) (P : B -> bool) (l : list A) :
  find P (List.map f l) = f <$> find (P ∘ f) l.
Proof. induction l as [|x l IH]; simpl; [done|]. by destruct (P (f x)). Qed.

Lemma forallb_map' {A B} (f : A -> B) (P : B -> bool) (l : list A) :
  forallb P (List.map f l) = forallb (P ∘ f) l.
Proof. induction l as [|x l IH]; simpl; [done|]. by rewrite IH. Qed.

Lemma json_fits_optional c o v : json_fits (mkColumn (col_name c) (col_type c) (col_nullable c) o) v = json_fits c v.
Proof. by destruct c as [? [] ? ?]. Qed.

(** The fields of a literal looked up in the [Insert] or [Update] view are
    the table's columns. *)
Lemma write_fields_columns (t : Table) (g : Column -> bool) p :
  forallb (fun kv => match find (fun f => String.eqb f.1.1.1 kv.1)
                             (List.map (fun c => (col_name c, col_type c, col_nullable c, g c)) t) with
                     | Some (n, ty, nl, o) => json_fits (mkColumn n ty nl o) kv.2
                     | None => false
                     end) p =
  forallb (fun kv => match find_column t kv.1 with Some c => json_fits c kv.2 | None => false end) p.
Proof.
  induction p as [|kv p IH]; simpl; [done|]. rewrite IH, find_map. unfold find_column.
  destruct (find _ t) as [c|]; simpl; [by rewrite json_fits_optional|done].
Qed.

(** The tables Queries.v checks the reads against are those of the file. *)
Lemma table_of_catalog n t : table_of n = Some t -> lookup_named n DATABASE_TABLES = Some t.
Proof.
  unfold table_of, lookup_named, TABLES, DATABASE_TABLES. cbn [find fst].
  repeat match goal with |- context [String.eqb ?a n] => destruct (String.eqb_spec a n) as [<-|] end;
    done.
Qed.

Lemma forallb_true {A} (l : list A) : forallb (fun _ => true) l = true.
Proof. induction l; simpl; auto. Qed.

(** ** Properties *)

(** The helper types are the checks of Schema.v: for a table of the file,
    named with or without [{ schema: "public" }], a literal is accepted by
    [TablesInsert<T>] exactly when [insert_fits] accepts it and by
    [TablesUpdate<T>] exactly when [update_fits] does; and every table of
    Queries.v is that table of the file. *)
Theorem helper_types_check_writes o t :
  schema_lookup DATABASE_TABLES o = Some t ->
  (forall p, (fun w => write_fits w p) <$> TablesInsert o = Some (insert_fits t p)) /\
  (forall p, (fun w => write_fits w p) <$> TablesUpdate o = Some (update_fits t p)) /\
  (forall n, table_of n = Some t -> schema_lookup DATABASE_TABLES (WithSchema "public" n) = Some t).
Proof.
  intros Ho. unfold TablesInsert, TablesUpdate. rewrite Ho. split_and!; intros p; simpl.
  - unfold write_fits, insert_fits, update_fits. by rewrite write_fields_columns, forallb_map'.
  - unfold write_fits, update_fits. rewrite write_fields_columns, forallb_map'.
    unfold compose; simpl. rewrite (forallb_true t). by rewrite andb_true_r.
  - apply table_of_catalog.
Qed.

(** The file is one consistent schema, and its [Constants] are its
    [Enums]: [catalog_ok] holds, the runtime arrays are the enums' unions
    in the same order, and the enums of the model (Accounts.v, Listings.v,
    Community.v), printed as the code prints them, are those arrays
    constructor by constructor. *)
Theorem catalog_consistent :
  catalog_ok = true /\ Constants = DATABASE_ENUMS /\
  Enums (DefaultName "app_role") =
    Some (app_role_str <$> [admin; observer; individual_seller; super_seller; buyer]) /\
  Enums (DefaultName "listing_status") =
    Some (listing_status_str <$> [draft; pending_review; approved; rejected; sold; archived]) /\
  Enums (DefaultName "verification_status") =
    Some (verification_status_str <$> [not_started; pending; verified; Accounts.rejected]) /\
  Enums (DefaultName "watch_condition") =
    Some (watch_condition_str <$> [unworn; excellent; very_good; good; fair]) /\
  Enums (DefaultName "post_category") =
    Some (category_str <$> [market_insights; reference_guides; authentication]) /\
  Forall (fun nv => NoDup nv.2) Constants.
Proof.
  split_and!; try reflexivity. apply (bool_decide_unpack _). vm_compute. reflexivity.
Qed.

(** The one [supabase.rpc] call of the code fits the [Functions] entry it
    names, for every seller id, and the entry's result is a [number]. *)
Theorem commission_rpc_fits seller :
  rpc_fits (commission_rpc seller) = true /\
  fn_returns <$> find (fun f => String.eqb (fn_name f) "get_commission_rate") FUNCTIONS = Some CNumber.
Proof. split; reflexivity. Qed.

(** ** Witnesses *)

Lemma helper_types_check_writes_witness :
  (fun w => write_fits w (reject_payload "Blurry photos")) <$> TablesUpdate (DefaultName "listings") = Some true.
Proof.
  destruct (helper_types_check_writes (DefaultName "listings") listings_table eq_refl) as (_ & Hu & _).
  rewrite Hu. reflexivity.
Defined.
