(* ===== verification/MarketContext.v ===== *)
(** * MarketContext: the market-context section of Page2.tsx

    src/src/pages/Page2.tsx lines 217-290: the "Pricing Context, Not
    Promises" section, its three bullets, and the example card with the
    Low / Expected / Premium range of a reference.  The card prints fixed
    figures; the [pricing_context] table of types.ts (Catalog.v) is where
    such a range would be kept ([price_low], [price_expected],
    [price_premium]), and the figures are written the way [formatPrice]
    prints whole US dollars (Price.v). *)

From S2P Require Import Prelude Accounts Listings Moderation Settings ModerationTable Community Schema Queries Catalog Price.

Local Open Scope string_scope.
Local Open Scope list_scope.

(** The section's texts (lines 222-258). *)
Record MarketSection := mkMarketSection {
  ms_kicker : string;
  ms_title : string;
  ms_lead : string;
  ms_bullets : list string
}.

Definition market_section : MarketSection :=
  mkMarketSection "Market Intelligence" "Pricing Context, Not Promises"
    ("We provide market context based on recent observations—not automated " +:+
     "valuations or AI appraisals. Reference ranges help inform decisions, " +:+
     "not guarantee outcomes.")
    ["Low / Expected / Premium price ranges per reference"; "Based on verified market observations";
     "Clearly labeled for decision support only"].

(** The example card (lines 260-288). *)
Record MarketExample := mkMarketExample {
  me_caption : string;
  me_watch : string;
  me_low : string;
  me_expected : string;
  me_premium : string;
  me_note : string
}.

Definition market_example : MarketExample :=
  mkMarketExample "Example: Market Context" "Rolex Submariner 126610LN" "$12,800" "$14,200" "$16,500"
    "Based on recent market observations. For reference purposes only.".

(** The [pricing_context] row the card describes. *)
Definition market_example_row (low expected premium : Q) : Payload :=
  [("reference_number", JStr "126610LN"); ("price_low", JNum low); ("price_expected", JNum expected);
   ("price_premium", JNum premium)].

(** The card is a range the schema can hold: its three figures are
    [formatPrice] of whole-dollar amounts [low <= expected <= premium],
    and the row with the reference and those amounts is an insert the
    [pricing_context] type accepts. *)
Theorem market_example_is_range :
  exists low expected premium : Q,
    formatPrice0 low "USD" = Some (me_low market_example) /\
    formatPrice0 expected "USD" = Some (me_expected market_example) /\
    formatPrice0 premium "USD" = Some (me_premium market_example) /\
    (low <= expected <= premium)%Q /\
    insert_fits pricing_context_table (market_example_row low expected premium) = true.
Proof.
  exists 12800%Q, 14200%Q, 16500%Q. split_and!; try reflexivity; by vm_compute.
Qed.
